(** * Trade Compass: the trade analytics aggregation engine

    A shallow embedding of the pure aggregation functions of the
    trading journal (time/session/duration analytics, tag analytics,
    the trades-page KPI aggregator, the dashboard aggregator with its
    Compass Score and risk progress, and the risk guard evaluator),
    followed by the properties proved about them.

    Numbers.  A finite JavaScript [number] is idealised as an exact
    rational ([Q]); rounding of IEEE doubles is not modelled.  Equality
    of computed amounts is therefore stated with [==] ([Qeq]).  Where the
    source tests [isFinite], the argument ranges over [number], which adds
    the three non-finite values.

    Dates.  A [Date] is its [getTime()] value, milliseconds since the
    epoch, and the local time zone is taken to be UTC.  The clock read by
    [new Date()] is an argument, [now].

    Maps.  A JavaScript [Map] is an association list in insertion order,
    and an accumulator object mutated through the map is replaced in
    place. *)

From Stdlib Require Import ZArith QArith Qabs Qminmax List String Bool Lia Lqa.
From Stdlib Require Import Permutation Sorted Recdef.
Import ListNotations.
Local Open Scope Q_scope.

(** ** JavaScript numbers *)

Inductive number : Type :=
| Num (q : Q)
| PosInfinity
| NegInfinity
| NaN.

Definition isFinite (x : number) : bool :=
  match x with
  | Num _ => true
  | _ => false
  end.

(** [x + y] on JavaScript numbers. *)
Definition num_add (x y : number) : number :=
  match x, y with
  | NaN, _ | _, NaN => NaN
  | Num a, Num b => Num (a + b)
  | PosInfinity, NegInfinity | NegInfinity, PosInfinity => NaN
  | PosInfinity, _ | _, PosInfinity => PosInfinity
  | NegInfinity, _ | _, NegInfinity => NegInfinity
  end.

(** A possibly [undefined] numeric field read as a number: [undefined]
    converts to [NaN] in arithmetic. *)
Definition toNumber (v : option Q) : number :=
  match v with
  | Some q => Num q
  | None => NaN
  end.

(** Comparisons of finite numbers, as booleans. *)
Definition Qltb (a b : Q) : bool := negb (Qle_bool b a).
Definition Qgtb (a b : Q) : bool := negb (Qle_bool a b).
Definition Qgeb (a b : Q) : bool := Qle_bool b a.
Definition Qleb (a b : Q) : bool := Qle_bool a b.
Definition Qeqb (a b : Q) : bool := Qeq_bool a b.

Definition Q_of_nat (n : nat) : Q := inject_Z (Z.of_nat n).

(** [v ?? 0] *)
Definition orZero (v : option Q) : Q :=
  match v with
  | Some q => q
  | None => 0
  end.

(** [xs.reduce((s, v) => s + v, 0)] *)
Definition sumQ (xs : list Q) : Q := fold_left Qplus xs 0.

(** ** JavaScript [Map]: insertion-ordered association list

    [Map.prototype.set] on an existing key replaces the value in place;
    on a new key it appends the entry.  Iteration follows that order. *)

Section JsMap.
Context {K V : Type} (eqb : K -> K -> bool).

Fixpoint map_get (m : list (K * V)) (k : K) : option V :=
  match m with
  | [] => None
  | (k', v) :: m' => if eqb k k' then Some v else map_get m' k
  end.

Fixpoint map_set (m : list (K * V)) (k : K) (v : V) : list (K * V) :=
  match m with
  | [] => [(k, v)]
  | (k', v') :: m' =>
      if eqb k k' then (k, v) :: m' else (k', v') :: map_set m' k v
  end.

(** The recurring idiom
    [let s = m.get(k); if (!s) { s = init; m.set(k, s); } /* mutate s */]
    where the mutation of the shared object is [upd]. *)
Definition map_bump (init : V) (upd : V -> V) (m : list (K * V)) (k : K)
  : list (K * V) :=
  match map_get m k with
  | Some s => map_set m k (upd s)
  | None => map_set m k (upd init)
  end.
End JsMap.

(** ** [Array.prototype.sort] with a comparator

    The sort is stable; [cmp a b <= 0] keeps [a] before [b]. *)

Section Sort.
Context {A : Type} (cmp : A -> A -> Q).

Fixpoint sort_insert (x : A) (l : list A) : list A :=
  match l with
  | [] => [x]
  | y :: l' => if Qleb (cmp x y) 0 then x :: y :: l' else y :: sort_insert x l'
  end.

Fixpoint sort (l : list A) : list A :=
  match l with
  | [] => []
  | x :: l' => sort_insert x (sort l')
  end.
End Sort.

(** ** Data model (types/trading.ts)

    Only the fields read by the modelled functions are kept. *)

Inductive TradeStatus : Type := win | loss | be.

Definition TradeStatus_eqb (a b : TradeStatus) : bool :=
  match a, b with
  | win, win | loss, loss | be, be => true
  | _, _ => false
  end.

(** A [Date] as its [getTime()] value. *)
Definition Date := Z.

(** A value of type [string | Timestamp | Date | null | undefined].  A
    string carries the instant [new Date(s)] denotes, [None] when the
    string is empty or [getTime()] is [NaN]. *)
Inductive TimeValue : Type :=
| TvMissing
| TvDate (d : Date)
| TvTimestamp (d : Date)
| TvString (parsed : option Date).

Record Trade : Type := mkTrade {
  symbol : string;
  positionSize : Q;
  openTime : TimeValue;
  closeTime : TimeValue;
  (** [tradeDate]: the instant [new Date(tradeDate)] denotes, [None] when
      the string is empty or does not parse *)
  tradeDate : option Date;
  pnlCurrency : option Q;   (* read with [?? 0] by most aggregators *)
  rMultiple : option Q;     (* number | null | undefined *)
  status : TradeStatus;
  tags : option (list string)
}.

Definition normalizeTimestamp (ts : TimeValue) : option Date :=
  match ts with
  | TvMissing => None
  | TvDate d => Some d
  | TvTimestamp d => Some d
  | TvString parsed => parsed
  end.

Definition msPerDay : Z := 86400000.
Definition msPerHour : Z := 3600000.

(** Days since the epoch of the calendar day containing the instant. *)
Definition dayIndex (d : Date) : Z := (d / msPerDay)%Z.

(** [Date.prototype.getDay] of a day index: 0 = Sunday .. 6 = Saturday
    (1970-01-01 was a Thursday). *)
Definition dayOfWeek (day : Z) : Z := ((day + 4) mod 7)%Z.

Definition getDay (d : Date) : Z := dayOfWeek (dayIndex d).
Definition getHours (d : Date) : Z := ((d mod msPerDay) / msPerHour)%Z.

(** ** Time, session and duration analytics
    (features/analytics/timeAnalytics.ts) *)

Module TimeAnalytics.

Definition getEffectiveOpenTime (trade : Trade) : option Date :=
  match normalizeTimestamp (openTime trade) with
  | Some d => Some d
  | None =>
      match normalizeTimestamp (closeTime trade) with
      | Some d => Some d
      | None => tradeDate trade
      end
  end.

Definition getEffectiveCloseTime (trade : Trade) : option Date :=
  match normalizeTimestamp (closeTime trade) with
  | Some d => Some d
  | None =>
      match normalizeTimestamp (openTime trade) with
      | Some d => Some d
      | None => tradeDate trade
      end
  end.

Inductive TradingSession : Type := Asia | London | NewYork | Other.

Definition TradingSession_eqb (a b : TradingSession) : bool :=
  match a, b with
  | Asia, Asia | London, London | NewYork, NewYork | Other, Other => true
  | _, _ => false
  end.

Definition classifySession (date : Date) : TradingSession :=
  let hour := getHours date in
  if ((0 <=? hour) && (hour <? 7))%Z then Asia
  else if ((7 <=? hour) && (hour <? 14))%Z then London
  else if ((14 <=? hour) && (hour <? 22))%Z then NewYork
  else Other.

(** The six literal bucket keys. *)
Inductive DurationBucketKey : Type :=
| B_0_5m | B_5_30m | B_30m_120m | B_2_6h | B_6_24h | B_24h_plus.

Definition bucketKeyString (k : DurationBucketKey) : string :=
  match k with
  | B_0_5m => "0-5m"
  | B_5_30m => "5-30m"
  | B_30m_120m => "30m-120m"
  | B_2_6h => "2-6h"
  | B_6_24h => "6-24h"
  | B_24h_plus => "24h+"
  end.

Definition DurationBucketKey_eqb (a b : DurationBucketKey) : bool :=
  match a, b with
  | B_0_5m, B_0_5m | B_5_30m, B_5_30m | B_30m_120m, B_30m_120m
  | B_2_6h, B_2_6h | B_6_24h, B_6_24h | B_24h_plus, B_24h_plus => true
  | _, _ => false
  end.

Definition classifyDurationBucket (minutes : Q) : DurationBucketKey :=
  if Qltb minutes 5 then B_0_5m
  else if Qltb minutes 30 then B_5_30m
  else if Qltb minutes 120 then B_30m_120m
  else if Qltb minutes 360 then B_2_6h
  else if Qltb minutes 1440 then B_6_24h
  else B_24h_plus.

Definition getWeekdayLabel (weekday : Z) : string :=
  let labels := ["Sun"; "Mon"; "Tue"; "Wed"; "Thu"; "Fri"; "Sat"]%string in
  if (weekday <? 0)%Z then "Unknown"%string
  else nth (Z.to_nat weekday) labels "Unknown"%string.

(** The accumulator object kept per bucket in each of the three maps. *)
Record Acc : Type := mkAcc {
  tradesCount : nat;
  winsCount : nat;
  lossesCount : nat;
  breakevenCount : nat;
  netPnlCurrency : Q;
  sumR : Q;
  countR : nat
}.

Definition emptyAcc : Acc := mkAcc 0 0 0 0 0 0 0.

(** The update applied to a bucket's accumulator for one trade. *)
Definition accumulate (pnl : Q) (isWin isLoss isBE : bool) (r : option Q)
           (s : Acc) : Acc :=
  let s1 := mkAcc (S (tradesCount s))
                  (if isWin then S (winsCount s) else winsCount s)
                  (if isLoss then S (lossesCount s) else lossesCount s)
                  (if isBE then S (breakevenCount s) else breakevenCount s)
                  (netPnlCurrency s + pnl)
                  (sumR s) (countR s) in
  match r with
  | Some rm => mkAcc (tradesCount s1) (winsCount s1) (lossesCount s1)
                     (breakevenCount s1) (netPnlCurrency s1)
                     (sumR s1 + rm) (S (countR s1))
  | None => s1
  end.

Record Maps : Type := mkMaps {
  weekdayMap : list (Z * Acc);
  sessionMap : list (TradingSession * Acc);
  durationBucketMap : list (DurationBucketKey * Acc)
}.

Definition holdingMinutes (openT closeT : Date) : Q :=
  inject_Z (closeT - openT) / 60000.

(** The win/loss/breakeven flags of a trade and the update they drive,
    identical for the three maps. *)
Definition tradeUpdate (trade : Trade) : Acc -> Acc :=
  let pnl := orZero (pnlCurrency trade) in
  let isWin := Qgtb pnl 0 in
  let isLoss := Qltb pnl 0 in
  let isBE := Qeqb pnl 0 in
  accumulate pnl isWin isLoss isBE (rMultiple trade).

(** Body of [validTrades.forEach]. *)
Definition processTrade (maps : Maps) (trade : Trade) : Maps :=
  match getEffectiveOpenTime trade, getEffectiveCloseTime trade with
  | Some openT, Some closeT =>
      let weekday := getDay openT in
      let session := classifySession openT in
      let bucketKey := classifyDurationBucket (holdingMinutes openT closeT) in
      mkMaps
        (map_bump Z.eqb emptyAcc (tradeUpdate trade) (weekdayMap maps) weekday)
        (map_bump TradingSession_eqb emptyAcc (tradeUpdate trade)
                  (sessionMap maps) session)
        (map_bump DurationBucketKey_eqb emptyAcc (tradeUpdate trade)
                  (durationBucketMap maps) bucketKey)
  | _, _ => maps
  end.

Definition isValidTrade (trade : Trade) : bool :=
  match getEffectiveOpenTime trade, getEffectiveCloseTime trade with
  | Some _, Some _ => true
  | _, _ => false
  end.

Definition validTrades (trades : list Trade) : list Trade :=
  filter isValidTrade trades.

Definition aggregateMaps (trades : list Trade) : Maps :=
  fold_left processTrade (validTrades trades) (mkMaps [] [] []).

Definition winRateOf (s : Acc) : Q :=
  let tradesWithResult := (winsCount s + lossesCount s)%nat in
  if (0 <? tradesWithResult)%nat
  then Q_of_nat (winsCount s) / Q_of_nat tradesWithResult
  else 0.

Definition avgROf (s : Acc) : option Q :=
  if (0 <? countR s)%nat then Some (sumR s / Q_of_nat (countR s)) else None.

Record WeekdayStat : Type := mkWeekdayStat {
  wd_weekday : Z;
  wd_label : string;
  wd_tradesCount : nat;
  wd_winsCount : nat;
  wd_lossesCount : nat;
  wd_breakevenCount : nat;
  wd_netPnlCurrency : Q;
  wd_winRate : Q;
  wd_avgRMultiple : option Q
}.

Record SessionStat : Type := mkSessionStat {
  ss_session : TradingSession;
  ss_tradesCount : nat;
  ss_winsCount : nat;
  ss_lossesCount : nat;
  ss_breakevenCount : nat;
  ss_netPnlCurrency : Q;
  ss_winRate : Q;
  ss_avgRMultiple : option Q
}.

Record DurationBucketStat : Type := mkDurationBucketStat {
  db_bucketKey : DurationBucketKey;
  db_minMinutes : Q;
  db_maxMinutes : option Q;
  db_tradesCount : nat;
  db_winsCount : nat;
  db_lossesCount : nat;
  db_breakevenCount : nat;
  db_netPnlCurrency : Q;
  db_winRate : Q;
  db_avgRMultiple : option Q
}.

Definition toWeekdayStat (e : Z * Acc) : WeekdayStat :=
  let (weekday, stats) := e in
  mkWeekdayStat weekday (getWeekdayLabel weekday)
                (tradesCount stats) (winsCount stats) (lossesCount stats)
                (breakevenCount stats) (netPnlCurrency stats)
                (winRateOf stats) (avgROf stats).

Definition toSessionStat (e : TradingSession * Acc) : SessionStat :=
  let (session, stats) := e in
  mkSessionStat session
                (tradesCount stats) (winsCount stats) (lossesCount stats)
                (breakevenCount stats) (netPnlCurrency stats)
                (winRateOf stats) (avgROf stats).

(** [order.indexOf(session)] for ["Asia", "London", "NewYork", "Other"] *)
Definition sessionIndex (s : TradingSession) : Z :=
  match s with
  | Asia => 0
  | London => 1
  | NewYork => 2
  | Other => 3
  end.

(** [durationBucketOrder.indexOf(bucketKey)] *)
Definition durationBucketIndex (k : DurationBucketKey) : Z :=
  match k with
  | B_0_5m => 0
  | B_5_30m => 1
  | B_30m_120m => 2
  | B_2_6h => 3
  | B_6_24h => 4
  | B_24h_plus => 5
  end.

Definition durationBucketMetadata (k : DurationBucketKey) : Q * option Q :=
  match k with
  | B_0_5m => (0, Some 5)
  | B_5_30m => (5, Some 30)
  | B_30m_120m => (30, Some 120)
  | B_2_6h => (120, Some 360)
  | B_6_24h => (360, Some 1440)
  | B_24h_plus => (1440, None)
  end.

Definition toDurationBucketStat (e : DurationBucketKey * Acc)
  : DurationBucketStat :=
  let (bucketKey, stats) := e in
  let metadata := durationBucketMetadata bucketKey in
  mkDurationBucketStat bucketKey (fst metadata) (snd metadata)
                (tradesCount stats) (winsCount stats) (lossesCount stats)
                (breakevenCount stats) (netPnlCurrency stats)
                (winRateOf stats) (avgROf stats).

Record TimeAnalyticsResult : Type := mkTimeAnalyticsResult {
  weekdayStats : list WeekdayStat;
  sessionStats : list SessionStat;
  durationStats : list DurationBucketStat
}.

Definition aggregateTimeAnalytics (trades : list Trade)
  : TimeAnalyticsResult :=
  let maps := aggregateMaps trades in
  mkTimeAnalyticsResult
    (sort (fun a b => inject_Z (wd_weekday a - wd_weekday b))
          (map toWeekdayStat (weekdayMap maps)))
    (sort (fun a b => inject_Z (sessionIndex (ss_session a)
                                - sessionIndex (ss_session b)))
          (map toSessionStat (sessionMap maps)))
    (sort (fun a b => inject_Z (durationBucketIndex (db_bucketKey a)
                                - durationBucketIndex (db_bucketKey b)))
          (map toDurationBucketStat (durationBucketMap maps))).

End TimeAnalytics.

(** ** Tag analytics (features/analytics/useTagAnalytics) *)

Module TagAnalytics.

Record Acc : Type := mkAcc {
  tradesCount : nat;
  winsCount : nat;
  lossesCount : nat;
  breakevenCount : nat;
  netPnlCurrency : Q;
  grossProfit : Q;
  grossLossAbs : Q;
  sumR : Q;
  countR : nat
}.

Definition emptyAcc : Acc := mkAcc 0 0 0 0 0 0 0 0 0.

(** [trade.tags && trade.tags.length > 0] *)
Definition hasTags (trade : Trade) : bool :=
  match tags trade with
  | Some (_ :: _) => true
  | _ => false
  end.

(** The update applied to one tag's accumulator for one trade. *)
Definition accumulate (pnl : Q) (isWin isLoss isBE : bool) (r : option Q)
           (s : Acc) : Acc :=
  let s1 := mkAcc (S (tradesCount s))
                  (if isWin then S (winsCount s) else winsCount s)
                  (if isLoss then S (lossesCount s) else lossesCount s)
                  (if isBE then S (breakevenCount s) else breakevenCount s)
                  (netPnlCurrency s + pnl)
                  (if Qgtb pnl 0 then grossProfit s + pnl else grossProfit s)
                  (if Qltb pnl 0 then grossLossAbs s + Qabs pnl
                   else grossLossAbs s)
                  (sumR s) (countR s) in
  match r with
  | Some rm => mkAcc (tradesCount s1) (winsCount s1) (lossesCount s1)
                     (breakevenCount s1) (netPnlCurrency s1)
                     (grossProfit s1) (grossLossAbs s1)
                     (sumR s1 + rm) (S (countR s1))
  | None => s1
  end.

Definition tradeUpdate (trade : Trade) : Acc -> Acc :=
  let pnl := orZero (pnlCurrency trade) in
  accumulate pnl (Qgtb pnl 0) (Qltb pnl 0) (Qeqb pnl 0) (rMultiple trade).

(** [trade.tags?.forEach(...)] *)
Definition tagsOf (trade : Trade) : list string :=
  match tags trade with
  | Some ts => ts
  | None => []
  end.

(** Body of [tradesWithTags.forEach]. *)
Definition processTrade (tagMap : list (string * Acc)) (trade : Trade)
  : list (string * Acc) :=
  fold_left (fun m tag => map_bump String.eqb emptyAcc (tradeUpdate trade) m tag)
            (tagsOf trade) tagMap.

Definition buildTagMap (trades : list Trade) : list (string * Acc) :=
  fold_left processTrade (filter hasTags trades) [].

Record TagStat : Type := mkTagStat {
  ts_tag : string;
  ts_tradesCount : nat;
  ts_winsCount : nat;
  ts_lossesCount : nat;
  ts_breakevenCount : nat;
  ts_winRate : Q;
  ts_netPnlCurrency : Q;
  ts_avgRMultiple : option Q;
  ts_profitFactor : option Q
}.

Definition toTagStat (e : string * Acc) : TagStat :=
  let (tag, stats) := e in
  let tradesWithResult := (winsCount stats + lossesCount stats)%nat in
  let winRate :=
    if (0 <? tradesWithResult)%nat
    then Q_of_nat (winsCount stats) / Q_of_nat tradesWithResult
    else 0 in
  let avgRMultiple :=
    if (0 <? countR stats)%nat
    then Some (sumR stats / Q_of_nat (countR stats))
    else None in
  let profitFactor :=
    if Qgtb (grossLossAbs stats) 0
    then Some (grossProfit stats / grossLossAbs stats)
    else None in
  mkTagStat tag (tradesCount stats) (winsCount stats) (lossesCount stats)
            (breakevenCount stats) winRate (netPnlCurrency stats)
            avgRMultiple profitFactor.

(** Net P&L descending, then trade count descending. *)
Definition compareTagStats (a b : TagStat) : Q :=
  if negb (Qeqb (ts_netPnlCurrency b) (ts_netPnlCurrency a))
  then ts_netPnlCurrency b - ts_netPnlCurrency a
  else Q_of_nat (ts_tradesCount b) - Q_of_nat (ts_tradesCount a).

Definition aggregateTagStats (trades : list Trade) : list TagStat :=
  let tradesWithTags := filter hasTags trades in
  if (List.length tradesWithTags =? 0)%nat then []
  else sort compareTagStats (map toTagStat (buildTagMap trades)).

End TagAnalytics.

(** ** Trades page KPIs (pages/Trades) *)

Module TradesPage.

Record TradesKpis : Type := mkTradesKpis {
  netPnl : number;
  winRate : Q;
  profitFactor : option Q;
  avgR : option Q;
  totalTrades : nat
}.

Definition hasStatus (s : TradeStatus) (t : Trade) : bool :=
  TradeStatus_eqb (status t) s.

(** [t.pnlCurrency > 0] and [t.pnlCurrency < 0] on the raw field: both
    are false when the field is missing. *)
Definition pnlPositive (t : Trade) : bool :=
  match pnlCurrency t with
  | Some p => Qgtb p 0
  | None => false
  end.

Definition pnlNegative (t : Trade) : bool :=
  match pnlCurrency t with
  | Some p => Qltb p 0
  | None => false
  end.

Definition hasR (t : Trade) : bool :=
  match rMultiple t with
  | Some _ => true
  | None => false
  end.

(** The P&L of the trades kept by a filter on the raw field; every kept
    trade has the field, so the sum stays finite. *)
Definition sumPnl (ts : list Trade) : Q :=
  sumQ (map (fun t => orZero (pnlCurrency t)) ts).

Definition wins (trades : list Trade) : nat :=
  List.length (filter (hasStatus win) trades).
Definition losses (trades : list Trade) : nat :=
  List.length (filter (hasStatus loss) trades).
Definition breakevens (trades : list Trade) : nat :=
  List.length (filter (hasStatus be) trades).

Definition grossProfit (trades : list Trade) : Q :=
  sumPnl (filter pnlPositive trades).
Definition grossLoss (trades : list Trade) : Q :=
  Qabs (sumPnl (filter pnlNegative trades)).

Definition calculateTradesKpis (trades : list Trade) : TradesKpis :=
  if (List.length trades =? 0)%nat then mkTradesKpis (Num 0) 0 None None 0
  else
    let netPnl :=
      fold_left (fun sum t => num_add sum (toNumber (pnlCurrency t)))
                trades (Num 0) in
    let totalTrades := List.length trades in
    let totalWithResult :=
      (wins trades + losses trades + breakevens trades)%nat in
    let winRate :=
      if (0 <? totalWithResult)%nat
      then Q_of_nat (wins trades) / Q_of_nat totalWithResult * 100
      else 0 in
    let profitFactor :=
      if Qgtb (grossLoss trades) 0
      then Some (grossProfit trades / grossLoss trades)
      else if Qgtb (grossProfit trades) 0 then None else None in
    let tradesWithR := filter hasR trades in
    let avgR :=
      if (0 <? List.length tradesWithR)%nat
      then Some (sumQ (map (fun t => orZero (rMultiple t)) tradesWithR)
                 / Q_of_nat (List.length tradesWithR))
      else None in
    mkTradesKpis netPnl winRate profitFactor avgR totalTrades.

End TradesPage.

(** ** Dashboard statistics (features/dashboard/useDashboardStats) *)

Module Dashboard.

Definition getEffectiveDate (trade : Trade) : option Date :=
  match normalizeTimestamp (closeTime trade) with
  | Some d => Some d
  | None =>
      match normalizeTimestamp (openTime trade) with
      | Some d => Some d
      | None => tradeDate trade
      end
  end.

(** [formatDateKey] yields the zero-padded ["YYYY-MM-DD"] of the local
    calendar day.  The keys are only compared with each other and, for
    four-digit years, their string order is the calendar order; a key is
    modelled by the day's index since the epoch. *)
Definition formatDateKey (date : Date) : Z := dayIndex date.

Definition clamp (value min max : Q) : Q := Qmin max (Qmax min value).

(** In each score function the first test is on [isFinite]: the three
    non-finite values take the first [return]. *)

Definition scoreWinRate (winRatePct : number) : Q :=
  match winRatePct with
  | Num w => if Qltb w 0 then 0 else clamp w 0 100
  | _ => 0
  end.

Definition scoreProfitFactor (pf : number) : Q :=
  match pf with
  | Num pf =>
      if Qleb pf 0 then 0
      else if Qgeb pf 3 then 100
      else if Qgeb pf 2 then 80 + (pf - 2) * 20
      else if Qgeb pf (3 # 2) then 60 + (pf - (3 # 2)) * 40
      else if Qgeb pf 1 then 30 + (pf - 1) * 60
      else 10
  | _ => 0
  end.

Definition scoreAvgWinLoss (ratio : number) : Q :=
  match ratio with
  | Num ratio =>
      if Qleb ratio 0 then 0
      else if Qgeb ratio 4 then 100
      else if Qgeb ratio 3 then 90 + (ratio - 3) * 10
      else if Qgeb ratio 2 then 70 + (ratio - 2) * 20
      else if Qgeb ratio 1 then 40 + (ratio - 1) * 30
      else 10
  | _ => 0
  end.

(** [totalProfit] is always a finite sum at the call site. *)
Definition scoreMaxDrawdown (maxDD : number) (totalProfit : Q) : Q :=
  match maxDD with
  | Num maxDD =>
      if Qleb maxDD 0 || Qleb totalProfit 0 then 10
      else
        let ratio := maxDD / (Qabs totalProfit + maxDD) in
        let score := 100 * (1 - ratio) in
        clamp score 0 100
  | _ => 10
  end.

Definition scoreRecoveryFactor (rf : number) : Q :=
  match rf with
  | Num rf =>
      if Qleb rf 0 then 0
      else if Qgeb rf 5 then 100
      else if Qgeb rf 3 then 80 + (rf - 3) * 10
      else if Qgeb rf 2 then 60 + (rf - 2) * 20
      else if Qgeb rf 1 then 30 + (rf - 1) * 30
      else 10
  | _ => 0
  end.

Definition scoreConsistency (consistencyRaw : number) : Q :=
  match consistencyRaw with
  | Num c =>
      if Qleb c 0 then 100
      else clamp (100 - c * 100) 0 100
  | _ => 100
  end.

Record DashboardKpis : Type := mkDashboardKpis {
  totalTrades : nat;
  totalProfit : Q;
  winCount : nat;
  lossCount : nat;
  winRate : Q;
  avgProfitPerTrade : Q;
  avgPositionSize : option Q
}.

Record DailyPnlPoint : Type := mkDailyPnlPoint {
  dp_dateKey : Z;
  dp_date : Date;
  dp_profit : Q
}.

Record SymbolStats : Type := mkSymbolStats {
  sy_symbol : string;
  sy_totalProfit : Q;
  sy_tradesCount : nat;
  sy_winCount : nat;
  sy_lossCount : nat;
  sy_winRate : Q
}.

Record CompassScoreMetric : Type := mkMetric {
  value : Q;
  score : Q
}.

Record CompassScore : Type := mkCompassScore {
  totalScore : Q;
  cs_winRate : CompassScoreMetric;
  cs_profitFactor : CompassScoreMetric;
  cs_avgWinLoss : CompassScoreMetric;
  cs_maxDrawdown : CompassScoreMetric;
  cs_recoveryFactor : CompassScoreMetric;
  cs_consistency : CompassScoreMetric
}.

Record RiskProgress : Type := mkRiskProgress {
  dailyPnlPercent : Q;
  weeklyPnlPercent : Q;
  todayPnl : Q;
  weekPnl : Q
}.

Record DashboardStats : Type := mkDashboardStats {
  kpis : DashboardKpis;
  dailyPnl : list DailyPnlPoint;
  symbols : list SymbolStats;
  compassScore : CompassScore;
  riskProgress : RiskProgress
}.

(** [t.pnlCurrency ?? 0] *)
Definition pnlOf (t : Trade) : Q := orZero (pnlCurrency t).

(** [date.setHours(0, 0, 0, 0)] *)
Definition startOfDay (date : Date) : Date := (dayIndex date * msPerDay)%Z.

(** [new Date(dateKey)]: midnight of the day. *)
Definition dateOfKey (dateKey : Z) : Date := (dateKey * msPerDay)%Z.

(** [generateDateRange]: the keys of the last [days] days, oldest first,
    ending today. *)
Definition generateDateRange (now : Date) (days : nat) : list Z :=
  map (fun i => (formatDateKey now - Z.of_nat i)%Z) (rev (seq 0 days)).

(** [dateKey >= startDate && dateKey <= endDate]; with an empty range both
    bounds are [undefined] and the comparisons are false. *)
Definition inDateRange (dateRange : list Z) (dateKey : Z) : bool :=
  match dateRange with
  | [] => false
  | startDate :: _ =>
      let endDate := last dateRange startDate in
      ((startDate <=? dateKey) && (dateKey <=? endDate))%Z
  end.

Definition relevantTrades (dateRange : list Z) (trades : list Trade)
  : list Trade :=
  filter (fun trade =>
            match getEffectiveDate trade with
            | None => false
            | Some effectiveDate =>
                inDateRange dateRange (formatDateKey effectiveDate)
            end) trades.

Definition computeKpis (trades : list Trade) : DashboardKpis :=
  let totalTrades := List.length trades in
  let totalProfit := fold_left (fun sum t => sum + pnlOf t) trades 0 in
  let winCount := List.length (filter (fun t => Qgtb (pnlOf t) 0) trades) in
  let lossCount := List.length (filter (fun t => Qltb (pnlOf t) 0) trades) in
  let totalWithResult := (winCount + lossCount)%nat in
  let winRate :=
    if (0 <? totalWithResult)%nat
    then Q_of_nat winCount / Q_of_nat totalWithResult * 100
    else 0 in
  let avgProfitPerTrade :=
    if (0 <? totalTrades)%nat then totalProfit / Q_of_nat totalTrades else 0 in
  let tradesWithVolume :=
    filter (fun t => negb (Qeqb (positionSize t) 0)
                     && Qgtb (positionSize t) 0) trades in
  let avgPositionSize :=
    if (0 <? List.length tradesWithVolume)%nat
    then Some (fold_left (fun sum t => sum + positionSize t) tradesWithVolume 0
               / Q_of_nat (List.length tradesWithVolume))
    else None in
  mkDashboardKpis totalTrades totalProfit winCount lossCount winRate
                  avgProfitPerTrade avgPositionSize.

(** The chart series: every day of the range starts at 0 and receives the
    P&L of the relevant trades dated that day. *)
Definition addToChart (m : list (Z * DailyPnlPoint)) (trade : Trade)
  : list (Z * DailyPnlPoint) :=
  match getEffectiveDate trade with
  | None => m
  | Some effectiveDate =>
      let dateKey := formatDateKey effectiveDate in
      match map_get Z.eqb m dateKey with
      | Some dayStats =>
          map_set Z.eqb m dateKey
                  (mkDailyPnlPoint (dp_dateKey dayStats) (dp_date dayStats)
                                   (dp_profit dayStats + pnlOf trade))
      | None => m
      end
  end.

Definition computeDailyPnl (now : Date) (trades : list Trade) (days : nat)
  : list DailyPnlPoint :=
  let dateRange := generateDateRange now days in
  let dailyPnlMap :=
    fold_left (fun m dateKey =>
                 map_set Z.eqb m dateKey
                         (mkDailyPnlPoint dateKey (dateOfKey dateKey) 0))
              dateRange [] in
  let dailyPnlMap :=
    fold_left addToChart (relevantTrades dateRange trades) dailyPnlMap in
  sort (fun a b => inject_Z (dp_date a - dp_date b)) (map snd dailyPnlMap).

(** The per-symbol table: top five symbols by profit. *)
Definition addToSymbol (m : list (string * SymbolStats)) (trade : Trade)
  : list (string * SymbolStats) :=
  let symbol := symbol trade in
  if String.eqb symbol "" then m
  else
    let profit := pnlOf trade in
    map_bump String.eqb (mkSymbolStats symbol 0 0 0 0 0)
             (fun stats =>
                mkSymbolStats (sy_symbol stats)
                              (sy_totalProfit stats + profit)
                              (S (sy_tradesCount stats))
                              (if Qgtb profit 0 then S (sy_winCount stats)
                               else sy_winCount stats)
                              (if Qgtb profit 0 then sy_lossCount stats
                               else if Qltb profit 0 then S (sy_lossCount stats)
                               else sy_lossCount stats)
                              (sy_winRate stats))
             m symbol.

Definition withWinRate (stats : SymbolStats) : SymbolStats :=
  let totalWithResult := (sy_winCount stats + sy_lossCount stats)%nat in
  mkSymbolStats (sy_symbol stats) (sy_totalProfit stats) (sy_tradesCount stats)
                (sy_winCount stats) (sy_lossCount stats)
                (if (0 <? totalWithResult)%nat
                 then Q_of_nat (sy_winCount stats) / Q_of_nat totalWithResult
                 else 0).

Definition computeSymbols (trades : list Trade) : list SymbolStats :=
  let symbolMap := fold_left addToSymbol trades [] in
  firstn 5 (sort (fun a b => sy_totalProfit b - sy_totalProfit a)
                 (map (fun e => withWinRate (snd e)) symbolMap)).

(** [allDailyPnlMap]: P&L per day key over the full history. *)
Definition addToDay (m : list (Z * Q)) (trade : Trade) : list (Z * Q) :=
  match getEffectiveDate trade with
  | None => m
  | Some effectiveDate =>
      let dateKey := formatDateKey effectiveDate in
      let current := orZero (map_get Z.eqb m dateKey) in
      map_set Z.eqb m dateKey (current + pnlOf trade)
  end.

Definition allDailyPnlMap (trades : list Trade) : list (Z * Q) :=
  fold_left addToDay trades [].

(** [sortedDaily]: the entries as [(date, profit)], by date. *)
Definition sortedDaily (trades : list Trade) : list (Date * Q) :=
  sort (fun a b => inject_Z (fst a - fst b))
       (map (fun e => (dateOfKey (fst e), snd e)) (allDailyPnlMap trades)).

(** The equity loop: [(equity, peak, maxDrawdown)]. *)
Definition drawdownStep (st : Q * Q * Q) (d : Date * Q) : Q * Q * Q :=
  let '(equity, peak, maxDrawdown) := st in
  let equity := equity + snd d in
  let peak := if Qgtb equity peak then equity else peak in
  let drawdown := equity - peak in
  let maxDrawdown :=
    if Qltb drawdown maxDrawdown then drawdown else maxDrawdown in
  (equity, peak, maxDrawdown).

Definition maxDrawdownOf (trades : list Trade) : Q :=
  snd (fold_left drawdownStep (sortedDaily trades) (0, 0, 0)).

Definition grossProfit (trades : list Trade) : Q :=
  sumQ (filter (fun v => Qgtb v 0) (map pnlOf trades)).

Definition grossLossAbs (trades : list Trade) : Q :=
  Qabs (sumQ (filter (fun v => Qltb v 0) (map pnlOf trades))).

(** [profitFactor]: the raw Compass Score metric. *)
Definition profitFactorOf (trades : list Trade) : Q :=
  if Qgtb (grossLossAbs trades) 0
  then grossProfit trades / grossLossAbs trades
  else 0.

Section WithSqrt.

(** [Math.sqrt] is not a rational function; the embedding takes it as a
    parameter.  Only the consistency metric depends on it. *)
Variable Math_sqrt : Q -> Q.

(** [consistencyRaw]: standard deviation of the non-zero daily P&L over
    the absolute total profit, 1 when there are fewer than two such days
    or no profit. *)
Definition consistencyRawOf (trades : list Trade) (totalProfit : Q) : Q :=
  let nonZeroDays :=
    filter (fun d => negb (Qeqb (snd d) 0)) (sortedDaily trades) in
  let n := List.length nonZeroDays in
  if (2 <=? n)%nat && Qgtb totalProfit 0
  then
    let mean := fold_left (fun s d => s + snd d) nonZeroDays 0 / Q_of_nat n in
    let variance :=
      fold_left (fun s d => s + (snd d - mean) * (snd d - mean)) nonZeroDays 0
      / Q_of_nat (n - 1) in
    let stdDev := Math_sqrt variance in
    stdDev / Qabs totalProfit
  else 1.

Definition computeCompassScore (trades : list Trade) : CompassScore :=
  let k := computeKpis trades in
  let pnlValues := map pnlOf trades in
  let wins := filter (fun v => Qgtb v 0) pnlValues in
  let losses := filter (fun v => Qltb v 0) pnlValues in
  let avgWin :=
    if (0 <? List.length wins)%nat
    then grossProfit trades / Q_of_nat (List.length wins) else 0 in
  let avgLossAbs :=
    if (0 <? List.length losses)%nat
    then grossLossAbs trades / Q_of_nat (List.length losses) else 0 in
  let winRatePct := winRate k in
  let profitFactor := profitFactorOf trades in
  let avgWinLossRatio :=
    if Qgtb avgLossAbs 0 then avgWin / avgLossAbs else 0 in
  let maxDrawdownAbs := Qabs (maxDrawdownOf trades) in
  let recoveryFactor :=
    if Qgtb maxDrawdownAbs 0 then totalProfit k / maxDrawdownAbs else 0 in
  let consistencyRaw := consistencyRawOf trades (totalProfit k) in
  let winRateScore := scoreWinRate (Num winRatePct) in
  let profitFactorScore := scoreProfitFactor (Num profitFactor) in
  let avgWinLossScore := scoreAvgWinLoss (Num avgWinLossRatio) in
  let maxDDScore := scoreMaxDrawdown (Num maxDrawdownAbs) (totalProfit k) in
  let recoveryFactorScore := scoreRecoveryFactor (Num recoveryFactor) in
  let consistencyScore := scoreConsistency (Num consistencyRaw) in
  let totalScore :=
    winRateScore * (2 # 10) + profitFactorScore * (2 # 10)
    + avgWinLossScore * (2 # 10) + maxDDScore * (15 # 100)
    + recoveryFactorScore * (15 # 100) + consistencyScore * (1 # 10) in
  mkCompassScore
    totalScore
    (mkMetric winRatePct winRateScore)
    (mkMetric profitFactor profitFactorScore)
    (mkMetric avgWinLossRatio avgWinLossScore)
    (mkMetric maxDrawdownAbs maxDDScore)
    (mkMetric recoveryFactor recoveryFactorScore)
    (mkMetric consistencyRaw consistencyScore).

(** [startOfWeek(date, { weekStartsOn })] of date-fns: midnight of the
    latest day on or before [date] whose weekday is [weekStartsOn]. *)
Definition startOfWeek (date : Date) (weekStartsOn : Z) : Date :=
  let day := getDay date in
  let diff := ((if day <? weekStartsOn then 7 else 0) + day - weekStartsOn)%Z in
  ((dayIndex date - diff) * msPerDay)%Z.

(** The three [for ... of allDailyPnlMap.entries()] loops. *)
Definition sumWhere (keep : Z -> bool) (m : list (Z * Q)) : Q :=
  fold_left (fun acc e => if keep (fst e) then acc + snd e else acc) m 0.

Definition DEFAULT_BASE_BALANCE : Q := 10000.

(** [now] is the value of [new Date()] when the function runs. *)
Definition computeRiskProgress (now : Date) (trades : list Trade)
  : RiskProgress :=
  let today := startOfDay now in
  let todayKey := formatDateKey today in
  let weekStart := startOfDay (startOfWeek today 1) in
  let startOfWeekKey := formatDateKey weekStart in
  let m := allDailyPnlMap trades in
  let cumulativePnLBeforeToday := sumWhere (fun k => k <? todayKey)%Z m in
  let cumulativePnLBeforeWeek := sumWhere (fun k => k <? startOfWeekKey)%Z m in
  let todayPnL := orZero (map_get Z.eqb m todayKey) in
  let weekPnL :=
    sumWhere (fun k => (startOfWeekKey <=? k) && (k <=? todayKey))%Z m in
  let dailyBaseBalance :=
    if Qgtb cumulativePnLBeforeToday 0
    then cumulativePnLBeforeToday else DEFAULT_BASE_BALANCE in
  let weeklyBaseBalance :=
    if Qgtb cumulativePnLBeforeWeek 0
    then cumulativePnLBeforeWeek else DEFAULT_BASE_BALANCE in
  let dailyPnlPercent :=
    if Qgtb dailyBaseBalance 0
    then todayPnL / dailyBaseBalance * 100 else 0 in
  let weeklyPnlPercent :=
    if Qgtb weeklyBaseBalance 0
    then weekPnL / weeklyBaseBalance * 100 else 0 in
  mkRiskProgress dailyPnlPercent weeklyPnlPercent todayPnL weekPnL.

(** [aggregateTrades(trades, days = 30)], run at the instant [now]. *)
Definition aggregateTrades (now : Date) (trades : list Trade) (days : nat)
  : DashboardStats :=
  mkDashboardStats (computeKpis trades)
                   (computeDailyPnl now trades days)
                   (computeSymbols trades)
                   (computeCompassScore trades)
                   (computeRiskProgress now trades).

End WithSqrt.

End Dashboard.

(** ** Risk guard (lib/riskGuard) *)

Module RiskGuard.

Record UserRiskSettings : Type := mkUserRiskSettings {
  maxDailyLossPercent : Q;
  maxWeeklyLossPercent : Q;
  targetDailyProfitPercent : Q;
  targetWeeklyProfitPercent : Q
}.

Inductive RiskGuardStateType : Type :=
| none
| daily_warning
| daily_locked
| weekly_warning
| weekly_locked.

(** The message templates, with the two interpolated numbers: the
    period's return percent and the loss usage. *)
Inductive Message : Type :=
| DailyLimitReached (returnPercent usage : Q)
| WeeklyLimitReached (returnPercent usage : Q)
| CloseToDailyLimit (returnPercent usage : Q)
| CloseToWeeklyLimit (returnPercent usage : Q).

Record RiskGuardEvaluation : Type := mkEvaluation {
  state : RiskGuardStateType;
  message : option Message;
  todayReturnPercent : option Q;
  weekReturnPercent : option Q;
  dailyLossUsage : option Q;
  weeklyLossUsage : option Q
}.

Definition lossAbs (pnlPercent : Q) : Q :=
  if Qltb pnlPercent 0 then Qabs pnlPercent else 0.

Definition lossUsage (lossAbs maxLossPercent : Q) : Q :=
  if Qgtb maxLossPercent 0 then lossAbs / maxLossPercent * 100 else 0.

Definition evaluateRiskGuard (riskProgress : option Dashboard.RiskProgress)
           (riskSettings : option UserRiskSettings) : RiskGuardEvaluation :=
  match riskProgress, riskSettings with
  | Some riskProgress, Some riskSettings =>
      let dailyPnlPercent := Dashboard.dailyPnlPercent riskProgress in
      let weeklyPnlPercent := Dashboard.weeklyPnlPercent riskProgress in
      let maxDailyLossPercent := maxDailyLossPercent riskSettings in
      let maxWeeklyLossPercent := maxWeeklyLossPercent riskSettings in
      let dailyLossAbs := lossAbs dailyPnlPercent in
      let weeklyLossAbs := lossAbs weeklyPnlPercent in
      let dailyLossUsage := lossUsage dailyLossAbs maxDailyLossPercent in
      let weeklyLossUsage := lossUsage weeklyLossAbs maxWeeklyLossPercent in
      if Qgeb dailyLossAbs maxDailyLossPercent && Qgtb maxDailyLossPercent 0
      then mkEvaluation daily_locked
             (Some (DailyLimitReached dailyPnlPercent dailyLossUsage))
             (Some dailyPnlPercent) None (Some dailyLossUsage) None
      else if Qgeb weeklyLossAbs maxWeeklyLossPercent
              && Qgtb maxWeeklyLossPercent 0
      then mkEvaluation weekly_locked
             (Some (WeeklyLimitReached weeklyPnlPercent weeklyLossUsage))
             None (Some weeklyPnlPercent) None (Some weeklyLossUsage)
      else if Qgeb dailyLossUsage 50 && Qltb dailyLossUsage 100
              && Qgtb maxDailyLossPercent 0
      then mkEvaluation daily_warning
             (Some (CloseToDailyLimit dailyPnlPercent dailyLossUsage))
             (Some dailyPnlPercent) None (Some dailyLossUsage) None
      else if Qgeb weeklyLossUsage 50 && Qltb weeklyLossUsage 100
              && Qgtb maxWeeklyLossPercent 0
      then mkEvaluation weekly_warning
             (Some (CloseToWeeklyLimit weeklyPnlPercent weeklyLossUsage))
             None (Some weeklyPnlPercent) None (Some weeklyLossUsage)
      else mkEvaluation none None
             (Some dailyPnlPercent) (Some weeklyPnlPercent)
             (Some dailyLossUsage) (Some weeklyLossUsage)
  | _, _ => mkEvaluation none None None None None None
  end.

End RiskGuard.

(** ** KPIs from daily statistics (lib/analytics) *)

Module DailyKpis.

Record DailyStat : Type := mkDailyStat {
  netPnlCurrency : Q;
  tradesCount : nat;
  winsCount : nat;
  lossesCount : nat;
  breakevenCount : nat;
  avgR : option Q
}.

Record KpiMetrics : Type := mkKpiMetrics {
  km_netPnl : Q;
  km_winRate : Q;
  km_profitFactor : option Q;
  km_avgR : option Q;
  km_totalTrades : nat;
  km_daysTraded : nat
}.

Definition sumNat (f : DailyStat -> nat) (dailyStats : list DailyStat) : nat :=
  fold_left (fun sum stat => (sum + f stat)%nat) dailyStats 0%nat.

Definition grossProfit (dailyStats : list DailyStat) : Q :=
  fold_left (fun sum stat => sum + netPnlCurrency stat)
            (filter (fun stat => Qgtb (netPnlCurrency stat) 0) dailyStats) 0.

Definition grossLoss (dailyStats : list DailyStat) : Q :=
  Qabs (fold_left (fun sum stat => sum + netPnlCurrency stat)
                  (filter (fun stat => Qltb (netPnlCurrency stat) 0) dailyStats)
                  0).

(** The [forEach] that accumulates [(totalRWeighted, totalWeight)]. *)
Definition weightedR (acc : Q * nat) (stat : DailyStat) : Q * nat :=
  match avgR stat with
  | Some r =>
      if (0 <? tradesCount stat)%nat
      then (fst acc + r * Q_of_nat (tradesCount stat),
            (snd acc + tradesCount stat)%nat)
      else acc
  | None => acc
  end.

Definition calculateKpis (dailyStats : list DailyStat) : KpiMetrics :=
  if (List.length dailyStats =? 0)%nat then mkKpiMetrics 0 0 None None 0 0
  else
    let netPnl :=
      fold_left (fun sum stat => sum + netPnlCurrency stat) dailyStats 0 in
    let totalTrades := sumNat tradesCount dailyStats in
    let daysTraded :=
      List.length (filter (fun stat => (0 <? tradesCount stat)%nat) dailyStats) in
    let totalWins := sumNat winsCount dailyStats in
    let totalLosses := sumNat lossesCount dailyStats in
    let totalBe := sumNat breakevenCount dailyStats in
    let totalTradesForWinRate := (totalWins + totalLosses + totalBe)%nat in
    let winRate :=
      if (0 <? totalTradesForWinRate)%nat
      then Q_of_nat totalWins / Q_of_nat totalTradesForWinRate * 100
      else 0 in
    let profitFactor :=
      if Qgtb (grossLoss dailyStats) 0
      then Some (grossProfit dailyStats / grossLoss dailyStats)
      else if Qgtb (grossProfit dailyStats) 0 then None else None in
    let '(totalRWeighted, totalWeight) :=
      fold_left weightedR dailyStats (0, 0%nat) in
    let avgR :=
      if (0 <? totalWeight)%nat
      then Some (totalRWeighted / Q_of_nat totalWeight) else None in
    mkKpiMetrics netPnl winRate profitFactor avgR totalTrades daysTraded.

End DailyKpis.

(** * Reference definitions used in the statements *)

Module Claimed.

(** The profit-factor curve as the specification words it for the
    dashboard variant: 0 at or below 0, 30 to 60 over (0,1), 60 to 80
    over [1,2), 80 to 95 over [2,3), 100 from 3 on. *)
Definition profitFactorScore (pf : Q) : Q :=
  if Qleb pf 0 then 0
  else if Qltb pf 1 then 30 + pf * 30
  else if Qltb pf 2 then 60 + (pf - 1) * 20
  else if Qltb pf 3 then 80 + (pf - 2) * 15
  else 100.

End Claimed.

(** The quantities the statements are phrased with. *)

(** [trade.pnlCurrency ?? 0] *)
Definition pnlOf (t : Trade) : Q := orZero (pnlCurrency t).

(** Classification of a trade by the sign of its P&L. *)
Definition isWin (t : Trade) : bool := Qgtb (pnlOf t) 0.
Definition isLoss (t : Trade) : bool := Qltb (pnlOf t) 0.
Definition isBE (t : Trade) : bool := Qeqb (pnlOf t) 0.

Definition count {A : Type} (f : A -> bool) (l : list A) : nat :=
  List.length (filter f l).

(** Total P&L of a list of trades. *)
Definition totalPnl (l : list Trade) : Q := sumQ (map pnlOf l).

(** The items a keyed aggregation files under [k]; [key] is [None] for
    an item the aggregation skips. *)
Definition filedUnder {K T : Type} (eqb : K -> K -> bool) (key : T -> option K)
           (k : K) (t : T) : bool :=
  match key t with
  | Some k' => eqb k k'
  | None => false
  end.

Definition bucket {K T : Type} (eqb : K -> K -> bool) (key : T -> option K)
           (k : K) (l : list T) : list T :=
  filter (filedUnder eqb key k) l.

(** One step of a keyed aggregation: the item is folded into the
    accumulator of its key, created from [init] when absent. *)
Definition groupStep {K V T : Type} (eqb : K -> K -> bool)
           (key : T -> option K) (init : V) (upd : T -> V -> V)
           (m : list (K * V)) (t : T) : list (K * V) :=
  match key t with
  | Some k => map_bump eqb init (upd t) m k
  | None => m
  end.

(** Keys of the time analytics: defined for the trades that have an
    effective open and close time. *)
Definition weekdayOf (t : Trade) : option Z :=
  match TimeAnalytics.getEffectiveOpenTime t,
        TimeAnalytics.getEffectiveCloseTime t with
  | Some openT, Some _ => Some (getDay openT)
  | _, _ => None
  end.

Definition sessionOf (t : Trade) : option TimeAnalytics.TradingSession :=
  match TimeAnalytics.getEffectiveOpenTime t,
        TimeAnalytics.getEffectiveCloseTime t with
  | Some openT, Some _ => Some (TimeAnalytics.classifySession openT)
  | _, _ => None
  end.

Definition durationOf (t : Trade) : option TimeAnalytics.DurationBucketKey :=
  match TimeAnalytics.getEffectiveOpenTime t,
        TimeAnalytics.getEffectiveCloseTime t with
  | Some openT, Some closeT =>
      Some (TimeAnalytics.classifyDurationBucket
              (TimeAnalytics.holdingMinutes openT closeT))
  | _, _ => None
  end.

(** The calendar day a dashboard aggregation files a trade under. *)
Definition dayOf (t : Trade) : option Z :=
  option_map Dashboard.formatDateKey (Dashboard.getEffectiveDate t).

(** Total P&L of the trades whose day satisfies [keep]. *)
Definition pnlOfDays (keep : Z -> bool) (trades : list Trade) : Q :=
  totalPnl (filter (fun t => match dayOf t with
                             | Some d => keep d
                             | None => false
                             end) trades).

(** The rolling equity base: the cumulative P&L when it is positive, the
    default balance of 10,000 otherwise. *)
Definition rollingBase (cumulativePnl : Q) : Q :=
  if Qlt_le_dec 0 cumulativePnl then cumulativePnl else 10000.

(** The Monday on or before a day. *)
Definition mondayOf (day : Z) : Z := (day - (dayOfWeek day + 6) mod 7)%Z.

(** Trades carrying a tag. *)
Definition hasTag (tag : string) (t : Trade) : bool :=
  existsb (String.eqb tag) (TagAnalytics.tagsOf t).

(** Number of trades whose P&L field is present. *)
Definition definedPnlCount (l : list Trade) : nat :=
  count (fun t => match pnlCurrency t with Some _ => true | None => false end) l.

(** Every (tag, trade) pair of a trade list, in processing order. *)
Definition taggings (trades : list Trade) : list (string * Trade) :=
  flat_map (fun t => map (fun tag => (tag, t)) (TagAnalytics.tagsOf t)) trades.

(** The trades filed under a tag, once per occurrence of the tag in the
    trade's tag array. *)
Definition taggedWith (tag : string) (trades : list Trade) : list Trade :=
  map snd (bucket String.eqb (fun p => Some (fst p)) tag (taggings trades)).

(** ** Concrete inputs *)

Module Samples.

(** One winning trade tagged a and b, one losing trade tagged a, and one
    untagged trade; the third has no P&L field. *)
Definition tagged_ab : Trade :=
  mkTrade "EURUSD" 1 (TvTimestamp 1704441600000%Z) (TvTimestamp 1704441900000%Z) None
          (Some 100) (Some 2) win (Some ["a"; "b"]%string).

Definition tagged_a : Trade :=
  mkTrade "EURUSD" 1 (TvTimestamp 1704466800000%Z) (TvTimestamp 1704474000000%Z) None
          (Some (-50)) (Some (-1)) loss (Some ["a"]%string).

Definition untagged_no_pnl : Trade :=
  mkTrade "EURUSD" 1 (TvTimestamp 1704502800000%Z) (TvTimestamp 1704502860000%Z) None
          None None be None.

Definition journal : list Trade := [tagged_ab; tagged_a; untagged_no_pnl].

(** A breakeven trade, and a winning trade whose stored status says loss. *)
Definition flat : Trade :=
  mkTrade "EURUSD" 1 (TvTimestamp 1704502800000%Z) (TvTimestamp 1704502860000%Z) None
          (Some 0) None be None.

Definition stale_status : Trade :=
  mkTrade "EURUSD" 1 (TvTimestamp 1704441600000%Z) (TvTimestamp 1704441900000%Z) None
          (Some 100) None loss None.

(** One win, one loss, one breakeven, with matching statuses. *)
Definition win_loss_flat : list Trade := [tagged_ab; tagged_a; flat].

(** The weekday row the time analytics produce for the Friday of
    [journal]. *)
Definition fridayStat : TimeAnalytics.WeekdayStat :=
  TimeAnalytics.mkWeekdayStat 5 "Fri" 2 1 1 0 50 (1 # 2) (Some (1 # 2)).

(** A daily cap left at 0 (the settings form's initial value) and a
    weekly cap of 5 percent. *)
Definition zeroDailyCap : RiskGuard.UserRiskSettings :=
  RiskGuard.mkUserRiskSettings 0 5 0 0.

Definition caps_4_10 : RiskGuard.UserRiskSettings :=
  RiskGuard.mkUserRiskSettings 4 10 3 15.

(** Down 3 percent today and 6 percent this week. *)
Definition down_3_6 : Dashboard.RiskProgress :=
  Dashboard.mkRiskProgress (-3) (-6) (-300) (-600).

(** Down 5 percent today and 12 percent this week. *)
Definition down_5_12 : Dashboard.RiskProgress :=
  Dashboard.mkRiskProgress (-5) (-12) (-500) (-1200).

End Samples.

(** * Risk status and risk overview
    (features/dashboard/riskStatus, features/dashboard/RiskOverview) *)

Module RiskStatus.

Inductive RiskStatusLevel : Type :=
| safe
| warning
| limit
| target.

Record RiskStatus : Type := mkRiskStatus {
  status : RiskStatusLevel;
  label : string
}.

Definition getDailyRiskStatus (dailyPnlPercent : Q)
           (settings : RiskGuard.UserRiskSettings) : RiskStatus :=
  let maxDailyLossPercent := RiskGuard.maxDailyLossPercent settings in
  let targetDailyProfitPercent := RiskGuard.targetDailyProfitPercent settings in
  if Qgeb dailyPnlPercent targetDailyProfitPercent
  then mkRiskStatus target "Target reached"
  else if Qleb dailyPnlPercent 0
  then
    let lossAbs := Qabs dailyPnlPercent in
    if Qgeb lossAbs maxDailyLossPercent
    then mkRiskStatus limit "Limit hit"
    else if Qgeb lossAbs (maxDailyLossPercent * (5 # 10))
    then mkRiskStatus warning "Warning"
    else mkRiskStatus safe "Safe"
  else mkRiskStatus safe "Safe".

Definition getWeeklyRiskStatus (weeklyPnlPercent : Q)
           (settings : RiskGuard.UserRiskSettings) : RiskStatus :=
  let maxWeeklyLossPercent := RiskGuard.maxWeeklyLossPercent settings in
  let targetWeeklyProfitPercent :=
    RiskGuard.targetWeeklyProfitPercent settings in
  if Qgeb weeklyPnlPercent targetWeeklyProfitPercent
  then mkRiskStatus target "Target reached"
  else if Qleb weeklyPnlPercent 0
  then
    let lossAbs := Qabs weeklyPnlPercent in
    if Qgeb lossAbs maxWeeklyLossPercent
    then mkRiskStatus limit "Limit hit"
    else if Qgeb lossAbs (maxWeeklyLossPercent * (5 # 10))
    then mkRiskStatus warning "Warning"
    else mkRiskStatus safe "Safe"
  else mkRiskStatus safe "Safe".

End RiskStatus.

Module RiskOverview.

(** The memoised values of the component; [riskSettings] is [None] while
    the settings are not loaded. *)

Definition dailyStatus (riskSettings : option RiskGuard.UserRiskSettings)
           (dailyPnlPercent : Q) : RiskStatus.RiskStatus :=
  match riskSettings with
  | None => RiskStatus.mkRiskStatus RiskStatus.safe "Safe"
  | Some s => RiskStatus.getDailyRiskStatus dailyPnlPercent s
  end.

Definition weeklyStatus (riskSettings : option RiskGuard.UserRiskSettings)
           (weeklyPnlPercent : Q) : RiskStatus.RiskStatus :=
  match riskSettings with
  | None => RiskStatus.mkRiskStatus RiskStatus.safe "Safe"
  | Some s => RiskStatus.getWeeklyRiskStatus weeklyPnlPercent s
  end.

Definition dailyLossProgress (riskSettings : option RiskGuard.UserRiskSettings)
           (dailyPnlPercent : Q) : Q :=
  match riskSettings with
  | None => 0
  | Some s =>
      if Qgeb dailyPnlPercent 0 || Qleb (RiskGuard.maxDailyLossPercent s) 0
      then 0
      else
        let lossAbs := Qabs dailyPnlPercent in
        Qmin (lossAbs / RiskGuard.maxDailyLossPercent s * 100) 200
  end.

Definition dailyProfitProgress
           (riskSettings : option RiskGuard.UserRiskSettings)
           (dailyPnlPercent : Q) : Q :=
  match riskSettings with
  | None => 0
  | Some s =>
      if Qleb dailyPnlPercent 0
         || Qleb (RiskGuard.targetDailyProfitPercent s) 0
      then 0
      else Qmin (dailyPnlPercent / RiskGuard.targetDailyProfitPercent s * 100)
                200
  end.

Definition weeklyLossProgress
           (riskSettings : option RiskGuard.UserRiskSettings)
           (weeklyPnlPercent : Q) : Q :=
  match riskSettings with
  | None => 0
  | Some s =>
      if Qgeb weeklyPnlPercent 0 || Qleb (RiskGuard.maxWeeklyLossPercent s) 0
      then 0
      else
        let lossAbs := Qabs weeklyPnlPercent in
        Qmin (lossAbs / RiskGuard.maxWeeklyLossPercent s * 100) 200
  end.

Definition weeklyProfitProgress
           (riskSettings : option RiskGuard.UserRiskSettings)
           (weeklyPnlPercent : Q) : Q :=
  match riskSettings with
  | None => 0
  | Some s =>
      if Qleb weeklyPnlPercent 0
         || Qleb (RiskGuard.targetWeeklyProfitPercent s) 0
      then 0
      else Qmin (weeklyPnlPercent / RiskGuard.targetWeeklyProfitPercent s * 100)
                200
  end.

(** [ColoredProgress]: the width of the bar and its colour class. *)
Definition progressValue (value : Q) : Q := Qmin value 100.

Definition colorClass (value : Q) (isLoss : bool) : string :=
  let progressValue := progressValue value in
  if isLoss
  then
    if Qgeb progressValue 100 then "bg-red-500"
    else if Qgeb progressValue 80 then "bg-red-400"
    else if Qgeb progressValue 50 then "bg-yellow-500"
    else "bg-yellow-400"
  else
    if Qgeb progressValue 100 then "bg-green-500"
    else if Qgeb progressValue 80 then "bg-green-400"
    else "bg-blue-400".

End RiskOverview.

(** * Trading calendar (features/calendar/useTradingCalendar) *)

Module Calendar.

Definition getEffectiveDate (trade : Trade) : option Date :=
  match normalizeTimestamp (closeTime trade) with
  | Some d => Some d
  | None =>
      match normalizeTimestamp (openTime trade) with
      | Some d => Some d
      | None => tradeDate trade
      end
  end.

(** The key of the local calendar day, as in the dashboard. *)
Definition formatDateKey (date : Date) : Z := dayIndex date.

Record CalendarDayStats : Type := mkCalendarDayStats {
  cd_dateKey : Z;
  cd_date : Date;
  cd_profit : Q;
  cd_tradesCount : nat;
  cd_winCount : nat;
  cd_lossCount : nat
}.

Record TradingCalendarStats : Type := mkTradingCalendarStats {
  days : list CalendarDayStats;
  totalTrades : nat;
  totalProfit : Q;
  totalWins : nat;
  totalLosses : nat;
  bestDay : option CalendarDayStats;
  worstDay : option CalendarDayStats
}.

(** Body of the loop over the trades.  [new Date(y, m, d)] of the
    effective date is the midnight that starts its day. *)
Definition addTrade (dayMap : list (Z * CalendarDayStats)) (trade : Trade)
  : list (Z * CalendarDayStats) :=
  match getEffectiveDate trade with
  | None => dayMap
  | Some effectiveDate =>
      let dateKey := formatDateKey effectiveDate in
      let profit := orZero (pnlCurrency trade) in
      map_bump Z.eqb
        (mkCalendarDayStats dateKey (dayIndex effectiveDate * msPerDay)%Z
                            0 0 0 0)
        (fun dayStats =>
           mkCalendarDayStats
             (cd_dateKey dayStats) (cd_date dayStats)
             (cd_profit dayStats + profit)
             (S (cd_tradesCount dayStats))
             (if Qgtb profit 0 then S (cd_winCount dayStats)
              else cd_winCount dayStats)
             (if Qgtb profit 0 then cd_lossCount dayStats
              else if Qltb profit 0 then S (cd_lossCount dayStats)
              else cd_lossCount dayStats))
        dayMap dateKey
  end.

(** Bodies of the two tests of the loop over the days. *)
Definition pickBest (bestDay : option CalendarDayStats)
           (day : CalendarDayStats) : option CalendarDayStats :=
  match bestDay with
  | None => Some day
  | Some best => if Qgtb (cd_profit day) (cd_profit best) then Some day
                 else Some best
  end.

Definition pickWorst (worstDay : option CalendarDayStats)
           (day : CalendarDayStats) : option CalendarDayStats :=
  match worstDay with
  | None => Some day
  | Some worst => if Qltb (cd_profit day) (cd_profit worst) then Some day
                  else Some worst
  end.

Definition aggregateTrades (trades : list Trade) : TradingCalendarStats :=
  let dayMap := fold_left addTrade trades [] in
  let days :=
    sort (fun a b => inject_Z (cd_date a - cd_date b)) (map snd dayMap) in
  let totalTrades :=
    fold_left (fun sum day => (sum + cd_tradesCount day)%nat) days 0%nat in
  let totalProfit := fold_left (fun sum day => sum + cd_profit day) days 0 in
  let totalWins :=
    fold_left (fun sum day => (sum + cd_winCount day)%nat) days 0%nat in
  let totalLosses :=
    fold_left (fun sum day => (sum + cd_lossCount day)%nat) days 0%nat in
  let bestDay := fold_left pickBest days None in
  let worstDay := fold_left pickWorst days None in
  mkTradingCalendarStats days totalTrades totalProfit totalWins totalLosses
                         bestDay worstDay.

End Calendar.

(** * The tag analytics hook (features/analytics/useTagAnalytics) *)

Module TagAnalyticsHook.

Definition getEffectiveDate (trade : Trade) : option Date :=
  match normalizeTimestamp (closeTime trade) with
  | Some d => Some d
  | None =>
      match normalizeTimestamp (openTime trade) with
      | Some d => Some d
      | None => tradeDate trade
      end
  end.

Definition formatDateKey (date : Date) : Z := dayIndex date.

(** [date.setHours(23, 59, 59, 999)] *)
Definition endOfDay (date : Date) : Date :=
  (dayIndex date * msPerDay + (msPerDay - 1))%Z.

(** [now] is the value of [new Date()] when the function runs. *)
Definition filterTradesByDateRange (now : Date) (trades : list Trade)
           (days : nat) : list Trade :=
  let today := endOfDay now in
  (* setDate(getDate() - days), then setHours(0, 0, 0, 0) *)
  let startDate :=
    (dayIndex (today - Z.of_nat days * msPerDay) * msPerDay)%Z in
  let startDateStr := formatDateKey startDate in
  let endDateStr := formatDateKey today in
  filter (fun trade =>
            match getEffectiveDate trade with
            | None => false
            | Some effectiveDate =>
                let dateKey := formatDateKey effectiveDate in
                ((startDateStr <=? dateKey) && (dateKey <=? endDateStr))%Z
            end) trades.

(** What the hook returns once the trades are loaded. *)
Definition useTagAnalytics (now : Date) (trades : list Trade) (days : nat)
  : list TagAnalytics.TagStat :=
  let filteredTrades := filterTradesByDateRange now trades days in
  TagAnalytics.aggregateTagStats filteredTrades.

End TagAnalyticsHook.

(** * Risk timeline (features/dashboard/useRiskTimeline) *)

Module RiskTimeline.

Definition getEffectiveDate (trade : Trade) : option Date :=
  match normalizeTimestamp (closeTime trade) with
  | Some d => Some d
  | None =>
      match normalizeTimestamp (openTime trade) with
      | Some d => Some d
      | None => tradeDate trade
      end
  end.

Definition formatDateKey (date : Date) : Z := dayIndex date.

(** The points carry display labels, ["MMM dd"] of the day and
    ["MMM d"-"MMM d"] of the week; a label is modelled by the day, or the
    two days, it is formatted from. *)
Record DailyRiskPoint : Type := mkDailyRiskPoint {
  drp_date : Z;
  drp_pnlPercent : Q
}.

Record WeeklyRiskPoint : Type := mkWeeklyRiskPoint {
  wrp_weekLabel : Z * Z;
  wrp_pnlPercent : Q
}.

Record RiskTimelineData : Type := mkRiskTimelineData {
  daily : list DailyRiskPoint;
  weekly : list WeeklyRiskPoint
}.

Definition addToDay (m : list (Z * Q)) (trade : Trade) : list (Z * Q) :=
  match getEffectiveDate trade with
  | None => m
  | Some effectiveDate =>
      let dateKey := formatDateKey effectiveDate in
      let current := orZero (map_get Z.eqb m dateKey) in
      map_set Z.eqb m dateKey (current + orZero (pnlCurrency trade))
  end.

(** [eachDayOfInterval] of date-fns: the midnights of the days from that
    of [start] to that of [end], both included.  (It throws when [start]
    is after [end]; the caller's interval runs from [days] days ago to
    today.) *)
Definition eachDayOfInterval (start end_ : Date) : list Date :=
  map (fun i => ((dayIndex start + Z.of_nat i) * msPerDay)%Z)
      (seq 0 (Z.to_nat (dayIndex end_ - dayIndex start + 1))).

Definition sumWhere (keep : Z -> bool) (m : list (Z * Q)) : Q :=
  fold_left (fun acc e => if keep (fst e) then acc + snd e else acc) m 0.

Definition DEFAULT_BASE_BALANCE : Q := 10000.

(** Body of [dateRange.forEach]. *)
Definition dailyPoint (allDailyPnlMap : list (Z * Q)) (date : Date)
  : DailyRiskPoint :=
  let dateKey := formatDateKey date in
  let dayPnL := orZero (map_get Z.eqb allDailyPnlMap dateKey) in
  let cumulativePnLBefore :=
    sumWhere (fun key => key <? dateKey)%Z allDailyPnlMap in
  let baseBalance :=
    if Qgtb cumulativePnLBefore 0 then cumulativePnLBefore
    else DEFAULT_BASE_BALANCE in
  let pnlPercent :=
    if Qgtb baseBalance 0 then dayPnL / baseBalance * 100 else 0 in
  mkDailyRiskPoint (dayIndex date) pnlPercent.

(** The interval pushed by one turn of the loop: the week that starts at
    [currentWeek], cut at [today]. *)
Definition weekIntervalOf (today currentWeek : Date) : Date * Date :=
  let weekEndDate := (currentWeek + 6 * msPerDay)%Z in
  (currentWeek, if (weekEndDate >? today)%Z then today else weekEndDate).

(** The [while (currentWeek <= currentWeekStart)] loop; each turn moves
    [currentWeek] seven days on. *)
Function weekIntervalsFrom (today currentWeekStart currentWeek : Date)
         {measure (fun c => Z.to_nat (currentWeekStart - c + 1)) currentWeek}
  : list (Date * Date) :=
  if (currentWeek <=? currentWeekStart)%Z
  then
    weekIntervalOf today currentWeek
      :: weekIntervalsFrom today currentWeekStart (currentWeek + 7 * msPerDay)%Z
  else [].
Proof.
  intros today currentWeekStart currentWeek H.
  apply Z.leb_le in H. unfold msPerDay. lia.
Defined.

(** Body of [weekIntervals.forEach]. *)
Definition weeklyPoint (today : Date) (allDailyPnlMap : list (Z * Q))
           (weekInterval : Date * Date) : WeeklyRiskPoint :=
  let (start, end_) := weekInterval in
  let weekStartKey := formatDateKey start in
  let weekEndKey :=
    formatDateKey (if (end_ >? today)%Z then today else end_) in
  let weekPnL :=
    sumWhere (fun dateKey => (weekStartKey <=? dateKey)
                             && (dateKey <=? weekEndKey))%Z allDailyPnlMap in
  let cumulativePnLBefore :=
    sumWhere (fun dateKey => dateKey <? weekStartKey)%Z allDailyPnlMap in
  let baseBalance :=
    if Qgtb cumulativePnLBefore 0 then cumulativePnLBefore
    else DEFAULT_BASE_BALANCE in
  let pnlPercent :=
    if Qgtb baseBalance 0 then weekPnL / baseBalance * 100 else 0 in
  mkWeeklyRiskPoint (dayIndex start, dayIndex end_) pnlPercent.

(** [now] is the value of [new Date()] when the function runs. *)
Definition calculateRiskTimeline (now : Date) (trades : list Trade)
           (days weeks : nat) : RiskTimelineData :=
  let today := (dayIndex now * msPerDay + (msPerDay - 1))%Z in
  let startDate :=
    (dayIndex (today - Z.of_nat days * msPerDay) * msPerDay)%Z in
  let allDailyPnlMap := fold_left addToDay trades [] in
  let dateRange := eachDayOfInterval startDate today in
  let dailyPoints := map (dailyPoint allDailyPnlMap) dateRange in
  let weekStart :=
    Dashboard.startOfWeek
      (today - (Z.of_nat weeks - 1) * (7 * msPerDay))%Z 1 in
  let currentWeekStart := Dashboard.startOfWeek today 1 in
  let weekIntervals := weekIntervalsFrom today currentWeekStart weekStart in
  let weeklyPoints := map (weeklyPoint today allDailyPnlMap) weekIntervals in
  mkRiskTimelineData dailyPoints weeklyPoints.

End RiskTimeline.

(** * MT5 import (lib/mt5Import, lib/mt5ImportMapper) *)

Module Mt5Import.


Inductive Side : Type := buy | sell.






End Mt5Import.

(** * Trade calculations (lib/tradeCalculations) *)

(** Arithmetic on JavaScript numbers.  Zero carries no sign here: a
    division by zero has the sign of its numerator. *)

Definition num_neg (x : number) : number :=
  match x with
  | Num a => Num (- a)
  | PosInfinity => NegInfinity
  | NegInfinity => PosInfinity
  | NaN => NaN
  end.

Definition num_sub (x y : number) : number := num_add x (num_neg y).

(** [Math.abs] *)
Definition num_abs (x : number) : number :=
  match x with
  | Num a => Num (Qabs a)
  | NaN => NaN
  | _ => PosInfinity
  end.

(** An infinity of the sign of [a * s], for [s] the sign of the infinity
    ([true]: positive); [NaN] for [a = 0]. *)
Definition scaledInfinity (a : Q) (positive : bool) : number :=
  if Qeqb a 0 then NaN
  else if Bool.eqb (Qgtb a 0) positive then PosInfinity else NegInfinity.

Definition num_mul (x y : number) : number :=
  match x, y with
  | NaN, _ | _, NaN => NaN
  | Num a, Num b => Num (a * b)
  | Num a, PosInfinity | PosInfinity, Num a => scaledInfinity a true
  | Num a, NegInfinity | NegInfinity, Num a => scaledInfinity a false
  | PosInfinity, PosInfinity | NegInfinity, NegInfinity => PosInfinity
  | PosInfinity, NegInfinity | NegInfinity, PosInfinity => NegInfinity
  end.

Definition num_div (x y : number) : number :=
  match x, y with
  | NaN, _ | _, NaN => NaN
  | Num a, Num b =>
      if Qeqb b 0 then scaledInfinity a true else Num (a / b)
  | Num _, (PosInfinity | NegInfinity) => Num 0
  | PosInfinity, Num b => if Qltb b 0 then NegInfinity else PosInfinity
  | NegInfinity, Num b => if Qltb b 0 then PosInfinity else NegInfinity
  | _, _ => NaN
  end.

(** [x > y] and [x < y]: false when either side is [NaN]. *)
Definition num_gtb (x y : number) : bool :=
  match x, y with
  | NaN, _ | _, NaN => false
  | Num a, Num b => Qgtb a b
  | PosInfinity, PosInfinity => false
  | PosInfinity, _ => true
  | _, NegInfinity => match x with NegInfinity => false | _ => true end
  | _, _ => false
  end.

Definition num_ltb (x y : number) : bool := num_gtb y x.

(** [Math.max(0, x)] *)
Definition num_max0 (x : number) : number :=
  match x with
  | NaN => NaN
  | Num a => Num (Qmax 0 a)
  | PosInfinity => PosInfinity
  | NegInfinity => Num 0
  end.

(** [x === 0] *)
Definition num_is_zero (x : number) : bool :=
  match x with
  | Num a => Qeqb a 0
  | _ => false
  end.

(** Truthiness of an optional number: [undefined], [null], [0] and
    [NaN] are falsy. *)
Definition truthy (x : option number) : bool :=
  match x with
  | Some (Num a) => negb (Qeqb a 0)
  | Some NaN | None => false
  | Some _ => true
  end.

Module TradeCalculations.

Inductive Side : Type := long | short.

Inductive TradeResult : Type := win | loss | breakeven | open.

Record TradeCalcInput : Type := mkTradeCalcInput {
  side : Side;
  entryPrice : number;
  stopLossPrice : number;
  exitPrice : option number;
  tp1Price : option number;
  tp2Price : option number;
  tp3Price : option number;
  sizeLots : number;
  tickValue : option number;
  tickSize : option number
}.

Record Metrics : Type := mkMetrics {
  slPoints : number;
  tp1Points : option number;
  tp2Points : option number;
  tp3Points : option number;
  pnlPoints : option number;
  pnlAmount : option number;
  rMultiple : option number;
  riskAmount : number;
  result : TradeResult
}.

Definition calculateSlPoints (side : Side) (entryPrice stopLossPrice : number)
  : number :=
  match side with
  | long => num_abs (num_sub entryPrice stopLossPrice)
  | short => num_abs (num_sub stopLossPrice entryPrice)
  end.

Definition calculateTpPoints (side : Side) (entryPrice tpPrice : number)
  : number :=
  match side with
  | long => num_max0 (num_sub tpPrice entryPrice)
  | short => num_max0 (num_sub entryPrice tpPrice)
  end.

Definition calculatePnlPoints (side : Side) (entryPrice exitPrice : number)
  : number :=
  match side with
  | long => num_sub exitPrice entryPrice
  | short => num_sub entryPrice exitPrice
  end.

(** Default parameter values: [tickValue = 1], [tickSize = 0.01]. *)
Definition orDefault (v : option number) (d : Q) : number :=
  match v with
  | Some x => x
  | None => Num d
  end.

Definition calculateRiskAmount (slPoints sizeLots : number)
           (tickValue tickSize : option number) : number :=
  let tickValue := orDefault tickValue 1 in
  let tickSize := orDefault tickSize (1 # 100) in
  let numberOfTicks := num_div slPoints tickSize in
  num_mul (num_mul numberOfTicks tickValue) sizeLots.

Definition calculatePnlAmount (pnlPoints sizeLots : number)
           (tickValue tickSize : option number) : number :=
  let tickValue := orDefault tickValue 1 in
  let tickSize := orDefault tickSize (1 # 100) in
  let numberOfTicks := num_div pnlPoints tickSize in
  num_mul (num_mul numberOfTicks tickValue) sizeLots.

Definition calculateRMultiple (pnlAmount riskAmount : number) : number :=
  if num_is_zero riskAmount then Num 0 else num_div pnlAmount riskAmount.

Definition calculatePnlPercent (pnlAmount accountEquity : number) : number :=
  if num_is_zero accountEquity then Num 0
  else num_mul (num_div pnlAmount accountEquity) (Num 100).

Definition calculateTradeResult (pnlPoints : number) : TradeResult :=
  if num_gtb pnlPoints (Num 0) then win
  else if num_ltb pnlPoints (Num 0) then loss
  else breakeven.

Definition tpPointsOf (input : TradeCalcInput) (tpPrice : option number)
  : option number :=
  if truthy tpPrice
  then match tpPrice with
       | Some p => Some (calculateTpPoints (side input) (entryPrice input) p)
       | None => None
       end
  else None.

Definition calculateAllMetrics (input : TradeCalcInput) : Metrics :=
  let slPoints :=
    calculateSlPoints (side input) (entryPrice input) (stopLossPrice input) in
  let tp1Points := tpPointsOf input (tp1Price input) in
  let tp2Points := tpPointsOf input (tp2Price input) in
  let tp3Points := tpPointsOf input (tp3Price input) in
  let riskAmount :=
    calculateRiskAmount slPoints (sizeLots input) (tickValue input)
                        (tickSize input) in
  match exitPrice input with
  | Some exit =>
      if truthy (exitPrice input)
      then
        let pnlPoints :=
          calculatePnlPoints (side input) (entryPrice input) exit in
        let pnlAmount :=
          calculatePnlAmount pnlPoints (sizeLots input) (tickValue input)
                             (tickSize input) in
        let rMultiple := calculateRMultiple pnlAmount riskAmount in
        let result := calculateTradeResult pnlPoints in
        mkMetrics slPoints tp1Points tp2Points tp3Points (Some pnlPoints)
                  (Some pnlAmount) (Some rMultiple) riskAmount result
      else mkMetrics slPoints tp1Points tp2Points tp3Points None None None
                     riskAmount open
  | None => mkMetrics slPoints tp1Points tp2Points tp3Points None None None
                      riskAmount open
  end.

End TradeCalculations.

(** ** Compass Score of a period (features/analytics/timeAnalytics.ts)

    The score of the period summary, computed from the daily statistics
    through [calculateKpis]. *)

Module PeriodCompass.

Inductive Level : Type := Weak | Developing | Solid | Strong | Elite.

Record Breakdown : Type := mkBreakdown {
  performance : Q;
  consistency : Q;
  risk : Q;
  discipline : Q
}.

Record CompassScore : Type := mkCompassScore {
  score : Q;
  level : Level;
  breakdown : Breakdown;
  strengths : list string;
  weaknesses : list string
}.

(** The profit-factor part of the performance score. *)
Definition profitFactorPart (profitFactor : option Q) : Q :=
  match profitFactor with
  | Some pf =>
      if Qleb pf 0.8 then 20
      else if Qleb pf 1 then 40
      else if Qleb pf 1.5 then 65
      else if Qleb pf 2 then 80
      else if Qgeb pf 3 then 95
      else 80 + ((pf - 2) / 1) * 15
  | None => 0
  end.

(** [avgRScore] *)
Definition avgRScore (avgR : option Q) : Q :=
  match avgR with
  | Some r =>
      let clampedR := Qmax (-0.5) (Qmin 3 r) in
      if Qleb clampedR 0 then 40 + (clampedR / 0.5) * 40
      else if Qleb clampedR 1 then 40 + (clampedR / 1) * 20
      else if Qleb clampedR 2 then 60 + ((clampedR - 1) / 1) * 20
      else 80 + ((clampedR - 2) / 1) * 15
  | None => 0
  end.

Definition performanceScore (kpis : DailyKpis.KpiMetrics) : Q :=
  let performanceScore :=
    profitFactorPart (DailyKpis.km_profitFactor kpis) * 0.6
    + avgRScore (DailyKpis.km_avgR kpis) * 0.4 in
  Qmax 0 (Qmin 100 performanceScore).

Definition daysTradedRatio (dailyStats : list DailyKpis.DailyStat)
           (kpis : DailyKpis.KpiMetrics) : Q :=
  let totalDaysInRange := List.length dailyStats in
  if (0 <? totalDaysInRange)%nat
  then Q_of_nat (DailyKpis.km_daysTraded kpis) / Q_of_nat totalDaysInRange
  else 0.

Definition winningDays (dailyStats : list DailyKpis.DailyStat)
  : list DailyKpis.DailyStat :=
  filter (fun stat => Qgtb (DailyKpis.netPnlCurrency stat) 0) dailyStats.

Definition losingDays (dailyStats : list DailyKpis.DailyStat)
  : list DailyKpis.DailyStat :=
  filter (fun stat => Qltb (DailyKpis.netPnlCurrency stat) 0) dailyStats.

Definition avgWinningDay (dailyStats : list DailyKpis.DailyStat) : Q :=
  if (0 <? List.length (winningDays dailyStats))%nat
  then fold_left (fun sum stat => sum + DailyKpis.netPnlCurrency stat)
                 (winningDays dailyStats) 0
       / Q_of_nat (List.length (winningDays dailyStats))
  else 0.

Definition avgLosingDay (dailyStats : list DailyKpis.DailyStat) : Q :=
  if (0 <? List.length (losingDays dailyStats))%nat
  then Qabs (fold_left (fun sum stat => sum + DailyKpis.netPnlCurrency stat)
                       (losingDays dailyStats) 0
             / Q_of_nat (List.length (losingDays dailyStats)))
  else 0.

Definition riskScore (dailyStats : list DailyKpis.DailyStat) : Q :=
  let avgWinningDay := avgWinningDay dailyStats in
  let avgLosingDay := avgLosingDay dailyStats in
  if Qgtb avgLosingDay 0 && Qgtb avgWinningDay 0
  then
    let ratio := avgLosingDay / avgWinningDay in
    if Qleb ratio 1 then 90
    else if Qleb ratio 2 then 70
    else if Qleb ratio 3 then 40
    else 20
  else if Qgtb avgLosingDay 0 then 20
  else 80.

Definition disciplineScore (dailyStats : list DailyKpis.DailyStat)
           (kpis : DailyKpis.KpiMetrics) : Q :=
  let winRate := DailyKpis.km_winRate kpis in
  let profitFactor := orZero (DailyKpis.km_profitFactor kpis) in
  let disciplineScore :=
    if Qgeb winRate 45 && Qleb winRate 60 && Qgtb profitFactor 1.3 then 80
    else if Qgeb winRate 40 && Qltb winRate 45 && Qgtb profitFactor 1.2
         then 65
    else if Qltb winRate 40 || Qltb profitFactor 1 then 30
    else 50 in
  let losingDays := losingDays dailyStats in
  let veryLargeLossDays :=
    filter (fun stat => Qgtb (Qabs (DailyKpis.netPnlCurrency stat))
                             (avgLosingDay dailyStats * 2))
           losingDays in
  let disciplineScore :=
    if Qgtb (Q_of_nat (List.length veryLargeLossDays))
            (Q_of_nat (List.length losingDays) * 0.3)
    then disciplineScore * 0.7
    else disciplineScore in
  Qmax 0 (Qmin 100 disciplineScore).

Definition levelOf (finalScore : Q) : Level :=
  if Qltb finalScore 40 then Weak
  else if Qltb finalScore 60 then Developing
  else if Qltb finalScore 75 then Solid
  else if Qltb finalScore 90 then Strong
  else Elite.

(** The two arrays [strengths] and [weaknesses] and their [push]. *)
Definition pushStrength (sw : list string * list string) (s : string)
  : list string * list string := (fst sw ++ [s], snd sw).

Definition pushWeakness (sw : list string * list string) (s : string)
  : list string * list string := (fst sw, snd sw ++ [s]).

Definition insights (dailyStats : list DailyKpis.DailyStat)
           (kpis : DailyKpis.KpiMetrics) : list string * list string :=
  let winRate := DailyKpis.km_winRate kpis in
  let avgWinningDay := avgWinningDay dailyStats in
  let avgLosingDay := avgLosingDay dailyStats in
  let daysTradedRatio := daysTradedRatio dailyStats kpis in
  let sw : list string * list string := ([], []) in
  let sw :=
    if Qgeb winRate 50
    then pushStrength sw "Good accuracy (solid win rate)."
    else if Qltb winRate 40
         then pushWeakness sw "Low win rate with many losing days."
    else sw in
  let sw :=
    match DailyKpis.km_profitFactor kpis with
    | Some pf =>
        if Qgtb pf 1.5 then pushStrength sw "Strong profit factor."
        else if Qleb pf 1.1
             then pushWeakness sw "Profit factor close to 1.0 (break-even)."
        else sw
    | None => sw
    end in
  let sw :=
    if Qgtb avgLosingDay 0 && Qgtb avgWinningDay 0
       && Qleb avgLosingDay avgWinningDay
    then pushStrength sw "Losses are relatively small compared to wins."
    else if Qgtb avgLosingDay (avgWinningDay * 2)
         then pushWeakness
                sw "Average losing day is much larger than average winning day."
    else sw in
  let sw :=
    if Qgeb daysTradedRatio 0.7
    then pushStrength sw "Consistent trading activity."
    else if Qltb daysTradedRatio 0.3
         then pushWeakness
                sw "Highly inconsistent trading activity (few days traded in the range)."
    else sw in
  let sw :=
    match DailyKpis.km_avgR kpis with
    | Some r =>
        if Qgtb r 1.5 then pushStrength sw "Strong risk-reward ratio." else sw
    | None => sw
    end in
  let sw :=
    if (List.length (fst sw) =? 0)%nat
    then pushStrength sw "Building trading foundation."
    else sw in
  let sw :=
    if (List.length (snd sw) =? 0)%nat
    then pushWeakness sw "Continue monitoring performance metrics."
    else sw in
  (firstn 3 (fst sw), firstn 3 (snd sw)).

Section WithSqrt.

(** [Math.sqrt], a parameter as in the dashboard score. *)
Variable Math_sqrt : Q -> Q.

Definition consistencyScore (dailyStats : list DailyKpis.DailyStat)
           (kpis : DailyKpis.KpiMetrics) : Q :=
  let consistencyScore := daysTradedRatio dailyStats kpis * 100 in
  let pnlValues := map DailyKpis.netPnlCurrency dailyStats in
  let meanPnl :=
    fold_left (fun sum val => sum + val) pnlValues 0
    / Q_of_nat (List.length pnlValues) in
  let variance :=
    fold_left (fun sum val => sum + (val - meanPnl) ^ 2) pnlValues 0
    / Q_of_nat (List.length pnlValues) in
  let stdDev := Math_sqrt variance in
  let coefficientOfVariation :=
    if negb (Qeqb meanPnl 0) then stdDev / Qabs meanPnl else 0 in
  let consistencyScore :=
    if Qgtb coefficientOfVariation 2 then consistencyScore * 0.7
    else if Qgtb coefficientOfVariation 1 then consistencyScore * 0.85
    else consistencyScore in
  Qmax 0 (Qmin 100 consistencyScore).

Definition computeCompassScore (dailyStats : list DailyKpis.DailyStat)
  : CompassScore :=
  if (List.length dailyStats =? 0)%nat
  then mkCompassScore 0 Weak (mkBreakdown 0 0 0 0)
                      [] ["No trading data available."%string]
  else
    let kpis := DailyKpis.calculateKpis dailyStats in
    let performanceScore := performanceScore kpis in
    let consistencyScore := consistencyScore dailyStats kpis in
    let riskScore := riskScore dailyStats in
    let disciplineScore := disciplineScore dailyStats kpis in
    let overallScore :=
      performanceScore * 0.35 + consistencyScore * 0.25
      + riskScore * 0.25 + disciplineScore * 0.15 in
    let finalScore := Qmax 0 (Qmin 100 overallScore) in
    let '(strengths, weaknesses) := insights dailyStats kpis in
    mkCompassScore finalScore (levelOf finalScore)
                   (mkBreakdown performanceScore consistencyScore
                                riskScore disciplineScore)
                   strengths weaknesses.

End WithSqrt.

End PeriodCompass.

(** ** Playbook statistics (hooks/useRiskSettings.ts) *)

Module PlaybookStats.

(** [playbookId] is left out: the trade model does not carry it. *)
Record PlaybookStats : Type := mkPlaybookStats {
  tradesCount : nat;
  winCount : nat;
  lossCount : nat;
  breakevenCount : nat;
  winRate : Q;
  netPnlBase : Q;
  avgR : option Q;
  profitFactor : option Q
}.

(** The variables the [forEach] updates. *)
Record Acc : Type := mkAcc {
  a_winCount : nat;
  a_lossCount : nat;
  a_breakevenCount : nat;
  a_netPnlBase : Q;
  a_rMultiples : list Q;
  a_profits : list Q;
  a_losses : list Q
}.

Definition forEachTrade (acc : Acc) (trade : Trade) : Acc :=
  let netPnlBase := a_netPnlBase acc + orZero (pnlCurrency trade) in
  let acc :=
    match status trade with
    | win =>
        mkAcc (a_winCount acc + 1) (a_lossCount acc) (a_breakevenCount acc)
              netPnlBase (a_rMultiples acc)
              (match pnlCurrency trade with
               | Some p => if Qgtb p 0 then a_profits acc ++ [p]
                           else a_profits acc
               | None => a_profits acc
               end)
              (a_losses acc)
    | loss =>
        mkAcc (a_winCount acc) (a_lossCount acc + 1) (a_breakevenCount acc)
              netPnlBase (a_rMultiples acc) (a_profits acc)
              (match pnlCurrency trade with
               | Some p => if Qltb p 0 then a_losses acc ++ [Qabs p]
                           else a_losses acc
               | None => a_losses acc
               end)
    | be =>
        mkAcc (a_winCount acc) (a_lossCount acc) (a_breakevenCount acc + 1)
              netPnlBase (a_rMultiples acc) (a_profits acc) (a_losses acc)
    end in
  match rMultiple trade with
  | Some r =>
      mkAcc (a_winCount acc) (a_lossCount acc) (a_breakevenCount acc)
            (a_netPnlBase acc) (a_rMultiples acc ++ [r])
            (a_profits acc) (a_losses acc)
  | None => acc
  end.

Definition aggregatePlaybookStats (trades : list Trade) : PlaybookStats :=
  if (List.length trades =? 0)%nat
  then mkPlaybookStats 0 0 0 0 0 0 None None
  else
    let acc := fold_left forEachTrade trades (mkAcc 0 0 0 0 [] [] []) in
    let totalTrades :=
      (a_winCount acc + a_lossCount acc + a_breakevenCount acc)%nat in
    let winRate :=
      if (0 <? totalTrades)%nat
      then Q_of_nat (a_winCount acc) / Q_of_nat totalTrades * 100
      else 0 in
    let avgR :=
      if (0 <? List.length (a_rMultiples acc))%nat
      then Some (fold_left (fun a b => a + b) (a_rMultiples acc) 0
                 / Q_of_nat (List.length (a_rMultiples acc)))
      else None in
    let grossProfit := fold_left (fun a b => a + b) (a_profits acc) 0 in
    let grossLoss := fold_left (fun a b => a + b) (a_losses acc) 0 in
    let profitFactor :=
      if Qgtb grossLoss 0 then Some (grossProfit / grossLoss)
      else if Qgtb grossProfit 0 then None else None in
    mkPlaybookStats (List.length trades) (a_winCount acc) (a_lossCount acc)
                    (a_breakevenCount acc) winRate (a_netPnlBase acc)
                    avgR profitFactor.

End PlaybookStats.

(** ** Month navigation of the calendar page (pages/TradingCalendarPage) *)

Module CalendarPage.

(** The two state variables [currentYear] and [currentMonth]. *)
Record MonthState : Type := mkMonthState {
  currentYear : Z;
  currentMonth : Z
}.

Definition handlePreviousMonth (st : MonthState) : MonthState :=
  if (currentMonth st =? 0)%Z
  then mkMonthState (currentYear st - 1)%Z 11%Z
  else mkMonthState (currentYear st) (currentMonth st - 1)%Z.

Definition handleNextMonth (st : MonthState) : MonthState :=
  if (currentMonth st =? 11)%Z
  then mkMonthState (currentYear st + 1)%Z 0%Z
  else mkMonthState (currentYear st) (currentMonth st + 1)%Z.

End CalendarPage.

(** * Reference definitions for the further properties *)

(** Gross profit and gross loss of a list of trades: the sum of the
    positive P&L and the sum of the absolute values of the negative
    P&L. *)
Definition grossProfitOf (l : list Trade) : Q := totalPnl (filter isWin l).

Definition grossLossOf (l : list Trade) : Q :=
  sumQ (map (fun t => Qabs (pnlOf t)) (filter isLoss l)).

(** The R-multiples that are present, and their mean ([None] when there
    is none). *)
Definition rValues (l : list Trade) : list Q :=
  flat_map (fun t => match rMultiple t with
                     | Some r => [r]
                     | None => []
                     end) l.

Definition meanR (l : list Trade) : option Q :=
  match rValues l with
  | [] => None
  | rs => Some (sumQ rs / Q_of_nat (List.length rs))
  end.

(** Equality of nullable numbers, up to [==]. *)
Definition optQeq (a b : option Q) : Prop :=
  match a, b with
  | Some x, Some y => x == y
  | None, None => True
  | _, _ => False
  end.

(** Wins over wins plus losses, 0 when there is neither. *)
Definition winRatio (wins losses : nat) : Q :=
  if (0 <? wins + losses)%nat
  then Q_of_nat wins / Q_of_nat (wins + losses)
  else 0.

Module MoreSamples.

(** The row the tag analytics produce for tag a of [Samples.journal]. *)
Definition tagStatA : TagAnalytics.TagStat :=
  TagAnalytics.mkTagStat "a" 2 1 1 0 (1 # 2) 50 (Some (1 # 2))
                         (Some (100 # 50)).

(** Down 2.5 percent today and flat on the week. *)
Definition down_2_5 : Dashboard.RiskProgress :=
  Dashboard.mkRiskProgress (-(5 # 2)) 0 (-250) 0.

(** A flat day and week. *)
Definition flatProgress : Dashboard.RiskProgress :=
  Dashboard.mkRiskProgress 0 0 0 0.

(** Caps left at 0 with profit targets set. *)
Definition targetsOnly : RiskGuard.UserRiskSettings :=
  RiskGuard.mkUserRiskSettings 0 0 3 10.

(** The calendar row of 5 January 2024 (day 19727) for
    [Samples.journal]. *)
Definition january5 : Calendar.CalendarDayStats :=
  Calendar.mkCalendarDayStats 19727%Z 1704412800000%Z 50 2 1 1.

(** Noon of 5 January 2024, the day of the first two trades of
    [Samples.journal]. *)
Definition noon_jan5 : Date := 1704456000000%Z.





(** A long trade entered at 100 with the stop at 98, closed at 103, one
    lot, default tick value and size. *)
Definition longTrade : TradeCalculations.TradeCalcInput :=
  TradeCalculations.mkTradeCalcInput
    TradeCalculations.long (Num 100) (Num 98) (Some (Num 103))
    None None None (Num 1) None None.

(** A winning and a breakeven trade: no trade loses. *)
Definition winners : list Trade := [Samples.tagged_ab; Samples.flat].

End MoreSamples.

(** The key of the dashboard's per-symbol table: the symbol, unless it is
    empty ([if (!symbol) return]). *)
Definition symbolOf (t : Trade) : option string :=
  if String.eqb (symbol t) "" then None else Some (symbol t).

(** What the symbol loop does to a row for one trade. *)
Definition symbolUpdate (t : Trade) (stats : Dashboard.SymbolStats)
  : Dashboard.SymbolStats :=
  let profit := Dashboard.pnlOf t in
  Dashboard.mkSymbolStats
    (Dashboard.sy_symbol stats)
    (Dashboard.sy_totalProfit stats + profit)
    (S (Dashboard.sy_tradesCount stats))
    (if Qgtb profit 0 then S (Dashboard.sy_winCount stats)
     else Dashboard.sy_winCount stats)
    (if Qgtb profit 0 then Dashboard.sy_lossCount stats
     else if Qltb profit 0 then S (Dashboard.sy_lossCount stats)
     else Dashboard.sy_lossCount stats)
    (Dashboard.sy_winRate stats).

(** What the calendar loop does to a day's row for one trade. *)
Definition dayUpdate (t : Trade) (dayStats : Calendar.CalendarDayStats)
  : Calendar.CalendarDayStats :=
  let profit := orZero (pnlCurrency t) in
  Calendar.mkCalendarDayStats
    (Calendar.cd_dateKey dayStats) (Calendar.cd_date dayStats)
    (Calendar.cd_profit dayStats + profit)
    (S (Calendar.cd_tradesCount dayStats))
    (if Qgtb profit 0 then S (Calendar.cd_winCount dayStats)
     else Calendar.cd_winCount dayStats)
    (if Qgtb profit 0 then Calendar.cd_lossCount dayStats
     else if Qltb profit 0 then S (Calendar.cd_lossCount dayStats)
     else Calendar.cd_lossCount dayStats).

(** The row a day starts from. *)
Definition emptyDay (dateKey : Z) : Calendar.CalendarDayStats :=
  Calendar.mkCalendarDayStats dateKey (dateKey * msPerDay)%Z 0 0 0 0.

(** The trades that have an effective date. *)
Definition hasDay (t : Trade) : bool :=
  match dayOf t with
  | Some _ => true
  | None => false
  end.

Definition datedTrades (l : list Trade) : list Trade := filter hasDay l.

(** The status that goes with the sign of the P&L. *)
Definition statusOfPnl (t : Trade) : TradeStatus :=
  if isWin t then win else if isLoss t then loss else be.

(** The trades whose P&L the playbook statistics book as profit and as
    loss: stored status and sign of the P&L must agree. *)
Definition bookedWin (t : Trade) : bool :=
  TradesPage.hasStatus win t && isWin t.

Definition bookedLoss (t : Trade) : bool :=
  TradesPage.hasStatus loss t && isLoss t.

Definition bookedProfits (l : list Trade) : list Q :=
  map pnlOf (filter bookedWin l).

Definition bookedLosses (l : list Trade) : list Q :=
  map (fun t => Qabs (pnlOf t)) (filter bookedLoss l).

(** The month of a navigation state, counted from year 0. *)
Definition monthNumber (st : CalendarPage.MonthState) : Z :=
  (CalendarPage.currentYear st * 12 + CalendarPage.currentMonth st)%Z.

(** * Properties *)

(** ** Comparisons *)

Lemma Qltb_lt (a b : Q) : Qltb a b = true <-> a < b.
Proof.
  unfold Qltb. rewrite negb_true_iff, <- not_true_iff_false, Qle_bool_iff.
  split; [apply Qnot_le_lt | apply Qlt_not_le].
Qed.

Lemma Qltb_ge (a b : Q) : Qltb a b = false <-> b <= a.
Proof.
  unfold Qltb. rewrite negb_false_iff. apply Qle_bool_iff.
Qed.

Lemma Qgtb_gt (a b : Q) : Qgtb a b = true <-> b < a.
Proof. apply Qltb_lt. Qed.

Lemma Qgtb_le (a b : Q) : Qgtb a b = false <-> a <= b.
Proof. apply Qltb_ge. Qed.

Lemma Qleb_le (a b : Q) : Qleb a b = true <-> a <= b.
Proof. apply Qle_bool_iff. Qed.

Lemma Qleb_gt (a b : Q) : Qleb a b = false <-> b < a.
Proof.
  unfold Qleb. rewrite <- not_true_iff_false, Qle_bool_iff.
  split; [apply Qnot_le_lt | apply Qlt_not_le].
Qed.

Lemma Qgeb_ge (a b : Q) : Qgeb a b = true <-> b <= a.
Proof. apply Qle_bool_iff. Qed.

Lemma Qgeb_lt (a b : Q) : Qgeb a b = false <-> a < b.
Proof. apply Qleb_gt. Qed.

Lemma Qeqb_eq (a b : Q) : Qeqb a b = true <-> a == b.
Proof. apply Qeq_bool_iff. Qed.

Lemma Qeqb_neq (a b : Q) : Qeqb a b = false <-> ~ a == b.
Proof.
  unfold Qeqb. rewrite <- not_true_iff_false, Qeq_bool_iff. tauto.
Qed.

(** Turn every boolean comparison of the context into its proposition. *)
Ltac qprop :=
  repeat match goal with
    | H : Qltb _ _ = true |- _ => apply Qltb_lt in H
    | H : Qltb _ _ = false |- _ => apply Qltb_ge in H
    | H : Qgtb _ _ = true |- _ => apply Qgtb_gt in H
    | H : Qgtb _ _ = false |- _ => apply Qgtb_le in H
    | H : Qleb _ _ = true |- _ => apply Qleb_le in H
    | H : Qleb _ _ = false |- _ => apply Qleb_gt in H
    | H : Qgeb _ _ = true |- _ => apply Qgeb_ge in H
    | H : Qgeb _ _ = false |- _ => apply Qgeb_lt in H
    | H : Qeqb _ _ = true |- _ => apply Qeqb_eq in H
    | H : Qeqb _ _ = false |- _ => apply Qeqb_neq in H
    end.

(** Case analysis on the first comparison the goal branches on. *)
Ltac qcase :=
  match goal with
  | |- context [if ?b then _ else _] => destruct b eqn:?
  end; qprop.

(** ** Duration buckets *)

(** C8.  Duration bucketing uses the half-open intervals [0,5), [5,30),
    [30,120), [120,360), [360,1440) and [1440,oo) on the holding minutes,
    labelled 0-5m, 5-30m, 30m-120m, 2-6h, 6-24h and 24h+; a holding time
    of exactly 5 minutes is in 5-30m and one of exactly 120 minutes in
    2-6h. *)
Theorem duration_bucket_half_open :
  forall minutes : Q,
    let label := TimeAnalytics.bucketKeyString
                   (TimeAnalytics.classifyDurationBucket minutes) in
    (0 <= minutes /\ minutes < 5 -> label = "0-5m"%string) /\
    (5 <= minutes /\ minutes < 30 -> label = "5-30m"%string) /\
    (30 <= minutes /\ minutes < 120 -> label = "30m-120m"%string) /\
    (120 <= minutes /\ minutes < 360 -> label = "2-6h"%string) /\
    (360 <= minutes /\ minutes < 1440 -> label = "6-24h"%string) /\
    (1440 <= minutes -> label = "24h+"%string) /\
    TimeAnalytics.bucketKeyString (TimeAnalytics.classifyDurationBucket 5)
      = "5-30m"%string /\
    TimeAnalytics.bucketKeyString (TimeAnalytics.classifyDurationBucket 120)
      = "2-6h"%string.
Proof.
  intros minutes label. subst label.
  unfold TimeAnalytics.classifyDurationBucket.
  repeat split; try reflexivity; intros;
    repeat qcase; try reflexivity; exfalso; lra.
Qed.

Lemma duration_bucket_half_open_witness :
  TimeAnalytics.bucketKeyString
    (TimeAnalytics.classifyDurationBucket (inject_Z 29)) = "5-30m"%string.
Proof.
  destruct (duration_bucket_half_open (inject_Z 29)) as (_ & H & _).
  apply H. split; [apply Qle_bool_iff | apply Qltb_lt]; reflexivity.
Defined.

(** ** Profit-factor sub-score of the dashboard Compass Score *)

(** C3 (as amended).  For every finite profit factor the dashboard
    sub-score is 0 at or below 0, the constant 10 strictly between 0 and
    1, 30 + (pf - 1) * 60 on [1, 1.5), 60 + (pf - 1.5) * 40 on [1.5, 2),
    80 + (pf - 2) * 20 on [2, 3), and 100 from 3 on. *)
Theorem scoreProfitFactor_curve :
  forall pf : Q,
    let s := Dashboard.scoreProfitFactor (Num pf) in
    (pf <= 0 -> s = 0) /\
    (0 < pf /\ pf < 1 -> s = 10) /\
    (1 <= pf /\ pf < 3 # 2 -> s = 30 + (pf - 1) * 60) /\
    (3 # 2 <= pf /\ pf < 2 -> s = 60 + (pf - (3 # 2)) * 40) /\
    (2 <= pf /\ pf < 3 -> s = 80 + (pf - 2) * 20) /\
    (3 <= pf -> s = 100).
Proof.
  intros pf s. subst s. unfold Dashboard.scoreProfitFactor.
  repeat split; intros; repeat qcase; try reflexivity; exfalso; lra.
Qed.

Lemma scoreProfitFactor_curve_witness :
  Dashboard.scoreProfitFactor (Num (5 # 2)) = 80 + ((5 # 2) - 2) * 20.
Proof.
  destruct (scoreProfitFactor_curve (5 # 2)) as (_ & _ & _ & _ & H & _).
  apply H. split; [apply Qle_bool_iff | apply Qltb_lt]; reflexivity.
Defined.

(** C3, the claim as worded, fails: at a profit factor of one half the
    worded curve gives 45, the code gives 10. *)
Lemma scoreProfitFactor_not_claimed_curve :
  ~ Dashboard.scoreProfitFactor (Num (1 # 2)) == Claimed.profitFactorScore (1 # 2).
Proof.
  intro H. vm_compute in H. discriminate H.
Qed.

Lemma scoreProfitFactor_not_finite (x : number) :
  isFinite x = false -> Dashboard.scoreProfitFactor x = 0.
Proof. destruct x; [discriminate | reflexivity ..]. Qed.

Lemma scoreProfitFactor_nonneg (x : number) : 0 <= Dashboard.scoreProfitFactor x.
Proof.
  destruct x as [pf | | |]; simpl; try lra.
  repeat qcase; lra.
Qed.

Lemma filter_none {A : Type} (f : A -> bool) (l : list A) :
  (forall x, In x l -> f x = false) -> filter f l = [].
Proof.
  induction l as [| x l IH]; intros H; simpl; [reflexivity |].
  rewrite (H x (or_introl eq_refl)). apply IH.
  intros y Hy. apply H. right. exact Hy.
Qed.

Lemma dashboard_no_loss_grossLossAbs (trades : list Trade) :
  (forall t, In t trades -> 0 <= Dashboard.pnlOf t) ->
  Dashboard.grossLossAbs trades = 0.
Proof.
  intros H. unfold Dashboard.grossLossAbs.
  rewrite filter_none; [reflexivity |].
  intros v Hv. apply in_map_iff in Hv. destruct Hv as (t & <- & Ht).
  apply Qltb_ge. apply H. exact Ht.
Qed.

(** C10.  In the dashboard Compass Score a gross loss of exactly zero
    makes the profit-factor metric value 0 (there is no null) and its
    sub-score 0; so an account with only winning and breakeven trades
    gets that sub-score, which is the least the curve takes. *)
Theorem dashboard_profit_factor_zero_gross_loss :
  forall (sqrt : Q -> Q) (now : Date) (trades : list Trade) (days : nat),
    let metric := Dashboard.cs_profitFactor
                    (Dashboard.compassScore
                       (Dashboard.aggregateTrades sqrt now trades days)) in
    (Dashboard.grossLossAbs trades == 0 ->
     Dashboard.value metric = 0 /\ Dashboard.score metric = 0) /\
    ((forall t, In t trades -> 0 <= Dashboard.pnlOf t) ->
     Dashboard.value metric = 0 /\ Dashboard.score metric = 0) /\
    (forall pf : number, 0 <= Dashboard.scoreProfitFactor pf).
Proof.
  intros sqrt now trades days metric.
  assert (Hzero : Dashboard.grossLossAbs trades == 0 ->
                  Dashboard.value metric = 0 /\ Dashboard.score metric = 0).
  { intros H. subst metric. simpl. unfold Dashboard.profitFactorOf.
    destruct (Qgtb (Dashboard.grossLossAbs trades) 0) eqn:E.
    - apply Qgtb_gt in E. exfalso. lra.
    - split; reflexivity. }
  split; [exact Hzero |]. split.
  - intros H. apply Hzero. rewrite dashboard_no_loss_grossLossAbs by exact H.
    reflexivity.
  - exact scoreProfitFactor_nonneg.
Qed.

Lemma dashboard_profit_factor_zero_gross_loss_witness :
  Dashboard.score
    (Dashboard.cs_profitFactor
       (Dashboard.compassScore
          (Dashboard.aggregateTrades (fun v => v) 0%Z
             [mkTrade "EURUSD" 1 TvMissing TvMissing None (Some 100) None win None;
              mkTrade "EURUSD" 1 TvMissing TvMissing None (Some 0) None be None]
             30))) = 0.
Proof.
  destruct (dashboard_profit_factor_zero_gross_loss (fun v => v) 0%Z
              [mkTrade "EURUSD" 1 TvMissing TvMissing None (Some 100) None win None;
               mkTrade "EURUSD" 1 TvMissing TvMissing None (Some 0) None be None]
              30)
    as (H & _ & _).
  apply H. reflexivity.
Defined.

(** ** Risk guard *)

Lemma lossAbs_nonneg (x : Q) : 0 <= RiskGuard.lossAbs x.
Proof.
  unfold RiskGuard.lossAbs. qcase; [apply Qabs_nonneg | lra].
Qed.

Lemma lossAbs_spec (x : Q) :
  (x < 0 -> RiskGuard.lossAbs x == - x) /\ (0 <= x -> RiskGuard.lossAbs x = 0).
Proof.
  unfold RiskGuard.lossAbs. split; intros H; qcase; try reflexivity; try lra.
  apply Qabs_neg. lra.
Qed.

(** The usage tests of the warning branches, in terms of the loss and the
    cap. *)
Lemma lossUsage_pos (l m : Q) :
  0 < m -> RiskGuard.lossUsage l m = l / m * 100.
Proof.
  intros H. unfold RiskGuard.lossUsage.
  destruct (Qgtb m 0) eqn:E; [reflexivity |].
  apply Qgtb_le in E. exfalso. lra.
Qed.

Lemma locked_test_iff (l m : Q) :
  Qgeb l m && Qgtb m 0 = true <-> 0 < m /\ m <= l.
Proof.
  rewrite andb_true_iff, Qgeb_ge, Qgtb_gt. tauto.
Qed.

Lemma warning_test_iff (l m : Q) :
  Qgeb (RiskGuard.lossUsage l m) 50 && Qltb (RiskGuard.lossUsage l m) 100
  && Qgtb m 0 = true
  <-> 0 < m /\ 50 <= l / m * 100 /\ l / m * 100 < 100.
Proof.
  rewrite !andb_true_iff, Qgtb_gt. split.
  - intros [[H1 H2] H3]. rewrite (lossUsage_pos l m H3) in H1, H2.
    qprop. tauto.
  - intros (H3 & H1 & H2). rewrite (lossUsage_pos l m H3).
    rewrite Qgeb_ge, Qltb_lt. tauto.
Qed.

Lemma evaluateRiskGuard_state (p : Dashboard.RiskProgress)
      (s : RiskGuard.UserRiskSettings) :
  let dailyLoss := RiskGuard.lossAbs (Dashboard.dailyPnlPercent p) in
  let weeklyLoss := RiskGuard.lossAbs (Dashboard.weeklyPnlPercent p) in
  let maxDaily := RiskGuard.maxDailyLossPercent s in
  let maxWeekly := RiskGuard.maxWeeklyLossPercent s in
  RiskGuard.state (RiskGuard.evaluateRiskGuard (Some p) (Some s)) =
  if Qgeb dailyLoss maxDaily && Qgtb maxDaily 0 then RiskGuard.daily_locked
  else if Qgeb weeklyLoss maxWeekly && Qgtb maxWeekly 0
  then RiskGuard.weekly_locked
  else if Qgeb (RiskGuard.lossUsage dailyLoss maxDaily) 50
          && Qltb (RiskGuard.lossUsage dailyLoss maxDaily) 100
          && Qgtb maxDaily 0
  then RiskGuard.daily_warning
  else if Qgeb (RiskGuard.lossUsage weeklyLoss maxWeekly) 50
          && Qltb (RiskGuard.lossUsage weeklyLoss maxWeekly) 100
          && Qgtb maxWeekly 0
  then RiskGuard.weekly_warning
  else RiskGuard.none.
Proof.
  intros. unfold RiskGuard.evaluateRiskGuard.
  fold dailyLoss weeklyLoss maxDaily maxWeekly.
  repeat match goal with
         | |- context [if ?b then _ else _] => destruct b
         end; reflexivity.
Qed.

(** C2 (as amended).  The evaluator tests daily-locked, weekly-locked,
    daily-warning, weekly-warning in that order and returns the first
    state whose condition holds, none otherwise; every condition
    includes that the cap is positive.  In particular, with a positive
    daily cap, a daily and a weekly loss that both reach their caps give
    daily-locked.  Without risk progress or settings the state is none. *)
Theorem risk_guard_priority :
  forall (p : Dashboard.RiskProgress) (s : RiskGuard.UserRiskSettings),
    let dailyLoss := RiskGuard.lossAbs (Dashboard.dailyPnlPercent p) in
    let weeklyLoss := RiskGuard.lossAbs (Dashboard.weeklyPnlPercent p) in
    let maxDaily := RiskGuard.maxDailyLossPercent s in
    let maxWeekly := RiskGuard.maxWeeklyLossPercent s in
    let dailyLocked := 0 < maxDaily /\ maxDaily <= dailyLoss in
    let weeklyLocked := 0 < maxWeekly /\ maxWeekly <= weeklyLoss in
    let dailyWarning :=
      0 < maxDaily /\ 50 <= dailyLoss / maxDaily * 100
      /\ dailyLoss / maxDaily * 100 < 100 in
    let weeklyWarning :=
      0 < maxWeekly /\ 50 <= weeklyLoss / maxWeekly * 100
      /\ weeklyLoss / maxWeekly * 100 < 100 in
    let st := RiskGuard.state
                (RiskGuard.evaluateRiskGuard (Some p) (Some s)) in
    (dailyLocked -> st = RiskGuard.daily_locked) /\
    (~ dailyLocked -> weeklyLocked -> st = RiskGuard.weekly_locked) /\
    (~ dailyLocked -> ~ weeklyLocked -> dailyWarning ->
     st = RiskGuard.daily_warning) /\
    (~ dailyLocked -> ~ weeklyLocked -> ~ dailyWarning -> weeklyWarning ->
     st = RiskGuard.weekly_warning) /\
    (~ dailyLocked -> ~ weeklyLocked -> ~ dailyWarning -> ~ weeklyWarning ->
     st = RiskGuard.none) /\
    (0 < maxDaily -> maxDaily <= dailyLoss -> maxWeekly <= weeklyLoss ->
     st = RiskGuard.daily_locked) /\
    RiskGuard.state (RiskGuard.evaluateRiskGuard None (Some s)) = RiskGuard.none /\
    RiskGuard.state (RiskGuard.evaluateRiskGuard (Some p) None) = RiskGuard.none.
Proof.
  intros p s dailyLoss weeklyLoss maxDaily maxWeekly
         dailyLocked weeklyLocked dailyWarning weeklyWarning st.
  subst st. rewrite evaluateRiskGuard_state.
  fold dailyLoss weeklyLoss maxDaily maxWeekly.
  pose proof (locked_test_iff dailyLoss maxDaily) as HDL.
  pose proof (locked_test_iff weeklyLoss maxWeekly) as HWL.
  pose proof (warning_test_iff dailyLoss maxDaily) as HDW.
  pose proof (warning_test_iff weeklyLoss maxWeekly) as HWW.
  subst dailyLocked weeklyLocked dailyWarning weeklyWarning.
  assert (Ht : true = true) by reflexivity.
  assert (Hf : false = true -> False) by discriminate.
  destruct (Qgeb dailyLoss maxDaily && Qgtb maxDaily 0);
    destruct (Qgeb weeklyLoss maxWeekly && Qgtb maxWeekly 0);
    destruct (Qgeb (RiskGuard.lossUsage dailyLoss maxDaily) 50
              && Qltb (RiskGuard.lossUsage dailyLoss maxDaily) 100
              && Qgtb maxDaily 0);
    destruct (Qgeb (RiskGuard.lossUsage weeklyLoss maxWeekly) 50
              && Qltb (RiskGuard.lossUsage weeklyLoss maxWeekly) 100
              && Qgtb maxWeekly 0);
    repeat split; intros; try reflexivity; exfalso; tauto.
Qed.

Lemma risk_guard_priority_witness :
  RiskGuard.state
    (RiskGuard.evaluateRiskGuard (Some Samples.down_5_12)
                                 (Some Samples.caps_4_10))
  = RiskGuard.daily_locked.
Proof.
  destruct (risk_guard_priority Samples.down_5_12 Samples.caps_4_10)
    as (_ & _ & _ & _ & _ & H & _).
  apply H.
  - reflexivity.
  - apply Qle_bool_iff. reflexivity.
  - apply Qle_bool_iff. reflexivity.
Defined.

(** C2, the final clause as worded, fails when the daily cap is 0: a
    3 percent daily loss reaches a cap of 0 and a 6 percent weekly loss
    exceeds a cap of 5, yet the state is weekly-locked. *)
Lemma risk_guard_zero_cap_not_daily_locked :
  RiskGuard.maxDailyLossPercent Samples.zeroDailyCap
    <= RiskGuard.lossAbs (Dashboard.dailyPnlPercent Samples.down_3_6) /\
  RiskGuard.maxWeeklyLossPercent Samples.zeroDailyCap
    <= RiskGuard.lossAbs (Dashboard.weeklyPnlPercent Samples.down_3_6) /\
  RiskGuard.state
    (RiskGuard.evaluateRiskGuard (Some Samples.down_3_6)
                                 (Some Samples.zeroDailyCap))
  = RiskGuard.weekly_locked /\
  RiskGuard.weekly_locked <> RiskGuard.daily_locked.
Proof.
  repeat split; try (apply Qle_bool_iff; reflexivity).
  discriminate.
Qed.

(** ** Insertion-ordered maps *)

Section MapFacts.
Context {K V : Type} (eqb : K -> K -> bool).
Hypothesis eqb_eq : forall a b, eqb a b = true <-> a = b.

Lemma eqb_refl_of (k : K) : eqb k k = true.
Proof. apply eqb_eq. reflexivity. Qed.

Lemma map_get_set (m : list (K * V)) (k k' : K) (v : V) :
  map_get eqb (map_set eqb m k' v) k
  = if eqb k k' then Some v else map_get eqb m k.
Proof.
  induction m as [| [k0 v0] m IH]; simpl.
  - reflexivity.
  - destruct (eqb k' k0) eqn:E0; simpl.
    + apply eqb_eq in E0. subst k0.
      destruct (eqb k k'); reflexivity.
    + destruct (eqb k k0) eqn:E1.
      * apply eqb_eq in E1. subst k0.
        destruct (eqb k k') eqn:E2; [| reflexivity].
        apply eqb_eq in E2. subst k'. rewrite eqb_refl_of in E0. discriminate.
      * exact IH.
Qed.

Lemma map_get_bump (init : V) (upd : V -> V) (m : list (K * V)) (k k' : K) :
  map_get eqb (map_bump eqb init upd m k') k
  = if eqb k k'
    then Some (upd (match map_get eqb m k' with Some s => s | None => init end))
    else map_get eqb m k.
Proof.
  unfold map_bump. destruct (map_get eqb m k'); apply map_get_set.
Qed.

Lemma map_get_In (m : list (K * V)) (k : K) (v : V) :
  map_get eqb m k = Some v -> In (k, v) m.
Proof.
  induction m as [| [k0 v0] m IH]; simpl; [discriminate |].
  destruct (eqb k k0) eqn:E.
  - apply eqb_eq in E. subst k0. intros [= ->]. left. reflexivity.
  - intros H. right. apply IH. exact H.
Qed.

Lemma map_get_notin (m : list (K * V)) (k : K) :
  ~ In k (map fst m) -> map_get eqb m k = None.
Proof.
  induction m as [| [k0 v0] m IH]; simpl; [reflexivity |].
  intros H. destruct (eqb k k0) eqn:E.
  - apply eqb_eq in E. subst k0. exfalso. apply H. left. reflexivity.
  - apply IH. intros Hin. apply H. right. exact Hin.
Qed.

Lemma In_map_get (m : list (K * V)) (k : K) (v : V) :
  NoDup (map fst m) -> In (k, v) m -> map_get eqb m k = Some v.
Proof.
  induction m as [| [k0 v0] m IH]; simpl; [contradiction |].
  intros Hnd [Heq | Hin].
  - injection Heq as -> ->. rewrite eqb_refl_of. reflexivity.
  - inversion Hnd as [| ? ? Hnotin Hnd']; subst.
    destruct (eqb k k0) eqn:E.
    + apply eqb_eq in E. subst k0. exfalso. apply Hnotin.
      apply (in_map fst) in Hin. exact Hin.
    + apply IH; assumption.
Qed.

Lemma map_set_keys (m : list (K * V)) (k : K) (v : V) :
  map fst (map_set eqb m k v)
  = if existsb (eqb k) (map fst m) then map fst m else map fst m ++ [k].
Proof.
  induction m as [| [k0 v0] m IH]; simpl; [reflexivity |].
  destruct (eqb k k0) eqn:E; simpl.
  - apply eqb_eq in E. subst k0. reflexivity.
  - rewrite IH. destruct (existsb (eqb k) (map fst m)); reflexivity.
Qed.

Lemma map_set_NoDup (m : list (K * V)) (k : K) (v : V) :
  NoDup (map fst m) -> NoDup (map fst (map_set eqb m k v)).
Proof.
  intros Hnd. rewrite map_set_keys.
  destruct (existsb (eqb k) (map fst m)) eqn:E; [exact Hnd |].
  apply NoDup_app; [exact Hnd | constructor; [intros [] | constructor] |].
  intros x Hx [<- | []].
  assert (existsb (eqb k) (map fst m) = true); [| congruence].
  apply existsb_exists. exists k. split; [exact Hx | apply eqb_refl_of].
Qed.

Lemma map_bump_NoDup (init : V) (upd : V -> V) (m : list (K * V)) (k : K) :
  NoDup (map fst m) -> NoDup (map fst (map_bump eqb init upd m k)).
Proof.
  intros H. unfold map_bump. destruct (map_get eqb m k); apply map_set_NoDup, H.
Qed.

(** *** Grouping a list into a map

    [groupFold] is the shape shared by the aggregations: each item is
    filed under its key, if it has one, and folded into that key's
    accumulator. *)

Context {T : Type} (key : T -> option K) (init : V) (upd : T -> V -> V).

Lemma group_get (l : list T) (m : list (K * V)) (k : K) :
  map_get eqb (fold_left (groupStep eqb key init upd) l m) k
  = match map_get eqb m k, bucket eqb key k l with
    | None, [] => None
    | o, sel =>
        Some (fold_left (fun a t => upd t a) sel
                        (match o with Some a => a | None => init end))
    end.
Proof.
  revert m. induction l as [| t l IH]; intros m; simpl.
  - destruct (map_get eqb m k); reflexivity.
  - rewrite IH. unfold bucket. simpl filter.
    replace (filedUnder eqb key k t)
      with (match key t with Some k' => eqb k k' | None => false end)
      by reflexivity.
    unfold groupStep.
    destruct (key t) as [k' |].
    + rewrite map_get_bump. destruct (eqb k k') eqn:E.
      * apply eqb_eq in E. subst k'. simpl.
        destruct (map_get eqb m k); reflexivity.
      * destruct (map_get eqb m k); reflexivity.
    + reflexivity.
Qed.

Lemma group_NoDup (l : list T) (m : list (K * V)) :
  NoDup (map fst m) ->
  NoDup (map fst (fold_left (groupStep eqb key init upd) l m)).
Proof.
  revert m. induction l as [| t l IH]; intros m H; simpl; [exact H |].
  apply IH. unfold groupStep.
  destruct (key t); [apply map_bump_NoDup |]; exact H.
Qed.

(** Every entry of the grouped map holds the fold of its own, non-empty,
    bucket. *)
Lemma group_entry (l : list T) (k : K) (a : V) :
  In (k, a) (fold_left (groupStep eqb key init upd) l []) ->
  bucket eqb key k l <> []
  /\ a = fold_left (fun a t => upd t a) (bucket eqb key k l) init.
Proof.
  intros Hin.
  apply In_map_get in Hin; [| apply group_NoDup; constructor].
  rewrite group_get in Hin. simpl in Hin.
  destruct (bucket eqb key k l) as [| t sel]; [discriminate |].
  injection Hin as <-. split; [discriminate | reflexivity].
Qed.

(** Every non-empty bucket has its entry. *)
Lemma group_entry_exists (l : list T) (k : K) :
  bucket eqb key k l <> [] ->
  In (k, fold_left (fun a t => upd t a) (bucket eqb key k l) init)
     (fold_left (groupStep eqb key init upd) l []).
Proof.
  intros Hne. apply map_get_In. rewrite group_get. simpl.
  destruct (bucket eqb key k l); [contradiction | reflexivity].
Qed.

End MapFacts.

(** ** Sums, counts and sorting *)

Lemma fold_Qplus (l : list Q) (a : Q) : fold_left Qplus l a == a + sumQ l.
Proof.
  unfold sumQ. revert a. induction l as [| x l IH]; intros a; simpl.
  - ring.
  - rewrite (IH (a + x)), (IH (0 + x)). ring.
Qed.

Lemma sumQ_cons (x : Q) (l : list Q) : sumQ (x :: l) == x + sumQ l.
Proof.
  unfold sumQ at 1. simpl. rewrite fold_Qplus. ring.
Qed.

Lemma sumQ_app (l1 l2 : list Q) : sumQ (l1 ++ l2) == sumQ l1 + sumQ l2.
Proof.
  induction l1 as [| x l1 IH]; simpl.
  - unfold sumQ at 2. simpl. ring.
  - rewrite !sumQ_cons, IH. ring.
Qed.

Lemma totalPnl_cons (t : Trade) (l : list Trade) :
  totalPnl (t :: l) == pnlOf t + totalPnl l.
Proof. unfold totalPnl. simpl. apply sumQ_cons. Qed.

Lemma count_cons {A : Type} (f : A -> bool) (x : A) (l : list A) :
  count f (x :: l) = if f x then S (count f l) else count f l.
Proof. unfold count. simpl. destruct (f x); reflexivity. Qed.

(** A trade is exactly one of win, loss and breakeven. *)
Lemma outcome_exclusive (t : Trade) :
  (isWin t = true /\ isLoss t = false /\ isBE t = false) \/
  (isWin t = false /\ isLoss t = true /\ isBE t = false) \/
  (isWin t = false /\ isLoss t = false /\ isBE t = true).
Proof.
  unfold isWin, isLoss, isBE.
  destruct (Qgtb (pnlOf t) 0) eqn:E1; destruct (Qltb (pnlOf t) 0) eqn:E2;
    destruct (Qeqb (pnlOf t) 0) eqn:E3; qprop; try tauto; exfalso; lra.
Qed.

Lemma outcome_counts (l : list Trade) :
  (count isWin l + count isLoss l + count isBE l = List.length l)%nat.
Proof.
  induction l as [| t l IH]; [reflexivity |].
  rewrite !count_cons. simpl List.length.
  destruct (outcome_exclusive t) as [(-> & -> & ->) | [(-> & -> & ->) | (-> & -> & ->)]];
    lia.
Qed.

Section SortFacts.
Context {A : Type} (cmp : A -> A -> Q).

Lemma sort_insert_In (x y : A) (l : list A) :
  In y (sort_insert cmp x l) <-> y = x \/ In y l.
Proof.
  induction l as [| z l IH]; simpl.
  - split; [intros [<- | []]; left; reflexivity | intros [-> | []]; left; reflexivity].
  - destruct (Qleb (cmp x z) 0); simpl.
    + split; [intros [<- | H]; [left; reflexivity | right; exact H]
             | intros [-> | H]; [left; reflexivity | right; exact H]].
    + rewrite IH. split.
      * intros [<- | [-> | H]]; [right; left | left | right; right]; auto.
      * intros [-> | [<- | H]]; [right; left | left | right; right]; auto.
Qed.

Lemma sort_In (y : A) (l : list A) : In y (sort cmp l) <-> In y l.
Proof.
  induction l as [| x l IH]; simpl; [tauto |].
  rewrite sort_insert_In, IH. split; intros [H | H]; auto.
Qed.

End SortFacts.

(** ** Time analytics: what each bucket holds *)

Lemma TradingSession_eqb_eq (a b : TimeAnalytics.TradingSession) :
  TimeAnalytics.TradingSession_eqb a b = true <-> a = b.
Proof. destruct a, b; simpl; split; congruence. Qed.

Lemma DurationBucketKey_eqb_eq (a b : TimeAnalytics.DurationBucketKey) :
  TimeAnalytics.DurationBucketKey_eqb a b = true <-> a = b.
Proof. destruct a, b; simpl; split; congruence. Qed.

Lemma filter_filter_implied {A : Type} (f g : A -> bool) (l : list A) :
  (forall x, f x = true -> g x = true) -> filter f (filter g l) = filter f l.
Proof.
  intros H. induction l as [| x l IH]; simpl; [reflexivity |].
  destruct (g x) eqn:Eg; simpl.
  - rewrite IH. reflexivity.
  - destruct (f x) eqn:Ef; [| exact IH].
    apply H in Ef. congruence.
Qed.

Lemma time_update_fields (t : Trade) (a : TimeAnalytics.Acc) :
  let r := TimeAnalytics.tradeUpdate t a in
  TimeAnalytics.tradesCount r = S (TimeAnalytics.tradesCount a) /\
  TimeAnalytics.winsCount r
  = (if isWin t then S (TimeAnalytics.winsCount a)
     else TimeAnalytics.winsCount a) /\
  TimeAnalytics.lossesCount r
  = (if isLoss t then S (TimeAnalytics.lossesCount a)
     else TimeAnalytics.lossesCount a) /\
  TimeAnalytics.breakevenCount r
  = (if isBE t then S (TimeAnalytics.breakevenCount a)
     else TimeAnalytics.breakevenCount a) /\
  TimeAnalytics.netPnlCurrency r = TimeAnalytics.netPnlCurrency a + pnlOf t.
Proof.
  unfold TimeAnalytics.tradeUpdate, TimeAnalytics.accumulate.
  destruct (rMultiple t); simpl; repeat split; reflexivity.
Qed.

Lemma time_fold_fields (l : list Trade) (a : TimeAnalytics.Acc) :
  let r := fold_left (fun a t => TimeAnalytics.tradeUpdate t a) l a in
  TimeAnalytics.tradesCount r = (TimeAnalytics.tradesCount a + List.length l)%nat /\
  TimeAnalytics.winsCount r = (TimeAnalytics.winsCount a + count isWin l)%nat /\
  TimeAnalytics.lossesCount r = (TimeAnalytics.lossesCount a + count isLoss l)%nat /\
  TimeAnalytics.breakevenCount r
  = (TimeAnalytics.breakevenCount a + count isBE l)%nat /\
  TimeAnalytics.netPnlCurrency r == TimeAnalytics.netPnlCurrency a + totalPnl l.
Proof.
  revert a. induction l as [| t l IH]; intros a; simpl.
  - repeat split; try (unfold count; simpl; lia).
    unfold totalPnl, sumQ. simpl. ring.
  - destruct (IH (TimeAnalytics.tradeUpdate t a)) as (H1 & H2 & H3 & H4 & H5).
    destruct (time_update_fields t a) as (U1 & U2 & U3 & U4 & U5).
    rewrite H1, H2, H3, H4, H5, U1, U2, U3, U4, U5, !count_cons, totalPnl_cons.
    repeat split; try (destruct (isWin t), (isLoss t), (isBE t); lia).
    ring.
Qed.

(** The facts about one entry of a map grouped with [tradeUpdate]. *)
Lemma time_entry_fields {K : Type} (eqb : K -> K -> bool)
      (eqb_eq : forall a b, eqb a b = true <-> a = b)
      (key : Trade -> option K) (trades : list Trade) (k : K)
      (a : TimeAnalytics.Acc) :
  In (k, a) (fold_left (groupStep eqb key TimeAnalytics.emptyAcc
                                  TimeAnalytics.tradeUpdate) trades []) ->
  let b := bucket eqb key k trades in
  b <> [] /\
  TimeAnalytics.tradesCount a = List.length b /\
  TimeAnalytics.winsCount a = count isWin b /\
  TimeAnalytics.lossesCount a = count isLoss b /\
  TimeAnalytics.breakevenCount a = count isBE b /\
  TimeAnalytics.netPnlCurrency a == totalPnl b.
Proof.
  intros Hin b. apply (group_entry eqb eqb_eq) in Hin.
  destruct Hin as [Hne ->]. fold b in Hne |- *.
  destruct (time_fold_fields b TimeAnalytics.emptyAcc) as (H1 & H2 & H3 & H4 & H5).
  rewrite H1, H2, H3, H4, H5. simpl.
  repeat split; try reflexivity; try exact Hne. ring.
Qed.

Lemma weekdayMap_fold (l : list Trade) (maps : TimeAnalytics.Maps) :
  TimeAnalytics.weekdayMap (fold_left TimeAnalytics.processTrade l maps)
  = fold_left (groupStep Z.eqb weekdayOf TimeAnalytics.emptyAcc
                         TimeAnalytics.tradeUpdate)
              l (TimeAnalytics.weekdayMap maps).
Proof.
  revert maps. induction l as [| t l IH]; intros maps; simpl; [reflexivity |].
  rewrite IH. f_equal.
  unfold TimeAnalytics.processTrade, groupStep, weekdayOf.
  destruct (TimeAnalytics.getEffectiveOpenTime t),
    (TimeAnalytics.getEffectiveCloseTime t); reflexivity.
Qed.

Lemma sessionMap_fold (l : list Trade) (maps : TimeAnalytics.Maps) :
  TimeAnalytics.sessionMap (fold_left TimeAnalytics.processTrade l maps)
  = fold_left (groupStep TimeAnalytics.TradingSession_eqb sessionOf
                         TimeAnalytics.emptyAcc TimeAnalytics.tradeUpdate)
              l (TimeAnalytics.sessionMap maps).
Proof.
  revert maps. induction l as [| t l IH]; intros maps; simpl; [reflexivity |].
  rewrite IH. f_equal.
  unfold TimeAnalytics.processTrade, groupStep, sessionOf.
  destruct (TimeAnalytics.getEffectiveOpenTime t),
    (TimeAnalytics.getEffectiveCloseTime t); reflexivity.
Qed.

Lemma durationBucketMap_fold (l : list Trade) (maps : TimeAnalytics.Maps) :
  TimeAnalytics.durationBucketMap (fold_left TimeAnalytics.processTrade l maps)
  = fold_left (groupStep TimeAnalytics.DurationBucketKey_eqb durationOf
                         TimeAnalytics.emptyAcc TimeAnalytics.tradeUpdate)
              l (TimeAnalytics.durationBucketMap maps).
Proof.
  revert maps. induction l as [| t l IH]; intros maps; simpl; [reflexivity |].
  rewrite IH. f_equal.
  unfold TimeAnalytics.processTrade, groupStep, durationOf.
  destruct (TimeAnalytics.getEffectiveOpenTime t),
    (TimeAnalytics.getEffectiveCloseTime t); reflexivity.
Qed.

(** Filtering the valid trades first does not change a bucket: a bucket
    only holds valid trades. *)
Lemma bucket_validTrades {K : Type} (eqb : K -> K -> bool)
      (key : Trade -> option K) (k : K) (trades : list Trade) :
  (forall t, TimeAnalytics.isValidTrade t = false -> key t = None) ->
  bucket eqb key k (TimeAnalytics.validTrades trades) = bucket eqb key k trades.
Proof.
  intros H. unfold bucket, TimeAnalytics.validTrades.
  apply filter_filter_implied. intros t Ht.
  destruct (TimeAnalytics.isValidTrade t) eqn:E; [reflexivity |].
  unfold filedUnder in Ht. rewrite (H t E) in Ht. discriminate.
Qed.

Lemma invalid_no_key (t : Trade) :
  TimeAnalytics.isValidTrade t = false ->
  weekdayOf t = None /\ sessionOf t = None /\ durationOf t = None.
Proof.
  unfold TimeAnalytics.isValidTrade, weekdayOf, sessionOf, durationOf.
  destruct (TimeAnalytics.getEffectiveOpenTime t),
    (TimeAnalytics.getEffectiveCloseTime t); intros; try discriminate;
    repeat split; reflexivity.
Qed.

Lemma weekday_entry (trades : list Trade) (k : Z) (a : TimeAnalytics.Acc) :
  In (k, a) (TimeAnalytics.weekdayMap (TimeAnalytics.aggregateMaps trades)) ->
  let b := bucket Z.eqb weekdayOf k trades in
  b <> [] /\
  TimeAnalytics.tradesCount a = List.length b /\
  TimeAnalytics.winsCount a = count isWin b /\
  TimeAnalytics.lossesCount a = count isLoss b /\
  TimeAnalytics.breakevenCount a = count isBE b /\
  TimeAnalytics.netPnlCurrency a == totalPnl b.
Proof.
  unfold TimeAnalytics.aggregateMaps. rewrite weekdayMap_fold. simpl.
  intros H. apply (time_entry_fields Z.eqb Z.eqb_eq) in H.
  rewrite bucket_validTrades in H; [exact H |].
  intros t Ht. apply invalid_no_key, Ht.
Qed.

Lemma session_entry (trades : list Trade) (k : TimeAnalytics.TradingSession)
      (a : TimeAnalytics.Acc) :
  In (k, a) (TimeAnalytics.sessionMap (TimeAnalytics.aggregateMaps trades)) ->
  let b := bucket TimeAnalytics.TradingSession_eqb sessionOf k trades in
  b <> [] /\
  TimeAnalytics.tradesCount a = List.length b /\
  TimeAnalytics.winsCount a = count isWin b /\
  TimeAnalytics.lossesCount a = count isLoss b /\
  TimeAnalytics.breakevenCount a = count isBE b /\
  TimeAnalytics.netPnlCurrency a == totalPnl b.
Proof.
  unfold TimeAnalytics.aggregateMaps. rewrite sessionMap_fold. simpl.
  intros H.
  apply (time_entry_fields _ TradingSession_eqb_eq) in H.
  rewrite bucket_validTrades in H; [exact H |].
  intros t Ht. apply invalid_no_key, Ht.
Qed.

Lemma duration_entry (trades : list Trade) (k : TimeAnalytics.DurationBucketKey)
      (a : TimeAnalytics.Acc) :
  In (k, a) (TimeAnalytics.durationBucketMap (TimeAnalytics.aggregateMaps trades)) ->
  let b := bucket TimeAnalytics.DurationBucketKey_eqb durationOf k trades in
  b <> [] /\
  TimeAnalytics.tradesCount a = List.length b /\
  TimeAnalytics.winsCount a = count isWin b /\
  TimeAnalytics.lossesCount a = count isLoss b /\
  TimeAnalytics.breakevenCount a = count isBE b /\
  TimeAnalytics.netPnlCurrency a == totalPnl b.
Proof.
  unfold TimeAnalytics.aggregateMaps. rewrite durationBucketMap_fold. simpl.
  intros H.
  apply (time_entry_fields _ DurationBucketKey_eqb_eq) in H.
  rewrite bucket_validTrades in H; [exact H |].
  intros t Ht. apply invalid_no_key, Ht.
Qed.

Lemma weekday_stat (trades : list Trade) (s : TimeAnalytics.WeekdayStat) :
  In s (TimeAnalytics.weekdayStats (TimeAnalytics.aggregateTimeAnalytics trades)) ->
  let b := bucket Z.eqb weekdayOf (TimeAnalytics.wd_weekday s) trades in
  b <> [] /\
  TimeAnalytics.wd_tradesCount s = List.length b /\
  TimeAnalytics.wd_winsCount s = count isWin b /\
  TimeAnalytics.wd_lossesCount s = count isLoss b /\
  TimeAnalytics.wd_breakevenCount s = count isBE b /\
  TimeAnalytics.wd_netPnlCurrency s == totalPnl b.
Proof.
  simpl. rewrite sort_In, in_map_iff. intros ([k a] & <- & Hin).
  apply weekday_entry in Hin. exact Hin.
Qed.

Lemma session_stat (trades : list Trade) (s : TimeAnalytics.SessionStat) :
  In s (TimeAnalytics.sessionStats (TimeAnalytics.aggregateTimeAnalytics trades)) ->
  let b := bucket TimeAnalytics.TradingSession_eqb sessionOf
                  (TimeAnalytics.ss_session s) trades in
  b <> [] /\
  TimeAnalytics.ss_tradesCount s = List.length b /\
  TimeAnalytics.ss_winsCount s = count isWin b /\
  TimeAnalytics.ss_lossesCount s = count isLoss b /\
  TimeAnalytics.ss_breakevenCount s = count isBE b /\
  TimeAnalytics.ss_netPnlCurrency s == totalPnl b.
Proof.
  simpl. rewrite sort_In, in_map_iff. intros ([k a] & <- & Hin).
  apply session_entry in Hin. exact Hin.
Qed.

Lemma duration_stat (trades : list Trade) (s : TimeAnalytics.DurationBucketStat) :
  In s (TimeAnalytics.durationStats (TimeAnalytics.aggregateTimeAnalytics trades)) ->
  let b := bucket TimeAnalytics.DurationBucketKey_eqb durationOf
                  (TimeAnalytics.db_bucketKey s) trades in
  b <> [] /\
  TimeAnalytics.db_tradesCount s = List.length b /\
  TimeAnalytics.db_winsCount s = count isWin b /\
  TimeAnalytics.db_lossesCount s = count isLoss b /\
  TimeAnalytics.db_breakevenCount s = count isBE b /\
  TimeAnalytics.db_netPnlCurrency s == totalPnl b.
Proof.
  simpl. rewrite sort_In, in_map_iff. intros ([k a] & <- & Hin).
  apply duration_entry in Hin. exact Hin.
Qed.

(** ** Tag analytics: what each bucket holds *)

Lemma fold_left_map {A B C : Type} (f : A -> C -> A) (g : B -> C)
      (l : list B) (a : A) :
  fold_left f (map g l) a = fold_left (fun a x => f a (g x)) l a.
Proof.
  revert a. induction l as [| x l IH]; intros a; simpl; [reflexivity | apply IH].
Qed.

Lemma fold_left_flat_map {A B C : Type} (f : A -> C -> A) (g : B -> list C)
      (l : list B) (a : A) :
  fold_left f (flat_map g l) a = fold_left (fun a x => fold_left f (g x) a) l a.
Proof.
  revert a. induction l as [| x l IH]; intros a; simpl; [reflexivity |].
  rewrite fold_left_app. apply IH.
Qed.

Lemma fold_left_pointwise {A B : Type} (f g : A -> B -> A) (l : list B) (a : A) :
  (forall a x, f a x = g a x) -> fold_left f l a = fold_left g l a.
Proof.
  intros H. revert a. induction l as [| x l IH]; intros a; simpl; [reflexivity |].
  rewrite H. apply IH.
Qed.

Lemma taggings_hasTags (trades : list Trade) :
  taggings (filter TagAnalytics.hasTags trades) = taggings trades.
Proof.
  unfold taggings. induction trades as [| t l IH]; simpl; [reflexivity |].
  destruct (TagAnalytics.hasTags t) eqn:E; simpl.
  - rewrite IH. reflexivity.
  - rewrite IH. unfold TagAnalytics.hasTags in E. unfold TagAnalytics.tagsOf.
    destruct (tags t) as [[| tag ts] |]; try discriminate; reflexivity.
Qed.

Lemma buildTagMap_groups (trades : list Trade) :
  TagAnalytics.buildTagMap trades
  = fold_left (groupStep String.eqb (fun p : string * Trade => Some (fst p))
                         TagAnalytics.emptyAcc
                         (fun p => TagAnalytics.tradeUpdate (snd p)))
              (taggings trades) [].
Proof.
  unfold TagAnalytics.buildTagMap. rewrite <- taggings_hasTags.
  unfold taggings. rewrite fold_left_flat_map.
  apply fold_left_pointwise. intros m t.
  unfold TagAnalytics.processTrade. rewrite fold_left_map. reflexivity.
Qed.

Lemma tag_update_fields (t : Trade) (a : TagAnalytics.Acc) :
  let r := TagAnalytics.tradeUpdate t a in
  TagAnalytics.tradesCount r = S (TagAnalytics.tradesCount a) /\
  TagAnalytics.winsCount r
  = (if isWin t then S (TagAnalytics.winsCount a)
     else TagAnalytics.winsCount a) /\
  TagAnalytics.lossesCount r
  = (if isLoss t then S (TagAnalytics.lossesCount a)
     else TagAnalytics.lossesCount a) /\
  TagAnalytics.breakevenCount r
  = (if isBE t then S (TagAnalytics.breakevenCount a)
     else TagAnalytics.breakevenCount a) /\
  TagAnalytics.netPnlCurrency r = TagAnalytics.netPnlCurrency a + pnlOf t /\
  TagAnalytics.grossLossAbs r
  = (if isLoss t then TagAnalytics.grossLossAbs a + Qabs (pnlOf t)
     else TagAnalytics.grossLossAbs a).
Proof.
  unfold TagAnalytics.tradeUpdate, TagAnalytics.accumulate.
  destruct (rMultiple t); simpl; repeat split; reflexivity.
Qed.

Lemma tag_fold_fields (l : list Trade) (a : TagAnalytics.Acc) :
  let r := fold_left (fun a t => TagAnalytics.tradeUpdate t a) l a in
  TagAnalytics.tradesCount r = (TagAnalytics.tradesCount a + List.length l)%nat /\
  TagAnalytics.winsCount r = (TagAnalytics.winsCount a + count isWin l)%nat /\
  TagAnalytics.lossesCount r = (TagAnalytics.lossesCount a + count isLoss l)%nat /\
  TagAnalytics.breakevenCount r
  = (TagAnalytics.breakevenCount a + count isBE l)%nat /\
  TagAnalytics.netPnlCurrency r == TagAnalytics.netPnlCurrency a + totalPnl l /\
  (count isLoss l = 0%nat ->
   TagAnalytics.grossLossAbs r = TagAnalytics.grossLossAbs a).
Proof.
  revert a. induction l as [| t l IH]; intros a; simpl.
  - repeat split; try (unfold count; simpl; lia).
    unfold totalPnl, sumQ. simpl. ring.
  - destruct (IH (TagAnalytics.tradeUpdate t a)) as (H1 & H2 & H3 & H4 & H5 & H6).
    destruct (tag_update_fields t a) as (U1 & U2 & U3 & U4 & U5 & U6).
    rewrite H1, H2, H3, H4, H5, U1, U2, U3, U4, U5, !count_cons, totalPnl_cons.
    repeat split; try (destruct (isWin t), (isLoss t), (isBE t); lia).
    + ring.
    + intros Hc. destruct (isLoss t); [discriminate |].
      rewrite (H6 Hc). exact U6.
Qed.

Lemma tag_entry (trades : list Trade) (tag : string) (a : TagAnalytics.Acc) :
  In (tag, a) (TagAnalytics.buildTagMap trades) ->
  let b := taggedWith tag trades in
  b <> [] /\
  TagAnalytics.tradesCount a = List.length b /\
  TagAnalytics.winsCount a = count isWin b /\
  TagAnalytics.lossesCount a = count isLoss b /\
  TagAnalytics.breakevenCount a = count isBE b /\
  TagAnalytics.netPnlCurrency a == totalPnl b /\
  (count isLoss b = 0%nat -> TagAnalytics.grossLossAbs a = 0).
Proof.
  rewrite buildTagMap_groups. intros Hin b.
  apply (group_entry String.eqb String.eqb_eq) in Hin.
  destruct Hin as [Hne ->].
  rewrite <- (fold_left_map (fun a t => TagAnalytics.tradeUpdate t a) snd).
  fold (taggedWith tag trades). fold b.
  assert (Hb : b <> []).
  { subst b. unfold taggedWith. intros H. apply map_eq_nil in H. contradiction. }
  destruct (tag_fold_fields b TagAnalytics.emptyAcc)
    as (H1 & H2 & H3 & H4 & H5 & H6).
  rewrite H1, H2, H3, H4, H5. simpl.
  repeat split; try reflexivity; try exact Hb; [ring | exact H6].
Qed.

Lemma aggregateTagStats_In (trades : list Trade) (s : TagAnalytics.TagStat) :
  In s (TagAnalytics.aggregateTagStats trades)
  <-> In s (map TagAnalytics.toTagStat (TagAnalytics.buildTagMap trades)).
Proof.
  unfold TagAnalytics.aggregateTagStats.
  destruct (filter TagAnalytics.hasTags trades) as [| t l] eqn:E; simpl.
  - unfold TagAnalytics.buildTagMap. rewrite E. simpl. tauto.
  - apply sort_In.
Qed.

Lemma tag_stat (trades : list Trade) (s : TagAnalytics.TagStat) :
  In s (TagAnalytics.aggregateTagStats trades) ->
  let b := taggedWith (TagAnalytics.ts_tag s) trades in
  b <> [] /\
  TagAnalytics.ts_tradesCount s = List.length b /\
  TagAnalytics.ts_winsCount s = count isWin b /\
  TagAnalytics.ts_lossesCount s = count isLoss b /\
  TagAnalytics.ts_breakevenCount s = count isBE b /\
  TagAnalytics.ts_netPnlCurrency s == totalPnl b /\
  (count isLoss b = 0%nat -> TagAnalytics.ts_profitFactor s = None).
Proof.
  rewrite aggregateTagStats_In, in_map_iff. intros ([k a] & <- & Hin).
  apply tag_entry in Hin. simpl.
  destruct Hin as (H0 & H1 & H2 & H3 & H4 & H5 & H6).
  repeat split; try assumption.
  intros Hc. rewrite (H6 Hc). reflexivity.
Qed.

Section SortPermutation.
Context {A : Type} (cmp : A -> A -> Q).

Lemma sort_insert_perm (x : A) (l : list A) :
  Permutation (sort_insert cmp x l) (x :: l).
Proof.
  induction l as [| y l IH]; simpl; [apply Permutation_refl |].
  destruct (Qleb (cmp x y) 0); [apply Permutation_refl |].
  apply perm_trans with (y :: x :: l); [| apply perm_swap].
  apply perm_skip. exact IH.
Qed.

Lemma sort_perm (l : list A) : Permutation (sort cmp l) l.
Proof.
  induction l as [| x l IH]; simpl; [apply perm_nil |].
  apply perm_trans with (x :: sort cmp l); [apply sort_insert_perm |].
  apply perm_skip. exact IH.
Qed.

End SortPermutation.

Lemma count_none {A : Type} (f : A -> bool) (l : list A) :
  (forall x, In x l -> f x = false) -> count f l = 0%nat.
Proof.
  intros H. unfold count. rewrite filter_none by exact H. reflexivity.
Qed.

Lemma taggedWith_cons (tag : string) (t : Trade) (l : list Trade) :
  taggedWith tag (t :: l)
  = map snd (bucket String.eqb (fun p : string * Trade => Some (fst p)) tag
                    (map (fun tg => (tg, t)) (TagAnalytics.tagsOf t)))
    ++ taggedWith tag l.
Proof.
  unfold taggedWith, taggings, bucket. simpl.
  rewrite filter_app, map_app. reflexivity.
Qed.

Lemma tag_occurrences (tag : string) (t : Trade) (ts : list string) :
  NoDup ts ->
  map snd (bucket String.eqb (fun p : string * Trade => Some (fst p)) tag
                  (map (fun tg => (tg, t)) ts))
  = if existsb (String.eqb tag) ts then [t] else [].
Proof.
  unfold bucket. induction ts as [| tg ts IH]; intros Hnd; simpl; [reflexivity |].
  inversion Hnd as [| ? ? Hnotin Hnd']; subst.
  unfold filedUnder at 1. simpl.
  destruct (String.eqb tag tg) eqn:E; simpl.
  - apply String.eqb_eq in E. subst tg. rewrite (IH Hnd').
    destruct (existsb (String.eqb tag) ts) eqn:Ex; [| reflexivity].
    apply existsb_exists in Ex. destruct Ex as (x & Hx & Heq).
    apply String.eqb_eq in Heq. subst x. contradiction.
  - apply IH. exact Hnd'.
Qed.

(** With duplicate-free tag arrays the trades filed under a tag are the
    trades that carry it, each once. *)
Lemma taggedWith_nodup (tag : string) (trades : list Trade) :
  (forall t, In t trades -> NoDup (TagAnalytics.tagsOf t)) ->
  taggedWith tag trades = filter (hasTag tag) trades.
Proof.
  induction trades as [| t l IH]; intros H; [reflexivity |].
  rewrite taggedWith_cons, tag_occurrences by (apply H; left; reflexivity).
  rewrite IH by (intros x Hx; apply H; right; exact Hx).
  simpl. unfold hasTag at 2.
  destruct (existsb (String.eqb tag) (TagAnalytics.tagsOf t)); reflexivity.
Qed.

Lemma taggedWith_incl (tag : string) (trades : list Trade) (t : Trade) :
  In t (taggedWith tag trades) -> In t trades.
Proof.
  unfold taggedWith, bucket, taggings.
  rewrite in_map_iff. intros ([tg t'] & Heq & Hin). simpl in Heq. subst t'.
  apply filter_In in Hin. destruct Hin as [Hin _].
  apply in_flat_map in Hin. destruct Hin as (t0 & Ht0 & Hp).
  apply in_map_iff in Hp. destruct Hp as (tg0 & Heq & _).
  injection Heq as _ ->. exact Ht0.
Qed.

Lemma taggedWith_In (tag : string) (trades : list Trade) (t : Trade) :
  In t trades -> In tag (TagAnalytics.tagsOf t) -> In t (taggedWith tag trades).
Proof.
  intros Ht Htag. unfold taggedWith.
  apply in_map_iff. exists (tag, t). split; [reflexivity |].
  unfold bucket. apply filter_In. split.
  - unfold taggings. apply in_flat_map. exists t. split; [exact Ht |].
    apply in_map_iff. exists tag. split; [reflexivity | exact Htag].
  - unfold filedUnder. simpl. apply String.eqb_refl.
Qed.

Lemma tag_stat_exists (trades : list Trade) (t : Trade) (tag : string) :
  In t trades -> In tag (TagAnalytics.tagsOf t) ->
  exists s, In s (TagAnalytics.aggregateTagStats trades)
            /\ TagAnalytics.ts_tag s = tag.
Proof.
  intros Ht Htag.
  pose proof (taggedWith_In tag trades t Ht Htag) as Hin.
  assert (Hne : bucket String.eqb (fun p : string * Trade => Some (fst p)) tag
                       (taggings trades) <> []).
  { intros H. unfold taggedWith in Hin. rewrite H in Hin. exact Hin. }
  apply (group_entry_exists String.eqb String.eqb_eq
           (fun p : string * Trade => Some (fst p)) TagAnalytics.emptyAcc
           (fun p => TagAnalytics.tradeUpdate (snd p))) in Hne.
  rewrite <- buildTagMap_groups in Hne.
  eexists. split.
  - apply aggregateTagStats_In. apply in_map. exact Hne.
  - reflexivity.
Qed.

Lemma tag_stats_NoDup (trades : list Trade) :
  NoDup (map TagAnalytics.ts_tag (TagAnalytics.aggregateTagStats trades)).
Proof.
  unfold TagAnalytics.aggregateTagStats.
  destruct (List.length (filter TagAnalytics.hasTags trades) =? 0)%nat;
    [constructor |].
  apply (Permutation_NoDup
           (l := map TagAnalytics.ts_tag
                     (map TagAnalytics.toTagStat (TagAnalytics.buildTagMap trades)))).
  - apply Permutation_map, Permutation_sym, sort_perm.
  - rewrite map_map.
    replace (map (fun x => TagAnalytics.ts_tag (TagAnalytics.toTagStat x))
                 (TagAnalytics.buildTagMap trades))
      with (map fst (TagAnalytics.buildTagMap trades)).
    + rewrite buildTagMap_groups.
      apply (group_NoDup String.eqb String.eqb_eq). constructor.
    + apply map_ext. intros [k a]. reflexivity.
Qed.

Lemma filter_idem {A : Type} (f : A -> bool) (l : list A) :
  filter f (filter f l) = filter f l.
Proof. apply filter_filter_implied. auto. Qed.

(** C9.  In tag aggregation a trade with a non-empty tag set is counted
    in full, with its whole P&L, in the bucket of each of its tags, and a
    trade with no tags is in no bucket: each tag carried by some trade
    has exactly one bucket, the bucket of a tag aggregates exactly the
    trades carrying that tag, each with weight one, and dropping the
    untagged trades first changes nothing. *)
Theorem tag_buckets_unsplit :
  forall trades : list Trade,
    (forall t, In t trades -> NoDup (TagAnalytics.tagsOf t)) ->
    let stats := TagAnalytics.aggregateTagStats trades in
    (forall t tag, In t trades -> In tag (TagAnalytics.tagsOf t) ->
                   exists s, In s stats /\ TagAnalytics.ts_tag s = tag) /\
    NoDup (map TagAnalytics.ts_tag stats) /\
    (forall s, In s stats ->
       let b := filter (hasTag (TagAnalytics.ts_tag s)) trades in
       b <> [] /\
       TagAnalytics.ts_tradesCount s = List.length b /\
       TagAnalytics.ts_winsCount s = count isWin b /\
       TagAnalytics.ts_lossesCount s = count isLoss b /\
       TagAnalytics.ts_breakevenCount s = count isBE b /\
       TagAnalytics.ts_netPnlCurrency s == totalPnl b) /\
    TagAnalytics.aggregateTagStats (filter TagAnalytics.hasTags trades) = stats.
Proof.
  intros trades Hset stats. subst stats. repeat apply conj.
  - intros t tag. apply tag_stat_exists.
  - apply tag_stats_NoDup.
  - intros s Hs b. subst b.
    rewrite <- (taggedWith_nodup _ _ Hset).
    destruct (tag_stat trades s Hs) as (H0 & H1 & H2 & H3 & H4 & H5 & _).
    repeat split; assumption.
  - unfold TagAnalytics.aggregateTagStats, TagAnalytics.buildTagMap.
    rewrite !filter_idem. reflexivity.
Qed.

Lemma tag_buckets_unsplit_witness :
  (forall t, In t Samples.journal -> NoDup (TagAnalytics.tagsOf t)) /\
  map (fun s => (TagAnalytics.ts_tag s, TagAnalytics.ts_tradesCount s))
      (TagAnalytics.aggregateTagStats Samples.journal)
  = [("b"%string, 1%nat); ("a"%string, 2%nat)] /\
  NoDup (map TagAnalytics.ts_tag (TagAnalytics.aggregateTagStats Samples.journal)).
Proof.
  assert (H : forall t, In t Samples.journal -> NoDup (TagAnalytics.tagsOf t)).
  { intros t [<- | [<- | [<- | []]]]; simpl;
      repeat constructor; simpl; intuition discriminate. }
  split; [exact H |]. split; [reflexivity |].
  apply (tag_buckets_unsplit Samples.journal H).
Defined.

(** ** The three counts *)

Lemma status_counts_total (trades : list Trade) :
  (TradesPage.wins trades + TradesPage.losses trades
   + TradesPage.breakevens trades = List.length trades)%nat.
Proof.
  unfold TradesPage.wins, TradesPage.losses, TradesPage.breakevens,
    TradesPage.hasStatus.
  induction trades as [| t l IH]; [reflexivity |].
  simpl. destruct (status t); simpl; lia.
Qed.


(** C5 (as amended).  In every bucket of the time analytics (weekday,
    session, duration) and of the tag analytics, the win, loss and
    breakeven counts add up to the bucket's trade count, which is the
    number of trades filed under the bucket; a trade without a P&L field
    is read as P&L 0 and counted as breakeven.  On the trades page the
    three status counts add up to the number of trades. *)
Theorem bucket_counts_partition :
  forall trades : list Trade,
    let r := TimeAnalytics.aggregateTimeAnalytics trades in
    (forall s, In s (TimeAnalytics.weekdayStats r) ->
       (TimeAnalytics.wd_winsCount s + TimeAnalytics.wd_lossesCount s
        + TimeAnalytics.wd_breakevenCount s
        = TimeAnalytics.wd_tradesCount s)%nat /\
       TimeAnalytics.wd_tradesCount s
       = List.length (bucket Z.eqb weekdayOf (TimeAnalytics.wd_weekday s) trades)) /\
    (forall s, In s (TimeAnalytics.sessionStats r) ->
       (TimeAnalytics.ss_winsCount s + TimeAnalytics.ss_lossesCount s
        + TimeAnalytics.ss_breakevenCount s
        = TimeAnalytics.ss_tradesCount s)%nat /\
       TimeAnalytics.ss_tradesCount s
       = List.length (bucket TimeAnalytics.TradingSession_eqb sessionOf
                             (TimeAnalytics.ss_session s) trades)) /\
    (forall s, In s (TimeAnalytics.durationStats r) ->
       (TimeAnalytics.db_winsCount s + TimeAnalytics.db_lossesCount s
        + TimeAnalytics.db_breakevenCount s
        = TimeAnalytics.db_tradesCount s)%nat /\
       TimeAnalytics.db_tradesCount s
       = List.length (bucket TimeAnalytics.DurationBucketKey_eqb durationOf
                             (TimeAnalytics.db_bucketKey s) trades)) /\
    (forall s, In s (TagAnalytics.aggregateTagStats trades) ->
       (TagAnalytics.ts_winsCount s + TagAnalytics.ts_lossesCount s
        + TagAnalytics.ts_breakevenCount s
        = TagAnalytics.ts_tradesCount s)%nat /\
       TagAnalytics.ts_tradesCount s
       = List.length (taggedWith (TagAnalytics.ts_tag s) trades)) /\
    (TradesPage.wins trades + TradesPage.losses trades
     + TradesPage.breakevens trades = List.length trades)%nat /\
    (forall t, pnlCurrency t = None -> isBE t = true).
Proof.
  intros trades r. subst r. repeat apply conj.
  - intros s Hs. destruct (weekday_stat trades s Hs) as (_ & H1 & H2 & H3 & H4 & _).
    rewrite H1, H2, H3, H4. split; [apply outcome_counts | reflexivity].
  - intros s Hs. destruct (session_stat trades s Hs) as (_ & H1 & H2 & H3 & H4 & _).
    rewrite H1, H2, H3, H4. split; [apply outcome_counts | reflexivity].
  - intros s Hs. destruct (duration_stat trades s Hs) as (_ & H1 & H2 & H3 & H4 & _).
    rewrite H1, H2, H3, H4. split; [apply outcome_counts | reflexivity].
  - intros s Hs. destruct (tag_stat trades s Hs) as (_ & H1 & H2 & H3 & H4 & _).
    rewrite H1, H2, H3, H4. split; [apply outcome_counts | reflexivity].
  - apply status_counts_total.
  - intros t H. unfold isBE, pnlOf. rewrite H. reflexivity.
Qed.

Lemma bucket_counts_partition_witness :
  In Samples.fridayStat
     (TimeAnalytics.weekdayStats
        (TimeAnalytics.aggregateTimeAnalytics Samples.journal)) /\
  (TimeAnalytics.wd_winsCount Samples.fridayStat
   + TimeAnalytics.wd_lossesCount Samples.fridayStat
   + TimeAnalytics.wd_breakevenCount Samples.fridayStat
   = TimeAnalytics.wd_tradesCount Samples.fridayStat)%nat.
Proof.
  assert (H : In Samples.fridayStat
                 (TimeAnalytics.weekdayStats
                    (TimeAnalytics.aggregateTimeAnalytics Samples.journal))).
  { left. reflexivity. }
  split; [exact H |].
  destruct (bucket_counts_partition Samples.journal) as (Hw & _).
  apply (Hw Samples.fridayStat H).
Defined.

(** C5, the claim as worded, fails on a trade without a P&L field: the
    time analytics count it (as a breakeven), so the three counts add up
    to 1 while no trade has a defined P&L. *)
Lemma counts_include_missing_pnl :
  map (fun s => (TimeAnalytics.wd_winsCount s + TimeAnalytics.wd_lossesCount s
                 + TimeAnalytics.wd_breakevenCount s)%nat)
      (TimeAnalytics.weekdayStats
         (TimeAnalytics.aggregateTimeAnalytics [Samples.untagged_no_pnl]))
  = [1%nat]
  /\ definedPnlCount [Samples.untagged_no_pnl] = 0%nat.
Proof. split; reflexivity. Qed.

(** ** Classification by the sign of the P&L *)

Lemma outcome_sign (t : Trade) :
  (isWin t = true <-> 0 < pnlOf t) /\
  (isLoss t = true <-> pnlOf t < 0) /\
  (isBE t = true <-> pnlOf t == 0).
Proof.
  unfold isWin, isLoss, isBE.
  split; [apply Qgtb_gt | split; [apply Qltb_lt | apply Qeqb_eq]].
Qed.

(** C1 (as amended).  The time analytics, the tag analytics and the
    dashboard aggregator classify every trade by the sign of its currency
    P&L (positive a win, negative a loss, zero a breakeven), never by the
    stored status: each of their counts is the number of trades of the
    bucket with that sign.  The trades-page KPI aggregator counts wins,
    losses and breakevens from the stored status field. *)
Theorem classification_by_pnl_sign :
  forall trades : list Trade,
    let r := TimeAnalytics.aggregateTimeAnalytics trades in
    (forall t, (isWin t = true <-> 0 < pnlOf t) /\
               (isLoss t = true <-> pnlOf t < 0) /\
               (isBE t = true <-> pnlOf t == 0)) /\
    (forall s, In s (TimeAnalytics.weekdayStats r) ->
       let b := bucket Z.eqb weekdayOf (TimeAnalytics.wd_weekday s) trades in
       TimeAnalytics.wd_winsCount s = count isWin b /\
       TimeAnalytics.wd_lossesCount s = count isLoss b /\
       TimeAnalytics.wd_breakevenCount s = count isBE b) /\
    (forall s, In s (TimeAnalytics.sessionStats r) ->
       let b := bucket TimeAnalytics.TradingSession_eqb sessionOf
                       (TimeAnalytics.ss_session s) trades in
       TimeAnalytics.ss_winsCount s = count isWin b /\
       TimeAnalytics.ss_lossesCount s = count isLoss b /\
       TimeAnalytics.ss_breakevenCount s = count isBE b) /\
    (forall s, In s (TimeAnalytics.durationStats r) ->
       let b := bucket TimeAnalytics.DurationBucketKey_eqb durationOf
                       (TimeAnalytics.db_bucketKey s) trades in
       TimeAnalytics.db_winsCount s = count isWin b /\
       TimeAnalytics.db_lossesCount s = count isLoss b /\
       TimeAnalytics.db_breakevenCount s = count isBE b) /\
    (forall s, In s (TagAnalytics.aggregateTagStats trades) ->
       let b := taggedWith (TagAnalytics.ts_tag s) trades in
       TagAnalytics.ts_winsCount s = count isWin b /\
       TagAnalytics.ts_lossesCount s = count isLoss b /\
       TagAnalytics.ts_breakevenCount s = count isBE b) /\
    (forall (sqrt : Q -> Q) (now : Date) (days : nat),
       let k := Dashboard.kpis
                  (Dashboard.aggregateTrades sqrt now trades days) in
       Dashboard.winCount k = count isWin trades /\
       Dashboard.lossCount k = count isLoss trades) /\
    (TradesPage.wins trades
     = count (fun t => TradeStatus_eqb (status t) win) trades /\
     TradesPage.losses trades
     = count (fun t => TradeStatus_eqb (status t) loss) trades /\
     TradesPage.breakevens trades
     = count (fun t => TradeStatus_eqb (status t) be) trades).
Proof.
  intros trades r. subst r. repeat apply conj; try reflexivity.
  - exact outcome_sign.
  - intros s Hs. destruct (weekday_stat trades s Hs) as (_ & _ & H2 & H3 & H4 & _).
    repeat split; assumption.
  - intros s Hs. destruct (session_stat trades s Hs) as (_ & _ & H2 & H3 & H4 & _).
    repeat split; assumption.
  - intros s Hs. destruct (duration_stat trades s Hs) as (_ & _ & H2 & H3 & H4 & _).
    repeat split; assumption.
  - intros s Hs. destruct (tag_stat trades s Hs) as (_ & _ & H2 & H3 & H4 & _).
    repeat split; assumption.
  - intros sqrt now days. split; reflexivity.
Qed.

Lemma classification_by_pnl_sign_witness :
  In Samples.fridayStat
     (TimeAnalytics.weekdayStats
        (TimeAnalytics.aggregateTimeAnalytics Samples.journal)) /\
  TimeAnalytics.wd_winsCount Samples.fridayStat
  = count isWin (bucket Z.eqb weekdayOf
                        (TimeAnalytics.wd_weekday Samples.fridayStat)
                        Samples.journal).
Proof.
  assert (H : In Samples.fridayStat
                 (TimeAnalytics.weekdayStats
                    (TimeAnalytics.aggregateTimeAnalytics Samples.journal))).
  { left. reflexivity. }
  split; [exact H |].
  destruct (classification_by_pnl_sign Samples.journal) as (_ & Hw & _).
  apply (Hw Samples.fridayStat H).
Defined.

(** C1, the claim as worded, fails on the trades page: a trade with a
    positive P&L whose stored status is loss is a win by sign, yet the
    KPI aggregator counts it as a loss and reports a win rate of 0. *)
Lemma trades_page_classifies_by_status :
  isWin Samples.stale_status = true /\
  TradesPage.wins [Samples.stale_status] = 0%nat /\
  TradesPage.losses [Samples.stale_status] = 1%nat /\
  TradesPage.winRate (TradesPage.calculateTradesKpis [Samples.stale_status]) == 0.
Proof. repeat split. Qed.

(** ** Win rate *)

(** C4 (as amended).  On the trades page the win rate is
    wins / (wins + losses + breakevens) x 100 with the counts taken from
    the stored status, and 0 for the empty list, the only list in which
    no trade carries a result.  The dashboard aggregator divides by
    wins + losses only, both counted by the sign of the P&L, and gives 0
    when there is neither a win nor a loss. *)
Theorem win_rate_formulas :
  forall trades : list Trade,
    let k := TradesPage.calculateTradesKpis trades in
    let w := TradesPage.wins trades in
    let l := TradesPage.losses trades in
    let b := TradesPage.breakevens trades in
    ((w + l + b)%nat = List.length trades) /\
    ((w + l + b = 0)%nat -> TradesPage.winRate k = 0) /\
    ((0 < w + l + b)%nat ->
     TradesPage.winRate k = Q_of_nat w / Q_of_nat (w + l + b) * 100) /\
    (forall (sqrt : Q -> Q) (now : Date) (days : nat),
       let d := Dashboard.kpis
                  (Dashboard.aggregateTrades sqrt now trades days) in
       let dw := count isWin trades in
       let dl := count isLoss trades in
       ((0 < dw + dl)%nat ->
        Dashboard.winRate d = Q_of_nat dw / Q_of_nat (dw + dl) * 100) /\
       ((dw + dl = 0)%nat -> Dashboard.winRate d = 0)).
Proof.
  intros trades k w l b.
  assert (Hlen : (w + l + b)%nat = List.length trades)
    by apply status_counts_total.
  split; [exact Hlen |]. repeat apply conj.
  - intros H0. subst k. unfold TradesPage.calculateTradesKpis.
    rewrite <- Hlen, H0. reflexivity.
  - intros Hpos. subst k. unfold TradesPage.calculateTradesKpis.
    rewrite <- Hlen. fold w l b.
    destruct (w + l + b)%nat eqn:E; [lia |]. reflexivity.
  - intros sqrt now days d dw dl. subst d. simpl. fold (count isWin trades).
    change (List.length (filter (fun t => Qgtb (Dashboard.pnlOf t) 0) trades))
      with dw.
    change (List.length (filter (fun t => Qltb (Dashboard.pnlOf t) 0) trades))
      with dl.
    split; intros H.
    + destruct (dw + dl)%nat eqn:E; [lia |]. reflexivity.
    + rewrite H. reflexivity.
Qed.

Lemma win_rate_formulas_witness :
  TradesPage.winRate (TradesPage.calculateTradesKpis Samples.win_loss_flat)
  = Q_of_nat 1 / Q_of_nat 3 * 100.
Proof.
  destruct (win_rate_formulas Samples.win_loss_flat) as (_ & _ & H & _).
  apply H. simpl. lia.
Defined.

(** C4, read over the dashboard aggregator, fails: for a win, a loss and
    a breakeven it reports 50, not 1 / 3 x 100. *)
Lemma dashboard_win_rate_excludes_breakevens :
  Dashboard.winRate
    (Dashboard.kpis
       (Dashboard.aggregateTrades (fun v => v) 0%Z Samples.win_loss_flat 30))
  == 50 /\
  ~ 50 == Q_of_nat (TradesPage.wins Samples.win_loss_flat)
          / Q_of_nat (TradesPage.wins Samples.win_loss_flat
                      + TradesPage.losses Samples.win_loss_flat
                      + TradesPage.breakevens Samples.win_loss_flat) * 100.
Proof.
  split; [reflexivity |]. intro H. vm_compute in H. discriminate H.
Qed.

(** ** Profit factor *)

Lemma pnlNegative_isLoss (t : Trade) : TradesPage.pnlNegative t = isLoss t.
Proof.
  unfold TradesPage.pnlNegative, isLoss, pnlOf.
  destruct (pnlCurrency t); reflexivity.
Qed.

Lemma losses_sum_negative (l : list Trade) :
  (forall t, In t l -> isLoss t = true) ->
  totalPnl l <= 0 /\ (l <> [] -> totalPnl l < 0).
Proof.
  induction l as [| t l IH]; intros H.
  - split; [unfold totalPnl, sumQ; simpl; lra | congruence].
  - destruct IH as [IH _]; [intros x Hx; apply H; right; exact Hx |].
    assert (Ht : pnlOf t < 0)
      by (apply outcome_sign, H; left; reflexivity).
    rewrite totalPnl_cons. split; [| intros _]; lra.
Qed.

(** A gross loss of exactly zero means that no trade has a negative
    P&L. *)
Lemma zero_gross_loss_no_loss (trades : list Trade) :
  TradesPage.grossLoss trades == 0 ->
  forall t, In t trades -> isLoss t = false.
Proof.
  unfold TradesPage.grossLoss, TradesPage.sumPnl. fold pnlOf.
  fold (totalPnl (filter TradesPage.pnlNegative trades)).
  intros H0 t Ht. destruct (isLoss t) eqn:E; [exfalso | reflexivity].
  assert (Hin : In t (filter TradesPage.pnlNegative trades)).
  { apply filter_In. split; [exact Ht |]. rewrite pnlNegative_isLoss. exact E. }
  destruct (losses_sum_negative (filter TradesPage.pnlNegative trades))
    as [Hle Hlt].
  { intros x Hx. apply filter_In in Hx. destruct Hx as [_ Hx].
    rewrite pnlNegative_isLoss in Hx. exact Hx. }
  assert (Hne : filter TradesPage.pnlNegative trades <> [])
    by (intros Hnil; rewrite Hnil in Hin; exact Hin).
  specialize (Hlt Hne).
  rewrite Qabs_neg in H0 by exact Hle. lra.
Qed.

(** C7.  When the gross loss of a trade list is exactly zero, the profit
    factor is null, whatever the gross profit, in the trades-page KPI
    aggregator and in every bucket of the tag aggregator: no division by
    the zero loss takes place. *)
Theorem profit_factor_null_on_zero_gross_loss :
  forall trades : list Trade,
    TradesPage.grossLoss trades == 0 ->
    TradesPage.profitFactor (TradesPage.calculateTradesKpis trades) = None /\
    (forall s, In s (TagAnalytics.aggregateTagStats trades) ->
               TagAnalytics.ts_profitFactor s = None).
Proof.
  intros trades H0. split.
  - unfold TradesPage.calculateTradesKpis.
    destruct (List.length trades =? 0)%nat; [reflexivity |]. simpl.
    destruct (Qgtb (TradesPage.grossLoss trades) 0) eqn:E.
    + apply Qgtb_gt in E. exfalso. lra.
    + destruct (Qgtb (TradesPage.grossProfit trades) 0); reflexivity.
  - intros s Hs. destruct (tag_stat trades s Hs) as (_ & _ & _ & _ & _ & _ & H).
    apply H. apply count_none. intros t Ht.
    apply (zero_gross_loss_no_loss trades H0).
    apply (taggedWith_incl _ _ _ Ht).
Qed.

Lemma profit_factor_null_on_zero_gross_loss_witness :
  TradesPage.grossLoss [Samples.tagged_ab; Samples.flat] == 0 /\
  TradesPage.profitFactor
    (TradesPage.calculateTradesKpis [Samples.tagged_ab; Samples.flat]) = None /\
  (forall s, In s (TagAnalytics.aggregateTagStats [Samples.tagged_ab; Samples.flat]) ->
             TagAnalytics.ts_profitFactor s = None).
Proof.
  assert (H : TradesPage.grossLoss [Samples.tagged_ab; Samples.flat] == 0)
    by reflexivity.
  split; [exact H |].
  apply (profit_factor_null_on_zero_gross_loss
           [Samples.tagged_ab; Samples.flat] H).
Defined.

(** The end-to-end example of the specification: P&L of +100, -50 and 0,
    R-multiples 2 and -1 on the first two trades. *)
Example trades_page_kpis_example :
  let k := TradesPage.calculateTradesKpis Samples.win_loss_flat in
  TradesPage.netPnl k = Num 50 /\
  TradesPage.winRate k == 100 / 3 /\
  TradesPage.profitFactor k = Some (100 / 50) /\
  TradesPage.avgR k = Some (1 / 2) /\
  TradesPage.totalTrades k = 3%nat.
Proof. repeat split. Qed.

(** The same policy in the KPIs computed from daily statistics. *)
Lemma daily_profit_factor_null_on_zero_gross_loss
      (dailyStats : list DailyKpis.DailyStat) :
  DailyKpis.grossLoss dailyStats == 0 ->
  DailyKpis.km_profitFactor (DailyKpis.calculateKpis dailyStats) = None.
Proof.
  intros H0. unfold DailyKpis.calculateKpis.
  destruct (List.length dailyStats =? 0)%nat; [reflexivity |].
  destruct (fold_left DailyKpis.weightedR dailyStats (0, 0%nat)) as [rw tw].
  simpl. destruct (Qgtb (DailyKpis.grossLoss dailyStats) 0) eqn:E.
  - apply Qgtb_gt in E. exfalso. lra.
  - destruct (Qgtb (DailyKpis.grossProfit dailyStats) 0); reflexivity.
Qed.

(** ** Risk progress *)

Lemma sumWhere_acc (keep : Z -> bool) (m : list (Z * Q)) (a : Q) :
  fold_left (fun acc e => if keep (fst e) then acc + snd e else acc) m a
  == a + Dashboard.sumWhere keep m.
Proof.
  unfold Dashboard.sumWhere. revert a.
  induction m as [| [k v] m IH]; intros a; simpl.
  - ring.
  - rewrite (IH (if keep k then a + v else a)),
            (IH (if keep k then 0 + v else 0)).
    destruct (keep k); ring.
Qed.

Lemma sumWhere_cons (keep : Z -> bool) (k : Z) (v : Q) (m : list (Z * Q)) :
  Dashboard.sumWhere keep ((k, v) :: m)
  == (if keep k then v else 0) + Dashboard.sumWhere keep m.
Proof.
  unfold Dashboard.sumWhere at 1. simpl. rewrite sumWhere_acc.
  destruct (keep k); ring.
Qed.

Lemma sumWhere_set (keep : Z -> bool) (m : list (Z * Q)) (k : Z) (v : Q) :
  Dashboard.sumWhere keep
    (map_set Z.eqb m k (orZero (map_get Z.eqb m k) + v))
  == Dashboard.sumWhere keep m + (if keep k then v else 0).
Proof.
  induction m as [| [k0 v0] m IH]; simpl.
  - rewrite sumWhere_cons. unfold Dashboard.sumWhere. simpl.
    destruct (keep k); ring.
  - destruct (k =? k0)%Z eqn:E.
    + apply Z.eqb_eq in E. subst k0. simpl. rewrite !sumWhere_cons.
      destruct (keep k); ring.
    + rewrite !sumWhere_cons, IH. ring.
Qed.

Lemma pnlOfDays_cons (keep : Z -> bool) (t : Trade) (l : list Trade) :
  pnlOfDays keep (t :: l)
  == (match dayOf t with
      | Some d => if keep d then pnlOf t else 0
      | None => 0
      end) + pnlOfDays keep l.
Proof.
  unfold pnlOfDays. simpl.
  destruct (dayOf t) as [d |]; [destruct (keep d) |];
    rewrite ?totalPnl_cons; ring.
Qed.

(** The sums read off the per-day map are sums over the trades. *)
Lemma allDaily_sumWhere (keep : Z -> bool) (l : list Trade) (m : list (Z * Q)) :
  Dashboard.sumWhere keep (fold_left Dashboard.addToDay l m)
  == Dashboard.sumWhere keep m + pnlOfDays keep l.
Proof.
  revert m. induction l as [| t l IH]; intros m; simpl.
  - unfold pnlOfDays, totalPnl, sumQ. simpl. ring.
  - rewrite IH, pnlOfDays_cons.
    unfold Dashboard.addToDay, dayOf.
    destruct (Dashboard.getEffectiveDate t) as [d |]; simpl.
    + rewrite sumWhere_set. unfold Dashboard.pnlOf, pnlOf.
      destruct (keep (Dashboard.formatDateKey d)); ring.
    + ring.
Qed.

Lemma allDaily_get (k : Z) (l : list Trade) (m : list (Z * Q)) :
  orZero (map_get Z.eqb (fold_left Dashboard.addToDay l m) k)
  == orZero (map_get Z.eqb m k) + pnlOfDays (Z.eqb k) l.
Proof.
  revert m. induction l as [| t l IH]; intros m; simpl.
  - unfold pnlOfDays, totalPnl, sumQ. simpl. ring.
  - rewrite IH, pnlOfDays_cons.
    unfold Dashboard.addToDay, dayOf.
    destruct (Dashboard.getEffectiveDate t) as [d |]; simpl.
    + rewrite (map_get_set Z.eqb Z.eqb_eq). unfold Dashboard.pnlOf, pnlOf.
      destruct (k =? Dashboard.formatDateKey d)%Z eqn:E.
      * apply Z.eqb_eq in E. subst k. simpl. ring.
      * ring.
    + ring.
Qed.

Lemma formatDateKey_startOfDay (d : Date) :
  Dashboard.formatDateKey (Dashboard.startOfDay d) = dayIndex d.
Proof.
  unfold Dashboard.formatDateKey, Dashboard.startOfDay, dayIndex.
  apply Z.div_mul. discriminate.
Qed.

Lemma dayIndex_midnight (day : Z) : dayIndex (day * msPerDay)%Z = day.
Proof. unfold dayIndex. apply Z.div_mul. discriminate. Qed.

Lemma dayOfWeek_range (day : Z) : (0 <= dayOfWeek day < 7)%Z.
Proof. unfold dayOfWeek. apply Z.mod_pos_bound. lia. Qed.

Lemma week_start_offset (day : Z) :
  (0 <= day < 7)%Z ->
  ((if day <? 1 then 7 else 0) + day - 1 = (day + 6) mod 7)%Z.
Proof.
  intros H.
  assert (Hc : (day = 0 \/ day = 1 \/ day = 2 \/ day = 3 \/ day = 4
                \/ day = 5 \/ day = 6)%Z) by lia.
  decompose [or] Hc; subst day; reflexivity.
Qed.

(** The week-start key computed by the code is the Monday on or before
    today. *)
Lemma startOfWeek_key (now : Date) :
  Dashboard.formatDateKey
    (Dashboard.startOfDay (Dashboard.startOfWeek (Dashboard.startOfDay now) 1))
  = mondayOf (dayIndex now).
Proof.
  rewrite formatDateKey_startOfDay.
  unfold Dashboard.startOfWeek, Dashboard.startOfDay, getDay.
  rewrite !dayIndex_midnight.
  rewrite week_start_offset by apply dayOfWeek_range.
  reflexivity.
Qed.

Lemma back_to_monday (r : Z) :
  (0 <= r < 7)%Z -> ((r + 6) mod 7 = if r =? 0 then 6 else r - 1)%Z.
Proof.
  intros H.
  assert (Hc : (r = 0 \/ r = 1 \/ r = 2 \/ r = 3 \/ r = 4 \/ r = 5 \/ r = 6)%Z)
    by lia.
  decompose [or] Hc; subst r; reflexivity.
Qed.

Lemma mondayOf_spec (day : Z) :
  dayOfWeek (mondayOf day) = 1%Z /\ (day - 6 <= mondayOf day <= day)%Z.
Proof.
  unfold mondayOf, dayOfWeek.
  pose proof (Z.mod_pos_bound (day + 4) 7 eq_refl) as Hr.
  pose proof (Z.div_mod (day + 4) 7 ltac:(discriminate)) as Hq.
  rewrite (back_to_monday _ Hr).
  remember ((day + 4) mod 7)%Z as r eqn:Er.
  remember ((day + 4) / 7)%Z as q eqn:Eq.
  split.
  - destruct (r =? 0)%Z eqn:E.
    + apply Z.eqb_eq in E.
      replace (day - 6 + 4)%Z with (1 + (q - 1) * 7)%Z by lia.
      rewrite Z.mod_add by discriminate. reflexivity.
    + apply Z.eqb_neq in E.
      replace (day - (r - 1) + 4)%Z with (1 + q * 7)%Z by lia.
      rewrite Z.mod_add by discriminate. reflexivity.
  - destruct (r =? 0)%Z eqn:E; [lia |]. apply Z.eqb_neq in E. lia.
Qed.

Lemma base_balance (cum reference : Q) :
  cum == reference ->
  (if Qgtb cum 0 then cum else Dashboard.DEFAULT_BASE_BALANCE)
  == rollingBase reference
  /\ Qgtb (if Qgtb cum 0 then cum else Dashboard.DEFAULT_BASE_BALANCE) 0 = true.
Proof.
  intros H. unfold rollingBase, Dashboard.DEFAULT_BASE_BALANCE.
  destruct (Qgtb cum 0) eqn:E; destruct (Qlt_le_dec 0 reference) as [Hr | Hr];
    qprop.
  - split; [exact H | apply Qgtb_gt; exact E].
  - exfalso. lra.
  - exfalso. lra.
  - split; [reflexivity | reflexivity].
Qed.

(** C6.  The daily (weekly) P&L percentage of the risk progress is
    today's (this week's) raw P&L divided by the rolling equity base and
    multiplied by 100; the base is the cumulative P&L of the trades dated
    strictly before today (strictly before the Monday that starts the
    week) when that is positive, and 10,000 otherwise.  Today's raw P&L is
    that of the trades dated today, the week's that of the trades dated
    from the Monday up to today. *)
Theorem risk_progress_rolling_base :
  forall (sqrt : Q -> Q) (now : Date) (trades : list Trade) (days : nat),
    let rp := Dashboard.riskProgress
                (Dashboard.aggregateTrades sqrt now trades days) in
    let today := dayIndex now in
    let monday := mondayOf today in
    let beforeToday := pnlOfDays (fun d => d <? today)%Z trades in
    let beforeWeek := pnlOfDays (fun d => d <? monday)%Z trades in
    Dashboard.todayPnl rp == pnlOfDays (Z.eqb today) trades /\
    Dashboard.weekPnl rp
    == pnlOfDays (fun d => (monday <=? d) && (d <=? today))%Z trades /\
    Dashboard.dailyPnlPercent rp
    == Dashboard.todayPnl rp / rollingBase beforeToday * 100 /\
    Dashboard.weeklyPnlPercent rp
    == Dashboard.weekPnl rp / rollingBase beforeWeek * 100 /\
    dayOfWeek monday = 1%Z /\ (today - 6 <= monday <= today)%Z.
Proof.
  intros sqrt now trades days rp today monday beforeToday beforeWeek.
  subst rp. unfold Dashboard.aggregateTrades, Dashboard.riskProgress,
    Dashboard.computeRiskProgress.
  rewrite startOfWeek_key, formatDateKey_startOfDay.
  fold today. fold monday. unfold Dashboard.allDailyPnlMap.
  cbv beta zeta.
  unfold Dashboard.todayPnl, Dashboard.weekPnl, Dashboard.dailyPnlPercent,
    Dashboard.weeklyPnlPercent.
  pose proof (allDaily_sumWhere (fun k => k <? today)%Z trades []) as HbT.
  pose proof (allDaily_sumWhere (fun k => k <? monday)%Z trades []) as HbW.
  pose proof (allDaily_sumWhere
                (fun k => (monday <=? k) && (k <=? today))%Z trades []) as HW.
  pose proof (allDaily_get today trades []) as HT.
  fold beforeToday in HbT. fold beforeWeek in HbW.
  change (Dashboard.sumWhere _ []) with 0 in HbT, HbW, HW.
  simpl (orZero (map_get Z.eqb [] today)) in HT.
  rewrite Qplus_0_l in HbT, HbW, HW, HT.
  destruct (base_balance _ _ HbT) as [HbaseT HposT].
  destruct (base_balance _ _ HbW) as [HbaseW HposW].
  rewrite HposT, HposW.
  repeat apply conj.
  - exact HT.
  - exact HW.
  - rewrite HbaseT. reflexivity.
  - rewrite HbaseW. reflexivity.
  - apply mondayOf_spec.
  - apply mondayOf_spec.
  - apply mondayOf_spec.
Qed.

(** * Further properties of the aggregation code *)

(** ** Sorting with a comparator *)

Section SortSorted.
Context {A : Type} (cmp : A -> A -> Q).

(** [cmp a b <= 0]: [a] may stay before [b]. *)
Hypothesis before_total : forall a b, cmp a b <= 0 \/ cmp b a <= 0.
Hypothesis before_trans :
  forall a b c, cmp a b <= 0 -> cmp b c <= 0 -> cmp a c <= 0.

Lemma sort_insert_sorted (x : A) (l : list A) :
  StronglySorted (fun a b => cmp a b <= 0) l ->
  StronglySorted (fun a b => cmp a b <= 0) (sort_insert cmp x l).
Proof.
  induction l as [| y l IH]; intros Hs; simpl.
  - constructor; [constructor | constructor].
  - inversion Hs as [| ? ? Hs' Hall]; subst.
    destruct (Qleb (cmp x y) 0) eqn:E.
    + apply Qleb_le in E. constructor; [exact Hs |].
      constructor; [exact E |].
      apply Forall_forall. intros z Hz.
      apply before_trans with y; [exact E |].
      rewrite Forall_forall in Hall. apply Hall, Hz.
    + apply Qleb_gt in E. constructor; [apply IH, Hs' |].
      apply Forall_forall. intros z Hz.
      apply sort_insert_In in Hz. destruct Hz as [-> | Hz].
      * destruct (before_total y x) as [H | H]; [exact H |].
        exfalso. lra.
      * rewrite Forall_forall in Hall. apply Hall, Hz.
Qed.

Lemma sort_sorted (l : list A) :
  StronglySorted (fun a b => cmp a b <= 0) (sort cmp l).
Proof.
  induction l as [| x l IH]; simpl; [constructor |].
  apply sort_insert_sorted, IH.
Qed.

End SortSorted.

Lemma StronglySorted_weaken {A : Type} (R S : A -> A -> Prop) (l : list A) :
  (forall a b, In a l -> In b l -> R a b -> S a b) ->
  StronglySorted R l -> StronglySorted S l.
Proof.
  induction l as [| x l IH]; intros H Hs; [constructor |].
  inversion Hs as [| ? ? Hs' Hall]; subst. constructor.
  - apply IH; [| exact Hs'].
    intros a b Ha Hb. apply H; right; assumption.
  - rewrite Forall_forall in Hall |- *. intros y Hy.
    apply H; [left; reflexivity | right; exact Hy | apply Hall, Hy].
Qed.

(** A list sorted by an integer key without repeated keys is strictly
    ascending. *)
Lemma sorted_nodup_strict {A : Type} (key : A -> Z) (l : list A) :
  StronglySorted (fun a b => key a <= key b)%Z l ->
  NoDup (map key l) ->
  StronglySorted (fun a b => key a < key b)%Z l.
Proof.
  induction l as [| x l IH]; intros Hs Hnd; [constructor |].
  inversion Hs as [| ? ? Hs' Hall]; subst.
  simpl in Hnd. inversion Hnd as [| ? ? Hnotin Hnd']; subst.
  constructor; [apply IH; assumption |].
  rewrite Forall_forall in Hall |- *. intros y Hy.
  specialize (Hall y Hy).
  assert (key x <> key y).
  { intros Heq. apply Hnotin. rewrite Heq. apply in_map, Hy. }
  lia.
Qed.

(** A strictly ascending list of keys within [lo, hi] has at most
    [hi - lo + 1] elements. *)
Lemma strict_sorted_length {A : Type} (key : A -> Z) (l : list A) (lo hi : Z) :
  StronglySorted (fun a b => key a < key b)%Z l ->
  (forall x, In x l -> lo <= key x <= hi)%Z ->
  (lo <= hi + 1)%Z ->
  (Z.of_nat (List.length l) <= hi - lo + 1)%Z.
Proof.
  revert lo. induction l as [| x l IH]; intros lo Hs Hr Hlo; simpl List.length.
  - simpl. lia.
  - inversion Hs as [| ? ? Hs' Hall]; subst.
    pose proof (Hr x (or_introl eq_refl)) as Hx.
    assert (Hl : (Z.of_nat (List.length l) <= hi - (key x + 1) + 1)%Z).
    { apply IH; [exact Hs' | | lia].
      intros y Hy. rewrite Forall_forall in Hall. specialize (Hall y Hy).
      pose proof (Hr y (or_intror Hy)). lia. }
    lia.
Qed.

Lemma sorted_map_NoDup {A B : Type} (cmp : A -> A -> Q) (f : A -> B) (l : list A) :
  NoDup (map f l) -> NoDup (map f (sort cmp l)).
Proof.
  apply Permutation_NoDup, Permutation_map, Permutation_sym, sort_perm.
Qed.

Lemma inject_Z_nonpos (z : Z) : inject_Z z <= 0 <-> (z <= 0)%Z.
Proof. unfold Qle. simpl. rewrite Z.mul_1_r. reflexivity. Qed.

Lemma sort_by_key_sorted {A : Type} (key : A -> Z) (l : list A) :
  StronglySorted (fun a b => key a <= key b)%Z
                 (sort (fun a b => inject_Z (key a - key b)) l).
Proof.
  apply (StronglySorted_weaken
           (fun a b => inject_Z (key a - key b) <= 0)).
  - intros a b _ _ H. apply (proj1 (inject_Z_nonpos _)) in H. lia.
  - apply sort_sorted.
    + intros a b. destruct (Z.le_ge_cases (key a) (key b)) as [H | H];
        [left | right]; apply (proj2 (inject_Z_nonpos _)); lia.
    + intros a b c H1 H2.
      apply (proj1 (inject_Z_nonpos _)) in H1.
      apply (proj1 (inject_Z_nonpos _)) in H2.
      apply (proj2 (inject_Z_nonpos _)). lia.
Qed.

Lemma NoDup_map_injective {A B : Type} (f : A -> B) (l : list A) :
  (forall x y, f x = f y -> x = y) -> NoDup l -> NoDup (map f l).
Proof.
  intros Hinj. induction l as [| x l IH]; intros Hnd; simpl; [constructor |].
  inversion Hnd as [| ? ? Hnotin Hnd']; subst. constructor; [| apply IH, Hnd'].
  intros Hin. apply in_map_iff in Hin. destruct Hin as (y & Heq & Hy).
  apply Hinj in Heq. subst y. contradiction.
Qed.

Lemma sessionIndex_injective (a b : TimeAnalytics.TradingSession) :
  TimeAnalytics.sessionIndex a = TimeAnalytics.sessionIndex b -> a = b.
Proof. destruct a, b; simpl; intros H; try reflexivity; discriminate. Qed.

Lemma durationBucketIndex_injective (a b : TimeAnalytics.DurationBucketKey) :
  TimeAnalytics.durationBucketIndex a = TimeAnalytics.durationBucketIndex b ->
  a = b.
Proof. destruct a, b; simpl; intros H; try reflexivity; discriminate. Qed.

Lemma weekday_keys_NoDup (trades : list Trade) :
  NoDup (map fst (TimeAnalytics.weekdayMap (TimeAnalytics.aggregateMaps trades))).
Proof.
  unfold TimeAnalytics.aggregateMaps. rewrite weekdayMap_fold.
  apply (group_NoDup Z.eqb Z.eqb_eq). constructor.
Qed.

Lemma session_keys_NoDup (trades : list Trade) :
  NoDup (map fst (TimeAnalytics.sessionMap (TimeAnalytics.aggregateMaps trades))).
Proof.
  unfold TimeAnalytics.aggregateMaps. rewrite sessionMap_fold.
  apply (group_NoDup _ TradingSession_eqb_eq). constructor.
Qed.

Lemma duration_keys_NoDup (trades : list Trade) :
  NoDup (map fst (TimeAnalytics.durationBucketMap
                    (TimeAnalytics.aggregateMaps trades))).
Proof.
  unfold TimeAnalytics.aggregateMaps. rewrite durationBucketMap_fold.
  apply (group_NoDup _ DurationBucketKey_eqb_eq). constructor.
Qed.

Lemma bucket_member {K T : Type} (eqb : K -> K -> bool)
      (eqb_eq : forall a b, eqb a b = true <-> a = b)
      (key : T -> option K) (k : K) (l : list T) :
  bucket eqb key k l <> [] -> exists t, In t l /\ key t = Some k.
Proof.
  unfold bucket. destruct (filter (filedUnder eqb key k) l) as [| t b] eqn:E;
    [congruence |]. intros _.
  assert (Hin : In t (filter (filedUnder eqb key k) l))
    by (rewrite E; left; reflexivity).
  apply filter_In in Hin. destruct Hin as [Hin Hf].
  exists t. split; [exact Hin |].
  unfold filedUnder in Hf. destruct (key t) as [k' |]; [| discriminate].
  apply eqb_eq in Hf. subst k'. reflexivity.
Qed.

Lemma weekday_label_known (d : Z) :
  (0 <= d <= 6)%Z -> TimeAnalytics.getWeekdayLabel d <> "Unknown"%string.
Proof.
  intros H.
  assert (Hc : (d = 0 \/ d = 1 \/ d = 2 \/ d = 3 \/ d = 4 \/ d = 5 \/ d = 6)%Z)
    by lia.
  decompose [or] Hc; subst d; discriminate.
Qed.

(** X1.  The rows of the time analytics come out in their fixed order
    without repetition: weekdays strictly ascending within 0..6 (at most
    seven rows, never labelled Unknown), sessions in the order Asia,
    London, NewYork, Other (at most four rows), duration buckets from the
    shortest to the longest (at most six rows). *)
Theorem time_stats_ordered :
  forall trades : list Trade,
    let r := TimeAnalytics.aggregateTimeAnalytics trades in
    StronglySorted
      (fun a b => TimeAnalytics.wd_weekday a < TimeAnalytics.wd_weekday b)%Z
      (TimeAnalytics.weekdayStats r) /\
    (forall s, In s (TimeAnalytics.weekdayStats r) ->
               (0 <= TimeAnalytics.wd_weekday s <= 6)%Z /\
               TimeAnalytics.wd_label s <> "Unknown"%string) /\
    (List.length (TimeAnalytics.weekdayStats r) <= 7)%nat /\
    StronglySorted
      (fun a b => TimeAnalytics.sessionIndex (TimeAnalytics.ss_session a)
                  < TimeAnalytics.sessionIndex (TimeAnalytics.ss_session b))%Z
      (TimeAnalytics.sessionStats r) /\
    (List.length (TimeAnalytics.sessionStats r) <= 4)%nat /\
    StronglySorted
      (fun a b =>
         TimeAnalytics.durationBucketIndex (TimeAnalytics.db_bucketKey a)
         < TimeAnalytics.durationBucketIndex (TimeAnalytics.db_bucketKey b))%Z
      (TimeAnalytics.durationStats r) /\
    (List.length (TimeAnalytics.durationStats r) <= 6)%nat.
Proof.
  intros trades r.
  assert (Hw : StronglySorted
                 (fun a b => TimeAnalytics.wd_weekday a
                             < TimeAnalytics.wd_weekday b)%Z
                 (TimeAnalytics.weekdayStats r)).
  { subst r. simpl. apply sorted_nodup_strict; [apply sort_by_key_sorted |].
    apply sorted_map_NoDup. rewrite map_map.
    rewrite (map_ext _ fst) by (intros [k a]; reflexivity).
    apply weekday_keys_NoDup. }
  assert (Hwr : forall s, In s (TimeAnalytics.weekdayStats r) ->
                          (0 <= TimeAnalytics.wd_weekday s <= 6)%Z).
  { intros s Hs. destruct (weekday_stat trades s Hs) as (Hne & _).
    apply (bucket_member Z.eqb Z.eqb_eq) in Hne.
    destruct Hne as (t & _ & Hk). unfold weekdayOf in Hk.
    destruct (TimeAnalytics.getEffectiveOpenTime t) as [o |]; [| discriminate].
    destruct (TimeAnalytics.getEffectiveCloseTime t); [| discriminate].
    injection Hk as <-. pose proof (dayOfWeek_range (dayIndex o)).
    unfold getDay. lia. }
  assert (Hs : StronglySorted
                 (fun a b =>
                    TimeAnalytics.sessionIndex (TimeAnalytics.ss_session a)
                    < TimeAnalytics.sessionIndex (TimeAnalytics.ss_session b))%Z
                 (TimeAnalytics.sessionStats r)).
  { subst r. simpl.
    apply (sorted_nodup_strict
             (fun s => TimeAnalytics.sessionIndex (TimeAnalytics.ss_session s)));
      [apply sort_by_key_sorted |].
    apply sorted_map_NoDup. rewrite map_map.
    rewrite (map_ext _ (fun e => TimeAnalytics.sessionIndex (fst e)))
      by (intros [k a]; reflexivity).
    rewrite <- map_map. apply NoDup_map_injective;
      [apply sessionIndex_injective | apply session_keys_NoDup]. }
  assert (Hd : StronglySorted
                 (fun a b =>
                    TimeAnalytics.durationBucketIndex (TimeAnalytics.db_bucketKey a)
                    < TimeAnalytics.durationBucketIndex
                        (TimeAnalytics.db_bucketKey b))%Z
                 (TimeAnalytics.durationStats r)).
  { subst r. simpl.
    apply (sorted_nodup_strict
             (fun s => TimeAnalytics.durationBucketIndex
                         (TimeAnalytics.db_bucketKey s)));
      [apply sort_by_key_sorted |].
    apply sorted_map_NoDup. rewrite map_map.
    rewrite (map_ext _ (fun e => TimeAnalytics.durationBucketIndex (fst e)))
      by (intros [k a]; reflexivity).
    rewrite <- map_map. apply NoDup_map_injective;
      [apply durationBucketIndex_injective | apply duration_keys_NoDup]. }
  repeat apply conj.
  - exact Hw.
  - intros s Hin. split; [apply Hwr, Hin |].
    assert (Hl : TimeAnalytics.wd_label s
                 = TimeAnalytics.getWeekdayLabel (TimeAnalytics.wd_weekday s)).
    { subst r. simpl in Hin. apply sort_In in Hin. apply in_map_iff in Hin.
      destruct Hin as ([k a] & <- & _). reflexivity. }
    rewrite Hl. apply weekday_label_known, Hwr, Hin.
  - pose proof (strict_sorted_length _ _ 0 6 Hw Hwr ltac:(lia)). lia.
  - exact Hs.
  - pose proof (strict_sorted_length _ _ 0 3 Hs) as H.
    assert (Z.of_nat (List.length (TimeAnalytics.sessionStats r)) <= 3 - 0 + 1)%Z.
    { apply H; [| lia]. intros x _.
      destruct (TimeAnalytics.ss_session x); simpl; lia. }
    lia.
  - exact Hd.
  - pose proof (strict_sorted_length _ _ 0 5 Hd) as H.
    assert (Z.of_nat (List.length (TimeAnalytics.durationStats r)) <= 5 - 0 + 1)%Z.
    { apply H; [| lia]. intros x _.
      destruct (TimeAnalytics.db_bucketKey x); simpl; lia. }
    lia.
Qed.

(** ** Totals over the buckets *)

Lemma list_sum_perm (l l' : list nat) :
  Permutation l l' -> list_sum l = list_sum l'.
Proof.
  induction 1; simpl; lia.
Qed.

Lemma sumQ_perm (l l' : list Q) : Permutation l l' -> sumQ l == sumQ l'.
Proof.
  induction 1 as [| x l l' _ IH | x y l | l1 l2 l3 _ IH1 _ IH2].
  - reflexivity.
  - rewrite !sumQ_cons, IH. reflexivity.
  - rewrite !sumQ_cons. ring.
  - rewrite IH1. exact IH2.
Qed.

Lemma sumQ_nil : sumQ [] == 0.
Proof. reflexivity. Qed.

Section GroupTotals.
Context {K V T : Type} (eqb : K -> K -> bool).
Context (key : T -> option K) (init : V) (upd : T -> V -> V).

Lemma map_bump_cons (f : V -> V) (k k0 : K) (v0 : V) (m : list (K * V)) :
  map_bump eqb init f ((k0, v0) :: m) k
  = if eqb k k0 then (k, f v0) :: m
    else (k0, v0) :: map_bump eqb init f m k.
Proof.
  unfold map_bump. simpl. destruct (eqb k k0); [reflexivity |].
  destruct (map_get eqb m k); reflexivity.
Qed.

(** A counter every update increments adds up, over the map, to the
    number of items filed. *)
Lemma group_count (cnt : V -> nat) (l : list T) (m : list (K * V)) :
  cnt init = 0%nat ->
  (forall t a, cnt (upd t a) = S (cnt a)) ->
  list_sum (map (fun e => cnt (snd e))
                (fold_left (groupStep eqb key init upd) l m))
  = (list_sum (map (fun e => cnt (snd e)) m)
     + count (fun t => match key t with Some _ => true | None => false end) l)%nat.
Proof.
  intros H0 Hupd. revert m. induction l as [| t l IH]; intros m; simpl.
  - unfold count. simpl. lia.
  - rewrite IH, count_cons. unfold groupStep.
    destruct (key t) as [k |]; [| lia].
    assert (Hb : list_sum (map (fun e => cnt (snd e))
                               (map_bump eqb init (upd t) m k))
                 = S (list_sum (map (fun e => cnt (snd e)) m))).
    { clear IH. induction m as [| [k0 v0] m IHm].
      - unfold map_bump. simpl. rewrite Hupd, H0. reflexivity.
      - rewrite map_bump_cons. destruct (eqb k k0); simpl.
        + rewrite Hupd. reflexivity.
        + rewrite IHm. lia. }
    rewrite Hb. lia.
Qed.

(** An amount every update adds to adds up, over the map, to the total
    over the items filed. *)
Lemma group_amount (amt : V -> Q) (w : T -> Q) (l : list T) (m : list (K * V)) :
  amt init == 0 ->
  (forall t a, amt (upd t a) == amt a + w t) ->
  sumQ (map (fun e => amt (snd e))
            (fold_left (groupStep eqb key init upd) l m))
  == sumQ (map (fun e => amt (snd e)) m)
     + sumQ (map w (filter (fun t => match key t with
                                     | Some _ => true
                                     | None => false
                                     end) l)).
Proof.
  intros H0 Hupd. revert m. induction l as [| t l IH]; intros m; simpl.
  - rewrite sumQ_nil. ring.
  - rewrite IH. unfold groupStep.
    destruct (key t) as [k |]; [| reflexivity].
    assert (Hb : sumQ (map (fun e => amt (snd e))
                           (map_bump eqb init (upd t) m k))
                 == sumQ (map (fun e => amt (snd e)) m) + w t).
    { clear IH. induction m as [| [k0 v0] m IHm].
      - unfold map_bump. simpl. rewrite !sumQ_cons, sumQ_nil, Hupd, H0. ring.
      - rewrite map_bump_cons. destruct (eqb k k0); simpl.
        + rewrite !sumQ_cons, Hupd. ring.
        + rewrite !sumQ_cons, IHm. ring. }
    simpl. rewrite Hb, sumQ_cons. ring.
Qed.

End GroupTotals.

Lemma keyed_validTrades {K : Type} (key : Trade -> option K)
      (trades : list Trade) :
  (forall t, TimeAnalytics.isValidTrade t = true -> key t <> None) ->
  filter (fun t => match key t with Some _ => true | None => false end)
         (TimeAnalytics.validTrades trades)
  = TimeAnalytics.validTrades trades.
Proof.
  intros H. unfold TimeAnalytics.validTrades.
  induction trades as [| t l IH]; simpl; [reflexivity |].
  destruct (TimeAnalytics.isValidTrade t) eqn:E; [| exact IH].
  simpl. specialize (H t E). destruct (key t); [| congruence].
  rewrite IH. reflexivity.
Qed.

Lemma valid_has_keys (t : Trade) :
  TimeAnalytics.isValidTrade t = true ->
  weekdayOf t <> None /\ sessionOf t <> None /\ durationOf t <> None.
Proof.
  unfold TimeAnalytics.isValidTrade, weekdayOf, sessionOf, durationOf.
  destruct (TimeAnalytics.getEffectiveOpenTime t),
    (TimeAnalytics.getEffectiveCloseTime t); intros; try discriminate;
    repeat split; discriminate.
Qed.

Lemma isValidTrade_iff (t : Trade) :
  TimeAnalytics.isValidTrade t = true
  <-> normalizeTimestamp (openTime t) <> None
      \/ normalizeTimestamp (closeTime t) <> None
      \/ tradeDate t <> None.
Proof.
  unfold TimeAnalytics.isValidTrade, TimeAnalytics.getEffectiveOpenTime,
    TimeAnalytics.getEffectiveCloseTime.
  destruct (normalizeTimestamp (openTime t)),
    (normalizeTimestamp (closeTime t)), (tradeDate t); split; intros H;
    try reflexivity; try discriminate;
    try (left; discriminate); try (right; left; discriminate);
    try (right; right; discriminate).
  destruct H as [H | [H | H]]; congruence.
Qed.

Lemma time_fields_of_update (t : Trade) (a : TimeAnalytics.Acc) :
  TimeAnalytics.tradesCount (TimeAnalytics.tradeUpdate t a)
  = S (TimeAnalytics.tradesCount a)
  /\ TimeAnalytics.netPnlCurrency (TimeAnalytics.tradeUpdate t a)
     == TimeAnalytics.netPnlCurrency a + pnlOf t.
Proof.
  destruct (time_update_fields t a) as (H1 & _ & _ & _ & H5).
  split; [exact H1 | rewrite H5; reflexivity].
Qed.

(** X2.  The time analytics drop exactly the trades with no usable open
    time, close time or date string; every other trade is counted once in
    each of the three breakdowns, so the trade counts of the weekday
    rows, of the session rows and of the duration rows each add up to the
    number of valid trades, and their net P&L to the P&L of the valid
    trades. *)
Theorem time_stats_conserve :
  forall trades : list Trade,
    let r := TimeAnalytics.aggregateTimeAnalytics trades in
    let valid := TimeAnalytics.validTrades trades in
    (forall t, In t valid <->
               In t trades /\
               (normalizeTimestamp (openTime t) <> None
                \/ normalizeTimestamp (closeTime t) <> None
                \/ tradeDate t <> None)) /\
    list_sum (map TimeAnalytics.wd_tradesCount (TimeAnalytics.weekdayStats r))
    = List.length valid /\
    list_sum (map TimeAnalytics.ss_tradesCount (TimeAnalytics.sessionStats r))
    = List.length valid /\
    list_sum (map TimeAnalytics.db_tradesCount (TimeAnalytics.durationStats r))
    = List.length valid /\
    sumQ (map TimeAnalytics.wd_netPnlCurrency (TimeAnalytics.weekdayStats r))
    == totalPnl valid /\
    sumQ (map TimeAnalytics.ss_netPnlCurrency (TimeAnalytics.sessionStats r))
    == totalPnl valid /\
    sumQ (map TimeAnalytics.db_netPnlCurrency (TimeAnalytics.durationStats r))
    == totalPnl valid.
Proof.
  intros trades r valid. subst r valid. simpl. repeat apply conj.
  - intros t. unfold TimeAnalytics.validTrades.
    rewrite filter_In, isValidTrade_iff. reflexivity.
  - rewrite (list_sum_perm _ _ (Permutation_map _ (sort_perm _ _))), map_map.
    rewrite (map_ext _ (fun e => TimeAnalytics.tradesCount (snd e)))
      by (intros [k a]; reflexivity).
    unfold TimeAnalytics.aggregateMaps. rewrite weekdayMap_fold.
    rewrite (group_count Z.eqb) by
      (try reflexivity; intros t a; apply time_fields_of_update).
    unfold count. rewrite keyed_validTrades; [reflexivity |].
    intros t Ht. apply valid_has_keys, Ht.
  - rewrite (list_sum_perm _ _ (Permutation_map _ (sort_perm _ _))), map_map.
    rewrite (map_ext _ (fun e => TimeAnalytics.tradesCount (snd e)))
      by (intros [k a]; reflexivity).
    unfold TimeAnalytics.aggregateMaps. rewrite sessionMap_fold.
    rewrite (group_count TimeAnalytics.TradingSession_eqb) by
      (try reflexivity; intros t a; apply time_fields_of_update).
    unfold count. rewrite keyed_validTrades; [reflexivity |].
    intros t Ht. apply valid_has_keys, Ht.
  - rewrite (list_sum_perm _ _ (Permutation_map _ (sort_perm _ _))), map_map.
    rewrite (map_ext _ (fun e => TimeAnalytics.tradesCount (snd e)))
      by (intros [k a]; reflexivity).
    unfold TimeAnalytics.aggregateMaps. rewrite durationBucketMap_fold.
    rewrite (group_count TimeAnalytics.DurationBucketKey_eqb) by
      (try reflexivity; intros t a; apply time_fields_of_update).
    unfold count. rewrite keyed_validTrades; [reflexivity |].
    intros t Ht. apply valid_has_keys, Ht.
  - rewrite (sumQ_perm _ _ (Permutation_map _ (sort_perm _ _))), map_map.
    rewrite (map_ext _ (fun e => TimeAnalytics.netPnlCurrency (snd e)))
      by (intros [k a]; reflexivity).
    unfold TimeAnalytics.aggregateMaps. rewrite weekdayMap_fold.
    rewrite (group_amount Z.eqb _ _ _ TimeAnalytics.netPnlCurrency pnlOf) by
      (try reflexivity; intros t a; apply time_fields_of_update).
    rewrite keyed_validTrades; [simpl; rewrite sumQ_nil; unfold totalPnl; ring |].
    intros t Ht. apply valid_has_keys, Ht.
  - rewrite (sumQ_perm _ _ (Permutation_map _ (sort_perm _ _))), map_map.
    rewrite (map_ext _ (fun e => TimeAnalytics.netPnlCurrency (snd e)))
      by (intros [k a]; reflexivity).
    unfold TimeAnalytics.aggregateMaps. rewrite sessionMap_fold.
    rewrite (group_amount TimeAnalytics.TradingSession_eqb _ _ _
                          TimeAnalytics.netPnlCurrency pnlOf) by
      (try reflexivity; intros t a; apply time_fields_of_update).
    rewrite keyed_validTrades; [simpl; rewrite sumQ_nil; unfold totalPnl; ring |].
    intros t Ht. apply valid_has_keys, Ht.
  - rewrite (sumQ_perm _ _ (Permutation_map _ (sort_perm _ _))), map_map.
    rewrite (map_ext _ (fun e => TimeAnalytics.netPnlCurrency (snd e)))
      by (intros [k a]; reflexivity).
    unfold TimeAnalytics.aggregateMaps. rewrite durationBucketMap_fold.
    rewrite (group_amount TimeAnalytics.DurationBucketKey_eqb _ _ _
                          TimeAnalytics.netPnlCurrency pnlOf) by
      (try reflexivity; intros t a; apply time_fields_of_update).
    rewrite keyed_validTrades; [simpl; rewrite sumQ_nil; unfold totalPnl; ring |].
    intros t Ht. apply valid_has_keys, Ht.
Qed.

(** ** Counts as rationals *)

Lemma Q_of_nat_le (a b : nat) : (a <= b)%nat <-> Q_of_nat a <= Q_of_nat b.
Proof.
  unfold Q_of_nat. rewrite <- Zle_Qle. lia.
Qed.

Lemma Q_of_nat_pos (n : nat) : (0 < n)%nat -> 0 < Q_of_nat n.
Proof.
  intros H. unfold Q_of_nat. change 0 with (inject_Z 0).
  rewrite <- Zlt_Qlt. lia.
Qed.

Lemma Q_of_nat_nonneg (n : nat) : 0 <= Q_of_nat n.
Proof. apply (Q_of_nat_le 0 n). lia. Qed.

Lemma Q_of_nat_S (n : nat) : Q_of_nat (S n) == Q_of_nat n + 1.
Proof.
  unfold Q_of_nat. rewrite Nat2Z.inj_succ. unfold Z.succ.
  rewrite inject_Z_plus. reflexivity.
Qed.


Lemma ratio_bounds (w n : nat) :
  (w <= n)%nat -> (0 < n)%nat ->
  0 <= Q_of_nat w / Q_of_nat n /\ Q_of_nat w / Q_of_nat n <= 1.
Proof.
  intros Hw Hn. pose proof (Q_of_nat_pos n Hn) as Hp. split.
  - apply Qle_shift_div_l; [exact Hp |]. rewrite Qmult_0_l.
    apply Q_of_nat_nonneg.
  - apply Qle_shift_div_r; [exact Hp |]. rewrite Qmult_1_l.
    apply Q_of_nat_le, Hw.
Qed.

Lemma winRatio_bounds (w l : nat) : 0 <= winRatio w l /\ winRatio w l <= 1.
Proof.
  unfold winRatio. destruct (0 <? w + l)%nat eqn:E.
  - apply Nat.ltb_lt in E. apply ratio_bounds; lia.
  - split; [apply Qle_refl | discriminate].
Qed.

(** ** Order of the tag rows *)

Lemma compareTagStats_le (a b : TagAnalytics.TagStat) :
  TagAnalytics.compareTagStats a b <= 0
  <-> TagAnalytics.ts_netPnlCurrency b < TagAnalytics.ts_netPnlCurrency a
      \/ (TagAnalytics.ts_netPnlCurrency b == TagAnalytics.ts_netPnlCurrency a
          /\ (TagAnalytics.ts_tradesCount b <= TagAnalytics.ts_tradesCount a)%nat).
Proof.
  unfold TagAnalytics.compareTagStats.
  destruct (Qeqb (TagAnalytics.ts_netPnlCurrency b)
                 (TagAnalytics.ts_netPnlCurrency a)) eqn:E; simpl; qprop.
  - rewrite Q_of_nat_le. split.
    + intros H. right. split; [exact E | lra].
    + intros [H | [_ H]]; lra.
  - split.
    + intros H. left.
      destruct (Qlt_le_dec (TagAnalytics.ts_netPnlCurrency b)
                           (TagAnalytics.ts_netPnlCurrency a)) as [Hlt | Hle];
        [exact Hlt |].
      exfalso. apply E. lra.
    + intros [H | [H _]]; [lra | contradiction].
Qed.

(** X3.  The tag rows come out by net P&L, highest first, and among rows
    with equal net P&L by trade count, highest first. *)
Theorem tag_stats_sorted :
  forall trades : list Trade,
    StronglySorted
      (fun a b =>
         TagAnalytics.ts_netPnlCurrency b < TagAnalytics.ts_netPnlCurrency a
         \/ (TagAnalytics.ts_netPnlCurrency b == TagAnalytics.ts_netPnlCurrency a
             /\ (TagAnalytics.ts_tradesCount b
                 <= TagAnalytics.ts_tradesCount a)%nat))
      (TagAnalytics.aggregateTagStats trades).
Proof.
  intros trades. unfold TagAnalytics.aggregateTagStats.
  destruct (List.length (filter TagAnalytics.hasTags trades) =? 0)%nat;
    [constructor |].
  apply (StronglySorted_weaken
           (fun a b => TagAnalytics.compareTagStats a b <= 0)).
  - intros a b _ _ H. apply compareTagStats_le in H. exact H.
  - apply sort_sorted.
    + intros a b. rewrite !compareTagStats_le.
      destruct (Q_dec (TagAnalytics.ts_netPnlCurrency a)
                      (TagAnalytics.ts_netPnlCurrency b)) as [[H | H] | H].
      * right. left. exact H.
      * left. left. exact H.
      * destruct (Nat.le_ge_cases (TagAnalytics.ts_tradesCount a)
                                  (TagAnalytics.ts_tradesCount b)) as [Hc | Hc].
        -- right. right. split; [exact H | exact Hc].
        -- left. right. split; [symmetry; exact H | exact Hc].
    + intros a b c. rewrite !compareTagStats_le.
      intros [H1 | [H1 H1']] [H2 | [H2 H2']].
      * left. lra.
      * left. lra.
      * left. lra.
      * right. split; [lra | lia].
Qed.

(** ** Rates of a bucket *)

Lemma rValues_cons (t : Trade) (l : list Trade) :
  rValues (t :: l)
  = match rMultiple t with
    | Some r => r :: rValues l
    | None => rValues l
    end.
Proof. unfold rValues. simpl. destruct (rMultiple t); reflexivity. Qed.

Lemma rValues_split (t : Trade) (l : list Trade) :
  rValues (t :: l) = rValues [t] ++ rValues l.
Proof. unfold rValues. simpl. rewrite app_nil_r. reflexivity. Qed.

Lemma filter_cons_if {A : Type} (f : A -> bool) (x : A) (l : list A) :
  filter f (x :: l) = if f x then x :: filter f l else filter f l.
Proof. reflexivity. Qed.

Lemma grossProfitOf_cons (t : Trade) (l : list Trade) :
  grossProfitOf (t :: l)
  == (if isWin t then pnlOf t else 0) + grossProfitOf l.
Proof.
  unfold grossProfitOf. rewrite filter_cons_if.
  destruct (isWin t); [apply totalPnl_cons | ring].
Qed.

Lemma grossLossOf_cons (t : Trade) (l : list Trade) :
  grossLossOf (t :: l)
  == (if isLoss t then Qabs (pnlOf t) else 0) + grossLossOf l.
Proof.
  unfold grossLossOf. rewrite filter_cons_if.
  destruct (isLoss t); [simpl; apply sumQ_cons | ring].
Qed.

Lemma grossProfitOf_nonneg (l : list Trade) : 0 <= grossProfitOf l.
Proof.
  induction l as [| t l IH]; [discriminate |].
  rewrite grossProfitOf_cons. destruct (isWin t) eqn:E; [| lra].
  apply (proj1 (outcome_sign t)) in E. lra.
Qed.

Lemma grossLossOf_nonneg (l : list Trade) : 0 <= grossLossOf l.
Proof.
  induction l as [| t l IH]; [discriminate |].
  rewrite grossLossOf_cons. destruct (isLoss t); [| lra].
  pose proof (Qabs_nonneg (pnlOf t)). lra.
Qed.

Lemma grossLossOf_pos (l : list Trade) :
  count isLoss l <> 0%nat -> 0 < grossLossOf l.
Proof.
  induction l as [| t l IH]; [unfold count; simpl; congruence |].
  rewrite count_cons, grossLossOf_cons. pose proof (grossLossOf_nonneg l).
  destruct (isLoss t) eqn:E.
  - intros _. apply (proj1 (proj2 (outcome_sign t))) in E.
    rewrite Qabs_neg by lra. lra.
  - intros Hc. specialize (IH Hc). lra.
Qed.

Lemma grossLossOf_zero (l : list Trade) :
  count isLoss l = 0%nat -> grossLossOf l == 0.
Proof.
  unfold count, grossLossOf. intros H.
  apply length_zero_iff_nil in H. rewrite H. reflexivity.
Qed.

Lemma meanR_of (sumR : Q) (countR : nat) (l : list Trade) :
  countR = List.length (rValues l) -> sumR == sumQ (rValues l) ->
  optQeq (if (0 <? countR)%nat then Some (sumR / Q_of_nat countR) else None)
         (meanR l).
Proof.
  intros -> Hs. unfold meanR.
  destruct (rValues l) as [| r rs] eqn:E; simpl; [exact I |].
  rewrite Hs. reflexivity.
Qed.

Lemma time_update_R (t : Trade) (a : TimeAnalytics.Acc) :
  TimeAnalytics.countR (TimeAnalytics.tradeUpdate t a)
  = (TimeAnalytics.countR a + List.length (rValues [t]))%nat
  /\ TimeAnalytics.sumR (TimeAnalytics.tradeUpdate t a)
     == TimeAnalytics.sumR a + sumQ (rValues [t]).
Proof.
  unfold TimeAnalytics.tradeUpdate, TimeAnalytics.accumulate, rValues.
  simpl. destruct (rMultiple t); simpl; (split; [lia |]);
    unfold sumQ; simpl; ring.
Qed.

Lemma time_fold_R (l : list Trade) (a : TimeAnalytics.Acc) :
  let r := fold_left (fun a t => TimeAnalytics.tradeUpdate t a) l a in
  TimeAnalytics.countR r = (TimeAnalytics.countR a + List.length (rValues l))%nat
  /\ TimeAnalytics.sumR r == TimeAnalytics.sumR a + sumQ (rValues l).
Proof.
  revert a. induction l as [| t l IH]; intros a; simpl.
  - split; [lia | rewrite sumQ_nil; ring].
  - destruct (IH (TimeAnalytics.tradeUpdate t a)) as [H1 H2].
    destruct (time_update_R t a) as [U1 U2].
    rewrite H1, H2, U1, U2, rValues_cons.
    replace (rValues [t])
      with (match rMultiple t with Some r => [r] | None => [] end)
      by (unfold rValues; simpl; destruct (rMultiple t); reflexivity).
    destruct (rMultiple t); simpl List.length; simpl app; (split; [lia |]);
      rewrite ?sumQ_cons, ?sumQ_nil; ring.
Qed.

Lemma time_entry_fold {K : Type} (eqb : K -> K -> bool)
      (eqb_eq : forall a b, eqb a b = true <-> a = b)
      (key : Trade -> option K) (trades : list Trade) (k : K)
      (a : TimeAnalytics.Acc) :
  In (k, a) (fold_left (groupStep eqb key TimeAnalytics.emptyAcc
                                  TimeAnalytics.tradeUpdate) trades []) ->
  optQeq (TimeAnalytics.avgROf a) (meanR (bucket eqb key k trades))
  /\ TimeAnalytics.winRateOf a
     = winRatio (TimeAnalytics.winsCount a) (TimeAnalytics.lossesCount a).
Proof.
  intros Hin. apply (group_entry eqb eqb_eq) in Hin. destruct Hin as [_ ->].
  split; [| reflexivity].
  destruct (time_fold_R (bucket eqb key k trades) TimeAnalytics.emptyAcc)
    as [H1 H2].
  unfold TimeAnalytics.avgROf. apply meanR_of.
  - rewrite H1. reflexivity.
  - rewrite H2. simpl. ring.
Qed.

(** X4.  In every weekday, session and duration row the win rate is
    wins over wins plus losses of the row's trades, breakevens left out,
    0 when the row has neither, and always between 0 and 1; the average
    R-multiple is the mean over the row's trades that have one, null when
    none has. *)
Theorem time_bucket_rates :
  forall trades : list Trade,
    let r := TimeAnalytics.aggregateTimeAnalytics trades in
    (forall s, In s (TimeAnalytics.weekdayStats r) ->
       let b := bucket Z.eqb weekdayOf (TimeAnalytics.wd_weekday s) trades in
       TimeAnalytics.wd_winRate s = winRatio (count isWin b) (count isLoss b) /\
       0 <= TimeAnalytics.wd_winRate s /\ TimeAnalytics.wd_winRate s <= 1 /\
       optQeq (TimeAnalytics.wd_avgRMultiple s) (meanR b)) /\
    (forall s, In s (TimeAnalytics.sessionStats r) ->
       let b := bucket TimeAnalytics.TradingSession_eqb sessionOf
                       (TimeAnalytics.ss_session s) trades in
       TimeAnalytics.ss_winRate s = winRatio (count isWin b) (count isLoss b) /\
       0 <= TimeAnalytics.ss_winRate s /\ TimeAnalytics.ss_winRate s <= 1 /\
       optQeq (TimeAnalytics.ss_avgRMultiple s) (meanR b)) /\
    (forall s, In s (TimeAnalytics.durationStats r) ->
       let b := bucket TimeAnalytics.DurationBucketKey_eqb durationOf
                       (TimeAnalytics.db_bucketKey s) trades in
       TimeAnalytics.db_winRate s = winRatio (count isWin b) (count isLoss b) /\
       0 <= TimeAnalytics.db_winRate s /\ TimeAnalytics.db_winRate s <= 1 /\
       optQeq (TimeAnalytics.db_avgRMultiple s) (meanR b)).
Proof.
  intros trades r. subst r. repeat apply conj.
  - intros s Hs b.
    destruct (weekday_stat trades s Hs) as (_ & _ & H2 & H3 & _).
    simpl in Hs. rewrite sort_In, in_map_iff in Hs.
    destruct Hs as ([k a] & <- & Hin). simpl in *.
    unfold TimeAnalytics.aggregateMaps in Hin.
    rewrite weekdayMap_fold in Hin. simpl in Hin.
    apply (time_entry_fold Z.eqb Z.eqb_eq) in Hin. destruct Hin as [HR HW].
    rewrite bucket_validTrades in HR
      by (intros t Ht; apply invalid_no_key, Ht).
    rewrite HW, H2, H3. fold b.
    pose proof (winRatio_bounds (count isWin b) (count isLoss b)).
    repeat split; try tauto; exact HR.
  - intros s Hs b.
    destruct (session_stat trades s Hs) as (_ & _ & H2 & H3 & _).
    simpl in Hs. rewrite sort_In, in_map_iff in Hs.
    destruct Hs as ([k a] & <- & Hin). simpl in *.
    unfold TimeAnalytics.aggregateMaps in Hin.
    rewrite sessionMap_fold in Hin. simpl in Hin.
    apply (time_entry_fold _ TradingSession_eqb_eq) in Hin.
    destruct Hin as [HR HW].
    rewrite bucket_validTrades in HR
      by (intros t Ht; apply invalid_no_key, Ht).
    rewrite HW, H2, H3. fold b.
    pose proof (winRatio_bounds (count isWin b) (count isLoss b)).
    repeat split; try tauto; exact HR.
  - intros s Hs b.
    destruct (duration_stat trades s Hs) as (_ & _ & H2 & H3 & _).
    simpl in Hs. rewrite sort_In, in_map_iff in Hs.
    destruct Hs as ([k a] & <- & Hin). simpl in *.
    unfold TimeAnalytics.aggregateMaps in Hin.
    rewrite durationBucketMap_fold in Hin. simpl in Hin.
    apply (time_entry_fold _ DurationBucketKey_eqb_eq) in Hin.
    destruct Hin as [HR HW].
    rewrite bucket_validTrades in HR
      by (intros t Ht; apply invalid_no_key, Ht).
    rewrite HW, H2, H3. fold b.
    pose proof (winRatio_bounds (count isWin b) (count isLoss b)).
    repeat split; try tauto; exact HR.
Qed.

Lemma time_bucket_rates_witness :
  In Samples.fridayStat
     (TimeAnalytics.weekdayStats
        (TimeAnalytics.aggregateTimeAnalytics Samples.journal)) /\
  TimeAnalytics.wd_winRate Samples.fridayStat <= 1.
Proof.
  assert (H : In Samples.fridayStat
                 (TimeAnalytics.weekdayStats
                    (TimeAnalytics.aggregateTimeAnalytics Samples.journal))).
  { left. reflexivity. }
  split; [exact H |].
  destruct (time_bucket_rates Samples.journal) as (Hw & _).
  destruct (Hw Samples.fridayStat H) as (_ & _ & Hle & _).
  exact Hle.
Defined.

Lemma tag_update_gross (t : Trade) (a : TagAnalytics.Acc) :
  let r := TagAnalytics.tradeUpdate t a in
  TagAnalytics.grossProfit r
  == TagAnalytics.grossProfit a + grossProfitOf [t] /\
  TagAnalytics.grossLossAbs r
  == TagAnalytics.grossLossAbs a + grossLossOf [t] /\
  TagAnalytics.countR r
  = (TagAnalytics.countR a + List.length (rValues [t]))%nat /\
  TagAnalytics.sumR r == TagAnalytics.sumR a + sumQ (rValues [t]).
Proof.
  unfold TagAnalytics.tradeUpdate, TagAnalytics.accumulate.
  rewrite grossProfitOf_cons, grossLossOf_cons, rValues_cons.
  unfold isWin, isLoss, pnlOf, grossProfitOf, grossLossOf, totalPnl, rValues.
  simpl.
  destruct (rMultiple t), (Qgtb (orZero (pnlCurrency t)) 0),
    (Qltb (orZero (pnlCurrency t)) 0); simpl;
    (split; [| split; [| split; [lia |]]]);
    rewrite ?sumQ_cons, ?sumQ_nil; ring.
Qed.

Lemma tag_fold_gross (l : list Trade) (a : TagAnalytics.Acc) :
  let r := fold_left (fun a t => TagAnalytics.tradeUpdate t a) l a in
  TagAnalytics.grossProfit r == TagAnalytics.grossProfit a + grossProfitOf l /\
  TagAnalytics.grossLossAbs r == TagAnalytics.grossLossAbs a + grossLossOf l /\
  TagAnalytics.countR r = (TagAnalytics.countR a + List.length (rValues l))%nat /\
  TagAnalytics.sumR r == TagAnalytics.sumR a + sumQ (rValues l).
Proof.
  revert a. induction l as [| t l IH]; intros a; cbv zeta; cbn [fold_left].
  - assert (Z1 : grossProfitOf [] == 0) by reflexivity.
    assert (Z2 : grossLossOf [] == 0) by reflexivity.
    split; [lra |]. split; [lra |]. simpl. split; [lia |].
    rewrite sumQ_nil. ring.
  - destruct (IH (TagAnalytics.tradeUpdate t a)) as (H1 & H2 & H3 & H4).
    destruct (tag_update_gross t a) as (U1 & U2 & U3 & U4).
    rewrite H1, H2, H3, H4, U1, U2, U3, U4.
    pose proof (grossProfitOf_cons t l) as P1.
    pose proof (grossProfitOf_cons t []) as P2.
    pose proof (grossLossOf_cons t l) as L1.
    pose proof (grossLossOf_cons t []) as L2.
    assert (Z1 : grossProfitOf [] == 0) by reflexivity.
    assert (Z2 : grossLossOf [] == 0) by reflexivity.
    rewrite (rValues_split t l), length_app, sumQ_app.
    split; [lra |]. split; [lra |]. split; [lia | ring].
Qed.

Lemma tag_entry_gross (trades : list Trade) (tag : string)
      (a : TagAnalytics.Acc) :
  In (tag, a) (TagAnalytics.buildTagMap trades) ->
  let b := taggedWith tag trades in
  TagAnalytics.grossProfit a == grossProfitOf b /\
  TagAnalytics.grossLossAbs a == grossLossOf b /\
  TagAnalytics.countR a = List.length (rValues b) /\
  TagAnalytics.sumR a == sumQ (rValues b).
Proof.
  rewrite buildTagMap_groups. intros Hin b.
  apply (group_entry String.eqb String.eqb_eq) in Hin.
  destruct Hin as [_ ->].
  rewrite <- (fold_left_map (fun a t => TagAnalytics.tradeUpdate t a) snd).
  fold (taggedWith tag trades). fold b.
  destruct (tag_fold_gross b TagAnalytics.emptyAcc) as (H1 & H2 & H3 & H4).
  rewrite H1, H2, H3, H4. simpl. repeat split; try ring.
Qed.

(** X5.  In every tag row the win rate is wins over wins plus losses of
    the trades carrying the tag, between 0 and 1; the average R-multiple
    is the mean over those that have one; the profit factor is null
    exactly when no trade carrying the tag lost money, and otherwise is
    the sum of the winning P&L over the sum of the absolute losing P&L,
    never negative. *)
Theorem tag_stat_rates :
  forall (trades : list Trade) (s : TagAnalytics.TagStat),
    In s (TagAnalytics.aggregateTagStats trades) ->
    let b := taggedWith (TagAnalytics.ts_tag s) trades in
    TagAnalytics.ts_winRate s = winRatio (count isWin b) (count isLoss b) /\
    0 <= TagAnalytics.ts_winRate s /\ TagAnalytics.ts_winRate s <= 1 /\
    optQeq (TagAnalytics.ts_avgRMultiple s) (meanR b) /\
    (TagAnalytics.ts_profitFactor s = None <-> count isLoss b = 0%nat) /\
    (forall pf, TagAnalytics.ts_profitFactor s = Some pf ->
       pf == grossProfitOf b / grossLossOf b /\ 0 <= pf).
Proof.
  intros trades s Hs b. subst b.
  rewrite aggregateTagStats_In, in_map_iff in Hs.
  destruct Hs as ([k a] & <- & Hin). simpl TagAnalytics.ts_tag.
  destruct (tag_entry trades k a Hin) as (_ & _ & HW & HL & _).
  destruct (tag_entry_gross trades k a Hin) as (HP & HG & HC & HS).
  set (b := taggedWith k trades) in *.
  pose proof (winRatio_bounds (count isWin b) (count isLoss b)) as [B0 B1].
  assert (HWR : TagAnalytics.ts_winRate (TagAnalytics.toTagStat (k, a))
                = winRatio (count isWin b) (count isLoss b)).
  { simpl. rewrite HW, HL. reflexivity. }
  rewrite HWR. split; [reflexivity |]. split; [exact B0 |].
  split; [exact B1 |]. split; [| split].
  - simpl. apply meanR_of; assumption.
  - simpl. destruct (Qgtb (TagAnalytics.grossLossAbs a) 0) eqn:E.
    + apply Qgtb_gt in E. split; [discriminate |]. intros Hc.
      apply grossLossOf_zero in Hc. rewrite HG, Hc in E.
      exfalso. revert E. apply Qlt_irrefl.
    + split; [| reflexivity]. intros _.
      destruct (Nat.eq_dec (count isLoss b) 0) as [Hc | Hc]; [exact Hc |].
      apply grossLossOf_pos in Hc. rewrite <- HG in Hc.
      apply Qgtb_gt in Hc. congruence.
  - simpl. destruct (Qgtb (TagAnalytics.grossLossAbs a) 0) eqn:E;
      [| discriminate].
    intros pf [= <-]. apply Qgtb_gt in E.
    split; [rewrite HP, HG; reflexivity |].
    pose proof (grossProfitOf_nonneg b) as Hp. rewrite <- HP in Hp.
    apply Qle_shift_div_l; [exact E |]. lra.
Qed.

Lemma tag_stat_rates_witness :
  In MoreSamples.tagStatA (TagAnalytics.aggregateTagStats Samples.journal) /\
  (TagAnalytics.ts_profitFactor MoreSamples.tagStatA = None
   <-> count isLoss (taggedWith "a" Samples.journal) = 0%nat).
Proof.
  assert (H : In MoreSamples.tagStatA
                 (TagAnalytics.aggregateTagStats Samples.journal)).
  { right. left. reflexivity. }
  split; [exact H |].
  destruct (tag_stat_rates Samples.journal MoreSamples.tagStatA H)
    as (_ & _ & _ & _ & Hpf & _).
  exact Hpf.
Defined.

(** ** The Compass Score of the dashboard *)

Lemma clamp_spec (v lo hi : Q) :
  lo <= hi ->
  (v <= lo /\ Dashboard.clamp v lo hi == lo)
  \/ (lo <= v <= hi /\ Dashboard.clamp v lo hi == v)
  \/ (hi <= v /\ Dashboard.clamp v lo hi == hi).
Proof.
  intros H. unfold Dashboard.clamp.
  destruct (Q.max_spec lo v) as [[H1 E1] | [H1 E1]];
    destruct (Q.min_spec hi (Qmax lo v)) as [[H2 E2] | [H2 E2]];
    rewrite E1 in *; rewrite E2.
  - right. right. split; [lra | reflexivity].
  - right. left. split; [lra | reflexivity].
  - right. right. split; [lra | reflexivity].
  - left. split; [lra | reflexivity].
Qed.

Lemma clamp_bounds (v lo hi : Q) :
  lo <= hi -> lo <= Dashboard.clamp v lo hi /\ Dashboard.clamp v lo hi <= hi.
Proof.
  intros H. destruct (clamp_spec v lo hi H) as [[? E] | [[? E] | [? E]]];
    rewrite E; lra.
Qed.

Lemma clamp_monotone (a b lo hi : Q) :
  lo <= hi -> a <= b -> Dashboard.clamp a lo hi <= Dashboard.clamp b lo hi.
Proof.
  intros H Hab.
  destruct (clamp_spec a lo hi H) as [[? Ea] | [[? Ea] | [? Ea]]];
    destruct (clamp_spec b lo hi H) as [[? Eb] | [[? Eb] | [? Eb]]];
    rewrite Ea, Eb; lra.
Qed.

Lemma scoreWinRate_bounds (x : number) :
  0 <= Dashboard.scoreWinRate x /\ Dashboard.scoreWinRate x <= 100.
Proof.
  destruct x as [w | | |]; simpl; try lra.
  qcase; [lra |]. apply clamp_bounds. lra.
Qed.

Lemma scoreProfitFactor_bounds (x : number) :
  0 <= Dashboard.scoreProfitFactor x /\ Dashboard.scoreProfitFactor x <= 100.
Proof.
  destruct x as [w | | |]; simpl; try lra. repeat qcase; lra.
Qed.

Lemma scoreAvgWinLoss_bounds (x : number) :
  0 <= Dashboard.scoreAvgWinLoss x /\ Dashboard.scoreAvgWinLoss x <= 100.
Proof.
  destruct x as [w | | |]; simpl; try lra. repeat qcase; lra.
Qed.

Lemma scoreRecoveryFactor_bounds (x : number) :
  0 <= Dashboard.scoreRecoveryFactor x /\ Dashboard.scoreRecoveryFactor x <= 100.
Proof.
  destruct x as [w | | |]; simpl; try lra. repeat qcase; lra.
Qed.

Lemma scoreMaxDrawdown_bounds (x : number) (totalProfit : Q) :
  0 <= Dashboard.scoreMaxDrawdown x totalProfit
  /\ Dashboard.scoreMaxDrawdown x totalProfit <= 100.
Proof.
  destruct x as [w | | |]; simpl; try lra.
  destruct (Qleb w 0 || Qleb totalProfit 0); [lra |].
  apply clamp_bounds. lra.
Qed.

Lemma scoreConsistency_bounds (x : number) :
  0 <= Dashboard.scoreConsistency x /\ Dashboard.scoreConsistency x <= 100.
Proof.
  destruct x as [w | | |]; simpl; try lra.
  qcase; [lra |]. apply clamp_bounds. lra.
Qed.

(** X6.  Whatever the trades, and whatever the square root returns, each
    of the six sub-scores of the dashboard Compass Score lies between 0
    and 100, and so does the total; the total is the weighted sum with
    weights 20, 20, 20, 15, 15 and 10 percent. *)
Theorem compass_score_bounded :
  forall (sqrt : Q -> Q) (now : Date) (trades : list Trade) (days : nat),
    let c := Dashboard.compassScore
               (Dashboard.aggregateTrades sqrt now trades days) in
    let inRange := fun m => 0 <= Dashboard.score m /\ Dashboard.score m <= 100 in
    inRange (Dashboard.cs_winRate c) /\
    inRange (Dashboard.cs_profitFactor c) /\
    inRange (Dashboard.cs_avgWinLoss c) /\
    inRange (Dashboard.cs_maxDrawdown c) /\
    inRange (Dashboard.cs_recoveryFactor c) /\
    inRange (Dashboard.cs_consistency c) /\
    Dashboard.totalScore c
    == (20 * Dashboard.score (Dashboard.cs_winRate c)
        + 20 * Dashboard.score (Dashboard.cs_profitFactor c)
        + 20 * Dashboard.score (Dashboard.cs_avgWinLoss c)
        + 15 * Dashboard.score (Dashboard.cs_maxDrawdown c)
        + 15 * Dashboard.score (Dashboard.cs_recoveryFactor c)
        + 10 * Dashboard.score (Dashboard.cs_consistency c)) / 100 /\
    0 <= Dashboard.totalScore c /\ Dashboard.totalScore c <= 100.
Proof.
  intros sqrt now trades days. cbv zeta.
  unfold Dashboard.aggregateTrades, Dashboard.compassScore.
  unfold Dashboard.computeCompassScore.
  cbv zeta.
  unfold Dashboard.cs_winRate, Dashboard.cs_profitFactor,
    Dashboard.cs_avgWinLoss, Dashboard.cs_maxDrawdown,
    Dashboard.cs_recoveryFactor, Dashboard.cs_consistency,
    Dashboard.totalScore, Dashboard.score.
  match goal with
  | |- context [Dashboard.scoreWinRate ?x] =>
      pose proof (scoreWinRate_bounds x) as [? ?];
      generalize dependent (Dashboard.scoreWinRate x)
  end. intros s1 ? ?.
  match goal with
  | |- context [Dashboard.scoreProfitFactor ?x] =>
      pose proof (scoreProfitFactor_bounds x) as [? ?];
      generalize dependent (Dashboard.scoreProfitFactor x)
  end. intros s2 ? ?.
  match goal with
  | |- context [Dashboard.scoreAvgWinLoss ?x] =>
      pose proof (scoreAvgWinLoss_bounds x) as [? ?];
      generalize dependent (Dashboard.scoreAvgWinLoss x)
  end. intros s3 ? ?.
  match goal with
  | |- context [Dashboard.scoreMaxDrawdown ?x ?y] =>
      pose proof (scoreMaxDrawdown_bounds x y) as [? ?];
      generalize dependent (Dashboard.scoreMaxDrawdown x y)
  end. intros s4 ? ?.
  match goal with
  | |- context [Dashboard.scoreRecoveryFactor ?x] =>
      pose proof (scoreRecoveryFactor_bounds x) as [? ?];
      generalize dependent (Dashboard.scoreRecoveryFactor x)
  end. intros s5 ? ?.
  match goal with
  | |- context [Dashboard.scoreConsistency ?x] =>
      pose proof (scoreConsistency_bounds x) as [? ?];
      generalize dependent (Dashboard.scoreConsistency x)
  end. intros s6 ? ?.
  repeat split; try assumption; try lra.
  field.
Qed.

(** X7.  The score curves of the dashboard never reward a worse metric:
    the win-rate, profit-factor, win/loss-ratio and recovery-factor scores
    do not decrease when their metric grows, and the consistency score
    does not increase when the dispersion grows. *)
Theorem score_curves_monotone :
  forall a b : Q,
    a <= b ->
    Dashboard.scoreWinRate (Num a) <= Dashboard.scoreWinRate (Num b) /\
    Dashboard.scoreProfitFactor (Num a) <= Dashboard.scoreProfitFactor (Num b) /\
    Dashboard.scoreAvgWinLoss (Num a) <= Dashboard.scoreAvgWinLoss (Num b) /\
    Dashboard.scoreRecoveryFactor (Num a)
    <= Dashboard.scoreRecoveryFactor (Num b) /\
    Dashboard.scoreConsistency (Num b) <= Dashboard.scoreConsistency (Num a).
Proof.
  intros a b Hab. repeat apply conj.
  - simpl.
    pose proof (clamp_bounds a 0 100) as Ba.
    pose proof (clamp_bounds b 0 100) as Bb.
    pose proof (clamp_monotone a b 0 100) as M.
    repeat qcase; lra.
  - simpl. repeat qcase; lra.
  - simpl. repeat qcase; lra.
  - simpl. repeat qcase; lra.
  - simpl.
    pose proof (clamp_bounds (100 - a * 100) 0 100) as Ba.
    pose proof (clamp_bounds (100 - b * 100) 0 100) as Bb.
    pose proof (clamp_monotone (100 - b * 100) (100 - a * 100) 0 100) as M.
    repeat qcase; lra.
Qed.

Lemma score_curves_monotone_witness :
  (3 # 2) <= 2 /\
  Dashboard.scoreProfitFactor (Num (3 # 2)) <= Dashboard.scoreProfitFactor (Num 2).
Proof.
  assert (H : (3 # 2) <= 2) by (vm_compute; discriminate).
  split; [exact H |].
  destruct (score_curves_monotone (3 # 2) 2 H) as (_ & Hpf & _).
  exact Hpf.
Defined.

(** ** Drawdown *)

Lemma map_set_values {K V : Type} (eqb : K -> K -> bool) (P : V -> Prop)
      (m : list (K * V)) (k : K) (v : V) :
  Forall (fun e => P (snd e)) m -> P v ->
  Forall (fun e => P (snd e)) (map_set eqb m k v).
Proof.
  intros Hm Hv. induction m as [| [k' v'] m IH]; simpl.
  - constructor; [exact Hv | constructor].
  - inversion Hm; subst. destruct (eqb k k').
    + constructor; assumption.
    + constructor; [assumption | apply IH; assumption].
Qed.

Lemma map_get_value {K V : Type} (eqb : K -> K -> bool) (P : V -> Prop)
      (m : list (K * V)) (k : K) (v : V) :
  Forall (fun e => P (snd e)) m -> map_get eqb m k = Some v -> P v.
Proof.
  intros Hm. induction m as [| [k' v'] m IH]; simpl; [discriminate |].
  inversion Hm; subst. destruct (eqb k k').
  - intros [= <-]. assumption.
  - apply IH. assumption.
Qed.

Lemma allDaily_nonneg (l : list Trade) (m : list (Z * Q)) :
  (forall t, In t l -> 0 <= pnlOf t) ->
  Forall (fun e => 0 <= snd e) m ->
  Forall (fun e => 0 <= snd e) (fold_left Dashboard.addToDay l m).
Proof.
  revert m. induction l as [| t l IH]; intros m Hl Hm; simpl; [exact Hm |].
  apply IH; [intros u Hu; apply Hl; right; exact Hu |].
  unfold Dashboard.addToDay.
  destruct (Dashboard.getEffectiveDate t) as [d |]; [| exact Hm].
  apply (map_set_values Z.eqb (fun v => 0 <= v)); [exact Hm |].
  pose proof (Hl t (or_introl eq_refl)) as Ht.
  unfold pnlOf in Ht. unfold Dashboard.pnlOf.
  destruct (map_get Z.eqb m (Dashboard.formatDateKey d)) as [v |] eqn:E; simpl.
  - apply (map_get_value Z.eqb (fun v => 0 <= v)) in E; [lra | exact Hm].
  - lra.
Qed.

Lemma sortedDaily_nonneg (trades : list Trade) :
  (forall t, In t trades -> 0 <= pnlOf t) ->
  Forall (fun d => 0 <= snd d) (Dashboard.sortedDaily trades).
Proof.
  intros H. apply Forall_forall. intros d Hd.
  unfold Dashboard.sortedDaily in Hd. rewrite sort_In, in_map_iff in Hd.
  destruct Hd as ([k v] & <- & Hin). simpl.
  pose proof (allDaily_nonneg trades [] H (Forall_nil _)) as Hall.
  rewrite Forall_forall in Hall. apply (Hall _ Hin).
Qed.

Lemma drawdown_fold_nonpos (l : list (Date * Q)) (e p m : Q) :
  m <= 0 -> snd (fold_left Dashboard.drawdownStep l (e, p, m)) <= 0.
Proof.
  revert e p m. induction l as [| d l IH]; intros e p m Hm; simpl;
    [exact Hm |].
  apply IH. qcase; lra.
Qed.

Lemma drawdown_fold_flat (l : list (Date * Q)) (e p m : Q) :
  Forall (fun d => 0 <= snd d) l -> e == p -> m == 0 ->
  snd (fold_left Dashboard.drawdownStep l (e, p, m)) == 0.
Proof.
  revert e p m. induction l as [| d l IH]; intros e p m Hl He Hm; simpl;
    [exact Hm |].
  inversion Hl; subst. apply IH; [assumption | |].
  - qcase; lra.
  - repeat qcase; lra.
Qed.

(** X8.  The dashboard's maximum drawdown is never positive.  When no
    trade has a negative P&L the equity curve never falls: the maximum
    drawdown is 0, the drawdown metric scores its floor of 10 and the
    recovery factor, whose division by the drawdown is skipped, is 0 and
    scores 0. *)
Theorem drawdown_without_losses :
  forall (sqrt : Q -> Q) (now : Date) (trades : list Trade) (days : nat),
    let c := Dashboard.compassScore
               (Dashboard.aggregateTrades sqrt now trades days) in
    Dashboard.maxDrawdownOf trades <= 0 /\
    Dashboard.value (Dashboard.cs_maxDrawdown c)
    == - Dashboard.maxDrawdownOf trades /\
    ((forall t, In t trades -> 0 <= pnlOf t) ->
     Dashboard.maxDrawdownOf trades == 0 /\
     Dashboard.score (Dashboard.cs_maxDrawdown c) = 10 /\
     Dashboard.value (Dashboard.cs_recoveryFactor c) = 0 /\
     Dashboard.score (Dashboard.cs_recoveryFactor c) = 0).
Proof.
  intros sqrt now trades days c.
  assert (Hn : Dashboard.maxDrawdownOf trades <= 0).
  { unfold Dashboard.maxDrawdownOf. apply drawdown_fold_nonpos. lra. }
  split; [exact Hn |]. split.
  - subst c. simpl. apply Qabs_neg. exact Hn.
  - intros H.
    assert (Hz : Dashboard.maxDrawdownOf trades == 0).
    { unfold Dashboard.maxDrawdownOf.
      apply drawdown_fold_flat;
        [apply sortedDaily_nonneg; exact H | reflexivity | reflexivity]. }
    split; [exact Hz |].
    assert (Ha : Qabs (Dashboard.maxDrawdownOf trades) == 0)
      by (rewrite Hz; reflexivity).
    assert (Hle : Qleb (Qabs (Dashboard.maxDrawdownOf trades)) 0 = true)
      by (apply Qleb_le; rewrite Ha; apply Qle_refl).
    assert (Hgt : Qgtb (Qabs (Dashboard.maxDrawdownOf trades)) 0 = false).
    { destruct (Qgtb (Qabs (Dashboard.maxDrawdownOf trades)) 0) eqn:E;
        [| reflexivity].
      apply Qgtb_gt in E. rewrite Ha in E.
      exfalso. revert E. apply Qlt_irrefl. }
    subst c. simpl. rewrite Hle, Hgt. simpl. repeat split; reflexivity.
Qed.

Lemma drawdown_without_losses_witness :
  (forall t, In t MoreSamples.winners -> 0 <= pnlOf t) /\
  Dashboard.maxDrawdownOf MoreSamples.winners == 0.
Proof.
  assert (H : forall t, In t MoreSamples.winners -> 0 <= pnlOf t).
  { intros t [<- | [<- | []]]; vm_compute; discriminate. }
  split; [exact H |].
  destruct (drawdown_without_losses (fun x => x) 0%Z MoreSamples.winners 30)
    as (_ & _ & Hd).
  apply (Hd H).
Defined.

(** ** The chart series of the dashboard *)

Lemma sort_sorted_id {A : Type} (cmp : A -> A -> Q) (l : list A) :
  StronglySorted (fun a b => cmp a b <= 0) l -> sort cmp l = l.
Proof.
  induction 1 as [| x l Hs IH Hx]; simpl; [reflexivity |].
  rewrite IH. destruct l as [| y l]; simpl; [reflexivity |].
  inversion Hx as [| ? ? Hxy _]; subst.
  apply Qleb_le in Hxy. rewrite Hxy. reflexivity.
Qed.

Lemma generateDateRange_S (now : Date) (n : nat) :
  Dashboard.generateDateRange now (S n)
  = (dayIndex now - Z.of_nat n)%Z :: Dashboard.generateDateRange now n.
Proof.
  unfold Dashboard.generateDateRange, Dashboard.formatDateKey.
  rewrite seq_S, rev_app_distr. reflexivity.
Qed.

Lemma generateDateRange_In (now : Date) (n : nat) (k : Z) :
  In k (Dashboard.generateDateRange now n)
  <-> (dayIndex now - Z.of_nat n < k <= dayIndex now)%Z.
Proof.
  induction n as [| n IH].
  - simpl. lia.
  - rewrite generateDateRange_S. simpl. rewrite IH. lia.
Qed.

Lemma generateDateRange_sorted (now : Date) (n : nat) :
  StronglySorted Z.lt (Dashboard.generateDateRange now n).
Proof.
  induction n as [| n IH]; [constructor |].
  rewrite generateDateRange_S. constructor; [exact IH |].
  apply Forall_forall. intros k Hk. apply generateDateRange_In in Hk. lia.
Qed.

Lemma generateDateRange_NoDup (now : Date) (n : nat) :
  NoDup (Dashboard.generateDateRange now n).
Proof.
  induction n as [| n IH]; [constructor |].
  rewrite generateDateRange_S. constructor; [| exact IH].
  intros Hk. apply generateDateRange_In in Hk. lia.
Qed.

Lemma generateDateRange_explicit (now : Date) (n : nat) :
  Dashboard.generateDateRange now n
  = map (fun i => (dayIndex now - Z.of_nat (n - 1 - i))%Z) (seq 0 n).
Proof.
  induction n as [| n IH]; [reflexivity |].
  rewrite generateDateRange_S, IH. simpl seq. rewrite <- seq_shift.
  cbn [map]. rewrite map_map. f_equal; [f_equal; lia |].
  apply map_ext. intros i. f_equal. lia.
Qed.

Lemma generateDateRange_last (now : Date) (n : nat) (d : Z) :
  last (Dashboard.generateDateRange now (S n)) d = dayIndex now.
Proof.
  unfold Dashboard.generateDateRange, Dashboard.formatDateKey.
  simpl seq. simpl rev. rewrite map_app. cbn [map]. rewrite last_last.
  simpl. lia.
Qed.

Lemma inDateRange_generated (now : Date) (n : nat) (k : Z) :
  In k (Dashboard.generateDateRange now n) ->
  Dashboard.inDateRange (Dashboard.generateDateRange now n) k = true.
Proof.
  intros Hk. destruct n as [| n]; [destruct Hk |].
  apply generateDateRange_In in Hk.
  unfold Dashboard.inDateRange.
  rewrite generateDateRange_S. cbv beta iota zeta.
  rewrite <- (generateDateRange_S now n), (generateDateRange_last now n).
  apply andb_true_iff. split; apply Z.leb_le; lia.
Qed.

Lemma map_set_fresh {V : Type} (m : list (Z * V)) (k : Z) (v : V) :
  ~ In k (map fst m) -> map_set Z.eqb m k v = m ++ [(k, v)].
Proof.
  induction m as [| [k0 v0] m IH]; simpl; [reflexivity |].
  intros H. destruct (Z.eqb k k0) eqn:E.
  - apply Z.eqb_eq in E. subst k0. exfalso. apply H. left. reflexivity.
  - rewrite IH; [reflexivity |]. intros Hin. apply H. right. exact Hin.
Qed.

Lemma chart_init {V : Type} (f : Z -> V) (l : list Z) (m : list (Z * V)) :
  NoDup (map fst m ++ l) ->
  fold_left (fun m k => map_set Z.eqb m k (f k)) l m
  = m ++ map (fun k => (k, f k)) l.
Proof.
  revert m. induction l as [| k l IH]; intros m Hnd; simpl.
  - rewrite app_nil_r. reflexivity.
  - rewrite map_set_fresh.
    + rewrite IH; [rewrite <- app_assoc; reflexivity |].
      rewrite map_app. simpl. rewrite <- app_assoc. exact Hnd.
    + intros Hin. apply NoDup_remove_2 in Hnd. apply Hnd.
      apply in_or_app. left. exact Hin.
Qed.

Lemma addToChart_step (m : list (Z * Dashboard.DailyPnlPoint)) (t : Trade) :
  NoDup (map fst m) ->
  map fst (Dashboard.addToChart m t) = map fst m /\
  forall k p, In (k, p) m ->
    exists p1, In (k, p1) (Dashboard.addToChart m t) /\
      Dashboard.dp_dateKey p1 = Dashboard.dp_dateKey p /\
      Dashboard.dp_date p1 = Dashboard.dp_date p /\
      Dashboard.dp_profit p1
      == Dashboard.dp_profit p
         + match dayOf t with
           | Some d => if Z.eqb k d then pnlOf t else 0
           | None => 0
           end.
Proof.
  intros Hnd. unfold Dashboard.addToChart, dayOf.
  destruct (Dashboard.getEffectiveDate t) as [e |]; simpl.
  2:{ split; [reflexivity |]. intros k p Hin. exists p.
      repeat split; [exact Hin | ring]. }
  destruct (map_get Z.eqb m (Dashboard.formatDateKey e)) as [s |] eqn:E.
  2:{ split; [reflexivity |]. intros k p Hin. exists p.
      destruct (Z.eqb k (Dashboard.formatDateKey e)) eqn:Ek.
      - apply Z.eqb_eq in Ek. subst k.
        apply (In_map_get Z.eqb Z.eqb_eq _ _ _ Hnd) in Hin. congruence.
      - repeat split; [exact Hin | ring]. }
  split.
  - rewrite (map_set_keys Z.eqb Z.eqb_eq).
    replace (existsb (Z.eqb (Dashboard.formatDateKey e)) (map fst m)) with true;
      [reflexivity |].
    symmetry. apply existsb_exists. exists (Dashboard.formatDateKey e).
    split; [| apply Z.eqb_refl].
    apply (map_get_In Z.eqb Z.eqb_eq) in E. apply (in_map fst) in E. exact E.
  - intros k p Hin.
    pose proof (In_map_get Z.eqb Z.eqb_eq _ _ _ Hnd Hin) as Hg.
    destruct (Z.eqb k (Dashboard.formatDateKey e)) eqn:Ek.
    + apply Z.eqb_eq in Ek. subst k.
      assert (s = p) by congruence. subst s.
      eexists. split.
      * apply (map_get_In Z.eqb Z.eqb_eq).
        rewrite (map_get_set Z.eqb Z.eqb_eq), Z.eqb_refl. reflexivity.
      * simpl. unfold Dashboard.pnlOf, pnlOf. repeat split; reflexivity.
    + exists p. split.
      * apply (map_get_In Z.eqb Z.eqb_eq).
        rewrite (map_get_set Z.eqb Z.eqb_eq), Ek. exact Hg.
      * repeat split; ring.
Qed.

Lemma chart_fold (l : list Trade) (m : list (Z * Dashboard.DailyPnlPoint)) :
  NoDup (map fst m) ->
  map fst (fold_left Dashboard.addToChart l m) = map fst m /\
  forall k p, In (k, p) m ->
    exists p1, In (k, p1) (fold_left Dashboard.addToChart l m) /\
      Dashboard.dp_dateKey p1 = Dashboard.dp_dateKey p /\
      Dashboard.dp_date p1 = Dashboard.dp_date p /\
      Dashboard.dp_profit p1
      == Dashboard.dp_profit p + pnlOfDays (Z.eqb k) l.
Proof.
  revert m. induction l as [| t l IH]; intros m Hnd; simpl.
  - split; [reflexivity |]. intros k p Hin. exists p.
    repeat split; [exact Hin |]. unfold pnlOfDays, totalPnl. simpl.
    rewrite sumQ_nil. ring.
  - destruct (addToChart_step m t Hnd) as [Hk Hs].
    assert (Hnd1 : NoDup (map fst (Dashboard.addToChart m t)))
      by (rewrite Hk; exact Hnd).
    destruct (IH _ Hnd1) as [Hk' Hf]. split; [congruence |].
    intros k p Hin. destruct (Hs k p Hin) as (p1 & Hin1 & A1 & B1 & C1).
    destruct (Hf k p1 Hin1) as (p2 & Hin2 & A2 & B2 & C2).
    exists p2. repeat split; [exact Hin2 | congruence | congruence |].
    rewrite C2, C1, pnlOfDays_cons. ring.
Qed.

Lemma pnlOfDays_relevant (now : Date) (n : nat) (k : Z) (trades : list Trade) :
  In k (Dashboard.generateDateRange now n) ->
  pnlOfDays (Z.eqb k)
            (Dashboard.relevantTrades (Dashboard.generateDateRange now n) trades)
  = pnlOfDays (Z.eqb k) trades.
Proof.
  intros Hk. unfold pnlOfDays, Dashboard.relevantTrades.
  rewrite filter_filter_implied; [reflexivity |].
  intros t. unfold dayOf.
  destruct (Dashboard.getEffectiveDate t) as [e |]; simpl; [| discriminate].
  intros H. apply Z.eqb_eq in H. subst k.
  apply inDateRange_generated. exact Hk.
Qed.

Lemma sorted_by_key {A : Type} (key : A -> Z) (l : list A) :
  StronglySorted Z.lt (map key l) ->
  StronglySorted (fun a b => key a < key b)%Z l.
Proof.
  induction l as [| x l IH]; simpl; intros H; [constructor |].
  inversion H as [| ? ? Hs Hx]; subst. constructor; [apply IH, Hs |].
  rewrite Forall_map in Hx. exact Hx.
Qed.

Lemma chart_points (now : Date) (trades : list Trade) (days : nat) :
  let range := Dashboard.generateDateRange now days in
  let m := fold_left Dashboard.addToChart
             (Dashboard.relevantTrades range trades)
             (map (fun k => (k, Dashboard.mkDailyPnlPoint
                                  k (Dashboard.dateOfKey k) 0)) range) in
  map fst m = range /\
  forall k p, In (k, p) m ->
    Dashboard.dp_dateKey p = k /\
    Dashboard.dp_date p = Dashboard.dateOfKey k /\
    Dashboard.dp_profit p == pnlOfDays (Z.eqb k) trades.
Proof.
  intros range m.
  set (m0 := map (fun k => (k, Dashboard.mkDailyPnlPoint
                                 k (Dashboard.dateOfKey k) 0)) range) in *.
  assert (Hk0 : map fst m0 = range).
  { subst m0. rewrite map_map. simpl. apply map_id. }
  assert (Hnd : NoDup (map fst m0))
    by (rewrite Hk0; apply generateDateRange_NoDup).
  destruct (chart_fold (Dashboard.relevantTrades range trades) m0 Hnd)
    as [Hk Hf].
  fold m in Hk, Hf. split; [congruence |].
  intros k p Hin.
  assert (Hkr : In k range).
  { rewrite <- Hk0, <- Hk. apply (in_map fst) in Hin. exact Hin. }
  assert (Hin0 : In (k, Dashboard.mkDailyPnlPoint k (Dashboard.dateOfKey k) 0)
                    m0).
  { subst m0. apply in_map_iff. exists k. split; [reflexivity | exact Hkr]. }
  destruct (Hf _ _ Hin0) as (p1 & Hin1 & A & B & C).
  assert (Hnd' : NoDup (map fst m)) by (rewrite Hk; exact Hnd).
  assert (p1 = p).
  { apply (In_map_get Z.eqb Z.eqb_eq _ _ _ Hnd') in Hin, Hin1. congruence. }
  subst p1. simpl in A, B, C.
  repeat split; [exact A | exact B |].
  rewrite C. subst range. rewrite (pnlOfDays_relevant now days k trades Hkr).
  ring.
Qed.

(** X9.  The dashboard chart has exactly one point for each of the last
    [days] days, oldest first and ending today, whatever the trades; the
    point of a day carries that day's midnight and the total P&L of the
    trades whose effective date falls on it (0 when there is none).
    Trades dated outside the window, or without a date, change
    nothing. *)
Theorem daily_pnl_series :
  forall (sqrt : Q -> Q) (now : Date) (trades : list Trade) (days : nat),
    let pts := Dashboard.dailyPnl
                 (Dashboard.aggregateTrades sqrt now trades days) in
    List.length pts = days /\
    map Dashboard.dp_dateKey pts
    = map (fun i => (dayIndex now - Z.of_nat (days - 1 - i))%Z) (seq 0 days) /\
    (forall p, In p pts ->
       Dashboard.dp_date p = (Dashboard.dp_dateKey p * msPerDay)%Z /\
       Dashboard.dp_profit p
       == pnlOfDays (Z.eqb (Dashboard.dp_dateKey p)) trades).
Proof.
  intros sqrt now trades days. simpl.
  unfold Dashboard.computeDailyPnl.
  rewrite (chart_init (fun k => Dashboard.mkDailyPnlPoint
                                  k (Dashboard.dateOfKey k) 0))
    by (simpl; apply generateDateRange_NoDup).
  simpl app.
  destruct (chart_points now trades days) as [Hk Hp]. cbv zeta in Hk, Hp.
  set (m := fold_left Dashboard.addToChart _ _) in *.
  assert (Hkeys : map Dashboard.dp_dateKey (map snd m)
                  = Dashboard.generateDateRange now days).
  { rewrite <- Hk, map_map. apply map_ext_in. intros [k p] Hin.
    apply (Hp k p Hin). }
  assert (Hsorted : sort (fun a b => inject_Z (Dashboard.dp_date a
                                               - Dashboard.dp_date b))
                         (map snd m) = map snd m).
  { apply sort_sorted_id.
    apply (StronglySorted_weaken
             (fun a b => Dashboard.dp_dateKey a < Dashboard.dp_dateKey b)%Z).
    - intros a b Ha Hb Hab. apply in_map_iff in Ha, Hb.
      destruct Ha as ([ka pa] & <- & Ha). destruct Hb as ([kb pb] & <- & Hb).
      simpl in *.
      destruct (Hp _ _ Ha) as (A1 & A2 & _).
      destruct (Hp _ _ Hb) as (B1 & B2 & _).
      rewrite A2, B2. rewrite A1, B1 in Hab.
      apply (proj2 (inject_Z_nonpos _)).
      unfold Dashboard.dateOfKey, msPerDay. lia.
    - apply sorted_by_key. rewrite Hkeys. apply generateDateRange_sorted. }
  rewrite Hsorted. split; [| split].
  - rewrite <- (length_map Dashboard.dp_dateKey), Hkeys.
    unfold Dashboard.generateDateRange.
    rewrite length_map, length_rev, length_seq. reflexivity.
  - rewrite Hkeys. apply generateDateRange_explicit.
  - intros p Hin. apply in_map_iff in Hin. destruct Hin as ([k q] & <- & Hin).
    simpl. destruct (Hp _ _ Hin) as (A & B & C).
    rewrite A, B. split; [reflexivity | exact C].
Qed.

(** ** The per-symbol table of the dashboard *)

Lemma addToSymbol_get (m : list (string * Dashboard.SymbolStats)) (t : Trade)
      (k : string) :
  map_get String.eqb (Dashboard.addToSymbol m t) k
  = if filedUnder String.eqb symbolOf k t
    then Some (symbolUpdate t
                 (match map_get String.eqb m k with
                  | Some s => s
                  | None => Dashboard.mkSymbolStats k 0 0 0 0 0
                  end))
    else map_get String.eqb m k.
Proof.
  unfold Dashboard.addToSymbol, filedUnder, symbolOf.
  destruct (String.eqb (symbol t) "") eqn:E; [reflexivity |].
  rewrite (map_get_bump String.eqb String.eqb_eq).
  destruct (String.eqb k (symbol t)) eqn:Ek; [| reflexivity].
  apply String.eqb_eq in Ek. subst k. reflexivity.
Qed.

Lemma symbol_get (l : list Trade) (m : list (string * Dashboard.SymbolStats))
      (k : string) :
  map_get String.eqb (fold_left Dashboard.addToSymbol l m) k
  = match map_get String.eqb m k, bucket String.eqb symbolOf k l with
    | None, [] => None
    | o, sel =>
        Some (fold_left (fun a t => symbolUpdate t a) sel
                        (match o with
                         | Some a => a
                         | None => Dashboard.mkSymbolStats k 0 0 0 0 0
                         end))
    end.
Proof.
  revert m. induction l as [| t l IH]; intros m; simpl.
  - destruct (map_get String.eqb m k); reflexivity.
  - rewrite IH, addToSymbol_get. unfold bucket. simpl filter.
    destruct (filedUnder String.eqb symbolOf k t); simpl.
    + destruct (map_get String.eqb m k); reflexivity.
    + destruct (map_get String.eqb m k); reflexivity.
Qed.

Lemma symbol_keys (l : list Trade) (m : list (string * Dashboard.SymbolStats)) :
  NoDup (map fst m) -> ~ In ""%string (map fst m) ->
  NoDup (map fst (fold_left Dashboard.addToSymbol l m))
  /\ ~ In ""%string (map fst (fold_left Dashboard.addToSymbol l m)).
Proof.
  revert m. induction l as [| t l IH]; intros m Hnd Hne; simpl;
    [split; assumption |].
  apply IH; unfold Dashboard.addToSymbol;
    destruct (String.eqb (symbol t) "") eqn:E; try assumption.
  - apply (map_bump_NoDup String.eqb String.eqb_eq). exact Hnd.
  - unfold map_bump.
    assert (Hs : forall v, ~ In ""%string
                             (map fst (map_set String.eqb m (symbol t) v))).
    { intros v. rewrite (map_set_keys String.eqb String.eqb_eq).
      destruct (existsb (String.eqb (symbol t)) (map fst m)); [exact Hne |].
      rewrite in_app_iff. intros [H | [H | []]]; [exact (Hne H) |].
      rewrite H, String.eqb_refl in E. discriminate. }
    destruct (map_get String.eqb m (symbol t)); apply Hs.
Qed.

Lemma symbol_fold_fields (l : list Trade) (s : Dashboard.SymbolStats) :
  let r := fold_left (fun a t => symbolUpdate t a) l s in
  Dashboard.sy_symbol r = Dashboard.sy_symbol s /\
  Dashboard.sy_tradesCount r = (Dashboard.sy_tradesCount s + List.length l)%nat /\
  Dashboard.sy_winCount r = (Dashboard.sy_winCount s + count isWin l)%nat /\
  Dashboard.sy_lossCount r = (Dashboard.sy_lossCount s + count isLoss l)%nat /\
  Dashboard.sy_totalProfit r == Dashboard.sy_totalProfit s + totalPnl l.
Proof.
  revert s. induction l as [| t l IH]; intros s; cbv zeta; cbn [fold_left].
  - unfold count, totalPnl. simpl. rewrite sumQ_nil.
    repeat split; try lia. ring.
  - destruct (IH (symbolUpdate t s)) as (H1 & H2 & H3 & H4 & H5).
    rewrite H1, H2, H3, H4, H5, !count_cons, totalPnl_cons.
    unfold symbolUpdate, isWin, isLoss, pnlOf, Dashboard.pnlOf. simpl.
    destruct (Qgtb (orZero (pnlCurrency t)) 0) eqn:Eg;
      destruct (Qltb (orZero (pnlCurrency t)) 0) eqn:El; qprop;
      try (exfalso; lra);
      (split; [reflexivity |]); (split; [lia |]); (split; [lia |]);
      (split; [lia | ring]).
Qed.

Lemma symbol_row (trades : list Trade) (s : Dashboard.SymbolStats) :
  In s (map (fun e => Dashboard.withWinRate (snd e))
            (fold_left Dashboard.addToSymbol trades [])) ->
  let b := bucket String.eqb symbolOf (Dashboard.sy_symbol s) trades in
  Dashboard.sy_symbol s <> ""%string /\
  b <> [] /\
  Dashboard.sy_tradesCount s = List.length b /\
  Dashboard.sy_winCount s = count isWin b /\
  Dashboard.sy_lossCount s = count isLoss b /\
  Dashboard.sy_totalProfit s == totalPnl b /\
  Dashboard.sy_winRate s = winRatio (count isWin b) (count isLoss b).
Proof.
  rewrite in_map_iff. intros ([k a] & <- & Hin). simpl.
  destruct (symbol_keys trades [] (NoDup_nil _) (fun H => H)) as [Hnd Hne].
  assert (Hk : k <> ""%string).
  { intros ->. apply Hne. apply (in_map fst) in Hin. exact Hin. }
  apply (In_map_get String.eqb String.eqb_eq _ _ _ Hnd) in Hin.
  rewrite symbol_get in Hin. simpl in Hin.
  destruct (bucket String.eqb symbolOf k trades) as [| t sel] eqn:Eb;
    [discriminate |].
  injection Hin as <-.
  destruct (symbol_fold_fields (t :: sel) (Dashboard.mkSymbolStats k 0 0 0 0 0))
    as (H1 & H2 & H3 & H4 & H5).
  cbv zeta in H1, H2, H3, H4, H5. simpl Dashboard.sy_symbol in H1.
  simpl Dashboard.sy_tradesCount in H2. simpl Dashboard.sy_winCount in H3.
  simpl Dashboard.sy_lossCount in H4. simpl Dashboard.sy_totalProfit in H5.
  rewrite H1, Eb, H2, H3, H4, H5.
  repeat split; try assumption; try discriminate; try reflexivity.
  ring.
Qed.

Lemma symbol_row_exists (trades : list Trade) (k : string) :
  bucket String.eqb symbolOf k trades <> [] ->
  exists s, In s (map (fun e => Dashboard.withWinRate (snd e))
                      (fold_left Dashboard.addToSymbol trades []))
            /\ Dashboard.sy_symbol s = k.
Proof.
  intros Hne.
  destruct (map_get String.eqb (fold_left Dashboard.addToSymbol trades []) k)
    as [a |] eqn:E.
  - exists (Dashboard.withWinRate a). split.
    + apply in_map_iff. exists (k, a). split; [reflexivity |].
      apply (map_get_In String.eqb String.eqb_eq). exact E.
    + rewrite symbol_get in E. simpl in E.
      destruct (bucket String.eqb symbolOf k trades) as [| t sel];
        [discriminate |].
      injection E as <-.
      destruct (symbol_fold_fields (t :: sel)
                  (Dashboard.mkSymbolStats k 0 0 0 0 0)) as (H1 & _).
      exact H1.
  - rewrite symbol_get in E. simpl in E.
    destruct (bucket String.eqb symbolOf k trades); [contradiction | discriminate].
Qed.

Lemma firstn_In {A : Type} (n : nat) (l : list A) (x : A) :
  In x (firstn n l) -> In x l.
Proof.
  intros H. rewrite <- (firstn_skipn n l). apply in_or_app. left. exact H.
Qed.

Lemma NoDup_firstn {A : Type} (n : nat) (l : list A) :
  NoDup l -> NoDup (firstn n l).
Proof.
  revert n. induction l as [| x l IH]; intros n H; destruct n; simpl;
    try constructor.
  - inversion H; subst. intros Hin. apply firstn_In in Hin. contradiction.
  - inversion H; subst. apply IH. assumption.
Qed.

Lemma StronglySorted_firstn {A : Type} (R : A -> A -> Prop) (n : nat)
      (l : list A) :
  StronglySorted R l -> StronglySorted R (firstn n l).
Proof.
  revert n. induction l as [| x l IH]; intros n H; destruct n; simpl;
    try constructor.
  - inversion H; subst. apply IH. assumption.
  - inversion H as [| ? ? _ Hx]; subst. rewrite Forall_forall in *.
    intros y Hy. apply Hx. apply firstn_In in Hy. exact Hy.
Qed.

Lemma sorted_firstn_dominates {A : Type} (R : A -> A -> Prop) (n : nat)
      (l : list A) (x y : A) :
  StronglySorted R l -> In x (firstn n l) -> In y l -> ~ In y (firstn n l) ->
  R x y.
Proof.
  revert n. induction l as [| z l IH]; intros n Hs Hx Hy Hny;
    [destruct Hy |].
  destruct n as [| n]; [destruct Hx |].
  simpl in Hx, Hny. inversion Hs as [| ? ? Hs' Hz]; subst.
  destruct Hy as [-> | Hy]; [exfalso; apply Hny; left; reflexivity |].
  destruct Hx as [-> | Hx].
  - rewrite Forall_forall in Hz. apply Hz, Hy.
  - apply (IH n); try assumption. intros H. apply Hny. right. exact H.
Qed.

(** X10.  The dashboard's symbol table has at most five rows, for
    distinct non-empty symbols, by total profit highest first.  The row of
    a symbol aggregates all the trades with that symbol, over the whole
    history: their number, the number with positive and with negative
    P&L, their total P&L, and wins over wins plus losses (0 when there is
    neither).  The rows are the top of the ranking: a symbol with trades
    that has no row has a total profit no higher than that of any
    row. *)
Theorem symbol_table :
  forall (sqrt : Q -> Q) (now : Date) (trades : list Trade) (days : nat),
    let rows := Dashboard.symbols
                  (Dashboard.aggregateTrades sqrt now trades days) in
    (List.length rows <= 5)%nat /\
    NoDup (map Dashboard.sy_symbol rows) /\
    StronglySorted
      (fun a b => Dashboard.sy_totalProfit b <= Dashboard.sy_totalProfit a)
      rows /\
    (forall s, In s rows ->
       let b := bucket String.eqb symbolOf (Dashboard.sy_symbol s) trades in
       Dashboard.sy_symbol s <> ""%string /\
       b <> [] /\
       Dashboard.sy_tradesCount s = List.length b /\
       Dashboard.sy_winCount s = count isWin b /\
       Dashboard.sy_lossCount s = count isLoss b /\
       Dashboard.sy_totalProfit s == totalPnl b /\
       Dashboard.sy_winRate s = winRatio (count isWin b) (count isLoss b)) /\
    (forall k, bucket String.eqb symbolOf k trades <> [] ->
       ~ In k (map Dashboard.sy_symbol rows) ->
       forall s, In s rows ->
         totalPnl (bucket String.eqb symbolOf k trades)
         <= Dashboard.sy_totalProfit s).
Proof.
  intros sqrt now trades days. simpl. unfold Dashboard.computeSymbols.
  set (cmp := fun a b : Dashboard.SymbolStats =>
                Dashboard.sy_totalProfit b - Dashboard.sy_totalProfit a).
  set (all := map (fun e => Dashboard.withWinRate (snd e))
                  (fold_left Dashboard.addToSymbol trades [])).
  assert (Hsorted : StronglySorted
                      (fun a b => Dashboard.sy_totalProfit b
                                  <= Dashboard.sy_totalProfit a)
                      (sort cmp all)).
  { apply (StronglySorted_weaken (fun a b => cmp a b <= 0)).
    - intros a b _ _ H. unfold cmp in H. lra.
    - apply sort_sorted; unfold cmp.
      + intros a b.
        destruct (Qlt_le_dec (Dashboard.sy_totalProfit a)
                             (Dashboard.sy_totalProfit b));
          [right | left]; lra.
      + intros a b c. lra. }
  assert (Hnd : NoDup (map Dashboard.sy_symbol (sort cmp all))).
  { apply sorted_map_NoDup. subst all. rewrite map_map.
    destruct (symbol_keys trades [] (NoDup_nil _) (fun H => H)) as [Hnd Hne].
    assert (Hsame : forall e, In e (fold_left Dashboard.addToSymbol trades []) ->
                Dashboard.sy_symbol (Dashboard.withWinRate (snd e)) = fst e).
    { intros [k a] Hin. simpl.
      apply (In_map_get String.eqb String.eqb_eq _ _ _ Hnd) in Hin.
      rewrite symbol_get in Hin. simpl in Hin.
      destruct (bucket String.eqb symbolOf k trades) as [| t sel];
        [discriminate |].
      injection Hin as <-.
      destruct (symbol_fold_fields (t :: sel)
                  (Dashboard.mkSymbolStats k 0 0 0 0 0)) as (H1 & _).
      exact H1. }
    rewrite (map_ext_in _ fst) by exact Hsame. exact Hnd. }
  split; [apply firstn_le_length |].
  split; [rewrite <- firstn_map; apply NoDup_firstn, Hnd |].
  split; [apply StronglySorted_firstn, Hsorted |].
  split.
  - intros s Hs. apply firstn_In in Hs. rewrite sort_In in Hs.
    apply symbol_row. exact Hs.
  - intros k Hne Hnot s Hs.
    destruct (symbol_row_exists trades k Hne) as (sk & Hin & Hsym).
    fold all in Hin.
    destruct (symbol_row trades sk Hin) as (_ & _ & _ & _ & _ & Hp & _).
    rewrite Hsym in Hp. rewrite <- Hp.
    apply (sorted_firstn_dominates
             (fun a b => Dashboard.sy_totalProfit b
                         <= Dashboard.sy_totalProfit a) 5 (sort cmp all));
      [exact Hsorted | exact Hs | apply sort_In; exact Hin |].
    intros H. apply Hnot. apply in_map_iff. exists sk. split; assumption.
Qed.

(** ** What the risk guard reports *)

Lemma usage_scaled (l m : Q) :
  0 < m -> RiskGuard.lossUsage l m * m == l * 100.
Proof.
  intros H. rewrite (lossUsage_pos l m H). field. lra.
Qed.

Lemma lossUsage_nonneg (x m : Q) :
  0 <= RiskGuard.lossUsage (RiskGuard.lossAbs x) m.
Proof.
  unfold RiskGuard.lossUsage. pose proof (lossAbs_nonneg x) as Hl.
  qcase; [| lra].
  apply Qmult_le_0_compat; [| lra].
  apply Qle_shift_div_l; [assumption | lra].
Qed.

Lemma lossAbs_pos_negative (x : Q) : 0 < RiskGuard.lossAbs x -> x < 0.
Proof.
  intros H. destruct (Qlt_le_dec x 0) as [Hx | Hx]; [exact Hx |].
  rewrite (proj2 (lossAbs_spec x) Hx) in H. exfalso. lra.
Qed.

Lemma locked_usage (x m : Q) :
  Qgeb (RiskGuard.lossAbs x) m && Qgtb m 0 = true ->
  x < 0 /\ 100 <= RiskGuard.lossUsage (RiskGuard.lossAbs x) m.
Proof.
  rewrite locked_test_iff. intros [Hm Hl].
  split; [apply lossAbs_pos_negative; lra |].
  pose proof (usage_scaled (RiskGuard.lossAbs x) m Hm) as Hs.
  apply (Qmult_le_r _ _ m Hm). lra.
Qed.

Lemma warning_usage (x m : Q) :
  Qgeb (RiskGuard.lossUsage (RiskGuard.lossAbs x) m) 50
  && Qltb (RiskGuard.lossUsage (RiskGuard.lossAbs x) m) 100
  && Qgtb m 0 = true ->
  x < 0 /\ 50 <= RiskGuard.lossUsage (RiskGuard.lossAbs x) m
  /\ RiskGuard.lossUsage (RiskGuard.lossAbs x) m < 100.
Proof.
  rewrite !andb_true_iff, Qgeb_ge, Qltb_lt, Qgtb_gt. intros [[H1 H2] Hm].
  split; [| split; assumption].
  apply lossAbs_pos_negative.
  pose proof (usage_scaled (RiskGuard.lossAbs x) m Hm) as Hs.
  assert (0 < RiskGuard.lossUsage (RiskGuard.lossAbs x) m * m)
    by (apply Qmult_lt_0_compat; lra).
  lra.
Qed.

Lemma quiet_usage (x m : Q) :
  Qgeb (RiskGuard.lossAbs x) m && Qgtb m 0 = false ->
  Qgeb (RiskGuard.lossUsage (RiskGuard.lossAbs x) m) 50
  && Qltb (RiskGuard.lossUsage (RiskGuard.lossAbs x) m) 100
  && Qgtb m 0 = false ->
  RiskGuard.lossUsage (RiskGuard.lossAbs x) m < 50.
Proof.
  intros H1 H2.
  destruct (Qgtb m 0) eqn:Em.
  - apply Qgtb_gt in Em.
    rewrite andb_true_r in H1, H2. apply Qgeb_lt in H1.
    pose proof (usage_scaled (RiskGuard.lossAbs x) m Em) as Hs.
    assert (Hu : RiskGuard.lossUsage (RiskGuard.lossAbs x) m < 100).
    { apply (Qmult_lt_r _ _ m Em). lra. }
    apply Qltb_lt in Hu. rewrite Hu, andb_true_r in H2.
    apply Qgeb_lt in H2. exact H2.
  - unfold RiskGuard.lossUsage. rewrite Em. reflexivity.
Qed.

(** X11.  The loss usage the risk guard reports is never negative.  A
    locked state is only reported for a negative return of its period and
    with a usage of at least 100, a warning only for a negative return
    and a usage from 50 up to but excluding 100, and no state only when
    both usages are below 50.  The message is null exactly in the state
    none; a daily state reports the daily figures only, a weekly state
    the weekly figures only, the state none all four. *)
Theorem risk_guard_report :
  forall (p : Dashboard.RiskProgress) (s : RiskGuard.UserRiskSettings),
    let e := RiskGuard.evaluateRiskGuard (Some p) (Some s) in
    let d := Dashboard.dailyPnlPercent p in
    let w := Dashboard.weeklyPnlPercent p in
    let ud := RiskGuard.lossUsage (RiskGuard.lossAbs d)
                                  (RiskGuard.maxDailyLossPercent s) in
    let uw := RiskGuard.lossUsage (RiskGuard.lossAbs w)
                                  (RiskGuard.maxWeeklyLossPercent s) in
    0 <= ud /\ 0 <= uw /\
    (RiskGuard.message e = None <-> RiskGuard.state e = RiskGuard.none) /\
    (RiskGuard.state e = RiskGuard.daily_locked ->
     d < 0 /\ 100 <= ud /\
     e = RiskGuard.mkEvaluation RiskGuard.daily_locked
           (Some (RiskGuard.DailyLimitReached d ud))
           (Some d) None (Some ud) None) /\
    (RiskGuard.state e = RiskGuard.weekly_locked ->
     w < 0 /\ 100 <= uw /\
     e = RiskGuard.mkEvaluation RiskGuard.weekly_locked
           (Some (RiskGuard.WeeklyLimitReached w uw))
           None (Some w) None (Some uw)) /\
    (RiskGuard.state e = RiskGuard.daily_warning ->
     d < 0 /\ 50 <= ud /\ ud < 100 /\
     e = RiskGuard.mkEvaluation RiskGuard.daily_warning
           (Some (RiskGuard.CloseToDailyLimit d ud))
           (Some d) None (Some ud) None) /\
    (RiskGuard.state e = RiskGuard.weekly_warning ->
     w < 0 /\ 50 <= uw /\ uw < 100 /\
     e = RiskGuard.mkEvaluation RiskGuard.weekly_warning
           (Some (RiskGuard.CloseToWeeklyLimit w uw))
           None (Some w) None (Some uw)) /\
    (RiskGuard.state e = RiskGuard.none ->
     ud < 50 /\ uw < 50 /\
     e = RiskGuard.mkEvaluation RiskGuard.none None
           (Some d) (Some w) (Some ud) (Some uw)).
Proof.
  intros p s e d w ud uw.
  split; [apply lossUsage_nonneg |]. split; [apply lossUsage_nonneg |].
  pose proof (locked_usage d (RiskGuard.maxDailyLossPercent s)) as LD.
  pose proof (locked_usage w (RiskGuard.maxWeeklyLossPercent s)) as LW.
  pose proof (warning_usage d (RiskGuard.maxDailyLossPercent s)) as WD.
  pose proof (warning_usage w (RiskGuard.maxWeeklyLossPercent s)) as WW.
  pose proof (quiet_usage d (RiskGuard.maxDailyLossPercent s)) as QD.
  pose proof (quiet_usage w (RiskGuard.maxWeeklyLossPercent s)) as QW.
  subst e. unfold RiskGuard.evaluateRiskGuard. cbv zeta.
  fold d w. fold ud uw. fold d w in LD, LW, WD, WW, QD, QW.
  fold ud in LD, WD, QD. fold uw in LW, WW, QW.
  destruct (Qgeb (RiskGuard.lossAbs d) (RiskGuard.maxDailyLossPercent s)
            && Qgtb (RiskGuard.maxDailyLossPercent s) 0) eqn:E1.
  { simpl. repeat split; try discriminate; try reflexivity;
      try (apply LD; reflexivity). }
  destruct (Qgeb (RiskGuard.lossAbs w) (RiskGuard.maxWeeklyLossPercent s)
            && Qgtb (RiskGuard.maxWeeklyLossPercent s) 0) eqn:E2.
  { simpl. repeat split; try discriminate; try reflexivity;
      try (apply LW; reflexivity). }
  destruct (Qgeb ud 50 && Qltb ud 100
            && Qgtb (RiskGuard.maxDailyLossPercent s) 0) eqn:E3.
  { simpl. repeat split; try discriminate; try reflexivity;
      try (apply WD; reflexivity). }
  destruct (Qgeb uw 50 && Qltb uw 100
            && Qgtb (RiskGuard.maxWeeklyLossPercent s) 0) eqn:E4.
  { simpl. repeat split; try discriminate; try reflexivity;
      try (apply WW; reflexivity). }
  simpl. repeat split; try discriminate; try reflexivity.
  - apply QD; reflexivity.
  - apply QW; reflexivity.
Qed.

(** ** The risk guard on the dashboard's risk progress *)

Lemma riskProgress_values (now : Date) (trades : list Trade) :
  let rp := Dashboard.computeRiskProgress now trades in
  let today := dayIndex now in
  let monday := mondayOf today in
  exists baseDay baseWeek : Q,
    0 < baseDay /\ 0 < baseWeek /\
    Dashboard.todayPnl rp == pnlOfDays (Z.eqb today) trades /\
    Dashboard.weekPnl rp
    == pnlOfDays (fun d => (monday <=? d) && (d <=? today))%Z trades /\
    Dashboard.dailyPnlPercent rp == Dashboard.todayPnl rp / baseDay * 100 /\
    Dashboard.weeklyPnlPercent rp == Dashboard.weekPnl rp / baseWeek * 100.
Proof.
  intros rp today monday. subst rp. unfold Dashboard.computeRiskProgress.
  rewrite startOfWeek_key, formatDateKey_startOfDay.
  fold today. fold monday. unfold Dashboard.allDailyPnlMap.
  cbv beta zeta.
  unfold Dashboard.todayPnl, Dashboard.weekPnl, Dashboard.dailyPnlPercent,
    Dashboard.weeklyPnlPercent.
  pose proof (allDaily_sumWhere (fun k => k <? today)%Z trades []) as HbT.
  pose proof (allDaily_sumWhere (fun k => k <? monday)%Z trades []) as HbW.
  pose proof (allDaily_sumWhere
                (fun k => (monday <=? k) && (k <=? today))%Z trades []) as HW.
  pose proof (allDaily_get today trades []) as HT.
  change (Dashboard.sumWhere _ []) with 0 in HbT, HbW, HW.
  simpl (orZero (map_get Z.eqb [] today)) in HT.
  rewrite Qplus_0_l in HbT, HbW, HW, HT.
  destruct (base_balance _ _ HbT) as [_ HposT].
  destruct (base_balance _ _ HbW) as [_ HposW].
  rewrite HposT, HposW.
  apply Qgtb_gt in HposT, HposW.
  eexists. eexists.
  split; [exact HposT |]. split; [exact HposW |].
  split; [exact HT |]. split; [exact HW |].
  split; reflexivity.
Qed.

Lemma percent_sign (x base : Q) :
  0 < base -> (x / base * 100 < 0 <-> x < 0).
Proof.
  intros Hb.
  assert (E : x / base * 100 * base == x * 100) by (field; lra).
  split; intros H.
  - destruct (Qlt_le_dec x 0) as [Hx | Hx]; [exact Hx |]. exfalso.
    assert (0 <= x / base * 100).
    { apply Qmult_le_0_compat; [| lra].
      apply Qle_shift_div_l; [exact Hb | lra]. }
    lra.
  - destruct (Qlt_le_dec (x / base * 100) 0) as [Hp | Hp]; [exact Hp |].
    exfalso.
    assert (0 <= x / base * 100 * base)
      by (apply Qmult_le_0_compat; lra).
    lra.
Qed.

Lemma guard_state_sign (p : Dashboard.RiskProgress)
      (s : RiskGuard.UserRiskSettings) :
  let st := RiskGuard.state (RiskGuard.evaluateRiskGuard (Some p) (Some s)) in
  (st = RiskGuard.daily_locked \/ st = RiskGuard.daily_warning ->
   Dashboard.dailyPnlPercent p < 0) /\
  (st = RiskGuard.weekly_locked \/ st = RiskGuard.weekly_warning ->
   Dashboard.weeklyPnlPercent p < 0) /\
  (0 <= Dashboard.dailyPnlPercent p -> 0 <= Dashboard.weeklyPnlPercent p ->
   st = RiskGuard.none).
Proof.
  intros st. subst st. rewrite evaluateRiskGuard_state. cbv zeta.
  pose proof (locked_usage (Dashboard.dailyPnlPercent p)
                           (RiskGuard.maxDailyLossPercent s)) as LD.
  pose proof (locked_usage (Dashboard.weeklyPnlPercent p)
                           (RiskGuard.maxWeeklyLossPercent s)) as LW.
  pose proof (warning_usage (Dashboard.dailyPnlPercent p)
                            (RiskGuard.maxDailyLossPercent s)) as WD.
  pose proof (warning_usage (Dashboard.weeklyPnlPercent p)
                            (RiskGuard.maxWeeklyLossPercent s)) as WW.
  destruct (Qgeb (RiskGuard.lossAbs (Dashboard.dailyPnlPercent p))
                 (RiskGuard.maxDailyLossPercent s)
            && Qgtb (RiskGuard.maxDailyLossPercent s) 0);
    [specialize (LD eq_refl) | clear LD];
    (destruct (Qgeb (RiskGuard.lossAbs (Dashboard.weeklyPnlPercent p))
                    (RiskGuard.maxWeeklyLossPercent s)
               && Qgtb (RiskGuard.maxWeeklyLossPercent s) 0);
     [specialize (LW eq_refl) | clear LW]);
    (destruct (Qgeb (RiskGuard.lossUsage
                       (RiskGuard.lossAbs (Dashboard.dailyPnlPercent p))
                       (RiskGuard.maxDailyLossPercent s)) 50
               && Qltb (RiskGuard.lossUsage
                          (RiskGuard.lossAbs (Dashboard.dailyPnlPercent p))
                          (RiskGuard.maxDailyLossPercent s)) 100
               && Qgtb (RiskGuard.maxDailyLossPercent s) 0);
     [specialize (WD eq_refl) | clear WD]);
    (destruct (Qgeb (RiskGuard.lossUsage
                       (RiskGuard.lossAbs (Dashboard.weeklyPnlPercent p))
                       (RiskGuard.maxWeeklyLossPercent s)) 50
               && Qltb (RiskGuard.lossUsage
                          (RiskGuard.lossAbs (Dashboard.weeklyPnlPercent p))
                          (RiskGuard.maxWeeklyLossPercent s)) 100
               && Qgtb (RiskGuard.maxWeeklyLossPercent s) 0);
     [specialize (WW eq_refl) | clear WW]);
    (split; [| split]);
    try (intros [H | H]; try discriminate H; tauto);
    try (intros; reflexivity);
    intros; exfalso; lra.
Qed.

(** X12.  On the dashboard the risk guard is evaluated on the risk
    progress computed from the trades.  The rolling base is always
    positive, so each percentage is negative exactly when the raw P&L of
    its period is.  Hence, whatever the caps, a daily state is only
    raised when the trades dated today sum to a loss, a weekly state only
    when the trades dated from Monday to today sum to a loss, and with
    neither the state is none, so that no banner is shown. *)
Theorem guard_follows_trades :
  forall (sqrt : Q -> Q) (now : Date) (trades : list Trade) (days : nat)
         (s : RiskGuard.UserRiskSettings),
    let rp := Dashboard.riskProgress
                (Dashboard.aggregateTrades sqrt now trades days) in
    let st := RiskGuard.state
                (RiskGuard.evaluateRiskGuard (Some rp) (Some s)) in
    let today := dayIndex now in
    let monday := mondayOf today in
    let dayPnl := pnlOfDays (Z.eqb today) trades in
    let weekPnl :=
      pnlOfDays (fun d => (monday <=? d) && (d <=? today))%Z trades in
    (Dashboard.dailyPnlPercent rp < 0 <-> dayPnl < 0) /\
    (Dashboard.weeklyPnlPercent rp < 0 <-> weekPnl < 0) /\
    (st = RiskGuard.daily_locked \/ st = RiskGuard.daily_warning ->
     dayPnl < 0) /\
    (st = RiskGuard.weekly_locked \/ st = RiskGuard.weekly_warning ->
     weekPnl < 0) /\
    (0 <= dayPnl -> 0 <= weekPnl -> st = RiskGuard.none).
Proof.
  intros sqrt now trades days s rp st today monday dayPnl weekPnl.
  destruct (riskProgress_values now trades)
    as (bd & bw & Hbd & Hbw & HT & HW & HD & HWk).
  change (Dashboard.computeRiskProgress now trades) with rp in *.
  fold today monday in HW. fold today in HT. fold dayPnl in HT.
  fold weekPnl in HW.
  assert (SD : Dashboard.dailyPnlPercent rp < 0 <-> dayPnl < 0).
  { rewrite HD, (percent_sign _ _ Hbd), HT. reflexivity. }
  assert (SW : Dashboard.weeklyPnlPercent rp < 0 <-> weekPnl < 0).
  { rewrite HWk, (percent_sign _ _ Hbw), HW. reflexivity. }
  destruct (guard_state_sign rp s) as (GD & GW & GN). fold st in GD, GW, GN.
  split; [exact SD |]. split; [exact SW |].
  split; [intros H; apply SD, GD, H |].
  split; [intros H; apply SW, GW, H |].
  intros Hd Hw. apply GN.
  - destruct (Qlt_le_dec (Dashboard.dailyPnlPercent rp) 0) as [H | H];
      [| exact H].
    apply SD in H. exfalso. lra.
  - destruct (Qlt_le_dec (Dashboard.weeklyPnlPercent rp) 0) as [H | H];
      [| exact H].
    apply SW in H. exfalso. lra.
Qed.

(** ** The status card and the risk guard *)

Lemma usage_ge_iff (l m c : Q) :
  0 < m -> (c <= l / m * 100 <-> c * m <= l * 100).
Proof.
  intros Hm.
  assert (E : l / m * 100 * m == l * 100) by (field; lra).
  rewrite <- E. symmetry. apply Qmult_le_r. exact Hm.
Qed.

Lemma usage_lt_iff (l m c : Q) :
  0 < m -> (l / m * 100 < c <-> l * 100 < c * m).
Proof.
  intros Hm.
  assert (E : l / m * 100 * m == l * 100) by (field; lra).
  rewrite <- E. symmetry. apply Qmult_lt_r. exact Hm.
Qed.

Lemma warning_test_linear (l m : Q) :
  Qgeb (RiskGuard.lossUsage l m) 50 && Qltb (RiskGuard.lossUsage l m) 100
  && Qgtb m 0 = true
  <-> 0 < m /\ 50 * m <= l * 100 /\ l * 100 < 100 * m.
Proof.
  rewrite warning_test_iff. split.
  - intros (Hm & H1 & H2).
    apply (usage_ge_iff l m 50 Hm) in H1. apply (usage_lt_iff l m 100 Hm) in H2.
    tauto.
  - intros (Hm & H1 & H2).
    apply (usage_ge_iff l m 50 Hm) in H1. apply (usage_lt_iff l m 100 Hm) in H2.
    tauto.
Qed.

Lemma loss_magnitudes (x : Q) :
  (x < 0 /\ RiskGuard.lossAbs x == - x /\ Qabs x == - x)
  \/ (0 <= x /\ RiskGuard.lossAbs x == 0 /\ Qabs x == x).
Proof.
  destruct (Qlt_le_dec x 0) as [H | H].
  - left. split; [exact H |]. split.
    + apply (proj1 (lossAbs_spec x) H).
    + apply Qabs_neg. lra.
  - right. split; [exact H |]. split.
    + rewrite (proj2 (lossAbs_spec x) H). reflexivity.
    + apply Qabs_pos. exact H.
Qed.

(** The status of a period in terms of the guard's two tests for it. *)
Ltac status_by_tests x m :=
  rewrite locked_test_iff, warning_test_linear;
  destruct (loss_magnitudes x) as [(Hx & HL & HA) | (Hx & HL & HA)];
  repeat qcase; simpl;
  repeat split; intros; try discriminate; try reflexivity;
  try (exfalso; lra); try lra.

Lemma daily_status_tests (d : Q) (s : RiskGuard.UserRiskSettings) :
  0 < RiskGuard.maxDailyLossPercent s ->
  0 <= RiskGuard.targetDailyProfitPercent s ->
  let st := RiskStatus.status (RiskStatus.getDailyRiskStatus d s) in
  let l := RiskGuard.lossAbs d in
  let m := RiskGuard.maxDailyLossPercent s in
  (st = RiskStatus.limit <-> Qgeb l m && Qgtb m 0 = true) /\
  (st = RiskStatus.warning
   <-> Qgeb (RiskGuard.lossUsage l m) 50 && Qltb (RiskGuard.lossUsage l m) 100
       && Qgtb m 0 = true).
Proof.
  intros Hm Ht st l m. subst st l m.
  unfold RiskStatus.getDailyRiskStatus. cbv zeta.
  status_by_tests d (RiskGuard.maxDailyLossPercent s).
Qed.

Lemma weekly_status_tests (w : Q) (s : RiskGuard.UserRiskSettings) :
  0 < RiskGuard.maxWeeklyLossPercent s ->
  0 <= RiskGuard.targetWeeklyProfitPercent s ->
  let st := RiskStatus.status (RiskStatus.getWeeklyRiskStatus w s) in
  let l := RiskGuard.lossAbs w in
  let m := RiskGuard.maxWeeklyLossPercent s in
  (st = RiskStatus.limit <-> Qgeb l m && Qgtb m 0 = true) /\
  (st = RiskStatus.warning
   <-> Qgeb (RiskGuard.lossUsage l m) 50 && Qltb (RiskGuard.lossUsage l m) 100
       && Qgtb m 0 = true).
Proof.
  intros Hm Ht st l m. subst st l m.
  unfold RiskStatus.getWeeklyRiskStatus. cbv zeta.
  status_by_tests w (RiskGuard.maxWeeklyLossPercent s).
Qed.

(** X13.  With positive loss caps and non-negative profit targets the
    status card and the risk guard agree: the guard's state is determined
    by the two statuses.  It is daily-locked exactly when the daily
    status is limit; weekly-locked exactly when the weekly status is
    limit and the daily one is not; daily-warning exactly when the daily
    status is warning and the weekly one is not limit; weekly-warning
    exactly when the weekly status is warning and the daily one is
    neither; and none exactly when both statuses are safe or target. *)
Theorem status_card_agrees_with_guard :
  forall (p : Dashboard.RiskProgress) (s : RiskGuard.UserRiskSettings),
    0 < RiskGuard.maxDailyLossPercent s ->
    0 < RiskGuard.maxWeeklyLossPercent s ->
    0 <= RiskGuard.targetDailyProfitPercent s ->
    0 <= RiskGuard.targetWeeklyProfitPercent s ->
    let st := RiskGuard.state
                (RiskGuard.evaluateRiskGuard (Some p) (Some s)) in
    let sd := RiskStatus.status
                (RiskOverview.dailyStatus (Some s)
                                          (Dashboard.dailyPnlPercent p)) in
    let sw := RiskStatus.status
                (RiskOverview.weeklyStatus (Some s)
                                           (Dashboard.weeklyPnlPercent p)) in
    let quiet := fun x => x <> RiskStatus.limit /\ x <> RiskStatus.warning in
    (sd = RiskStatus.limit <-> st = RiskGuard.daily_locked) /\
    (sd <> RiskStatus.limit /\ sw = RiskStatus.limit
     <-> st = RiskGuard.weekly_locked) /\
    (sd = RiskStatus.warning /\ sw <> RiskStatus.limit
     <-> st = RiskGuard.daily_warning) /\
    (quiet sd /\ sw = RiskStatus.warning <-> st = RiskGuard.weekly_warning) /\
    (quiet sd /\ quiet sw <-> st = RiskGuard.none).
Proof.
  intros p s Hmd Hmw Htd Htw st sd sw quiet.
  destruct (daily_status_tests (Dashboard.dailyPnlPercent p) s Hmd Htd)
    as [DL DW].
  destruct (weekly_status_tests (Dashboard.weeklyPnlPercent p) s Hmw Htw)
    as [WL WW].
  cbv zeta in DL, DW, WL, WW.
  change (RiskStatus.status
            (RiskStatus.getDailyRiskStatus (Dashboard.dailyPnlPercent p) s))
    with sd in DL, DW.
  change (RiskStatus.status
            (RiskStatus.getWeeklyRiskStatus (Dashboard.weeklyPnlPercent p) s))
    with sw in WL, WW.
  subst st quiet. rewrite evaluateRiskGuard_state. cbv zeta beta.
  destruct (Qgeb (RiskGuard.lossAbs (Dashboard.dailyPnlPercent p))
                 (RiskGuard.maxDailyLossPercent s)
            && Qgtb (RiskGuard.maxDailyLossPercent s) 0);
    destruct (Qgeb (RiskGuard.lossAbs (Dashboard.weeklyPnlPercent p))
                   (RiskGuard.maxWeeklyLossPercent s)
              && Qgtb (RiskGuard.maxWeeklyLossPercent s) 0);
    destruct (Qgeb (RiskGuard.lossUsage
                      (RiskGuard.lossAbs (Dashboard.dailyPnlPercent p))
                      (RiskGuard.maxDailyLossPercent s)) 50
              && Qltb (RiskGuard.lossUsage
                         (RiskGuard.lossAbs (Dashboard.dailyPnlPercent p))
                         (RiskGuard.maxDailyLossPercent s)) 100
              && Qgtb (RiskGuard.maxDailyLossPercent s) 0);
    destruct (Qgeb (RiskGuard.lossUsage
                      (RiskGuard.lossAbs (Dashboard.weeklyPnlPercent p))
                      (RiskGuard.maxWeeklyLossPercent s)) 50
              && Qltb (RiskGuard.lossUsage
                         (RiskGuard.lossAbs (Dashboard.weeklyPnlPercent p))
                         (RiskGuard.maxWeeklyLossPercent s)) 100
              && Qgtb (RiskGuard.maxWeeklyLossPercent s) 0);
    generalize dependent sd; generalize dependent sw;
    intros sw WL WW sd DL DW;
    repeat split; intros;
    repeat match goal with
      | H : _ /\ _ |- _ => destruct H
      end;
    try discriminate; try reflexivity;
    try (destruct sd; destruct sw; intuition congruence).
Qed.

Lemma status_card_agrees_with_guard_witness :
  (0 < RiskGuard.maxDailyLossPercent Samples.caps_4_10 /\
   0 < RiskGuard.maxWeeklyLossPercent Samples.caps_4_10 /\
   0 <= RiskGuard.targetDailyProfitPercent Samples.caps_4_10 /\
   0 <= RiskGuard.targetWeeklyProfitPercent Samples.caps_4_10) /\
  (RiskStatus.status
     (RiskOverview.dailyStatus (Some Samples.caps_4_10)
        (Dashboard.dailyPnlPercent Samples.down_5_12)) = RiskStatus.limit
   <-> RiskGuard.state
         (RiskGuard.evaluateRiskGuard (Some Samples.down_5_12)
                                      (Some Samples.caps_4_10))
       = RiskGuard.daily_locked).
Proof.
  assert (H1 : 0 < RiskGuard.maxDailyLossPercent Samples.caps_4_10)
    by reflexivity.
  assert (H2 : 0 < RiskGuard.maxWeeklyLossPercent Samples.caps_4_10)
    by reflexivity.
  assert (H3 : 0 <= RiskGuard.targetDailyProfitPercent Samples.caps_4_10)
    by (vm_compute; discriminate).
  assert (H4 : 0 <= RiskGuard.targetWeeklyProfitPercent Samples.caps_4_10)
    by (vm_compute; discriminate).
  split; [repeat split; assumption |].
  destruct (status_card_agrees_with_guard
              Samples.down_5_12 Samples.caps_4_10 H1 H2 H3 H4) as (H & _).
  exact H.
Defined.

(** X14.  A loss cap of zero (the settings form's initial value) or less
    is no cap for the risk guard, but it is one for the status card:
    with such a cap every day that is not in profit and is below the
    profit target shows Limit hit, a flat day included, while the guard
    raises no daily state and the loss bar stays empty.  The same holds
    for the week. *)
Theorem zero_cap_limit_hit :
  forall (p : Dashboard.RiskProgress) (s : RiskGuard.UserRiskSettings),
    let d := Dashboard.dailyPnlPercent p in
    let w := Dashboard.weeklyPnlPercent p in
    let st := RiskGuard.state
                (RiskGuard.evaluateRiskGuard (Some p) (Some s)) in
    (RiskGuard.maxDailyLossPercent s <= 0 ->
     d <= 0 -> d < RiskGuard.targetDailyProfitPercent s ->
     RiskStatus.status (RiskOverview.dailyStatus (Some s) d)
     = RiskStatus.limit /\
     st <> RiskGuard.daily_locked /\ st <> RiskGuard.daily_warning /\
     RiskOverview.dailyLossProgress (Some s) d = 0) /\
    (RiskGuard.maxWeeklyLossPercent s <= 0 ->
     w <= 0 -> w < RiskGuard.targetWeeklyProfitPercent s ->
     RiskStatus.status (RiskOverview.weeklyStatus (Some s) w)
     = RiskStatus.limit /\
     st <> RiskGuard.weekly_locked /\ st <> RiskGuard.weekly_warning /\
     RiskOverview.weeklyLossProgress (Some s) w = 0).
Proof.
  intros p s d w st. split.
  - intros Hm Hd Ht.
    assert (Hq : Qgtb (RiskGuard.maxDailyLossPercent s) 0 = false).
    { destruct (Qgtb (RiskGuard.maxDailyLossPercent s) 0) eqn:E;
        [| reflexivity]. qprop. exfalso. lra. }
    assert (Hl : Qleb (RiskGuard.maxDailyLossPercent s) 0 = true)
      by (apply Qleb_le; exact Hm).
    pose proof (Qabs_nonneg d) as Ha.
    split; [| split; [| split]].
    + simpl. unfold RiskStatus.getDailyRiskStatus. cbv zeta.
      repeat qcase; simpl; try reflexivity; exfalso; lra.
    + subst st. rewrite evaluateRiskGuard_state. cbv zeta.
      rewrite Hq, !andb_false_r.
      repeat match goal with
             | |- context [if ?b then _ else _] => destruct b
             end; discriminate.
    + subst st. rewrite evaluateRiskGuard_state. cbv zeta.
      rewrite Hq, !andb_false_r.
      repeat match goal with
             | |- context [if ?b then _ else _] => destruct b
             end; discriminate.
    + simpl. rewrite Hl, orb_true_r. reflexivity.
  - intros Hm Hw Ht.
    assert (Hq : Qgtb (RiskGuard.maxWeeklyLossPercent s) 0 = false).
    { destruct (Qgtb (RiskGuard.maxWeeklyLossPercent s) 0) eqn:E;
        [| reflexivity]. qprop. exfalso. lra. }
    assert (Hl : Qleb (RiskGuard.maxWeeklyLossPercent s) 0 = true)
      by (apply Qleb_le; exact Hm).
    pose proof (Qabs_nonneg w) as Ha.
    split; [| split; [| split]].
    + simpl. unfold RiskStatus.getWeeklyRiskStatus. cbv zeta.
      repeat qcase; simpl; try reflexivity; exfalso; lra.
    + subst st. rewrite evaluateRiskGuard_state. cbv zeta.
      rewrite Hq, !andb_false_r.
      repeat match goal with
             | |- context [if ?b then _ else _] => destruct b
             end; discriminate.
    + subst st. rewrite evaluateRiskGuard_state. cbv zeta.
      rewrite Hq, !andb_false_r.
      repeat match goal with
             | |- context [if ?b then _ else _] => destruct b
             end; discriminate.
    + simpl. rewrite Hl, orb_true_r. reflexivity.
Qed.

Lemma zero_cap_limit_hit_witness :
  (RiskGuard.maxDailyLossPercent MoreSamples.targetsOnly <= 0 /\
   Dashboard.dailyPnlPercent MoreSamples.flatProgress <= 0 /\
   Dashboard.dailyPnlPercent MoreSamples.flatProgress
   < RiskGuard.targetDailyProfitPercent MoreSamples.targetsOnly) /\
  RiskStatus.status
    (RiskOverview.dailyStatus (Some MoreSamples.targetsOnly)
       (Dashboard.dailyPnlPercent MoreSamples.flatProgress))
  = RiskStatus.limit /\
  RiskGuard.state
    (RiskGuard.evaluateRiskGuard (Some MoreSamples.flatProgress)
                                 (Some MoreSamples.targetsOnly))
  <> RiskGuard.daily_locked.
Proof.
  assert (H1 : RiskGuard.maxDailyLossPercent MoreSamples.targetsOnly <= 0)
    by (vm_compute; discriminate).
  assert (H2 : Dashboard.dailyPnlPercent MoreSamples.flatProgress <= 0)
    by (vm_compute; discriminate).
  assert (H3 : Dashboard.dailyPnlPercent MoreSamples.flatProgress
               < RiskGuard.targetDailyProfitPercent MoreSamples.targetsOnly)
    by reflexivity.
  split; [repeat split; assumption |].
  destruct (zero_cap_limit_hit MoreSamples.flatProgress MoreSamples.targetsOnly)
    as (Hd & _).
  destruct (Hd H1 H2 H3) as (A & B & _).
  split; [exact A | exact B].
Defined.

(** ** The progress bars *)

Lemma capped_bounds (v : Q) : 0 <= v -> 0 <= Qmin v 200 /\ Qmin v 200 <= 200.
Proof.
  intros H. split; [apply Q.min_glb; lra | apply Q.le_min_r].
Qed.

Lemma capped_full (v : Q) : 100 <= Qmin v 200 <-> 100 <= v.
Proof.
  rewrite Q.min_glb_iff. split; [tauto | intros H; split; lra].
Qed.

Lemma progressValue_full (v : Q) :
  Qgeb (RiskOverview.progressValue v) 100 = true <-> 100 <= v.
Proof.
  rewrite Qgeb_ge. unfold RiskOverview.progressValue.
  rewrite Q.min_glb_iff. split; [tauto | intros H; split; lra].
Qed.

Lemma loss_colour_full (v : Q) :
  RiskOverview.colorClass v true = "bg-red-500"%string <-> 100 <= v.
Proof.
  rewrite <- progressValue_full. unfold RiskOverview.colorClass.
  destruct (Qgeb (RiskOverview.progressValue v) 100).
  - split; reflexivity.
  - split; [| discriminate].
    destruct (Qgeb (RiskOverview.progressValue v) 80);
      [discriminate |].
    destruct (Qgeb (RiskOverview.progressValue v) 50); discriminate.
Qed.

Lemma profit_colour_full (v : Q) :
  RiskOverview.colorClass v false = "bg-green-500"%string <-> 100 <= v.
Proof.
  rewrite <- progressValue_full. unfold RiskOverview.colorClass.
  destruct (Qgeb (RiskOverview.progressValue v) 100).
  - split; reflexivity.
  - split; [| discriminate].
    destruct (Qgeb (RiskOverview.progressValue v) 80); discriminate.
Qed.

Lemma loss_bar (x m : Q) :
  let bar := if Qgeb x 0 || Qleb m 0 then 0
             else Qmin (Qabs x / m * 100) 200 in
  (0 <= bar /\ bar <= 200) /\
  bar == Qmin (RiskGuard.lossUsage (RiskGuard.lossAbs x) m) 200 /\
  (100 <= bar <-> 0 < m /\ m <= RiskGuard.lossAbs x).
Proof.
  cbv zeta.
  destruct (Qgeb x 0) eqn:Ex; [| destruct (Qleb m 0) eqn:Em]; simpl; qprop.
  - rewrite (proj2 (lossAbs_spec x) Ex).
    split; [lra |]. split.
    + unfold RiskGuard.lossUsage. destruct (Qgtb m 0) eqn:Eg; qprop.
      * assert (E : 0 / m * 100 == 0) by (field; lra).
        rewrite (Q.min_l (0 / m * 100) 200) by (rewrite E; lra).
        rewrite E. reflexivity.
      * symmetry. apply Q.min_l. lra.
    + split; intros; exfalso; lra.
  - split; [lra |]. split.
    + unfold RiskGuard.lossUsage. destruct (Qgtb m 0) eqn:Eg; qprop;
        [exfalso; lra |].
      symmetry. apply Q.min_l. lra.
    + split; intros; exfalso; lra.
  - assert (El : RiskGuard.lossAbs x = Qabs x).
    { unfold RiskGuard.lossAbs. apply Qltb_lt in Ex. rewrite Ex. reflexivity. }
    rewrite El, (lossUsage_pos _ _ Em).
    pose proof (Qabs_nonneg x) as Ha.
    assert (Hv : 0 <= Qabs x / m * 100).
    { apply (usage_ge_iff (Qabs x) m 0 Em). lra. }
    split; [apply capped_bounds; exact Hv |].
    split; [reflexivity |].
    rewrite capped_full, (usage_ge_iff (Qabs x) m 100 Em).
    split; [intros H; split; lra | intros [_ H]; lra].
Qed.

Lemma profit_bar (x t : Q) :
  let bar := if Qleb x 0 || Qleb t 0 then 0 else Qmin (x / t * 100) 200 in
  (0 <= bar /\ bar <= 200) /\
  (100 <= bar <-> 0 < x /\ 0 < t /\ t <= x).
Proof.
  cbv zeta.
  destruct (Qleb x 0) eqn:Ex; [| destruct (Qleb t 0) eqn:Et]; simpl; qprop.
  - split; [lra |]. split; intros; exfalso; lra.
  - split; [lra |]. split; intros; exfalso; lra.
  - assert (Hv : 0 <= x / t * 100) by (apply (usage_ge_iff x t 0 Et); lra).
    split; [apply capped_bounds; exact Hv |].
    rewrite capped_full, (usage_ge_iff x t 100 Et).
    split; [intros H; repeat split; lra | intros (_ & _ & H); lra].
Qed.

(** X15.  Each of the four progress bars of the risk overview lies
    between 0 and 200, and of the loss bar and the profit bar of a period
    at most one is not zero.  The loss bar is the guard's loss usage
    capped at 200: it is drawn full and in the strongest red exactly when
    the guard's lock test for that period holds (a positive cap reached
    by the loss).  The profit bar is drawn in the strongest green exactly
    when a positive target is reached by a positive return. *)
Theorem progress_bars :
  forall (s : RiskGuard.UserRiskSettings) (d w : Q),
    let dl := RiskOverview.dailyLossProgress (Some s) d in
    let dp := RiskOverview.dailyProfitProgress (Some s) d in
    let wl := RiskOverview.weeklyLossProgress (Some s) w in
    let wp := RiskOverview.weeklyProfitProgress (Some s) w in
    let inRange := fun v => 0 <= v /\ v <= 200 in
    (inRange dl /\ inRange dp /\ inRange wl /\ inRange wp) /\
    ((dl = 0 \/ dp = 0) /\ (wl = 0 \/ wp = 0)) /\
    dl == Qmin (RiskGuard.lossUsage (RiskGuard.lossAbs d)
                                    (RiskGuard.maxDailyLossPercent s)) 200 /\
    wl == Qmin (RiskGuard.lossUsage (RiskGuard.lossAbs w)
                                    (RiskGuard.maxWeeklyLossPercent s)) 200 /\
    (RiskOverview.colorClass dl true = "bg-red-500"%string
     <-> 0 < RiskGuard.maxDailyLossPercent s
         /\ RiskGuard.maxDailyLossPercent s <= RiskGuard.lossAbs d) /\
    (RiskOverview.colorClass wl true = "bg-red-500"%string
     <-> 0 < RiskGuard.maxWeeklyLossPercent s
         /\ RiskGuard.maxWeeklyLossPercent s <= RiskGuard.lossAbs w) /\
    (RiskOverview.colorClass dp false = "bg-green-500"%string
     <-> 0 < d /\ 0 < RiskGuard.targetDailyProfitPercent s
         /\ RiskGuard.targetDailyProfitPercent s <= d) /\
    (RiskOverview.colorClass wp false = "bg-green-500"%string
     <-> 0 < w /\ 0 < RiskGuard.targetWeeklyProfitPercent s
         /\ RiskGuard.targetWeeklyProfitPercent s <= w).
Proof.
  intros s d w dl dp wl wp inRange.
  destruct (loss_bar d (RiskGuard.maxDailyLossPercent s)) as (A1 & A2 & A3).
  destruct (loss_bar w (RiskGuard.maxWeeklyLossPercent s)) as (B1 & B2 & B3).
  destruct (profit_bar d (RiskGuard.targetDailyProfitPercent s)) as (C1 & C3).
  destruct (profit_bar w (RiskGuard.targetWeeklyProfitPercent s)) as (D1 & D3).
  change (if Qgeb d 0 || Qleb (RiskGuard.maxDailyLossPercent s) 0 then 0
          else Qmin (Qabs d / RiskGuard.maxDailyLossPercent s * 100) 200)
    with dl in A1, A2, A3.
  change (if Qgeb w 0 || Qleb (RiskGuard.maxWeeklyLossPercent s) 0 then 0
          else Qmin (Qabs w / RiskGuard.maxWeeklyLossPercent s * 100) 200)
    with wl in B1, B2, B3.
  change (if Qleb d 0 || Qleb (RiskGuard.targetDailyProfitPercent s) 0 then 0
          else Qmin (d / RiskGuard.targetDailyProfitPercent s * 100) 200)
    with dp in C1, C3.
  change (if Qleb w 0 || Qleb (RiskGuard.targetWeeklyProfitPercent s) 0 then 0
          else Qmin (w / RiskGuard.targetWeeklyProfitPercent s * 100) 200)
    with wp in D1, D3.
  split; [subst inRange; cbv beta; tauto |].
  split.
  { split.
    - subst dl dp. simpl.
      destruct (Qgeb d 0) eqn:E; [left; reflexivity |].
      right. apply Qgeb_lt in E.
      assert (H : Qleb d 0 = true) by (apply Qleb_le; lra).
      rewrite H. reflexivity.
    - subst wl wp. simpl.
      destruct (Qgeb w 0) eqn:E; [left; reflexivity |].
      right. apply Qgeb_lt in E.
      assert (H : Qleb w 0 = true) by (apply Qleb_le; lra).
      rewrite H. reflexivity. }
  split; [exact A2 |]. split; [exact B2 |].
  rewrite !loss_colour_full, !profit_colour_full.
  tauto.
Qed.

(** ** Keyed aggregation whose initial row depends on the key *)

Section KeyedGroup.
Context {K V T : Type} (eqb : K -> K -> bool).
Hypothesis eqb_eq : forall a b, eqb a b = true <-> a = b.
Context (key : T -> option K) (init : K -> V) (upd : T -> V -> V).
Context (step : list (K * V) -> T -> list (K * V)).
Hypothesis step_eq :
  forall m t, step m t = match key t with
                         | Some k => map_bump eqb (init k) (upd t) m k
                         | None => m
                         end.

Lemma keyed_get (l : list T) (m : list (K * V)) (k : K) :
  map_get eqb (fold_left step l m) k
  = match map_get eqb m k, bucket eqb key k l with
    | None, [] => None
    | o, sel =>
        Some (fold_left (fun a t => upd t a) sel
                        (match o with Some a => a | None => init k end))
    end.
Proof.
  revert m. induction l as [| t l IH]; intros m; simpl.
  - destruct (map_get eqb m k); reflexivity.
  - rewrite IH, step_eq. unfold bucket. simpl filter.
    replace (filedUnder eqb key k t)
      with (match key t with Some k' => eqb k k' | None => false end)
      by reflexivity.
    destruct (key t) as [k' |].
    + rewrite (map_get_bump eqb eqb_eq). destruct (eqb k k') eqn:E.
      * apply eqb_eq in E. subst k'. simpl.
        destruct (map_get eqb m k); reflexivity.
      * destruct (map_get eqb m k); reflexivity.
    + reflexivity.
Qed.

Lemma keyed_NoDup (l : list T) (m : list (K * V)) :
  NoDup (map fst m) -> NoDup (map fst (fold_left step l m)).
Proof.
  revert m. induction l as [| t l IH]; intros m H; simpl; [exact H |].
  apply IH. rewrite step_eq.
  destruct (key t); [apply (map_bump_NoDup eqb eqb_eq) |]; exact H.
Qed.

Lemma keyed_entry (l : list T) (k : K) (a : V) :
  In (k, a) (fold_left step l []) ->
  bucket eqb key k l <> []
  /\ a = fold_left (fun a t => upd t a) (bucket eqb key k l) (init k).
Proof.
  intros Hin.
  apply (In_map_get eqb eqb_eq) in Hin; [| apply keyed_NoDup; constructor].
  rewrite keyed_get in Hin. simpl in Hin.
  destruct (bucket eqb key k l) as [| t sel]; [discriminate |].
  injection Hin as <-. split; [discriminate | reflexivity].
Qed.

Lemma keyed_entry_exists (l : list T) (k : K) :
  bucket eqb key k l <> [] ->
  In (k, fold_left (fun a t => upd t a) (bucket eqb key k l) (init k))
     (fold_left step l []).
Proof.
  intros Hne. apply (map_get_In eqb eqb_eq). rewrite keyed_get. simpl.
  destruct (bucket eqb key k l); [contradiction | reflexivity].
Qed.

Lemma keyed_count (cnt : V -> nat) (l : list T) (m : list (K * V)) :
  (forall k, cnt (init k) = 0%nat) ->
  (forall t a, cnt (upd t a) = S (cnt a)) ->
  list_sum (map (fun e => cnt (snd e)) (fold_left step l m))
  = (list_sum (map (fun e => cnt (snd e)) m)
     + count (fun t => match key t with Some _ => true | None => false end) l)%nat.
Proof.
  intros H0 Hupd. revert m. induction l as [| t l IH]; intros m; simpl.
  - unfold count. simpl. lia.
  - rewrite IH, count_cons, step_eq.
    destruct (key t) as [k |]; [| lia].
    assert (Hb : list_sum (map (fun e => cnt (snd e))
                               (map_bump eqb (init k) (upd t) m k))
                 = S (list_sum (map (fun e => cnt (snd e)) m))).
    { clear IH. induction m as [| [k0 v0] m IHm].
      - unfold map_bump. simpl. rewrite Hupd, H0. reflexivity.
      - rewrite map_bump_cons. destruct (eqb k k0); simpl.
        + rewrite Hupd. reflexivity.
        + rewrite IHm. lia. }
    rewrite Hb. lia.
Qed.

Lemma keyed_tally (cnt : V -> nat) (w : T -> bool) (l : list T)
      (m : list (K * V)) :
  (forall k, cnt (init k) = 0%nat) ->
  (forall t a, cnt (upd t a) = if w t then S (cnt a) else cnt a) ->
  list_sum (map (fun e => cnt (snd e)) (fold_left step l m))
  = (list_sum (map (fun e => cnt (snd e)) m)
     + count (fun t => match key t with Some _ => w t | None => false end) l)%nat.
Proof.
  intros H0 Hupd. revert m. induction l as [| t l IH]; intros m; simpl.
  - unfold count. simpl. lia.
  - rewrite IH, count_cons, step_eq.
    destruct (key t) as [k |]; [| lia].
    assert (Hb : list_sum (map (fun e => cnt (snd e))
                               (map_bump eqb (init k) (upd t) m k))
                 = ((if w t then 1 else 0)
                    + list_sum (map (fun e => cnt (snd e)) m))%nat).
    { clear IH. induction m as [| [k0 v0] m IHm].
      - unfold map_bump. simpl. rewrite Hupd, H0. destruct (w t); reflexivity.
      - rewrite map_bump_cons. destruct (eqb k k0); simpl.
        + rewrite Hupd. destruct (w t); lia.
        + rewrite IHm. lia. }
    rewrite Hb. destruct (w t); lia.
Qed.

Lemma keyed_amount (amt : V -> Q) (w : T -> Q) (l : list T) (m : list (K * V)) :
  (forall k, amt (init k) == 0) ->
  (forall t a, amt (upd t a) == amt a + w t) ->
  sumQ (map (fun e => amt (snd e)) (fold_left step l m))
  == sumQ (map (fun e => amt (snd e)) m)
     + sumQ (map w (filter (fun t => match key t with
                                     | Some _ => true
                                     | None => false
                                     end) l)).
Proof.
  intros H0 Hupd. revert m. induction l as [| t l IH]; intros m; simpl.
  - rewrite sumQ_nil. ring.
  - rewrite IH, step_eq.
    destruct (key t) as [k |]; [| reflexivity].
    assert (Hb : sumQ (map (fun e => amt (snd e))
                           (map_bump eqb (init k) (upd t) m k))
                 == sumQ (map (fun e => amt (snd e)) m) + w t).
    { clear IH. induction m as [| [k0 v0] m IHm].
      - unfold map_bump. simpl. rewrite !sumQ_cons, sumQ_nil, Hupd, H0. ring.
      - rewrite map_bump_cons. destruct (eqb k k0); simpl.
        + rewrite !sumQ_cons, Hupd. ring.
        + rewrite !sumQ_cons, IHm. ring. }
    simpl. rewrite Hb, sumQ_cons. ring.
Qed.

End KeyedGroup.

(** ** The trading calendar *)

Lemma calendar_step (m : list (Z * Calendar.CalendarDayStats)) (t : Trade) :
  Calendar.addTrade m t
  = match dayOf t with
    | Some k => map_bump Z.eqb (emptyDay k) (dayUpdate t) m k
    | None => m
    end.
Proof.
  unfold Calendar.addTrade, dayOf, Calendar.getEffectiveDate,
    Dashboard.getEffectiveDate.
  destruct (normalizeTimestamp (closeTime t)); [reflexivity |].
  destruct (normalizeTimestamp (openTime t)); [reflexivity |].
  destruct (tradeDate t); reflexivity.
Qed.

Lemma day_fold_fields (l : list Trade) (s : Calendar.CalendarDayStats) :
  let r := fold_left (fun a t => dayUpdate t a) l s in
  Calendar.cd_dateKey r = Calendar.cd_dateKey s /\
  Calendar.cd_date r = Calendar.cd_date s /\
  Calendar.cd_tradesCount r = (Calendar.cd_tradesCount s + List.length l)%nat /\
  Calendar.cd_winCount r = (Calendar.cd_winCount s + count isWin l)%nat /\
  Calendar.cd_lossCount r = (Calendar.cd_lossCount s + count isLoss l)%nat /\
  Calendar.cd_profit r == Calendar.cd_profit s + totalPnl l.
Proof.
  revert s. induction l as [| t l IH]; intros s; cbv zeta; cbn [fold_left].
  - unfold count, totalPnl. simpl. rewrite sumQ_nil.
    repeat split; try lia. ring.
  - destruct (IH (dayUpdate t s)) as (H0 & H1 & H2 & H3 & H4 & H5).
    rewrite H0, H1, H2, H3, H4, H5, !count_cons, totalPnl_cons.
    unfold dayUpdate, isWin, isLoss, pnlOf. simpl.
    destruct (Qgtb (orZero (pnlCurrency t)) 0) eqn:Eg;
      destruct (Qltb (orZero (pnlCurrency t)) 0) eqn:El; qprop;
      try (exfalso; lra);
      (split; [reflexivity |]); (split; [reflexivity |]);
      (split; [lia |]); (split; [lia |]); (split; [lia | ring]).
Qed.

Lemma calendar_row (trades : list Trade) (k : Z)
      (d : Calendar.CalendarDayStats) :
  In (k, d) (fold_left Calendar.addTrade trades []) ->
  let b := bucket Z.eqb dayOf k trades in
  b <> [] /\
  Calendar.cd_dateKey d = k /\
  Calendar.cd_date d = (k * msPerDay)%Z /\
  Calendar.cd_tradesCount d = List.length b /\
  Calendar.cd_winCount d = count isWin b /\
  Calendar.cd_lossCount d = count isLoss b /\
  Calendar.cd_profit d == totalPnl b.
Proof.
  intros Hin b.
  apply (keyed_entry Z.eqb Z.eqb_eq dayOf emptyDay dayUpdate
                     Calendar.addTrade calendar_step) in Hin.
  destruct Hin as [Hne ->]. fold b.
  destruct (day_fold_fields b (emptyDay k)) as (H0 & H1 & H2 & H3 & H4 & H5).
  cbv zeta in H0, H1, H2, H3, H4, H5.
  rewrite H0, H1, H2, H3, H4, H5. simpl.
  repeat split; try reflexivity; try exact Hne. ring.
Qed.

Lemma calendar_days_In (trades : list Trade) (d : Calendar.CalendarDayStats) :
  In d (Calendar.days (Calendar.aggregateTrades trades))
  <-> In (Calendar.cd_dateKey d, d) (fold_left Calendar.addTrade trades []).
Proof.
  simpl. rewrite sort_In, in_map_iff. split.
  - intros ([k x] & <- & Hin). simpl.
    destruct (calendar_row trades k x Hin) as (_ & -> & _). exact Hin.
  - intros Hin. exists (Calendar.cd_dateKey d, d). split; [reflexivity | exact Hin].
Qed.

Lemma calendar_keys_NoDup (trades : list Trade) :
  NoDup (map Calendar.cd_dateKey
             (map snd (fold_left Calendar.addTrade trades []))).
Proof.
  rewrite map_map.
  rewrite (map_ext_in _ fst).
  - apply (keyed_NoDup Z.eqb Z.eqb_eq dayOf emptyDay dayUpdate
                       Calendar.addTrade calendar_step). constructor.
  - intros [k d] Hin. simpl.
    destruct (calendar_row trades k d Hin) as (_ & H & _). exact H.
Qed.

Lemma calendar_days_sorted (trades : list Trade) :
  StronglySorted
    (fun a b => Calendar.cd_dateKey a < Calendar.cd_dateKey b)%Z
    (Calendar.days (Calendar.aggregateTrades trades)).
Proof.
  apply sorted_nodup_strict.
  - apply (StronglySorted_weaken
             (fun a b => Calendar.cd_date a <= Calendar.cd_date b)%Z).
    + intros a b Ha Hb Hab.
      apply calendar_days_In in Ha, Hb.
      destruct (calendar_row trades _ a Ha) as (_ & _ & Da & _).
      destruct (calendar_row trades _ b Hb) as (_ & _ & Db & _).
      rewrite Da, Db in Hab. unfold msPerDay in Hab. lia.
    + simpl. apply sort_by_key_sorted.
  - simpl. apply sorted_map_NoDup. apply calendar_keys_NoDup.
Qed.

(** X16.  The calendar has one row for every day on which at least one
    trade has its effective date, and no other row; the rows are in
    ascending order of their day.  The row of a day carries the day's
    midnight, the number of the trades dated that day, how many of them
    have a positive and how many a negative P&L, and their total P&L. *)
Theorem calendar_days :
  forall trades : list Trade,
    let r := Calendar.aggregateTrades trades in
    StronglySorted
      (fun a b => Calendar.cd_dateKey a < Calendar.cd_dateKey b)%Z
      (Calendar.days r) /\
    (forall d, In d (Calendar.days r) ->
       let b := bucket Z.eqb dayOf (Calendar.cd_dateKey d) trades in
       b <> [] /\
       Calendar.cd_date d = (Calendar.cd_dateKey d * msPerDay)%Z /\
       Calendar.cd_tradesCount d = List.length b /\
       Calendar.cd_winCount d = count isWin b /\
       Calendar.cd_lossCount d = count isLoss b /\
       Calendar.cd_profit d == totalPnl b) /\
    (forall k, bucket Z.eqb dayOf k trades <> [] ->
               exists d, In d (Calendar.days r) /\ Calendar.cd_dateKey d = k).
Proof.
  intros trades r. split; [apply calendar_days_sorted |]. split.
  - intros d Hd b. apply calendar_days_In in Hd.
    destruct (calendar_row trades _ d Hd) as (H0 & _ & H1 & H2 & H3 & H4 & H5).
    repeat split; assumption.
  - intros k Hne.
    pose proof (keyed_entry_exists Z.eqb Z.eqb_eq dayOf emptyDay dayUpdate
                                   Calendar.addTrade calendar_step
                                   trades k Hne) as Hin.
    destruct (calendar_row trades k _ Hin) as (_ & Hk & _).
    eexists. split; [| exact Hk].
    apply calendar_days_In. rewrite Hk. exact Hin.
Qed.

Lemma fold_left_nat_sum {A : Type} (f : A -> nat) (l : list A) (a : nat) :
  fold_left (fun sum x => (sum + f x)%nat) l a = (a + list_sum (map f l))%nat.
Proof.
  revert a. induction l as [| x l IH]; intros a; simpl; [lia |].
  rewrite IH. lia.
Qed.

Lemma fold_left_Q_sum {A : Type} (f : A -> Q) (l : list A) (a : Q) :
  fold_left (fun sum x => sum + f x) l a == a + sumQ (map f l).
Proof.
  rewrite <- (fold_left_map Qplus f). apply fold_Qplus.
Qed.

Lemma count_dated (f : Trade -> bool) (l : list Trade) :
  count f (datedTrades l)
  = count (fun t => match dayOf t with Some _ => f t | None => false end) l.
Proof.
  induction l as [| x l IH]; [reflexivity |].
  unfold datedTrades in *. simpl filter. rewrite count_cons.
  unfold hasDay at 1. destruct (dayOf x).
  - rewrite count_cons, IH. reflexivity.
  - exact IH.
Qed.

Lemma count_le_length {A : Type} (f : A -> bool) (l : list A) :
  (count f l <= List.length l)%nat.
Proof.
  induction l as [| x l IH]; [apply Nat.le_refl |].
  rewrite count_cons. simpl. destruct (f x); lia.
Qed.

Lemma wins_losses_le_length (l : list Trade) :
  (count isWin l + count isLoss l <= List.length l)%nat.
Proof.
  induction l as [| t l IH]; [apply Nat.le_refl |].
  rewrite !count_cons. simpl.
  destruct (outcome_exclusive t) as [(-> & -> & _) | [(-> & -> & _) | (-> & -> & _)]];
    lia.
Qed.

Lemma hasDay_key (t : Trade) :
  hasDay t = match dayOf t with Some _ => true | None => false end.
Proof. reflexivity. Qed.

(** X17.  The calendar's totals are those of the trades that have an
    effective date: their number, their total P&L, and the numbers of
    them with a positive and with a negative P&L; trades without any date
    are left out of all four.  Wins and losses together never exceed the
    total. *)
Theorem calendar_totals :
  forall trades : list Trade,
    let r := Calendar.aggregateTrades trades in
    let dated := datedTrades trades in
    Calendar.totalTrades r = List.length dated /\
    Calendar.totalProfit r == totalPnl dated /\
    Calendar.totalWins r = count isWin dated /\
    Calendar.totalLosses r = count isLoss dated /\
    (Calendar.totalWins r + Calendar.totalLosses r
     <= Calendar.totalTrades r)%nat.
Proof.
  intros trades r dated.
  set (m := fold_left Calendar.addTrade trades []).
  set (cmp := fun a b : Calendar.CalendarDayStats =>
                inject_Z (Calendar.cd_date a - Calendar.cd_date b)).
  assert (HT : Calendar.totalTrades r = List.length dated).
  { subst r. simpl. fold m. fold cmp. rewrite fold_left_nat_sum. simpl.
    rewrite (list_sum_perm _ _ (Permutation_map _ (sort_perm cmp _))), map_map.
    subst m.
    rewrite (keyed_count Z.eqb dayOf emptyDay dayUpdate Calendar.addTrade
                         calendar_step Calendar.cd_tradesCount)
      by (intros; reflexivity).
    reflexivity. }
  assert (HW : Calendar.totalWins r = count isWin dated).
  { subst r. simpl. fold m. fold cmp. rewrite fold_left_nat_sum. simpl.
    rewrite (list_sum_perm _ _ (Permutation_map _ (sort_perm cmp _))), map_map.
    subst m.
    rewrite (keyed_tally Z.eqb dayOf emptyDay dayUpdate Calendar.addTrade
                         calendar_step Calendar.cd_winCount isWin)
      by (intros; reflexivity).
    subst dated. rewrite count_dated. reflexivity. }
  assert (HL : Calendar.totalLosses r = count isLoss dated).
  { subst r. simpl. fold m. fold cmp. rewrite fold_left_nat_sum. simpl.
    rewrite (list_sum_perm _ _ (Permutation_map _ (sort_perm cmp _))), map_map.
    subst m.
    rewrite (keyed_tally Z.eqb dayOf emptyDay dayUpdate Calendar.addTrade
                         calendar_step Calendar.cd_lossCount isLoss).
    - subst dated. rewrite count_dated. reflexivity.
    - intros; reflexivity.
    - intros t a. unfold dayUpdate, isLoss, pnlOf. simpl.
      destruct (Qgtb (orZero (pnlCurrency t)) 0) eqn:Eg;
        destruct (Qltb (orZero (pnlCurrency t)) 0) eqn:El; qprop;
        try reflexivity. exfalso. lra. }
  split; [exact HT |]. split; [| split; [exact HW |]; split; [exact HL |]].
  - subst r. simpl. fold m. fold cmp. rewrite fold_left_Q_sum.
    rewrite (sumQ_perm _ _ (Permutation_map _ (sort_perm cmp _))), map_map.
    subst m.
    rewrite (keyed_amount Z.eqb dayOf emptyDay dayUpdate Calendar.addTrade
                          calendar_step Calendar.cd_profit pnlOf)
      by (intros; simpl; unfold pnlOf; reflexivity).
    simpl. rewrite sumQ_nil. unfold totalPnl, dated, datedTrades.
    change (fun t : Trade => match dayOf t with
                             | Some _ => true
                             | None => false
                             end) with hasDay.
    ring.
  - rewrite HT, HW, HL. apply wins_losses_le_length.
Qed.

(** ** The first extremum of a list *)

Section Extremum.
Context {A : Type} (val : A -> Q) (pick : option A -> A -> option A).
Hypothesis pick_eq :
  forall acc x,
    pick acc x = match acc with
                 | None => Some x
                 | Some b => if Qgtb (val x) (val b) then Some x else Some b
                 end.

Lemma pick_fold (l : list A) (acc : option A) :
  match fold_left pick l acc with
  | None => acc = None /\ l = []
  | Some b =>
      (acc = Some b /\ forall x, In x l -> val x <= val b)
      \/ (exists l1 l2,
            l = l1 ++ b :: l2
            /\ (forall x, In x l1 -> val x < val b)
            /\ (forall x, In x l2 -> val x <= val b)
            /\ (forall a, acc = Some a -> val a < val b))
  end.
Proof.
  revert acc. induction l as [| y l IH]; intros acc; simpl.
  - destruct acc as [b |]; [| split; reflexivity].
    left. split; [reflexivity | intros x []].
  - specialize (IH (pick acc y)). rewrite pick_eq in IH |- *.
    destruct acc as [a |].
    + destruct (Qgtb (val y) (val a)) eqn:E; qprop;
        destruct (fold_left pick l _) as [b |].
      * destruct IH as [[[= <-] Hl] | (l1 & l2 & -> & H1 & H2 & H3)].
        -- right. exists [], l. repeat split; try assumption.
           ++ intros x [].
           ++ intros a0 [= <-]. exact E.
        -- right. exists (y :: l1), l2. repeat split; try assumption.
           ++ intros x [<- | Hx]; [apply H3; reflexivity | apply H1, Hx].
           ++ intros a0 [= <-]. specialize (H3 y eq_refl). lra.
      * destruct IH as [IH _]. discriminate IH.
      * destruct IH as [[[= <-] Hl] | (l1 & l2 & -> & H1 & H2 & H3)].
        -- left. split; [reflexivity |].
           intros x [<- | Hx]; [exact E | apply Hl, Hx].
        -- right. exists (y :: l1), l2. repeat split; try assumption.
           ++ intros x [<- | Hx]; [| apply H1, Hx].
              specialize (H3 a eq_refl). lra.
      * destruct IH as [IH _]. discriminate IH.
    + destruct (fold_left pick l _) as [b |].
      * destruct IH as [[[= <-] Hl] | (l1 & l2 & -> & H1 & H2 & H3)].
        -- right. exists [], l. repeat split; try assumption.
           ++ intros x [].
           ++ intros a0 H. discriminate H.
        -- right. exists (y :: l1), l2. repeat split; try assumption.
           ++ intros x [<- | Hx]; [apply H3; reflexivity | apply H1, Hx].
           ++ intros a0 H. discriminate H.
      * destruct IH as [IH _]. discriminate IH.
Qed.

(** From no candidate: the first element of the greatest value. *)
Lemma pick_first (l : list A) :
  match fold_left pick l None with
  | None => l = []
  | Some b =>
      exists l1 l2,
        l = l1 ++ b :: l2
        /\ (forall x, In x l1 -> val x < val b)
        /\ (forall x, In x l2 -> val x <= val b)
  end.
Proof.
  pose proof (pick_fold l None) as H.
  destruct (fold_left pick l None) as [b |]; [| apply H].
  destruct H as [[H _] | (l1 & l2 & H0 & H1 & H2 & _)]; [discriminate H |].
  exists l1, l2. repeat split; assumption.
Qed.

End Extremum.

Lemma sorted_after {A : Type} (R : A -> A -> Prop) (l1 l2 : list A) (b : A) :
  StronglySorted R (l1 ++ b :: l2) -> forall x, In x l2 -> R b x.
Proof.
  induction l1 as [| y l1 IH]; simpl; intros H x Hx.
  - inversion H as [| ? ? _ Hb]; subst. rewrite Forall_forall in Hb.
    apply Hb, Hx.
  - inversion H; subst. apply IH; assumption.
Qed.

Lemma Qltb_opp (a b : Q) : Qltb a b = Qgtb (- a) (- b).
Proof.
  destruct (Qltb a b) eqn:E1; destruct (Qgtb (- a) (- b)) eqn:E2; qprop;
    try reflexivity; exfalso; lra.
Qed.

Lemma no_days_no_dated (trades : list Trade) :
  Calendar.days (Calendar.aggregateTrades trades) = []
  <-> datedTrades trades = [].
Proof.
  split.
  - intros Hd. destruct (datedTrades trades) as [| t l] eqn:E; [reflexivity |].
    exfalso.
    assert (Ht : In t (datedTrades trades)) by (rewrite E; left; reflexivity).
    unfold datedTrades in Ht. apply filter_In in Ht. destruct Ht as [Hin Hk].
    unfold hasDay in Hk. destruct (dayOf t) as [k |] eqn:Ek; [| discriminate].
    assert (Hne : bucket Z.eqb dayOf k trades <> []).
    { intros Hb.
      assert (In t (bucket Z.eqb dayOf k trades)); [| rewrite Hb in *; contradiction].
      unfold bucket. apply filter_In. split; [exact Hin |].
      unfold filedUnder. rewrite Ek. apply Z.eqb_refl. }
    pose proof (keyed_entry_exists Z.eqb Z.eqb_eq dayOf emptyDay dayUpdate
                                   Calendar.addTrade calendar_step
                                   trades k Hne) as Hrow.
    destruct (calendar_row trades k _ Hrow) as (_ & Hk' & _).
    rewrite <- Hk' in Hrow at 1. apply calendar_days_In in Hrow.
    rewrite Hd in Hrow. exact Hrow.
  - intros Hd. destruct (Calendar.days (Calendar.aggregateTrades trades))
      as [| d l] eqn:E; [reflexivity |].
    exfalso.
    assert (Hin : In d (Calendar.days (Calendar.aggregateTrades trades)))
      by (rewrite E; left; reflexivity).
    apply calendar_days_In in Hin.
    destruct (calendar_row trades _ d Hin) as (Hne & _).
    apply (bucket_member Z.eqb Z.eqb_eq) in Hne.
    destruct Hne as (t & Ht & Hk).
    assert (In t (datedTrades trades)); [| rewrite Hd in *; contradiction].
    unfold datedTrades. apply filter_In. split; [exact Ht |].
    unfold hasDay. rewrite Hk. reflexivity.
Qed.

(** X18.  The calendar's best day is the row of the highest profit and
    its worst day the row of the lowest; among rows of equal profit the
    earliest day is taken.  Both are null exactly when no trade has an
    effective date. *)
Theorem calendar_best_worst :
  forall trades : list Trade,
    let r := Calendar.aggregateTrades trades in
    (Calendar.bestDay r = None <-> datedTrades trades = []) /\
    (Calendar.worstDay r = None <-> datedTrades trades = []) /\
    (forall b, Calendar.bestDay r = Some b ->
       In b (Calendar.days r) /\
       forall d, In d (Calendar.days r) ->
         Calendar.cd_profit d <= Calendar.cd_profit b /\
         (Calendar.cd_profit d == Calendar.cd_profit b ->
          (Calendar.cd_dateKey b <= Calendar.cd_dateKey d)%Z)) /\
    (forall w, Calendar.worstDay r = Some w ->
       In w (Calendar.days r) /\
       forall d, In d (Calendar.days r) ->
         Calendar.cd_profit w <= Calendar.cd_profit d /\
         (Calendar.cd_profit d == Calendar.cd_profit w ->
          (Calendar.cd_dateKey w <= Calendar.cd_dateKey d)%Z)).
Proof.
  intros trades r.
  pose proof (calendar_days_sorted trades) as Hs.
  pose proof (no_days_no_dated trades) as Hn.
  change (Calendar.aggregateTrades trades) with r in Hs, Hn.
  assert (HB : Calendar.bestDay r
               = fold_left Calendar.pickBest (Calendar.days r) None)
    by reflexivity.
  assert (HW : Calendar.worstDay r
               = fold_left Calendar.pickWorst (Calendar.days r) None)
    by reflexivity.
  pose proof (pick_first Calendar.cd_profit Calendar.pickBest
                         (fun acc x => eq_refl) (Calendar.days r)) as PB.
  assert (Hpw : forall acc x,
             Calendar.pickWorst acc x
             = match acc with
               | None => Some x
               | Some b => if Qgtb (- Calendar.cd_profit x)
                                   (- Calendar.cd_profit b)
                           then Some x else Some b
               end).
  { intros [b |] x; [| reflexivity]. simpl. rewrite Qltb_opp. reflexivity. }
  pose proof (pick_first (fun d => - Calendar.cd_profit d) Calendar.pickWorst
                         Hpw (Calendar.days r)) as PW.
  rewrite <- HB in PB. rewrite <- HW in PW.
  repeat apply conj.
  - intros H. rewrite H in PB. apply Hn, PB.
  - intros H. apply Hn in H.
    destruct (Calendar.bestDay r) as [b |]; [| reflexivity].
    destruct PB as (l1 & l2 & E & _). rewrite H in E.
    destruct l1; discriminate E.
  - intros H. rewrite H in PW. apply Hn, PW.
  - intros H. apply Hn in H.
    destruct (Calendar.worstDay r) as [b |]; [| reflexivity].
    destruct PW as (l1 & l2 & E & _). rewrite H in E.
    destruct l1; discriminate E.
  - intros b Hb. rewrite Hb in PB. destruct PB as (l1 & l2 & E & H1 & H2).
    rewrite E in Hs |- *. split; [apply in_elt |].
    intros d Hd. apply in_app_or in Hd. destruct Hd as [Hd | [<- | Hd]].
    + specialize (H1 d Hd). split; [lra | intros Heq; exfalso; lra].
    + split; [lra | intros _; lia].
    + split; [apply H2, Hd |]. intros _.
      pose proof (sorted_after _ _ _ _ Hs d Hd) as Hlt. simpl in Hlt. lia.
  - intros w Hw. rewrite Hw in PW. destruct PW as (l1 & l2 & E & H1 & H2).
    rewrite E in Hs |- *. split; [apply in_elt |].
    intros d Hd. apply in_app_or in Hd. destruct Hd as [Hd | [<- | Hd]].
    + specialize (H1 d Hd). simpl in H1.
      split; [lra | intros Heq; exfalso; lra].
    + split; [lra | intros _; lia].
    + specialize (H2 d Hd). simpl in H2. split; [lra |]. intros _.
      pose proof (sorted_after _ _ _ _ Hs d Hd) as Hlt. simpl in Hlt. lia.
Qed.

(** ** The window of the tag analytics *)

Lemma dayIndex_endOfDay (d : Date) :
  dayIndex (TagAnalyticsHook.endOfDay d) = dayIndex d.
Proof.
  unfold TagAnalyticsHook.endOfDay, dayIndex, msPerDay.
  rewrite Z.add_comm, Z.div_add by discriminate.
  rewrite Z.div_small; lia.
Qed.

Lemma dayIndex_minus_days (d : Date) (n : Z) :
  dayIndex (d - n * msPerDay)%Z = (dayIndex d - n)%Z.
Proof.
  unfold dayIndex.
  replace (d - n * msPerDay)%Z with (d + (- n) * msPerDay)%Z by lia.
  rewrite Z.div_add by discriminate. lia.
Qed.

Lemma tag_window_In (now : Date) (trades : list Trade) (days : nat)
      (t : Trade) :
  In t (TagAnalyticsHook.filterTradesByDateRange now trades days)
  <-> In t trades
      /\ exists k, dayOf t = Some k
                   /\ (dayIndex now - Z.of_nat days <= k <= dayIndex now)%Z.
Proof.
  unfold TagAnalyticsHook.filterTradesByDateRange. cbv zeta.
  rewrite filter_In. unfold TagAnalyticsHook.formatDateKey.
  rewrite dayIndex_midnight, dayIndex_minus_days, dayIndex_endOfDay.
  unfold dayOf.
  change (TagAnalyticsHook.getEffectiveDate t)
    with (Dashboard.getEffectiveDate t).
  destruct (Dashboard.getEffectiveDate t) as [e |]; simpl.
  - unfold Dashboard.formatDateKey. rewrite andb_true_iff, !Z.leb_le. split.
    + intros [Ht H]. split; [exact Ht |]. exists (dayIndex e).
      split; [reflexivity | exact H].
    + intros [Ht (k & [= <-] & H)]. split; assumption.
  - split; [intros [_ H]; discriminate H |].
    intros [_ (k & H & _)]. discriminate H.
Qed.

Lemma relevantTrades_In (now : Date) (trades : list Trade) (days : nat)
      (t : Trade) :
  In t (Dashboard.relevantTrades (Dashboard.generateDateRange now days) trades)
  <-> In t trades
      /\ exists k, dayOf t = Some k
                   /\ (dayIndex now - Z.of_nat days < k <= dayIndex now)%Z.
Proof.
  unfold Dashboard.relevantTrades. rewrite filter_In. unfold dayOf.
  destruct (Dashboard.getEffectiveDate t) as [e |]; simpl.
  - split.
    + intros [Ht H]. split; [exact Ht |].
      exists (Dashboard.formatDateKey e). split; [reflexivity |].
      destruct days as [| n]; [discriminate H |].
      unfold Dashboard.inDateRange in H.
      rewrite generateDateRange_S in H. cbv beta iota zeta in H.
      rewrite <- (generateDateRange_S now n), (generateDateRange_last now n) in H.
      apply andb_true_iff in H. rewrite !Z.leb_le in H. lia.
    + intros [Ht (k & [= <-] & H)]. split; [exact Ht |].
      apply inDateRange_generated, generateDateRange_In. exact H.
  - split; [intros [_ H]; discriminate H |].
    intros [_ (k & H & _)]. discriminate H.
Qed.

(** X19.  The tag analytics keep exactly the trades whose effective day
    lies from [days] days ago up to today, both included, so the window
    has [days + 1] days; trades without a date are dropped.  The
    dashboard chart, for the same [days], starts one day later: every
    trade the chart counts is in the tag window, and a trade of the tag
    window is missing from the chart exactly when it is dated [days] days
    ago. *)
Theorem tag_window :
  forall (now : Date) (trades : list Trade) (days : nat) (t : Trade),
    let window := TagAnalyticsHook.filterTradesByDateRange now trades days in
    let chart :=
      Dashboard.relevantTrades (Dashboard.generateDateRange now days) trades in
    let today := dayIndex now in
    (In t window
     <-> In t trades
         /\ exists k, dayOf t = Some k
                      /\ (today - Z.of_nat days <= k <= today)%Z) /\
    (In t chart -> In t window) /\
    (In t window ->
     (In t chart <-> dayOf t <> Some (today - Z.of_nat days)%Z)) /\
    TagAnalyticsHook.filterTradesByDateRange now window days = window.
Proof.
  intros now trades days t window chart today.
  pose proof (tag_window_In now trades days t) as HW.
  pose proof (relevantTrades_In now trades days t) as HC.
  fold window in HW. fold chart in HC. fold today in HW, HC.
  split; [exact HW |]. split; [| split].
  - intros H. apply HW. apply HC in H.
    destruct H as [Ht (k & Hk & Hr)]. split; [exact Ht |].
    exists k. split; [exact Hk | lia].
  - intros H. apply HW in H. destruct H as [Ht (k & Hk & Hr)].
    rewrite HC, Hk. split.
    + intros [_ (k' & [= <-] & Hr')] [= E]. lia.
    + intros Hne. split; [exact Ht |]. exists k. split; [reflexivity |].
      assert (k <> today - Z.of_nat days)%Z by congruence. lia.
  - subst window. unfold TagAnalyticsHook.filterTradesByDateRange. cbv zeta.
    apply filter_idem.
Qed.

(** ** The risk timeline *)

Lemma timeline_map (trades : list Trade) :
  fold_left RiskTimeline.addToDay trades [] = Dashboard.allDailyPnlMap trades.
Proof. reflexivity. Qed.

Lemma period_percent (m : list (Z * Q)) (trades : list Trade)
      (inPeriod before : Z -> bool) (periodPnl : Q) :
  m = Dashboard.allDailyPnlMap trades ->
  periodPnl == pnlOfDays inPeriod trades ->
  (let cumulativePnLBefore := Dashboard.sumWhere before m in
   let baseBalance :=
     if Qgtb cumulativePnLBefore 0 then cumulativePnLBefore
     else Dashboard.DEFAULT_BASE_BALANCE in
   if Qgtb baseBalance 0 then periodPnl / baseBalance * 100 else 0)
  == pnlOfDays inPeriod trades / rollingBase (pnlOfDays before trades) * 100.
Proof.
  intros -> Hp. cbv zeta.
  pose proof (allDaily_sumWhere before trades []) as Hb.
  change (Dashboard.sumWhere before []) with 0 in Hb.
  rewrite Qplus_0_l in Hb.
  change (fold_left Dashboard.addToDay trades [])
    with (Dashboard.allDailyPnlMap trades) in Hb.
  destruct (base_balance _ _ Hb) as [Hbase Hpos].
  rewrite Hpos, Hbase, Hp. reflexivity.
Qed.

Lemma dayIndex_endOfToday (now : Date) :
  dayIndex (dayIndex now * msPerDay + (msPerDay - 1))%Z = dayIndex now.
Proof. apply dayIndex_endOfDay. Qed.

Lemma eachDay_from (now : Date) (days : nat) :
  let today := (dayIndex now * msPerDay + (msPerDay - 1))%Z in
  let startDate :=
    (dayIndex (today - Z.of_nat days * msPerDay) * msPerDay)%Z in
  RiskTimeline.eachDayOfInterval startDate today
  = map (fun i => ((dayIndex now - Z.of_nat days + Z.of_nat i) * msPerDay)%Z)
        (seq 0 (S days)).
Proof.
  cbv zeta. unfold RiskTimeline.eachDayOfInterval.
  rewrite dayIndex_midnight, dayIndex_minus_days, dayIndex_endOfToday.
  replace (Z.to_nat (dayIndex now - (dayIndex now - Z.of_nat days) + 1))
    with (S days) by lia.
  reflexivity.
Qed.

Lemma dailyPoint_spec (trades : list Trade) (k : Z) :
  let p := RiskTimeline.dailyPoint (Dashboard.allDailyPnlMap trades)
                                   (k * msPerDay)%Z in
  RiskTimeline.drp_date p = k /\
  RiskTimeline.drp_pnlPercent p
  == pnlOfDays (Z.eqb k) trades
     / rollingBase (pnlOfDays (fun d => d <? k)%Z trades) * 100.
Proof.
  cbv zeta. unfold RiskTimeline.dailyPoint. cbv zeta.
  unfold RiskTimeline.formatDateKey. rewrite dayIndex_midnight.
  split; [reflexivity |]. simpl RiskTimeline.drp_pnlPercent.
  apply (period_percent (Dashboard.allDailyPnlMap trades) trades
                        (Z.eqb k) (fun d => d <? k)%Z); [reflexivity |].
  pose proof (allDaily_get k trades []) as H. simpl in H.
  rewrite Qplus_0_l in H. exact H.
Qed.

Lemma dashboard_daily_percent (now : Date) (trades : list Trade) :
  forall (sqrt : Q -> Q) (n : nat),
    Dashboard.dailyPnlPercent
      (Dashboard.riskProgress (Dashboard.aggregateTrades sqrt now trades n))
    = RiskTimeline.drp_pnlPercent
        (RiskTimeline.dailyPoint (Dashboard.allDailyPnlMap trades)
                                 (dayIndex now * msPerDay)%Z).
Proof.
  intros sqrt n.
  unfold Dashboard.aggregateTrades, Dashboard.riskProgress,
    Dashboard.computeRiskProgress, RiskTimeline.dailyPoint.
  cbv zeta.
  unfold Dashboard.dailyPnlPercent, RiskTimeline.drp_pnlPercent.
  unfold Dashboard.formatDateKey, RiskTimeline.formatDateKey,
    Dashboard.startOfDay.
  reflexivity.
Qed.

(** X20.  The risk timeline has one daily point for each of the days
    from [days] days ago up to today, both included and in that order,
    so [days + 1] points.  The point of a day is the day's P&L over the
    rolling base of that day (the cumulative P&L of all earlier days when
    positive, 10,000 otherwise) times 100, and the last point is exactly
    the daily percentage of the dashboard's risk progress. *)
Theorem timeline_daily :
  forall (now : Date) (trades : list Trade) (days weeks : nat),
    let tl := RiskTimeline.calculateRiskTimeline now trades days weeks in
    let today := dayIndex now in
    map RiskTimeline.drp_date (RiskTimeline.daily tl)
    = map (fun i => (today - Z.of_nat days + Z.of_nat i)%Z) (seq 0 (S days)) /\
    (forall p, In p (RiskTimeline.daily tl) ->
       let k := RiskTimeline.drp_date p in
       RiskTimeline.drp_pnlPercent p
       == pnlOfDays (Z.eqb k) trades
          / rollingBase (pnlOfDays (fun d => d <? k)%Z trades) * 100) /\
    (forall (sqrt : Q -> Q) (n : nat),
       exists front,
         RiskTimeline.daily tl
         = front ++ [RiskTimeline.mkDailyRiskPoint
                       today
                       (Dashboard.dailyPnlPercent
                          (Dashboard.riskProgress
                             (Dashboard.aggregateTrades sqrt now trades n)))]).
Proof.
  intros now trades days weeks tl today.
  assert (Hd : RiskTimeline.daily tl
               = map (fun i => RiskTimeline.dailyPoint
                                 (Dashboard.allDailyPnlMap trades)
                                 ((today - Z.of_nat days + Z.of_nat i)
                                  * msPerDay)%Z)
                     (seq 0 (S days))).
  { pose proof (eachDay_from now days) as E. cbv zeta in E.
    subst tl. unfold RiskTimeline.calculateRiskTimeline. cbv zeta.
    cbn [RiskTimeline.daily]. rewrite E, map_map. reflexivity. }
  rewrite Hd. split; [| split].
  - rewrite map_map. apply map_ext. intros i.
    apply (dailyPoint_spec trades).
  - intros p Hp. apply in_map_iff in Hp. destruct Hp as (i & <- & _).
    cbv zeta. destruct (dailyPoint_spec trades
                          (today - Z.of_nat days + Z.of_nat i)%Z) as [Hk Hv].
    cbv zeta in Hk, Hv. rewrite Hk. exact Hv.
  - intros sqrt n. rewrite seq_S, map_app. eexists. f_equal.
    cbn [map]. replace (today - Z.of_nat days + Z.of_nat (0 + days))%Z
      with today by lia.
    subst today. rewrite (dashboard_daily_percent now trades).
    destruct (dailyPoint_spec trades (dayIndex now)) as [Hk _].
    cbv zeta in Hk.
    set (p := RiskTimeline.dailyPoint _ _) in *.
    rewrite <- Hk. destruct p. reflexivity.
Qed.

Lemma startOfWeek_monday (d : Date) :
  Dashboard.startOfWeek d 1 = (mondayOf (dayIndex d) * msPerDay)%Z.
Proof.
  unfold Dashboard.startOfWeek, getDay, mondayOf.
  rewrite week_start_offset by apply dayOfWeek_range. reflexivity.
Qed.

Lemma dayOfWeek_shift (day k : Z) : dayOfWeek (day - k * 7) = dayOfWeek day.
Proof.
  unfold dayOfWeek.
  replace (day - k * 7 + 4)%Z with (day + 4 + (- k) * 7)%Z by lia.
  apply Z_mod_plus_full.
Qed.

Lemma mondayOf_shift (day k : Z) :
  mondayOf (day - k * 7) = (mondayOf day - k * 7)%Z.
Proof. unfold mondayOf. rewrite dayOfWeek_shift. lia. Qed.

Lemma weekIntervals_past (today c s : Date) :
  (c < s)%Z -> RiskTimeline.weekIntervalsFrom today c s = [].
Proof.
  intros H. rewrite RiskTimeline.weekIntervalsFrom_equation.
  apply Z.leb_gt in H. rewrite H. reflexivity.
Qed.

Lemma weekIntervals_count (today c : Date) (n : nat) :
  RiskTimeline.weekIntervalsFrom today c (c - Z.of_nat n * (7 * msPerDay))%Z
  = map (fun i => RiskTimeline.weekIntervalOf
                    today (c - Z.of_nat (n - i) * (7 * msPerDay))%Z)
        (seq 0 (S n)).
Proof.
  induction n as [| n IH].
  - rewrite RiskTimeline.weekIntervalsFrom_equation.
    replace (c - Z.of_nat 0 * (7 * msPerDay))%Z with c by lia.
    rewrite Z.leb_refl, weekIntervals_past by (unfold msPerDay; lia).
    simpl. replace (c - 0)%Z with c by lia. reflexivity.
  - rewrite RiskTimeline.weekIntervalsFrom_equation.
    assert (H : (c - Z.of_nat (S n) * (7 * msPerDay) <=? c)%Z = true)
      by (apply Z.leb_le; unfold msPerDay; lia).
    rewrite H.
    replace (c - Z.of_nat (S n) * (7 * msPerDay) + 7 * msPerDay)%Z
      with (c - Z.of_nat n * (7 * msPerDay))%Z by lia.
    rewrite IH. change (seq 0 (S (S n))) with (0%nat :: seq 1 (S n)).
    rewrite <- seq_shift, map_cons, map_map. f_equal.
Qed.

Lemma weeklyPoint_spec (now : Date) (trades : list Trade) (s : Z) :
  let today := (dayIndex now * msPerDay + (msPerDay - 1))%Z in
  let p := RiskTimeline.weeklyPoint
             today (Dashboard.allDailyPnlMap trades)
             (RiskTimeline.weekIntervalOf today (s * msPerDay)%Z) in
  let e := Z.min (s + 6) (dayIndex now) in
  RiskTimeline.wrp_weekLabel p = (s, e) /\
  RiskTimeline.wrp_pnlPercent p
  = (let m := Dashboard.allDailyPnlMap trades in
     let weekPnL :=
       Dashboard.sumWhere (fun d => (s <=? d) && (d <=? e))%Z m in
     let cumulativePnLBefore := Dashboard.sumWhere (fun d => d <? s)%Z m in
     let baseBalance :=
       if Qgtb cumulativePnLBefore 0 then cumulativePnLBefore
       else Dashboard.DEFAULT_BASE_BALANCE in
     if Qgtb baseBalance 0 then weekPnL / baseBalance * 100 else 0).
Proof.
  intros today p e.
  assert (Hend : dayIndex (snd (RiskTimeline.weekIntervalOf
                                  today (s * msPerDay)%Z)) = e
                 /\ dayIndex (if (snd (RiskTimeline.weekIntervalOf
                                         today (s * msPerDay)%Z) >? today)%Z
                              then today
                              else snd (RiskTimeline.weekIntervalOf
                                          today (s * msPerDay)%Z)) = e).
  { unfold RiskTimeline.weekIntervalOf. cbv zeta. cbn [snd].
    replace (s * msPerDay + 6 * msPerDay)%Z with ((s + 6) * msPerDay)%Z by lia.
    subst e.
    destruct ((s + 6) * msPerDay >? today)%Z eqn:E.
    - assert (Ht : (today >? today)%Z = false)
        by (rewrite Z.gtb_ltb; apply Z.ltb_irrefl).
      rewrite Ht. subst today. rewrite dayIndex_endOfToday.
      apply Z.gtb_lt in E. unfold msPerDay in E.
      split; symmetry; apply Z.min_r; lia.
    - rewrite E, dayIndex_midnight.
      assert (H : ~ (today < (s + 6) * msPerDay)%Z).
      { intros H. apply Z.gtb_lt in H. congruence. }
      subst today. unfold msPerDay in H.
      split; symmetry; apply Z.min_l; lia. }
  destruct Hend as [He1 He2].
  subst p. unfold RiskTimeline.weeklyPoint.
  destruct (RiskTimeline.weekIntervalOf today (s * msPerDay)%Z)
    as [start end_] eqn:Ei.
  assert (Hs : start = (s * msPerDay)%Z).
  { unfold RiskTimeline.weekIntervalOf in Ei. cbv zeta in Ei.
    injection Ei as <- _. reflexivity. }
  cbn [snd] in He1, He2. cbv zeta.
  unfold RiskTimeline.formatDateKey. rewrite He1, He2.
  subst start. rewrite dayIndex_midnight.
  split; reflexivity.
Qed.

Lemma dashboard_weekly_percent (now : Date) (trades : list Trade) :
  forall (sqrt : Q -> Q) (n : nat),
    Dashboard.weeklyPnlPercent
      (Dashboard.riskProgress (Dashboard.aggregateTrades sqrt now trades n))
    = (let s := mondayOf (dayIndex now) in
       let e := dayIndex now in
       let m := Dashboard.allDailyPnlMap trades in
       let weekPnL :=
         Dashboard.sumWhere (fun d => (s <=? d) && (d <=? e))%Z m in
       let cumulativePnLBefore := Dashboard.sumWhere (fun d => d <? s)%Z m in
       let baseBalance :=
         if Qgtb cumulativePnLBefore 0 then cumulativePnLBefore
         else Dashboard.DEFAULT_BASE_BALANCE in
       if Qgtb baseBalance 0 then weekPnL / baseBalance * 100 else 0).
Proof.
  intros sqrt n.
  unfold Dashboard.aggregateTrades, Dashboard.riskProgress,
    Dashboard.computeRiskProgress.
  rewrite startOfWeek_key, formatDateKey_startOfDay.
  reflexivity.
Qed.

(** X21.  The risk timeline has one weekly point for each of the last
    [weeks] weeks, oldest first: the loop over the weeks ends after
    exactly [weeks] turns.  The weeks start on Monday, seven days apart,
    the last one on the Monday of the current week; each ends six days
    after its start, the current week today.  The point of a week is the
    week's P&L over the rolling base of its Monday times 100, and the
    last point is exactly the weekly percentage of the dashboard's risk
    progress. *)
Theorem timeline_weekly :
  forall (now : Date) (trades : list Trade) (days weeks : nat),
    let tl := RiskTimeline.calculateRiskTimeline now trades days weeks in
    let today := dayIndex now in
    let monday := mondayOf today in
    map RiskTimeline.wrp_weekLabel (RiskTimeline.weekly tl)
    = map (fun i =>
             let s := (monday - Z.of_nat (weeks - 1 - i) * 7)%Z in
             (s, Z.min (s + 6) today))
          (seq 0 weeks) /\
    (forall p, In p (RiskTimeline.weekly tl) ->
       let s := fst (RiskTimeline.wrp_weekLabel p) in
       let e := snd (RiskTimeline.wrp_weekLabel p) in
       dayOfWeek s = 1%Z /\ (s <= e <= today)%Z /\
       RiskTimeline.wrp_pnlPercent p
       == pnlOfDays (fun d => (s <=? d) && (d <=? e))%Z trades
          / rollingBase (pnlOfDays (fun d => d <? s)%Z trades) * 100) /\
    (forall (sqrt : Q -> Q) (n w : nat),
       weeks = S w ->
       exists front,
         RiskTimeline.weekly tl
         = front ++ [RiskTimeline.mkWeeklyRiskPoint
                       (monday, today)
                       (Dashboard.weeklyPnlPercent
                          (Dashboard.riskProgress
                             (Dashboard.aggregateTrades sqrt now trades n)))]).
Proof.
  intros now trades days weeks tl today monday.
  set (T := (dayIndex now * msPerDay + (msPerDay - 1))%Z).
  set (point := fun s : Z =>
                  RiskTimeline.weeklyPoint
                    T (Dashboard.allDailyPnlMap trades)
                    (RiskTimeline.weekIntervalOf T (s * msPerDay)%Z)).
  assert (Hw : RiskTimeline.weekly tl
               = map (fun i => point (monday - Z.of_nat (weeks - 1 - i) * 7)%Z)
                     (seq 0 weeks)).
  { subst tl. unfold RiskTimeline.calculateRiskTimeline. cbv zeta.
    cbn [RiskTimeline.weekly]. fold T.
    rewrite !startOfWeek_monday.
    replace (T - (Z.of_nat weeks - 1) * (7 * msPerDay))%Z
      with (T - ((Z.of_nat weeks - 1) * 7) * msPerDay)%Z by lia.
    rewrite dayIndex_minus_days, mondayOf_shift.
    subst T. rewrite dayIndex_endOfToday. fold today. fold monday.
    set (T := (dayIndex now * msPerDay + (msPerDay - 1))%Z) in *.
    destruct weeks as [| w].
    - rewrite weekIntervals_past by (unfold msPerDay; simpl; lia).
      reflexivity.
    - replace ((monday - (Z.of_nat (S w) - 1) * 7) * msPerDay)%Z
        with (monday * msPerDay - Z.of_nat w * (7 * msPerDay))%Z by lia.
      rewrite weekIntervals_count, map_map. apply map_ext. intros i.
      subst point. cbv beta. f_equal. f_equal.
      replace (S w - 1 - i)%nat with (w - i)%nat by lia. lia. }
  assert (Hpoint : forall s,
             RiskTimeline.wrp_weekLabel (point s) = (s, Z.min (s + 6) today)
             /\ RiskTimeline.wrp_pnlPercent (point s)
                == pnlOfDays (fun d => (s <=? d) && (d <=? Z.min (s + 6) today))%Z
                             trades
                   / rollingBase (pnlOfDays (fun d => d <? s)%Z trades) * 100).
  { intros s. destruct (weeklyPoint_spec now trades s) as [Hl Hv].
    cbv zeta in Hl, Hv. fold T in Hl, Hv. fold (point s) in Hl, Hv.
    fold today in Hl, Hv. split; [exact Hl |].
    rewrite Hv.
    apply (period_percent (Dashboard.allDailyPnlMap trades) trades
             (fun d => (s <=? d) && (d <=? Z.min (s + 6) today))%Z
             (fun d => d <? s)%Z); [reflexivity |].
    pose proof (allDaily_sumWhere
                  (fun d => (s <=? d) && (d <=? Z.min (s + 6) today))%Z
                  trades []) as H.
    change (Dashboard.sumWhere _ []) with 0 in H.
    rewrite Qplus_0_l in H. exact H. }
  rewrite Hw. split; [| split].
  - rewrite map_map. apply map_ext. intros i. apply Hpoint.
  - intros p Hp. apply in_map_iff in Hp. destruct Hp as (i & <- & Hi).
    apply in_seq in Hi. cbv zeta.
    destruct (Hpoint (monday - Z.of_nat (weeks - 1 - i) * 7)%Z) as [Hl Hv].
    rewrite Hl. simpl fst. simpl snd.
    pose proof (mondayOf_spec today) as [Hm Hr]. fold monday in Hm, Hr.
    split; [rewrite dayOfWeek_shift; exact Hm |].
    split; [lia | exact Hv].
  - intros sqrt n w ->. rewrite seq_S, map_app. eexists. f_equal.
    cbn [map]. replace (monday - Z.of_nat (S w - 1 - (0 + w)) * 7)%Z
      with monday by lia.
    destruct (weeklyPoint_spec now trades monday) as [Hl Hv].
    cbv zeta in Hl, Hv. fold T in Hl, Hv. fold (point monday) in Hl, Hv.
    fold today in Hl, Hv.
    pose proof (mondayOf_spec today) as [_ Hr]. fold monday in Hr.
    replace (Z.min (monday + 6) today) with today in Hl, Hv
      by (symmetry; apply Z.min_r; lia).
    rewrite (dashboard_weekly_percent now trades sqrt n).
    fold today. fold monday. cbv zeta. cbv zeta in Hv.
    rewrite <- Hv, <- Hl. destruct (point monday). reflexivity.
Qed.

(** ** The KPIs of the trades page *)

Lemma netPnl_nan (l : list Trade) :
  fold_left (fun sum t => num_add sum (toNumber (pnlCurrency t))) l NaN = NaN.
Proof.
  induction l as [| t l IH]; [reflexivity |].
  simpl. destruct (toNumber (pnlCurrency t)); exact IH.
Qed.

Lemma netPnl_all (l : list Trade) (a : Q) :
  (forall t, In t l -> pnlCurrency t <> None) ->
  fold_left (fun sum t => num_add sum (toNumber (pnlCurrency t))) l (Num a)
  = Num (fold_left (fun s t => s + pnlOf t) l a).
Proof.
  revert a. induction l as [| t l IH]; intros a H; [reflexivity |].
  simpl. pose proof (H t (or_introl eq_refl)) as Ht.
  unfold pnlOf at 2. destruct (pnlCurrency t) as [p |]; [| contradiction].
  simpl. apply IH. intros u Hu. apply H. right. exact Hu.
Qed.

Lemma netPnl_missing (l : list Trade) (a : Q) :
  (exists t, In t l /\ pnlCurrency t = None) ->
  fold_left (fun sum t => num_add sum (toNumber (pnlCurrency t))) l (Num a)
  = NaN.
Proof.
  revert a. induction l as [| t l IH]; intros a (u & Hu & Hn);
    [destruct Hu |].
  simpl. destruct (pnlCurrency t) as [p |] eqn:E; simpl.
  - apply IH. destruct Hu as [-> | Hu]; [congruence |].
    exists u. split; assumption.
  - apply netPnl_nan.
Qed.

Lemma pnlPositive_isWin (t : Trade) : TradesPage.pnlPositive t = isWin t.
Proof.
  unfold TradesPage.pnlPositive, isWin, pnlOf.
  destruct (pnlCurrency t); reflexivity.
Qed.

Lemma trades_page_grossProfit (trades : list Trade) :
  TradesPage.grossProfit trades = grossProfitOf trades.
Proof.
  unfold TradesPage.grossProfit, grossProfitOf, TradesPage.sumPnl, totalPnl.
  rewrite (filter_ext _ _ pnlPositive_isWin). reflexivity.
Qed.

Lemma loss_magnitude_sum (l : list Trade) :
  (forall t, In t l -> isLoss t = true) ->
  sumQ (map (fun t => Qabs (pnlOf t)) l) == - totalPnl l.
Proof.
  induction l as [| t l IH]; intros H.
  - unfold totalPnl. simpl. rewrite sumQ_nil. ring.
  - simpl map. rewrite sumQ_cons, totalPnl_cons, IH
      by (intros x Hx; apply H; right; exact Hx).
    assert (Ht : pnlOf t < 0)
      by (apply outcome_sign, H; left; reflexivity).
    rewrite Qabs_neg by lra. ring.
Qed.

Lemma trades_page_grossLoss (trades : list Trade) :
  TradesPage.grossLoss trades == grossLossOf trades.
Proof.
  unfold TradesPage.grossLoss, grossLossOf, TradesPage.sumPnl.
  rewrite (filter_ext _ _ pnlNegative_isLoss).
  change (sumQ (map (fun t => orZero (pnlCurrency t)) (filter isLoss trades)))
    with (totalPnl (filter isLoss trades)).
  assert (Hall : forall t, In t (filter isLoss trades) -> isLoss t = true)
    by (intros t Ht; apply filter_In in Ht; apply Ht).
  rewrite (loss_magnitude_sum _ Hall).
  apply Qabs_neg. apply (losses_sum_negative _ Hall).
Qed.

Lemma rValues_filter (l : list Trade) :
  map (fun t => orZero (rMultiple t)) (filter TradesPage.hasR l) = rValues l.
Proof.
  induction l as [| t l IH]; [reflexivity |].
  rewrite rValues_cons. simpl. unfold TradesPage.hasR at 1.
  destruct (rMultiple t) eqn:E; simpl; rewrite ?E, IH; reflexivity.
Qed.

Lemma percent_bounds (a b : nat) :
  (a <= b)%nat ->
  let r := if (0 <? b)%nat then Q_of_nat a / Q_of_nat b * 100 else 0 in
  0 <= r /\ r <= 100.
Proof.
  intros H. cbv zeta. destruct (0 <? b)%nat eqn:E; [| split; lra].
  apply Nat.ltb_lt in E.
  destruct (ratio_bounds a b H E) as [H0 H1]. split; lra.
Qed.

(** X22.  On the trades page the number of trades is the length of the
    list.  The net P&L is the sum of the P&L fields when every trade has
    one, and NaN as soon as one trade lacks it.  The win rate lies
    between 0 and 100.  The profit factor is null exactly when no trade
    has a negative P&L, and otherwise is the sum of the positive P&L over
    the sum of the absolute negative P&L, never negative.  The average R
    is the mean of the R-multiples that are present, null when there is
    none. *)
Theorem trades_page_kpis :
  forall trades : list Trade,
    let k := TradesPage.calculateTradesKpis trades in
    TradesPage.totalTrades k = List.length trades /\
    ((forall t, In t trades -> pnlCurrency t <> None) ->
     exists q, TradesPage.netPnl k = Num q /\ q == totalPnl trades) /\
    ((exists t, In t trades /\ pnlCurrency t = None) ->
     TradesPage.netPnl k = NaN) /\
    (0 <= TradesPage.winRate k /\ TradesPage.winRate k <= 100) /\
    (TradesPage.profitFactor k = None <-> count isLoss trades = 0%nat) /\
    (forall pf, TradesPage.profitFactor k = Some pf ->
       pf == grossProfitOf trades / grossLossOf trades /\ 0 <= pf) /\
    optQeq (TradesPage.avgR k) (meanR trades).
Proof.
  intros trades k. subst k. unfold TradesPage.calculateTradesKpis.
  destruct trades as [| t0 l]; simpl Nat.eqb; cbv iota.
  { simpl. repeat split; try lra; try discriminate.
    - intros _. exists 0. split; reflexivity.
    - intros (t & [] & _). }
  set (trades := t0 :: l). cbv zeta.
  cbn [TradesPage.totalTrades TradesPage.netPnl TradesPage.winRate
       TradesPage.profitFactor TradesPage.avgR].
  pose proof (trades_page_grossLoss trades) as HL.
  rewrite trades_page_grossProfit.
  split; [reflexivity |]. split; [| split; [| split; [| split; [| split]]]].
  - intros H. eexists. split; [apply netPnl_all; exact H |].
    rewrite (fold_left_Q_sum pnlOf). unfold totalPnl. ring.
  - intros H. apply netPnl_missing. exact H.
  - apply (percent_bounds (TradesPage.wins trades)). lia.
  - destruct (Qgtb (TradesPage.grossLoss trades) 0) eqn:E; qprop.
    + split; [discriminate |]. intros Hc.
      apply grossLossOf_zero in Hc. exfalso. lra.
    + split; [intros _ | destruct (Qgtb (grossProfitOf trades) 0); reflexivity].
      destruct (Nat.eq_dec (count isLoss trades) 0) as [Hc | Hc]; [exact Hc |].
      apply grossLossOf_pos in Hc. exfalso. lra.
  - intros pf. destruct (Qgtb (TradesPage.grossLoss trades) 0) eqn:E; qprop.
    + intros [= <-]. split; [rewrite HL; reflexivity |].
      pose proof (grossProfitOf_nonneg trades).
      apply Qle_shift_div_l; [exact E | lra].
    + destruct (Qgtb (grossProfitOf trades) 0); discriminate.
  - rewrite rValues_filter.
    rewrite <- (length_map (fun t => orZero (rMultiple t))), rValues_filter.
    apply meanR_of; reflexivity.
Qed.

Lemma trades_page_kpis_witness :
  (forall t, In t Samples.win_loss_flat -> pnlCurrency t <> None) /\
  exists q,
    TradesPage.netPnl (TradesPage.calculateTradesKpis Samples.win_loss_flat)
    = Num q /\ q == totalPnl Samples.win_loss_flat.
Proof.
  assert (H : forall t, In t Samples.win_loss_flat -> pnlCurrency t <> None).
  { intros t [<- | [<- | [<- | []]]]; discriminate. }
  split; [exact H |].
  destruct (trades_page_kpis Samples.win_loss_flat) as (_ & Hn & _).
  exact (Hn H).
Defined.

(** ** The KPIs of the period summary *)






(** ** Imported trades *)








(** ** Trade calculations *)

Lemma scaledInfinity_not_finite (a : Q) (positive : bool) :
  isFinite (scaledInfinity a positive) = false.
Proof.
  unfold scaledInfinity. destruct (Qeqb a 0); [reflexivity |].
  destruct (Bool.eqb (Qgtb a 0) positive); reflexivity.
Qed.

Lemma div_by_zero_not_finite (x : number) (t : Q) :
  t == 0 -> isFinite (num_div x (Num t)) = false.
Proof.
  intros Ht. destruct x as [a | | |]; simpl; try reflexivity.
  - apply Qeqb_eq in Ht. rewrite Ht. apply scaledInfinity_not_finite.
  - destruct (Qltb t 0); reflexivity.
  - destruct (Qltb t 0); reflexivity.
Qed.

Lemma mul_not_finite (x y : number) :
  isFinite x = false -> isFinite (num_mul x y) = false.
Proof.
  destruct x as [a | | |]; [discriminate | | |]; intros _;
    destruct y as [b | | |]; simpl; try reflexivity;
    apply scaledInfinity_not_finite.
Qed.

Lemma div_not_finite (x y : number) :
  isFinite x = false -> isFinite y = false -> num_div x y = NaN.
Proof.
  destruct x as [a | | |]; [discriminate | | |]; intros _;
    (destruct y as [b | | |]; [discriminate | | |]); intros _; reflexivity.
Qed.

Lemma not_finite_not_zero (x : number) :
  isFinite x = false -> num_is_zero x = false.
Proof. destruct x; [discriminate | | |]; reflexivity. Qed.

Lemma Qeqb_false_of (a : Q) : ~ a == 0 -> Qeqb a 0 = false.
Proof. intros H. apply Qeqb_neq. exact H. Qed.

Lemma finite_amount (points size tv ts : Q) (tvo tso : option number) :
  TradeCalculations.orDefault tvo 1 = Num tv ->
  TradeCalculations.orDefault tso (1 # 100) = Num ts ->
  ~ ts == 0 ->
  TradeCalculations.calculateRiskAmount (Num points) (Num size) tvo tso
  = Num (points / ts * tv * size)
  /\ TradeCalculations.calculatePnlAmount (Num points) (Num size) tvo tso
     = Num (points / ts * tv * size).
Proof.
  intros Hv Hs Hne.
  unfold TradeCalculations.calculateRiskAmount,
    TradeCalculations.calculatePnlAmount. cbv zeta.
  rewrite Hv, Hs. simpl. rewrite (Qeqb_false_of ts Hne). split; reflexivity.
Qed.

Lemma result_of_points (pp : Q) :
  (TradeCalculations.calculateTradeResult (Num pp) = TradeCalculations.win
   <-> 0 < pp) /\
  (TradeCalculations.calculateTradeResult (Num pp) = TradeCalculations.loss
   <-> pp < 0) /\
  (TradeCalculations.calculateTradeResult (Num pp)
   = TradeCalculations.breakeven <-> pp == 0).
Proof.
  unfold TradeCalculations.calculateTradeResult, num_ltb. simpl.
  destruct (Qgtb pp 0) eqn:Eg; [| destruct (Qgtb 0 pp) eqn:El]; qprop;
    repeat split; intros; try discriminate; try reflexivity;
    try lra; exfalso; lra.
Qed.

(** X25.  For a closed trade with finite prices, a stop away from the
    entry and non-zero size, tick value and tick size, the R-multiple is
    the P&L in points over the stop distance in points: size, tick value
    and tick size cancel.  The stop distance is the absolute difference
    of entry and stop; the P&L in points is exit minus entry for a long
    and entry minus exit for a short; and the result is win, loss or
    breakeven as the R-multiple is positive, negative or zero. *)
Theorem r_multiple_is_points_ratio :
  forall (input : TradeCalculations.TradeCalcInput) (e s x z v t : Q),
    TradeCalculations.entryPrice input = Num e ->
    TradeCalculations.stopLossPrice input = Num s ->
    TradeCalculations.exitPrice input = Some (Num x) ->
    TradeCalculations.sizeLots input = Num z ->
    TradeCalculations.orDefault (TradeCalculations.tickValue input) 1 = Num v ->
    TradeCalculations.orDefault (TradeCalculations.tickSize input) (1 # 100)
    = Num t ->
    ~ x == 0 -> ~ e == s -> ~ z == 0 -> ~ v == 0 -> ~ t == 0 ->
    let m := TradeCalculations.calculateAllMetrics input in
    exists pp sl r : Q,
      TradeCalculations.pnlPoints m = Some (Num pp) /\
      TradeCalculations.slPoints m = Num sl /\
      TradeCalculations.rMultiple m = Some (Num r) /\
      sl == Qabs (e - s) /\ 0 < sl /\
      pp == (match TradeCalculations.side input with
             | TradeCalculations.long => x - e
             | TradeCalculations.short => e - x
             end) /\
      r == pp / sl /\
      (TradeCalculations.result m = TradeCalculations.win <-> 0 < r) /\
      (TradeCalculations.result m = TradeCalculations.loss <-> r < 0) /\
      (TradeCalculations.result m = TradeCalculations.breakeven <-> r == 0).
Proof.
  intros input e s x z v t He Hs Hx Hz Hv Ht Nx Nes Nz Nv Nt m.
  set (pp := match TradeCalculations.side input with
             | TradeCalculations.long => x + - e
             | TradeCalculations.short => e + - x
             end).
  set (sl := match TradeCalculations.side input with
             | TradeCalculations.long => Qabs (e + - s)
             | TradeCalculations.short => Qabs (s + - e)
             end).
  assert (Hsl : sl == Qabs (e - s)).
  { subst sl. destruct (TradeCalculations.side input); [reflexivity |].
    rewrite <- (Qabs_opp (e - s)). apply Qabs_wd. ring. }
  assert (Hpos : 0 < sl).
  { rewrite Hsl. apply Qabs_case; intros H;
      apply Qle_lt_or_eq in H; destruct H as [H | H];
      try lra; exfalso; apply Nes; lra. }
  assert (Hm : m = TradeCalculations.mkMetrics
                     (Num sl)
                     (TradeCalculations.tpPointsOf
                        input (TradeCalculations.tp1Price input))
                     (TradeCalculations.tpPointsOf
                        input (TradeCalculations.tp2Price input))
                     (TradeCalculations.tpPointsOf
                        input (TradeCalculations.tp3Price input))
                     (Some (Num pp))
                     (Some (Num (pp / t * v * z)))
                     (Some (Num (pp / t * v * z / (sl / t * v * z))))
                     (Num (sl / t * v * z))
                     (TradeCalculations.calculateTradeResult (Num pp))).
  { subst m. unfold TradeCalculations.calculateAllMetrics. cbv zeta.
    rewrite Hx, He, Hs, Hz. simpl truthy. rewrite (Qeqb_false_of x Nx).
    cbn [negb].
    assert (E1 : TradeCalculations.calculateSlPoints
                   (TradeCalculations.side input) (Num e) (Num s) = Num sl)
      by (subst sl; destruct (TradeCalculations.side input); reflexivity).
    assert (E2 : TradeCalculations.calculatePnlPoints
                   (TradeCalculations.side input) (Num e) (Num x) = Num pp)
      by (subst pp; destruct (TradeCalculations.side input); reflexivity).
    rewrite E1, E2.
    destruct (finite_amount sl z v t _ _ Hv Ht Nt) as [R1 _].
    destruct (finite_amount pp z v t _ _ Hv Ht Nt) as [_ R2].
    rewrite R1, R2.
    unfold TradeCalculations.calculateRMultiple. simpl.
    assert (Nr : ~ sl / t * v * z == 0).
    { intros H0.
      assert (Hprod : sl * v * z == 0).
      { transitivity (sl / t * v * z * t); [field; exact Nt |].
        rewrite H0. ring. }
      apply Qmult_integral in Hprod. destruct Hprod as [Hprod | Hprod];
        [| contradiction].
      apply Qmult_integral in Hprod. destruct Hprod as [Hprod | Hprod];
        [lra | contradiction]. }
    rewrite (Qeqb_false_of _ Nr). reflexivity. }
  exists pp, sl, (pp / t * v * z / (sl / t * v * z)).
  rewrite Hm. cbn [TradeCalculations.pnlPoints TradeCalculations.slPoints
                   TradeCalculations.rMultiple TradeCalculations.result].
  assert (Hr : pp / t * v * z / (sl / t * v * z) == pp / sl).
  { field. repeat split; try assumption. lra. }
  assert (Hsign : (0 < pp / sl <-> 0 < pp) /\ (pp / sl < 0 <-> pp < 0)
                  /\ (pp / sl == 0 <-> pp == 0)).
  { assert (E : pp / sl * sl == pp) by (field; lra).
    repeat split; intros H; nra. }
  destruct Hsign as (S1 & S2 & S3).
  destruct (result_of_points pp) as (P1 & P2 & P3).
  split; [reflexivity |]. split; [reflexivity |]. split; [reflexivity |].
  split; [exact Hsl |]. split; [exact Hpos |].
  split; [subst pp; destruct (TradeCalculations.side input); reflexivity |].
  split; [exact Hr |].
  rewrite Hr, P1, P2, P3, S1, S2, S3. repeat split; tauto.
Qed.

Lemma r_multiple_is_points_ratio_witness :
  exists pp sl r : Q,
    TradeCalculations.pnlPoints
      (TradeCalculations.calculateAllMetrics MoreSamples.longTrade)
    = Some (Num pp) /\
    TradeCalculations.slPoints
      (TradeCalculations.calculateAllMetrics MoreSamples.longTrade) = Num sl /\
    TradeCalculations.rMultiple
      (TradeCalculations.calculateAllMetrics MoreSamples.longTrade)
    = Some (Num r) /\
    r == pp / sl.
Proof.
  destruct (r_multiple_is_points_ratio
              MoreSamples.longTrade 100 98 103 1 1 (1 # 100)
              eq_refl eq_refl eq_refl eq_refl eq_refl eq_refl)
    as (pp & sl & r & H1 & H2 & H3 & _ & _ & _ & H4 & _);
    try (intros H; discriminate H).
  exists pp, sl, r. repeat split; assumption.
Defined.

(** X26.  A trade whose exit price is missing, zero or NaN is left
    open: no P&L and no R-multiple are computed.  On the take-profit side
    the points are never negative.  With a tick size of zero the risk
    amount is not finite and the R-multiple of a closed trade is NaN,
    whatever the other inputs.  With finite inputs and the stop at the
    entry the risk amount is zero and the R-multiple of a closed trade is
    0, whatever the P&L. *)
Theorem trade_calculation_edges :
  forall input : TradeCalculations.TradeCalcInput,
    let m := TradeCalculations.calculateAllMetrics input in
    (truthy (TradeCalculations.exitPrice input) = false ->
     TradeCalculations.result m = TradeCalculations.open /\
     TradeCalculations.pnlPoints m = None /\
     TradeCalculations.pnlAmount m = None /\
     TradeCalculations.rMultiple m = None) /\
    (truthy (TradeCalculations.exitPrice input) = true ->
     TradeCalculations.result m <> TradeCalculations.open /\
     TradeCalculations.rMultiple m <> None) /\
    (forall (sd : TradeCalculations.Side) (e p : Q),
       exists q, TradeCalculations.calculateTpPoints sd (Num e) (Num p) = Num q
                 /\ 0 <= q) /\
    (forall t, TradeCalculations.tickSize input = Some (Num t) -> t == 0 ->
       isFinite (TradeCalculations.riskAmount m) = false /\
       (truthy (TradeCalculations.exitPrice input) = true ->
        TradeCalculations.rMultiple m = Some NaN)) /\
    (forall e s z v t,
       TradeCalculations.entryPrice input = Num e ->
       TradeCalculations.stopLossPrice input = Num s ->
       TradeCalculations.sizeLots input = Num z ->
       TradeCalculations.orDefault (TradeCalculations.tickValue input) 1
       = Num v ->
       TradeCalculations.orDefault (TradeCalculations.tickSize input) (1 # 100)
       = Num t ->
       ~ t == 0 -> e == s ->
       (exists q, TradeCalculations.riskAmount m = Num q /\ q == 0) /\
       (truthy (TradeCalculations.exitPrice input) = true ->
        TradeCalculations.rMultiple m = Some (Num 0))).
Proof.
  intros input m.
  assert (Hrisk : TradeCalculations.riskAmount m
                  = TradeCalculations.calculateRiskAmount
                      (TradeCalculations.calculateSlPoints
                         (TradeCalculations.side input)
                         (TradeCalculations.entryPrice input)
                         (TradeCalculations.stopLossPrice input))
                      (TradeCalculations.sizeLots input)
                      (TradeCalculations.tickValue input)
                      (TradeCalculations.tickSize input)).
  { subst m. unfold TradeCalculations.calculateAllMetrics. cbv zeta.
    destruct (TradeCalculations.exitPrice input) as [x |]; [| reflexivity].
    destruct (truthy (Some x)); reflexivity. }
  assert (Hclosed : truthy (TradeCalculations.exitPrice input) = true ->
            exists x, TradeCalculations.exitPrice input = Some x /\
              TradeCalculations.rMultiple m
              = Some (TradeCalculations.calculateRMultiple
                        (TradeCalculations.calculatePnlAmount
                           (TradeCalculations.calculatePnlPoints
                              (TradeCalculations.side input)
                              (TradeCalculations.entryPrice input) x)
                           (TradeCalculations.sizeLots input)
                           (TradeCalculations.tickValue input)
                           (TradeCalculations.tickSize input))
                        (TradeCalculations.riskAmount m)) /\
              TradeCalculations.result m
              = TradeCalculations.calculateTradeResult
                  (TradeCalculations.calculatePnlPoints
                     (TradeCalculations.side input)
                     (TradeCalculations.entryPrice input) x)).
  { intros Ht. rewrite Hrisk. subst m.
    unfold TradeCalculations.calculateAllMetrics. cbv zeta.
    destruct (TradeCalculations.exitPrice input) as [x |]; [| discriminate Ht].
    rewrite Ht. exists x. repeat split; reflexivity. }
  split; [| split; [| split; [| split]]].
  - intros Hf. subst m. unfold TradeCalculations.calculateAllMetrics. cbv zeta.
    destruct (TradeCalculations.exitPrice input) as [x |];
      [rewrite Hf |]; repeat split; reflexivity.
  - intros Ht. destruct (Hclosed Ht) as (x & _ & Hr & Hres).
    rewrite Hr, Hres. split; [| discriminate].
    unfold TradeCalculations.calculateTradeResult.
    destruct (num_gtb _ _); [discriminate |].
    destruct (num_ltb _ _); discriminate.
  - intros sd e p. destruct sd; simpl; eexists; (split; [reflexivity |]);
      apply Q.le_max_l.
  - intros t Hts Ht0.
    assert (Hnf : isFinite (TradeCalculations.riskAmount m) = false).
    { rewrite Hrisk. unfold TradeCalculations.calculateRiskAmount. cbv zeta.
      rewrite Hts. simpl TradeCalculations.orDefault.
      apply mul_not_finite, mul_not_finite, div_by_zero_not_finite. exact Ht0. }
    split; [exact Hnf |].
    intros Htr. destruct (Hclosed Htr) as (x & _ & Hr & _). rewrite Hr.
    unfold TradeCalculations.calculateRMultiple.
    rewrite (not_finite_not_zero _ Hnf). f_equal.
    apply div_not_finite; [| exact Hnf].
    unfold TradeCalculations.calculatePnlAmount. cbv zeta.
    rewrite Hts. simpl TradeCalculations.orDefault.
    apply mul_not_finite, mul_not_finite, div_by_zero_not_finite. exact Ht0.
  - intros e s z v t He Hs Hz Hv Ht Nt Hes.
    assert (Hq : exists q, TradeCalculations.riskAmount m = Num q /\ q == 0).
    { rewrite Hrisk, He, Hs, Hz.
      assert (E1 : exists sl,
                 TradeCalculations.calculateSlPoints
                   (TradeCalculations.side input) (Num e) (Num s) = Num sl
                 /\ sl == 0).
      { destruct (TradeCalculations.side input).
        - exists (Qabs (e + - s)). split; [reflexivity |].
          transitivity (Qabs 0); [apply Qabs_wd; lra | reflexivity].
        - exists (Qabs (s + - e)). split; [reflexivity |].
          transitivity (Qabs 0); [apply Qabs_wd; lra | reflexivity]. }
      destruct E1 as (sl & -> & Hsl).
      destruct (finite_amount sl z v t _ _ Hv Ht Nt) as [R1 _].
      rewrite R1. eexists. split; [reflexivity |].
      rewrite Hsl. field. exact Nt. }
    split; [exact Hq |].
    intros Htr. destruct (Hclosed Htr) as (x & _ & Hr & _). rewrite Hr.
    destruct Hq as (q & -> & Hq0).
    unfold TradeCalculations.calculateRMultiple. simpl.
    apply Qeqb_eq in Hq0. rewrite Hq0. reflexivity.
Qed.

(** ** Compass Score of a period *)

Lemma cap_spec (lo hi x : Q) :
  lo <= hi ->
  (x <= lo /\ Qmax lo (Qmin hi x) == lo)
  \/ (lo <= x <= hi /\ Qmax lo (Qmin hi x) == x)
  \/ (hi <= x /\ Qmax lo (Qmin hi x) == hi).
Proof.
  intros H.
  destruct (Q.min_spec hi x) as [[H1 E1] | [H1 E1]];
    destruct (Q.max_spec lo (Qmin hi x)) as [[H2 E2] | [H2 E2]];
    rewrite E1 in *; rewrite E2.
  - right. right. split; [lra | reflexivity].
  - right. right. split; [lra | lra].
  - right. left. split; [lra | reflexivity].
  - left. split; [lra | reflexivity].
Qed.

Lemma cap_bounds (lo hi x : Q) :
  lo <= hi -> lo <= Qmax lo (Qmin hi x) /\ Qmax lo (Qmin hi x) <= hi.
Proof.
  intros H. destruct (cap_spec lo hi x H) as [[? E] | [[? E] | [? E]]];
    rewrite E; lra.
Qed.

Lemma cap_id (lo hi x : Q) :
  lo <= x -> x <= hi -> Qmax lo (Qmin hi x) == x.
Proof.
  intros H1 H2.
  destruct (cap_spec lo hi x) as [[? E] | [[? E] | [? E]]];
    try rewrite E; lra.
Qed.

Lemma Qdiv_one (x : Q) : x / 1 == x.
Proof. field. Qed.

Lemma Qdiv_half (x : Q) : x / 0.5 == x * 2.
Proof. field. Qed.

Lemma profitFactorPart_bounds (pf : option Q) :
  0 <= PeriodCompass.profitFactorPart pf /\
  PeriodCompass.profitFactorPart pf <= 95.
Proof.
  destruct pf as [pf |]; simpl; [| lra].
  repeat qcase; rewrite ?Qdiv_one; lra.
Qed.

Lemma avgRScore_bounds (r : option Q) :
  0 <= PeriodCompass.avgRScore r /\ PeriodCompass.avgRScore r <= 95.
Proof.
  destruct r as [r |]; unfold PeriodCompass.avgRScore; [| lra].
  cbv zeta.
  assert (Hlo : -0.5 <= 3) by lra.
  destruct (cap_bounds (-0.5) 3 r Hlo) as [H1 H2].
  set (c := Qmax (-0.5) (Qmin 3 r)) in *.
  repeat qcase; rewrite ?Qdiv_one, ?Qdiv_half; lra.
Qed.

Lemma performance_bounds (kpis : DailyKpis.KpiMetrics) :
  0 <= PeriodCompass.performanceScore kpis /\
  PeriodCompass.performanceScore kpis <= 95.
Proof.
  unfold PeriodCompass.performanceScore. cbv zeta.
  destruct (profitFactorPart_bounds (DailyKpis.km_profitFactor kpis)).
  destruct (avgRScore_bounds (DailyKpis.km_avgR kpis)).
  rewrite cap_id; lra.
Qed.

Lemma risk_values (dailyStats : list DailyKpis.DailyStat) :
  let r := PeriodCompass.riskScore dailyStats in
  r = 20 \/ r = 40 \/ r = 70 \/ r = 80 \/ r = 90.
Proof.
  unfold PeriodCompass.riskScore. cbv zeta.
  destruct (Qgtb (PeriodCompass.avgLosingDay dailyStats) 0
            && Qgtb (PeriodCompass.avgWinningDay dailyStats) 0).
  - destruct (Qleb _ 1); [tauto |].
    destruct (Qleb _ 2); [tauto |].
    destruct (Qleb _ 3); tauto.
  - destruct (Qgtb _ 0); tauto.
Qed.

Lemma discipline_bounds (dailyStats : list DailyKpis.DailyStat)
      (kpis : DailyKpis.KpiMetrics) :
  21 <= PeriodCompass.disciplineScore dailyStats kpis /\
  PeriodCompass.disciplineScore dailyStats kpis <= 80.
Proof.
  unfold PeriodCompass.disciplineScore. cbv zeta.
  set (base := if (Qgeb _ 45 && _ && _)%bool then 80 else _).
  assert (Hb : 30 <= base /\ base <= 80).
  { subst base.
    destruct (Qgeb _ 45 && _ && _)%bool; [lra |].
    destruct (Qgeb _ 40 && _ && _)%bool; [lra |].
    destruct (Qltb _ 40 || _)%bool; lra. }
  clearbody base. destruct Hb as [Hb1 Hb2].
  destruct (Qgtb _ _); rewrite cap_id; lra.
Qed.

Lemma consistency_bounds (Math_sqrt : Q -> Q)
      (dailyStats : list DailyKpis.DailyStat) (kpis : DailyKpis.KpiMetrics) :
  0 <= PeriodCompass.consistencyScore Math_sqrt dailyStats kpis /\
  PeriodCompass.consistencyScore Math_sqrt dailyStats kpis <= 100.
Proof.
  unfold PeriodCompass.consistencyScore. cbv zeta.
  apply cap_bounds. lra.
Qed.

Lemma levelOf_spec (s : Q) :
  (PeriodCompass.levelOf s = PeriodCompass.Weak <-> s < 40) /\
  (PeriodCompass.levelOf s = PeriodCompass.Developing
   <-> 40 <= s /\ s < 60) /\
  (PeriodCompass.levelOf s = PeriodCompass.Solid <-> 60 <= s /\ s < 75) /\
  (PeriodCompass.levelOf s = PeriodCompass.Strong <-> 75 <= s /\ s < 90) /\
  (PeriodCompass.levelOf s = PeriodCompass.Elite <-> 90 <= s).
Proof.
  unfold PeriodCompass.levelOf.
  repeat qcase; repeat split; intros; try discriminate; try reflexivity;
    try lra; exfalso; lra.
Qed.

Lemma firstn_3_length {A : Type} (l : list A) :
  (List.length (firstn 3 l) <= 3)%nat /\
  (l <> [] -> 1 <= List.length (firstn 3 l))%nat.
Proof.
  split.
  - apply firstn_le_length.
  - intros H. destruct l as [| x l]; [congruence |]. simpl. lia.
Qed.

Lemma insights_lengths (dailyStats : list DailyKpis.DailyStat)
      (kpis : DailyKpis.KpiMetrics) :
  let sw := PeriodCompass.insights dailyStats kpis in
  (1 <= List.length (fst sw) <= 3)%nat /\
  (1 <= List.length (snd sw) <= 3)%nat.
Proof.
  unfold PeriodCompass.insights. cbv zeta.
  match goal with
  | |- context [if (List.length (fst ?x) =? 0)%nat then _ else ?y] =>
      set (sw5 := x)
  end.
  set (sw6 := if (List.length (fst sw5) =? 0)%nat then _ else sw5).
  assert (H6 : fst sw6 <> [] /\ snd sw6 = snd sw5).
  { subst sw6. destruct (List.length (fst sw5) =? 0)%nat eqn:E.
    - simpl. split; [| reflexivity]. intros H.
      apply (f_equal (@List.length string)) in H.
      rewrite length_app in H. simpl in H. lia.
    - split; [| reflexivity]. intros H. rewrite H in E. discriminate E. }
  set (sw7 := if (List.length (snd sw6) =? 0)%nat then _ else sw6).
  assert (H7 : fst sw7 <> [] /\ snd sw7 <> []).
  { subst sw7. destruct (List.length (snd sw6) =? 0)%nat eqn:E.
    - simpl. split; [tauto |]. intros H.
      apply (f_equal (@List.length string)) in H.
      rewrite length_app in H. simpl in H. lia.
    - split; [tauto |]. intros H. rewrite H in E. discriminate E. }
  cbn [fst snd].
  destruct (firstn_3_length (fst sw7)) as [A1 A2].
  destruct (firstn_3_length (snd sw7)) as [B1 B2].
  destruct H7 as [N1 N2]. specialize (A2 N1). specialize (B2 N2). lia.
Qed.

(** X27.  The Compass Score of a period.  Each part lies in a fixed
    range: performance in [0, 95], consistency in [0, 100] whatever the
    standard deviation is, discipline in [0, 80].  The four parts are
    combined with the weights 0.35, 0.25, 0.25 and 0.15, and the final
    clamp to [0, 100] never acts; the score never exceeds 92.75.  The
    level is Weak below 40, Developing below 60, Solid below 75, Strong
    below 90 and Elite from 90 on.  There are between one and three
    weaknesses and at most three strengths.  Without daily records the
    score is 0, the level Weak and there is no strength; with records
    the risk part is one of 20, 40, 70, 80 and 90, discipline is at least
    21, the score at least 8.15, and there is at least one strength. *)
Theorem period_compass_score :
  forall (Math_sqrt : Q -> Q) (dailyStats : list DailyKpis.DailyStat),
    let c := PeriodCompass.computeCompassScore Math_sqrt dailyStats in
    let b := PeriodCompass.breakdown c in
    (0 <= PeriodCompass.performance b /\ PeriodCompass.performance b <= 95) /\
    (0 <= PeriodCompass.consistency b /\ PeriodCompass.consistency b <= 100) /\
    (0 <= PeriodCompass.discipline b /\ PeriodCompass.discipline b <= 80) /\
    PeriodCompass.score c
    == PeriodCompass.performance b * 0.35 + PeriodCompass.consistency b * 0.25
       + PeriodCompass.risk b * 0.25 + PeriodCompass.discipline b * 0.15 /\
    PeriodCompass.score c <= 92.75 /\
    ((PeriodCompass.level c = PeriodCompass.Weak
      <-> PeriodCompass.score c < 40) /\
     (PeriodCompass.level c = PeriodCompass.Developing
      <-> 40 <= PeriodCompass.score c /\ PeriodCompass.score c < 60) /\
     (PeriodCompass.level c = PeriodCompass.Solid
      <-> 60 <= PeriodCompass.score c /\ PeriodCompass.score c < 75) /\
     (PeriodCompass.level c = PeriodCompass.Strong
      <-> 75 <= PeriodCompass.score c /\ PeriodCompass.score c < 90) /\
     (PeriodCompass.level c = PeriodCompass.Elite
      <-> 90 <= PeriodCompass.score c)) /\
    (1 <= List.length (PeriodCompass.weaknesses c) <= 3)%nat /\
    (List.length (PeriodCompass.strengths c) <= 3)%nat /\
    (dailyStats = [] ->
     PeriodCompass.score c = 0 /\ PeriodCompass.level c = PeriodCompass.Weak /\
     PeriodCompass.strengths c = []) /\
    (dailyStats <> [] ->
     (PeriodCompass.risk b = 20 \/ PeriodCompass.risk b = 40 \/
      PeriodCompass.risk b = 70 \/ PeriodCompass.risk b = 80 \/
      PeriodCompass.risk b = 90) /\
     21 <= PeriodCompass.discipline b /\
     8.15 <= PeriodCompass.score c /\
     (1 <= List.length (PeriodCompass.strengths c))%nat).
Proof.
  intros Math_sqrt dailyStats c b.
  destruct dailyStats as [| d l].
  - subst b c. cbn.
    repeat split; intros; try discriminate; try reflexivity; try lia;
      try lra; try congruence.
  - set (ds := d :: l) in *.
    set (kpis := DailyKpis.calculateKpis ds).
    pose proof (performance_bounds kpis) as [P1 P2].
    pose proof (consistency_bounds Math_sqrt ds kpis) as [C1 C2].
    pose proof (discipline_bounds ds kpis) as [D1 D2].
    pose proof (risk_values ds) as R. cbv zeta in R.
    pose proof (insights_lengths ds kpis) as [S W]. cbv zeta in S, W.
    assert (Rb : 20 <= PeriodCompass.riskScore ds
                 /\ PeriodCompass.riskScore ds <= 90)
      by (destruct R as [R | [R | [R | [R | R]]]]; rewrite R; lra).
    destruct Rb as [R1 R2].
    set (overall := PeriodCompass.performanceScore kpis * 0.35
                    + PeriodCompass.consistencyScore Math_sqrt ds kpis * 0.25
                    + PeriodCompass.riskScore ds * 0.25
                    + PeriodCompass.disciplineScore ds kpis * 0.15).
    assert (Hc : c = PeriodCompass.mkCompassScore
                       (Qmax 0 (Qmin 100 overall))
                       (PeriodCompass.levelOf (Qmax 0 (Qmin 100 overall)))
                       (PeriodCompass.mkBreakdown
                          (PeriodCompass.performanceScore kpis)
                          (PeriodCompass.consistencyScore Math_sqrt ds kpis)
                          (PeriodCompass.riskScore ds)
                          (PeriodCompass.disciplineScore ds kpis))
                       (fst (PeriodCompass.insights ds kpis))
                       (snd (PeriodCompass.insights ds kpis))).
    { subst c. unfold PeriodCompass.computeCompassScore.
      change (List.length ds =? 0)%nat with false. cbv iota zeta.
      fold kpis. destruct (PeriodCompass.insights ds kpis). reflexivity. }
    assert (Hs : Qmax 0 (Qmin 100 overall) == overall)
      by (apply cap_id; subst overall; lra).
    subst b. rewrite Hc.
    cbn [PeriodCompass.breakdown PeriodCompass.score PeriodCompass.level
         PeriodCompass.performance PeriodCompass.consistency
         PeriodCompass.risk PeriodCompass.discipline
         PeriodCompass.strengths PeriodCompass.weaknesses].
    split; [split; assumption |]. split; [split; assumption |].
    split; [split; [lra | assumption] |].
    split; [exact Hs |].
    split; [rewrite Hs; subst overall; lra |].
    split; [apply levelOf_spec |].
    split; [exact W |]. split; [lia |].
    split; [intros H; discriminate H |].
    intros _. split; [exact R |]. split; [exact D1 |].
    split; [rewrite Hs; subst overall; lra | lia].
Qed.

(** ** Playbook statistics *)

Lemma forEachTrade_fields (acc : PlaybookStats.Acc) (t : Trade) :
  let r := PlaybookStats.forEachTrade acc t in
  PlaybookStats.a_winCount r
  = (PlaybookStats.a_winCount acc + TradesPage.wins [t])%nat /\
  PlaybookStats.a_lossCount r
  = (PlaybookStats.a_lossCount acc + TradesPage.losses [t])%nat /\
  PlaybookStats.a_breakevenCount r
  = (PlaybookStats.a_breakevenCount acc + TradesPage.breakevens [t])%nat /\
  PlaybookStats.a_netPnlBase r = PlaybookStats.a_netPnlBase acc + pnlOf t /\
  PlaybookStats.a_rMultiples r = PlaybookStats.a_rMultiples acc ++ rValues [t] /\
  PlaybookStats.a_profits r = PlaybookStats.a_profits acc ++ bookedProfits [t] /\
  PlaybookStats.a_losses r = PlaybookStats.a_losses acc ++ bookedLosses [t].
Proof.
  destruct t as [sy ps ot ct td pnl r st tg].
  unfold PlaybookStats.forEachTrade, TradesPage.wins, TradesPage.losses,
    TradesPage.breakevens, bookedProfits, bookedLosses, rValues, bookedWin,
    bookedLoss, TradesPage.hasStatus, isWin, isLoss, pnlOf.
  cbn [status pnlCurrency rMultiple filter flat_map map app List.length
       TradeStatus_eqb andb].
  destruct st, r as [r |], pnl as [p |];
    cbn [status pnlCurrency rMultiple filter flat_map map app List.length
         TradeStatus_eqb andb orZero PlaybookStats.a_winCount
         PlaybookStats.a_lossCount PlaybookStats.a_breakevenCount
         PlaybookStats.a_netPnlBase PlaybookStats.a_rMultiples
         PlaybookStats.a_profits PlaybookStats.a_losses];
    try (destruct (Qgtb p 0)); try (destruct (Qltb p 0));
    try change (Qgtb 0 0) with false; try change (Qltb 0 0) with false;
    cbn [status pnlCurrency rMultiple filter flat_map map app List.length
         TradeStatus_eqb andb orZero PlaybookStats.a_winCount
         PlaybookStats.a_lossCount PlaybookStats.a_breakevenCount
         PlaybookStats.a_netPnlBase PlaybookStats.a_rMultiples
         PlaybookStats.a_profits PlaybookStats.a_losses];
    rewrite ?app_nil_r, ?Nat.add_0_r; repeat split; reflexivity.
Qed.

Lemma filter_length_cons {A : Type} (f : A -> bool) (x : A) (l : list A) :
  List.length (filter f (x :: l))
  = (List.length (filter f [x]) + List.length (filter f l))%nat.
Proof. simpl. destruct (f x); reflexivity. Qed.

Lemma filter_map_cons {A B : Type} (f : A -> bool) (g : A -> B) (x : A)
      (l : list A) :
  map g (filter f (x :: l)) = map g (filter f [x]) ++ map g (filter f l).
Proof. simpl. destruct (f x); reflexivity. Qed.

Lemma playbook_fold (l : list Trade) :
  forall acc : PlaybookStats.Acc,
    let r := fold_left PlaybookStats.forEachTrade l acc in
    PlaybookStats.a_winCount r
    = (PlaybookStats.a_winCount acc + TradesPage.wins l)%nat /\
    PlaybookStats.a_lossCount r
    = (PlaybookStats.a_lossCount acc + TradesPage.losses l)%nat /\
    PlaybookStats.a_breakevenCount r
    = (PlaybookStats.a_breakevenCount acc + TradesPage.breakevens l)%nat /\
    PlaybookStats.a_netPnlBase r
    == PlaybookStats.a_netPnlBase acc + totalPnl l /\
    PlaybookStats.a_rMultiples r = PlaybookStats.a_rMultiples acc ++ rValues l /\
    PlaybookStats.a_profits r = PlaybookStats.a_profits acc ++ bookedProfits l /\
    PlaybookStats.a_losses r = PlaybookStats.a_losses acc ++ bookedLosses l.
Proof.
  induction l as [| t l IH]; intros acc r.
  - subst r. cbn [fold_left]. unfold TradesPage.wins, TradesPage.losses,
      TradesPage.breakevens, totalPnl, bookedProfits, bookedLosses.
    cbn [filter map List.length rValues flat_map]. rewrite !app_nil_r, sumQ_nil.
    repeat split; try lia. ring.
  - subst r. cbn [fold_left].
    destruct (IH (PlaybookStats.forEachTrade acc t))
      as (I1 & I2 & I3 & I4 & I5 & I6 & I7).
    destruct (forEachTrade_fields acc t)
      as (F1 & F2 & F3 & F4 & F5 & F6 & F7).
    rewrite I1, I2, I3, I4, I5, I6, I7, F1, F2, F3, F4, F5, F6, F7.
    unfold TradesPage.wins, TradesPage.losses, TradesPage.breakevens,
      bookedProfits, bookedLosses, totalPnl.
    rewrite (filter_length_cons _ t l), (filter_length_cons _ t l),
      (filter_length_cons _ t l).
    rewrite (filter_map_cons bookedWin _ t l), (filter_map_cons bookedLoss _ t l).
    rewrite <- !app_assoc.
    replace (rValues (t :: l)) with (rValues [t] ++ rValues l)
      by (unfold rValues; cbn [flat_map]; rewrite app_nil_r; reflexivity).
    cbn [map]. rewrite sumQ_cons.
    repeat split; try lia. ring.
Qed.

Lemma status_partition (l : list Trade) :
  (TradesPage.wins l + TradesPage.losses l + TradesPage.breakevens l)%nat
  = List.length l.
Proof.
  unfold TradesPage.wins, TradesPage.losses, TradesPage.breakevens,
    TradesPage.hasStatus.
  induction l as [| t l IH]; [reflexivity |].
  cbn [filter List.length]. destruct (status t); simpl; lia.
Qed.

Lemma booked_sums (l : list Trade) :
  0 <= sumQ (bookedProfits l) /\ 0 <= sumQ (bookedLosses l) /\
  (0 < sumQ (bookedLosses l)
   <-> exists t, In t l /\ status t = loss /\ pnlOf t < 0).
Proof.
  unfold bookedProfits, bookedLosses.
  induction l as [| t l (IH1 & IH2 & IH3)].
  - cbn [filter map]. rewrite sumQ_nil. repeat split; try lra.
    intros (t & [] & _).
  - cbn [filter]. split; [| split].
    + destruct (bookedWin t) eqn:E; [| exact IH1].
      cbn [map]. rewrite sumQ_cons.
      unfold bookedWin in E. apply andb_true_iff in E. destruct E as [_ E].
      unfold isWin in E. qprop. lra.
    + destruct (bookedLoss t) eqn:E; [| exact IH2].
      cbn [map]. rewrite sumQ_cons. pose proof (Qabs_nonneg (pnlOf t)). lra.
    + destruct (bookedLoss t) eqn:E.
      * cbn [map]. rewrite sumQ_cons.
        unfold bookedLoss in E. apply andb_true_iff in E. destruct E as [Es E].
        unfold isLoss in E. qprop.
        assert (Ha : Qabs (pnlOf t) == - pnlOf t) by (apply Qabs_neg; lra).
        split; [intros _ | intros _; lra].
        exists t. split; [left; reflexivity |]. split; [| exact E].
        unfold TradesPage.hasStatus in Es. destruct (status t);
          try discriminate Es; reflexivity.
      * rewrite IH3. split.
        -- intros (u & Hu & Hs & Hp). exists u. split; [right; exact Hu |].
           split; assumption.
        -- intros (u & [<- | Hu] & Hs & Hp).
           ++ exfalso. unfold bookedLoss, TradesPage.hasStatus in E.
              rewrite Hs in E. cbn [TradeStatus_eqb andb] in E.
              unfold isLoss in E. qprop. lra.
           ++ exists u. split; [exact Hu |]. split; assumption.
Qed.

Lemma booked_consistent (l : list Trade) :
  (forall t, In t l -> status t = statusOfPnl t) ->
  sumQ (bookedProfits l) = grossProfitOf l /\
  sumQ (bookedLosses l) = grossLossOf l.
Proof.
  intros H. unfold bookedProfits, bookedLosses, grossProfitOf, grossLossOf,
    totalPnl.
  assert (E1 : filter bookedWin l = filter isWin l).
  { apply filter_ext_in. intros t Ht. unfold bookedWin, TradesPage.hasStatus.
    rewrite (H t Ht). unfold statusOfPnl.
    destruct (isWin t); [reflexivity |]. destruct (isLoss t); reflexivity. }
  assert (E2 : filter bookedLoss l = filter isLoss l).
  { apply filter_ext_in. intros t Ht. unfold bookedLoss, TradesPage.hasStatus.
    rewrite (H t Ht). unfold statusOfPnl.
    destruct (isWin t) eqn:Ew; [| destruct (isLoss t); reflexivity].
    destruct (isLoss t) eqn:El; [| reflexivity].
    exfalso. unfold isWin, isLoss in *. qprop. lra. }
  rewrite E1, E2. split; reflexivity.
Qed.

(** X28.  The statistics of a playbook count every trade once: wins,
    losses and breakevens by stored status add up to the number of
    trades, and the win rate is the one of the trades page.  The net P&L
    is the total P&L with a missing amount read as 0, so it is a number
    even where the trades page shows NaN.  The average R is the mean of
    the R-multiples that are present.  Profit and loss are booked only
    where stored status and sign of the P&L agree: the profit factor is
    null exactly when no trade stored as a loss has a negative P&L, and
    otherwise the booked profit over the booked loss, never negative.
    When every stored status goes with the sign of the P&L the profit
    factor is the one of the trades page. *)
Theorem playbook_stats :
  forall trades : list Trade,
    let s := PlaybookStats.aggregatePlaybookStats trades in
    let k := TradesPage.calculateTradesKpis trades in
    PlaybookStats.tradesCount s = List.length trades /\
    (PlaybookStats.winCount s + PlaybookStats.lossCount s
     + PlaybookStats.breakevenCount s)%nat = PlaybookStats.tradesCount s /\
    (PlaybookStats.winCount s = TradesPage.wins trades /\
     PlaybookStats.lossCount s = TradesPage.losses trades /\
     PlaybookStats.breakevenCount s = TradesPage.breakevens trades) /\
    PlaybookStats.winRate s == TradesPage.winRate k /\
    PlaybookStats.netPnlBase s == totalPnl trades /\
    optQeq (PlaybookStats.avgR s) (meanR trades) /\
    (PlaybookStats.profitFactor s = None
     <-> forall t, In t trades -> status t = loss -> 0 <= pnlOf t) /\
    (forall pf, PlaybookStats.profitFactor s = Some pf ->
       pf == sumQ (bookedProfits trades) / sumQ (bookedLosses trades)
       /\ 0 <= pf) /\
    ((forall t, In t trades -> status t = statusOfPnl t) ->
     optQeq (PlaybookStats.profitFactor s) (TradesPage.profitFactor k)).
Proof.
  intros trades s k. subst s k.
  unfold PlaybookStats.aggregatePlaybookStats, TradesPage.calculateTradesKpis.
  destruct trades as [| t0 l]; simpl Nat.eqb; cbv iota.
  { cbn. repeat split; intros; try discriminate; try reflexivity;
      try contradiction; try lra. }
  set (trades := t0 :: l). cbv zeta.
  destruct (playbook_fold trades (PlaybookStats.mkAcc 0 0 0 0 [] [] []))
    as (F1 & F2 & F3 & F4 & F5 & F6 & F7).
  cbn [PlaybookStats.a_winCount PlaybookStats.a_lossCount
       PlaybookStats.a_breakevenCount PlaybookStats.a_netPnlBase
       PlaybookStats.a_rMultiples PlaybookStats.a_profits
       PlaybookStats.a_losses app] in F1, F2, F3, F4, F5, F6, F7.
  rewrite Nat.add_0_l in F1, F2, F3.
  set (acc := fold_left PlaybookStats.forEachTrade trades
                        (PlaybookStats.mkAcc 0 0 0 0 [] [] [])) in *.
  cbn [PlaybookStats.tradesCount PlaybookStats.winCount
       PlaybookStats.lossCount PlaybookStats.breakevenCount
       PlaybookStats.winRate PlaybookStats.netPnlBase PlaybookStats.avgR
       PlaybookStats.profitFactor TradesPage.winRate TradesPage.profitFactor].
  rewrite F1, F2, F3, F5, F6, F7.
  change (fold_left (fun a b : Q => a + b) ?xs 0) with (sumQ xs).
  destruct (booked_sums trades) as (B1 & B2 & B3).
  pose proof (status_partition trades) as HP.
  split; [reflexivity |]. split; [exact HP |].
  split; [repeat split |].
  split; [reflexivity |].
  split; [rewrite F4; ring |].
  split; [apply meanR_of; reflexivity |].
  split; [| split].
  - destruct (Qgtb (sumQ (bookedLosses trades)) 0) eqn:E; qprop.
    + split; [discriminate |]. intros Hall. exfalso.
      apply B3 in E. destruct E as (t & Ht & Hs & Hp).
      specialize (Hall t Ht Hs). lra.
    + split; [intros _ | destruct (Qgtb _ 0); reflexivity].
      intros t Ht Hs. destruct (Qlt_le_dec (pnlOf t) 0) as [Hn | Hn];
        [| exact Hn].
      exfalso. assert (Hpos : 0 < sumQ (bookedLosses trades))
        by (apply B3; exists t; tauto). lra.
  - intros pf. destruct (Qgtb (sumQ (bookedLosses trades)) 0) eqn:E; qprop.
    + intros [= <-]. split; [reflexivity |].
      apply Qle_shift_div_l; [exact E | lra].
    + destruct (Qgtb _ 0); discriminate.
  - intros Hc. destruct (booked_consistent trades Hc) as [E1 E2].
    rewrite E1, E2, trades_page_grossProfit.
    pose proof (trades_page_grossLoss trades) as HL.
    destruct (Qgtb (grossLossOf trades) 0) eqn:Ea;
      destruct (Qgtb (TradesPage.grossLoss trades) 0) eqn:Eb; qprop.
    + simpl. rewrite HL. reflexivity.
    + exfalso. lra.
    + exfalso. lra.
    + destruct (Qgtb (grossProfitOf trades) 0); exact I.
Qed.

(** ** Month navigation *)

(** X29.  On the calendar page, with the month between 0 and 11, the
    previous and the next month are one month away, stay between 0 and
    11, and undo each other; December is followed by January of the next
    year and January preceded by December of the year before. *)
Theorem month_navigation :
  forall st : CalendarPage.MonthState,
    (0 <= CalendarPage.currentMonth st <= 11)%Z ->
    let p := CalendarPage.handlePreviousMonth st in
    let n := CalendarPage.handleNextMonth st in
    (monthNumber p = monthNumber st - 1 /\ monthNumber n = monthNumber st + 1)%Z
    /\ (0 <= CalendarPage.currentMonth p <= 11)%Z
    /\ (0 <= CalendarPage.currentMonth n <= 11)%Z
    /\ CalendarPage.handleNextMonth p = st
    /\ CalendarPage.handlePreviousMonth n = st
    /\ (CalendarPage.currentMonth st = 11%Z ->
        n = CalendarPage.mkMonthState (CalendarPage.currentYear st + 1) 0)
    /\ (CalendarPage.currentMonth st = 0%Z ->
        p = CalendarPage.mkMonthState (CalendarPage.currentYear st - 1) 11).
Proof.
  intros [y m] H p n. subst p n.
  unfold CalendarPage.handlePreviousMonth, CalendarPage.handleNextMonth,
    monthNumber.
  cbn [CalendarPage.currentMonth CalendarPage.currentYear] in *.
  destruct (Z.eqb_spec m 0) as [E0 | E0];
    destruct (Z.eqb_spec m 11) as [E11 | E11];
    cbn [CalendarPage.currentMonth CalendarPage.currentYear].
  - lia.
  - subst m. cbn. repeat split; try lia; try discriminate;
      try (f_equal; lia).
  - subst m. cbn. repeat split; try lia; try discriminate;
      try (f_equal; lia).
  - assert (En : (m - 1 =? 11)%Z = false) by (apply Z.eqb_neq; lia).
    assert (Ep : (m + 1 =? 0)%Z = false) by (apply Z.eqb_neq; lia).
    rewrite En, Ep. cbn [CalendarPage.currentMonth CalendarPage.currentYear].
    repeat split; try lia; try (f_equal; lia).
Qed.

Lemma month_navigation_witness :
  CalendarPage.handleNextMonth
    (CalendarPage.handlePreviousMonth (CalendarPage.mkMonthState 2025 0))
  = CalendarPage.mkMonthState 2025 0.
Proof.
  destruct (month_navigation (CalendarPage.mkMonthState 2025 0))
    as (_ & _ & _ & H & _).
  - simpl. lia.
  - exact H.
Defined.
